(** * Hokku webhook service

    A shallow embedding of the validation, sanitisation and persistence core
    of the service (packages [security], [model], [service]) together with
    the parts of the Go standard library those packages call, and the
    properties of the specification proved about it.

    Conventions.
    - A Go [string] is an immutable byte sequence: [list ascii].
    - A Go [int]/[int64] is a [Z]; lengths are far below the wrap-around
      point, so no modular arithmetic is needed for them.
    - A function returning [(T, error)] returns a [result T E].
    - Paths follow the Unix flavour of [path/filepath] (separator [/], no
      volume names): the file store uses [syscall.Statfs] and only builds
      on Unix. *)

From Stdlib Require Import ZArith Lia List Ascii String Bool.
From stdpp Require Import base list strings gmap.
Import ListNotations.
Local Open Scope Z_scope.

(* ===================================================================== *)
(** * Part I: the program *)
(* ===================================================================== *)

Abbreviation gostring := (list ascii).

Definition go (s : string) : gostring := list_ascii_of_string s.
Definition byteval (c : ascii) : Z := Z.of_N (N_of_ascii c).
Definition bytechr (n : Z) : ascii := ascii_of_N (Z.to_N n).
Definition len (s : gostring) : Z := Z.of_nat (length s).

Inductive result (A E : Type) : Type :=
| Ok (a : A)
| Err (e : E).
Arguments Ok {A E} a.
Arguments Err {A E} e.

Definition isOk {A E} (r : result A E) : bool :=
  match r with Ok _ => true | Err _ => false end.

Definition dropWhile {A} (p : A -> bool) : list A -> list A :=
  fix go l := match l with
              | [] => []
              | x :: t => if p x then go t else l
              end.

Definition takeWhile {A} (p : A -> bool) : list A -> list A :=
  fix go l := match l with
              | [] => []
              | x :: t => if p x then x :: go t else []
              end.

Definition dropWhileEnd {A} (p : A -> bool) (l : list A) : list A :=
  rev (dropWhile p (rev l)).

(* --------------------------------------------------------------------- *)
(** ** unicode/utf8 *)

Module Utf8.

Definition RuneError : Z := 65533.
Definition RuneSelf : Z := 128.
Definition MaxRune : Z := 1114111.

(** The [first] table: the length of the sequence a leading byte
    introduces; 0 stands for the invalid marker [xx]. *)
Definition seqSize (s0 : Z) : Z :=
  if s0 <? 128 then 1
  else if s0 <? 194 then 0
  else if s0 <? 224 then 2
  else if s0 <? 240 then 3
  else if s0 <? 245 then 4
  else 0.

(** [acceptRanges]: the bounds on the second byte. *)
Definition acceptRange (s0 : Z) : Z * Z :=
  if s0 =? 224 then (160, 191)
  else if s0 =? 237 then (128, 159)
  else if s0 =? 240 then (144, 191)
  else if s0 =? 244 then (128, 143)
  else (128, 191).

Definition accepted (s0 s1 : Z) : bool :=
  let '(lo, hi) := acceptRange s0 in (lo <=? s1) && (s1 <=? hi).

Definition isCont (b : Z) : bool := (128 <=? b) && (b <=? 191).

Definition DecodeRuneInString (s : gostring) : Z * nat :=
  match s with
  | [] => (RuneError, 0%nat)
  | c0 :: t =>
    let s0 := byteval c0 in
    let sz := seqSize s0 in
    if sz =? 1 then (s0, 1%nat)
    else if sz =? 0 then (RuneError, 1%nat)
    else
      match t with
      | [] => (RuneError, 1%nat)
      | c1 :: t1 =>
        let s1 := byteval c1 in
        if (len s <? sz) || negb (accepted s0 s1) then (RuneError, 1%nat)
        else if sz <=? 2 then
          (Z.lor (Z.shiftl (Z.land s0 31) 6) (Z.land s1 63), 2%nat)
        else
          match t1 with
          | [] => (RuneError, 1%nat)
          | c2 :: t2 =>
            let s2 := byteval c2 in
            if negb (isCont s2) then (RuneError, 1%nat)
            else if sz <=? 3 then
              (Z.lor (Z.lor (Z.shiftl (Z.land s0 15) 12)
                            (Z.shiftl (Z.land s1 63) 6))
                     (Z.land s2 63), 3%nat)
            else
              match t2 with
              | [] => (RuneError, 1%nat)
              | c3 :: _ =>
                let s3 := byteval c3 in
                if negb (isCont s3) then (RuneError, 1%nat)
                else
                  (Z.lor (Z.lor (Z.lor (Z.shiftl (Z.land s0 7) 18)
                                       (Z.shiftl (Z.land s1 63) 12))
                         (Z.shiftl (Z.land s2 63) 6))
                         (Z.land s3 63), 4%nat)
              end
          end
      end
  end.

(** What [for _, r := range s] walks over: each rune with the bytes it was
    decoded from.  A malformed byte yields [(RuneError, [b])]. *)
Fixpoint runesFrom (fuel : nat) (s : gostring) : list (Z * gostring) :=
  match fuel, s with
  | O, _ | _, [] => []
  | S fuel', _ :: _ =>
    let '(r, w) := DecodeRuneInString s in
    (r, take w s) :: runesFrom fuel' (drop w s)
  end.

Definition runes (s : gostring) : list (Z * gostring) :=
  runesFrom (length s) s.

Definition wellFormed (rb : Z * gostring) : bool :=
  negb ((fst rb =? RuneError) && (length (snd rb) =? 1)%nat).

Definition ValidString (s : gostring) : bool :=
  forallb wellFormed (runes s).

Definition isSurrogate (r : Z) : bool := (55296 <=? r) && (r <=? 57343).

(** [utf8.AppendRune] on an empty buffer. *)
Definition EncodeRune (r : Z) : gostring :=
  if (0 <=? r) && (r <? 128) then [bytechr r]
  else if (0 <=? r) && (r <? 2048) then
    [bytechr (Z.lor 192 (Z.shiftr r 6)); bytechr (Z.lor 128 (Z.land r 63))]
  else if (r <? 0) || (MaxRune <? r) || isSurrogate r then
    [bytechr 239; bytechr 191; bytechr 189]
  else if r <? 65536 then
    [bytechr (Z.lor 224 (Z.shiftr r 12));
     bytechr (Z.lor 128 (Z.land (Z.shiftr r 6) 63));
     bytechr (Z.lor 128 (Z.land r 63))]
  else
    [bytechr (Z.lor 240 (Z.shiftr r 18));
     bytechr (Z.lor 128 (Z.land (Z.shiftr r 12) 63));
     bytechr (Z.lor 128 (Z.land (Z.shiftr r 6) 63));
     bytechr (Z.lor 128 (Z.land r 63))].

End Utf8.

(* --------------------------------------------------------------------- *)
(** ** unicode *)

Module Unicode.

(** [unicode.IsSpace]: the Latin-1 cases and the [White_Space] ranges
    beyond Latin-1. *)
Definition IsSpace (r : Z) : bool :=
  if (0 <=? r) && (r <=? 255) then
    (r =? 9) || (r =? 10) || (r =? 11) || (r =? 12) || (r =? 13)
    || (r =? 32) || (r =? 133) || (r =? 160)
  else
    (r =? 5760) || ((8192 <=? r) && (r <=? 8202))
    || (r =? 8232) || (r =? 8233) || (r =? 8239) || (r =? 8287)
    || (r =? 12288).

(** The part of the simple case-mapping tables that covers Basic Latin and
    Latin-1.  The full tables are data of the Go distribution; the
    functions below that need them take them as a parameter, and these
    excerpts serve to run examples. *)
Definition latin1ToUpper (r : Z) : Z :=
  if (97 <=? r) && (r <=? 122) then r - 32
  else if (224 <=? r) && (r <=? 254) && negb (r =? 247) then r - 32
  else if r =? 255 then 376
  else if r =? 181 then 924
  else r.

Definition latin1ToLower (r : Z) : Z :=
  if (65 <=? r) && (r <=? 90) then r + 32
  else if (192 <=? r) && (r <=? 222) && negb (r =? 215) then r + 32
  else r.

End Unicode.

(* --------------------------------------------------------------------- *)
(** ** strings *)

Module Strings.

Fixpoint HasPrefix (s prefix : gostring) {struct prefix} : bool :=
  match prefix, s with
  | [], _ => true
  | _ :: _, [] => false
  | p :: prefix', c :: s' => Ascii.eqb c p && HasPrefix s' prefix'
  end.

Definition HasSuffix (s suffix : gostring) : bool :=
  HasPrefix (rev s) (rev suffix).

Fixpoint Contains (s substr : gostring) : bool :=
  HasPrefix s substr ||
  match s with
  | [] => false
  | _ :: s' => Contains s' substr
  end.

Definition ContainsByte (s : gostring) (c : ascii) : bool :=
  existsb (Ascii.eqb c) s.

(** [strings.Trim] with a cutset of ASCII characters works byte by byte. *)
Definition TrimLeft (s cutset : gostring) : gostring :=
  dropWhile (ContainsByte cutset) s.
Definition TrimRight (s cutset : gostring) : gostring :=
  dropWhileEnd (ContainsByte cutset) s.
Definition Trim (s cutset : gostring) : gostring :=
  TrimRight (TrimLeft s cutset) cutset.

Definition isSpaceRune (rb : Z * gostring) : bool := Unicode.IsSpace (fst rb).

(** [strings.TrimSpace]: leading and trailing runes with the Unicode
    [White_Space] property are removed.  The model decodes front to back;
    it coincides with Go's two-ended scan on every well-formed UTF-8
    string, and the sanitizer only trims strings it has checked with
    [utf8.ValidString]. *)
Definition TrimSpace (s : gostring) : gostring :=
  concat (map snd (dropWhileEnd isSpaceRune (dropWhile isSpaceRune (Utf8.runes s)))).

(** [strings.SplitN(s, sep, 2)] for a one-byte separator. *)
Fixpoint SplitN2 (s : gostring) (sep : ascii) : list gostring :=
  match s with
  | [] => [[]]
  | c :: s' =>
    if Ascii.eqb c sep then [[]; s']
    else match SplitN2 s' sep with
         | h :: rest => (c :: h) :: rest
         | [] => [[c]]
         end
  end.

(** [strings.Split(s, sep)] for a one-byte separator. *)
Fixpoint Split (s : gostring) (sep : ascii) : list gostring :=
  match s with
  | [] => [[]]
  | c :: s' =>
    if Ascii.eqb c sep then [] :: Split s' sep
    else match Split s' sep with
         | h :: rest => (c :: h) :: rest
         | [] => [[c]]
         end
  end.

Fixpoint Join (elems : list gostring) (sep : gostring) : gostring :=
  match elems with
  | [] => []
  | [e] => e
  | e :: rest => e ++ sep ++ Join rest sep
  end.

Fixpoint Repeat (s : gostring) (count : nat) : gostring :=
  match count with
  | O => []
  | S n => s ++ Repeat s n
  end.

Definition isASCII (s : gostring) : bool :=
  forallb (fun c => byteval c <? Utf8.RuneSelf) s.

(** [strings.Map]: every rune is decoded, mapped and re-encoded; a negative
    result drops the rune, a malformed byte is read as [RuneError]. *)
Definition Map (mapping : Z -> Z) (s : gostring) : gostring :=
  concat (map (fun rb : Z * gostring =>
                 let r := mapping (fst rb) in
                 if r <? 0 then [] else Utf8.EncodeRune r)
              (Utf8.runes s)).

Definition asciiUpper (c : ascii) : ascii :=
  let b := byteval c in
  if (97 <=? b) && (b <=? 122) then bytechr (b - 32) else c.

Definition asciiLower (c : ascii) : ascii :=
  let b := byteval c in
  if (65 <=? b) && (b <=? 90) then bytechr (b + 32) else c.

Section CaseTables.
(** [unicode.ToUpper] and [unicode.ToLower] on runes. *)
Variable unicode_ToUpper unicode_ToLower : Z -> Z.

Definition ToUpper (s : gostring) : gostring :=
  if isASCII s then map asciiUpper s else Map unicode_ToUpper s.

Definition ToLower (s : gostring) : gostring :=
  if isASCII s then map asciiLower s else Map unicode_ToLower s.
End CaseTables.

(** [strings.ReplaceAll(s, old, new)] for a one-byte [old]: every
    occurrence of the byte is replaced. *)
Definition ReplaceAllByte (s : gostring) (old : ascii) (new : gostring) : gostring :=
  concat (map (fun c => if Ascii.eqb c old then new else [c]) s).

End Strings.

(* --------------------------------------------------------------------- *)
(** ** strconv *)

Module Strconv.

Definition digitValue (c : ascii) : option Z :=
  let b := byteval c in
  if (48 <=? b) && (b <=? 57) then Some (b - 48) else None.

Fixpoint digits (acc : Z) (s : gostring) : option Z :=
  match s with
  | [] => Some acc
  | c :: t =>
    match digitValue c with
    | Some d => digits (acc * 10 + d) t
    | None => None
    end
  end.

(** [ParseInt(s, 10, 64)] and, [int] having 64 bits, [Atoi]: an optional
    sign and at least one decimal digit; [None] stands for the syntax error
    and for the range error. *)
Definition ParseInt (s : gostring) : option Z :=
  let '(neg, body) :=
    match s with
    | c :: t =>
      if Ascii.eqb c "-"%char then (true, t)
      else if Ascii.eqb c "+"%char then (false, t)
      else (false, s)
    | [] => (false, s)
    end in
  match body with
  | [] => None
  | _ =>
    match digits 0 body with
    | None => None
    | Some n =>
      let v := if neg : bool then - n else n in
      if (- 2 ^ 63 <=? v) && (v <=? 2 ^ 63 - 1) then Some v else None
    end
  end.

Definition Atoi (s : gostring) : option Z := ParseInt s.

End Strconv.

(* --------------------------------------------------------------------- *)
(** ** regexp: the two patterns the sanitizer compiles *)

Module Regexp.

(** The character class of [unsafeChars]: less-than, greater-than, colon,
    double quote, slash, backslash, vertical bar, question mark, asterisk,
    space and the control bytes 0x00 to 0x1f. *)
Definition unsafeChars_match (c : ascii) : bool :=
  let b := byteval c in
  (b <=? 31) || (b =? 32) || (b =? 34) || (b =? 42) || (b =? 47)
  || (b =? 58) || (b =? 60) || (b =? 62) || (b =? 63) || (b =? 92)
  || (b =? 124).

Definition underscore : ascii := "_"%char.

(** [unsafeChars.ReplaceAllString] with an underscore as replacement: each
    member of the class is a single ASCII byte, so every match is one byte
    long. *)
Definition unsafeChars_ReplaceAllString (s : gostring) : gostring :=
  map (fun c => if unsafeChars_match c then underscore else c) s.

(** [ReplaceAllString] for the pattern of one or more underscores: each
    maximal run of underscores becomes one underscore (an underscore that
    is followed by another one is dropped). *)
Fixpoint underscores_ReplaceAllString (s : gostring) : gostring :=
  match s with
  | [] => []
  | c :: t =>
    if Ascii.eqb c underscore
       && match t with
          | c' :: _ => Ascii.eqb c' underscore
          | [] => false
          end
    then underscores_ReplaceAllString t
    else c :: underscores_ReplaceAllString t
  end.

End Regexp.

(* --------------------------------------------------------------------- *)
(** ** path/filepath (Unix) *)

Module Filepath.

Definition Separator : ascii := "/"%char.
Definition isSep (c : ascii) : bool := Ascii.eqb c Separator.
Definition dot : gostring := go ".".
Definition dotdot : gostring := go "..".

Definition IsAbs (path : gostring) : bool := Strings.HasPrefix path [Separator].

(** One element of [Clean]'s scan.  [out] is the output built so far, last
    element first.  Empty elements and [.] are skipped; [..] removes the
    preceding element when there is one that is not itself [..], is
    dropped at the root, and is kept at the front of a relative path. *)
Definition cleanStep (rooted : bool) (out : list gostring) (elem : gostring)
  : list gostring :=
  if bool_decide (elem = []) then out
  else if bool_decide (elem = dot) then out
  else if bool_decide (elem = dotdot) then
    match out with
    | top :: out' => if bool_decide (top = dotdot) then elem :: out else out'
    | [] => if rooted then [] else [elem]
    end
  else elem :: out.

(** [filepath.Clean]: the shortest path equivalent to [path] by purely
    lexical processing. *)
Definition Clean (path : gostring) : gostring :=
  if bool_decide (path = []) then dot
  else
    let rooted := IsAbs path in
    let out := fold_left (cleanStep rooted) (Strings.Split path Separator) [] in
    if rooted then Separator :: Strings.Join (rev out) [Separator]
    else if bool_decide (out = []) then dot
    else Strings.Join (rev out) [Separator].

(** [filepath.Join]: leading empty elements are ignored, the rest is
    joined with separators and cleaned. *)
Definition Join (elem : list gostring) : gostring :=
  match dropWhile (fun e : gostring => bool_decide (e = [])) elem with
  | [] => []
  | rest => Clean (Strings.Join rest [Separator])
  end.

(** [filepath.Abs]; [wd] is what [os.Getwd] answers, [None] when it fails. *)
Definition Abs (wd : option gostring) (path : gostring) : option gostring :=
  if IsAbs path then Some (Clean path)
  else match wd with
       | Some d => Some (Join [d; path])
       | None => None
       end.

(** The elements of a cleaned path as [Rel] walks them: a rooted path has
    an empty first element. *)
Definition elements (cleaned : gostring) : list gostring :=
  if bool_decide (cleaned = []) then []
  else if bool_decide (cleaned = [Separator]) then [[]]
  else Strings.Split cleaned Separator.

Fixpoint stripCommon (b t : list gostring) : list gostring * list gostring :=
  match b, t with
  | x :: b', y :: t' => if bool_decide (x = y) then stripCommon b' t' else (b, t)
  | _, _ => (b, t)
  end.

(** [filepath.Rel]: [None] stands for its error. *)
Definition Rel (basepath targpath : gostring) : option gostring :=
  let base := Clean basepath in
  let targ := Clean targpath in
  if bool_decide (targ = base) then Some dot
  else
    let base := if bool_decide (base = dot) then [] else base in
    if negb (eqb (IsAbs base) (IsAbs targ)) then None
    else
      match stripCommon (elements base) (elements targ) with
      | (b0 :: brest, t0 :: trest) =>
        if bool_decide (b0 = dotdot) then None
        else Some (Strings.Join (map (fun _ => dotdot) (b0 :: brest) ++ t0 :: trest)
                                [Separator])
      | (b0 :: brest, []) =>
        Some (Strings.Join (map (fun _ => dotdot) (b0 :: brest)) [Separator])
      | ([], trest) => Some (Strings.Join trest [Separator])
      end.

(** The part of [path] after its last separator. *)
Definition afterLastSep (path : gostring) : gostring :=
  rev (takeWhile (fun c => negb (isSep c)) (rev path)).

(** The part of [path] up to and including its last separator. *)
Definition uptoLastSep (path : gostring) : gostring :=
  rev (dropWhile (fun c => negb (isSep c)) (rev path)).

(** [filepath.Base]: trailing separators are stripped, then the last
    element is returned; a path of separators only gives the separator. *)
Definition Base (path : gostring) : gostring :=
  if bool_decide (path = []) then dot
  else
    let last := afterLastSep (dropWhileEnd isSep path) in
    if bool_decide (last = []) then [Separator] else last.

(** [filepath.Dir]. *)
Definition Dir (path : gostring) : gostring := Clean (uptoLastSep path).

(** [filepath.Ext]: the suffix beginning at the last dot of the last
    element, empty when there is no dot. *)
Fixpoint extFrom (revpath acc : gostring) : gostring :=
  match revpath with
  | [] => []
  | c :: t =>
    if isSep c then []
    else if Ascii.eqb c "."%char then c :: acc
    else extFrom t (c :: acc)
  end.

Definition Ext (path : gostring) : gostring := extFrom (rev path) [].

End Filepath.

(* --------------------------------------------------------------------- *)
(** ** encoding/hex *)

Module Hex.

Definition digit (n : Z) : ascii :=
  if n <? 10 then bytechr (48 + n) else bytechr (87 + n).

Definition EncodeToString (src : gostring) : gostring :=
  concat (map (fun c => [digit (Z.shiftr (byteval c) 4);
                         digit (Z.land (byteval c) 15)]) src).

End Hex.

(* --------------------------------------------------------------------- *)
(** ** pkg/security *)

Module Security.

(** The sentinel errors of the package and the errors that wrap them. *)
Inductive Error : Type :=
| ErrPathTraversal
| ErrInvalidFilename
| ErrUnsafeCharacters
| ErrFilenameTooLong
| ErrEmptyFilename
| PathTooLong (n : Z)                      (* wraps ErrInvalidFilename *)
| ResolveBaseFailed
| ResolveFileFailed
| InvalidPrefix (e : Error)
| InvalidExtension (e : Error)
| RandomBytesFailed
| InvalidFilenameInPath (e : Error).

Definition MaxFilenameLength : Z := 255.
Definition MaxPathLength : Z := 4096.
Definition MinRandomBytes : Z := 8.

Definition reservedNames (name : gostring) : bool :=
  bool_decide (name ∈
    [go "CON"; go "PRN"; go "AUX"; go "NUL";
     go "COM1"; go "COM2"; go "COM3"; go "COM4";
     go "COM5"; go "COM6"; go "COM7"; go "COM8";
     go "COM9"; go "LPT1"; go "LPT2"; go "LPT3";
     go "LPT4"; go "LPT5"; go "LPT6"; go "LPT7";
     go "LPT8"; go "LPT9"]).

Definition nul : ascii := bytechr 0.

Section WithEnvironment.
(** [unicode.ToUpper], and the answer of [os.Getwd]. *)
Variable unicode_ToUpper : Z -> Z.
Variable wd : option gostring.

Definition ValidatePath (path baseDir : gostring) : option Error :=
  if bool_decide (path = []) then Some ErrEmptyFilename
  else if Strings.Contains path [nul] then Some ErrUnsafeCharacters
  else if len path >? MaxPathLength then Some (PathTooLong (len path))
  else
    let cleaned := Filepath.Clean path in
    if Strings.Contains cleaned (go "..") then Some ErrPathTraversal
    else if negb (bool_decide (baseDir = [])) then
      let absPath := Filepath.Join [baseDir; cleaned] in
      match Filepath.Abs wd baseDir with
      | None => Some ResolveBaseFailed
      | Some absBase =>
        match Filepath.Abs wd absPath with
        | None => Some ResolveFileFailed
        | Some absFile =>
          match Filepath.Rel absBase absFile with
          | None => Some ErrPathTraversal
          | Some relPath =>
            if Strings.HasPrefix relPath (go "..") then Some ErrPathTraversal
            else None
          end
        end
      end
    else None.

Definition SanitizeFilename (filename : gostring) : result gostring Error :=
  if bool_decide (filename = []) then Err ErrEmptyFilename
  else if negb (Utf8.ValidString filename) then Err ErrUnsafeCharacters
  else
    let cleaned := Strings.TrimSpace filename in
    if bool_decide (cleaned = []) then Err ErrEmptyFilename
    else
      let sanitized := Regexp.unsafeChars_ReplaceAllString cleaned in
      let sanitized := Regexp.underscores_ReplaceAllString sanitized in
      let sanitized := Strings.Trim sanitized (go "_.") in
      if bool_decide (sanitized = []) then Err ErrInvalidFilename
      else
        let name := Strings.ToUpper unicode_ToUpper
                      (hd [] (Strings.SplitN2 sanitized "."%char)) in
        let sanitized :=
          if reservedNames name then Regexp.underscore :: sanitized
          else sanitized in
        let sanitized :=
          if len sanitized >? MaxFilenameLength then
            let ext := Filepath.Ext sanitized in
            if (len ext >? 0) && (len ext <? 10) then
              let nameOnly := take (length sanitized - length ext) sanitized in
              let maxNameLength := MaxFilenameLength - len ext in
              if maxNameLength >? 0
              then take (Z.to_nat maxNameLength) nameOnly ++ ext
              else take (Z.to_nat MaxFilenameLength) sanitized
            else take (Z.to_nat MaxFilenameLength) sanitized
          else sanitized in
        Ok sanitized.

(** [randomBytes] is what [rand.Read] delivers into the 8-byte buffer,
    [None] when it fails. *)
Definition GenerateSecureFilename (randomBytes : option gostring)
           (prefix extension : gostring) : result gostring Error :=
  let prefix' :=
    if negb (bool_decide (prefix = [])) then
      match SanitizeFilename prefix with
      | Ok p => Ok p
      | Err e => Err (InvalidPrefix e)
      end
    else Ok prefix in
  match prefix' with
  | Err e => Err e
  | Ok prefix =>
    match randomBytes with
    | None => Err RandomBytesFailed
    | Some bytes =>
      let randomHex := Hex.EncodeToString bytes in
      let parts :=
        (if negb (bool_decide (prefix = [])) then [prefix] else [])
          ++ [randomHex] in
      let filename := Strings.Join parts (go "_") in
      if negb (bool_decide (extension = [])) then
        let cleanExt :=
          if Strings.HasPrefix extension (go ".") then drop 1 extension
          else extension in
        match SanitizeFilename cleanExt with
        | Err e => Err (InvalidExtension e)
        | Ok cleanExt => Ok (filename ++ go "." ++ cleanExt)
        end
      else Ok filename
    end
  end.

Definition IsSecurePath (fullPath baseDir : gostring) : option Error :=
  match ValidatePath fullPath baseDir with
  | Some err => Some err
  | None =>
    let filename := Filepath.Base fullPath in
    match SanitizeFilename filename with
    | Err err => Some (InvalidFilenameInPath err)
    | Ok _ => None
    end
  end.

End WithEnvironment.

End Security.

(* --------------------------------------------------------------------- *)
(** ** Dynamic values: what an [interface{}] in the data tree can hold *)

(** [reflect.Kind]. *)
Inductive Kind : Type :=
| KInvalid | KBool | KInt | KInt8 | KInt16 | KInt32 | KInt64
| KUint | KUint8 | KUint16 | KUint32 | KUint64 | KUintptr
| KFloat32 | KFloat64 | KComplex64 | KComplex128
| KArray | KChan | KFunc | KInterface | KMap | KPointer | KSlice
| KString | KStruct | KUnsafePointer.

(** A [map[string]interface{}] is given by its entries in the order in which
    one [range] loop visits them; Go fixes no order, so a statement about
    every list of entries is a statement about every iteration order. *)
#[warnings="-register-all"]
Inductive Value : Type :=
| VString (s : gostring)
| VMap (entries : list (gostring * Value))
| VSlice (elems : list Value)
| VFloat64 (bits : Z)
| VInt (n : Z)
| VInt64 (n : Z)
| VBool (b : bool)
| VNil
| VOther (k : Kind).          (* any other dynamic type, with its kind *)

(* --------------------------------------------------------------------- *)
(** ** time *)

Module Time.

(** An instant ([sec] seconds and [nsec] nanoseconds after January 1 of
    year 1, 00:00:00 UTC) with the offset of its location east of UTC. *)
Record Time : Type := mkTime { sec : Z; nsec : Z; offset : Z }.

Definition zero : Time := mkTime 0 0 0.

Definition IsZero (t : Time) : bool := (sec t =? 0) && (nsec t =? 0).

Definition UTC (t : Time) : Time := mkTime (sec t) (nsec t) 0.

(** Year, month and day of the day [days] after January 1 of year 1 in the
    proleptic Gregorian calendar. *)
Definition civil (days : Z) : Z * Z * Z :=
  let z := days + 306 in
  let era := z / 146097 in
  let doe := z - era * 146097 in
  let yoe := (doe - doe / 1460 + doe / 36524 - doe / 146096) / 365 in
  let doy := doe - (365 * yoe + yoe / 4 - yoe / 100) in
  let mp := (5 * doy + 2) / 153 in
  let d := doy - (153 * mp + 2) / 5 + 1 in
  let m := if mp <? 10 then mp + 3 else mp - 9 in
  let y := yoe + era * 400 + (if m <=? 2 then 1 else 0) in
  (y, m, d).

Fixpoint digitsFrom (fuel : nat) (n : Z) (acc : gostring) : gostring :=
  match fuel with
  | O => acc
  | S fuel' =>
    let acc' := bytechr (48 + n mod 10) :: acc in
    if n <? 10 then acc' else digitsFrom fuel' (n / 10) acc'
  end.

(** A number has at most one more decimal digit than its binary logarithm. *)
Definition decimal (n : Z) : gostring := digitsFrom (S (Z.to_nat (Z.log2 n))) n [].

(** [appendInt]: decimal with a sign for negative numbers, zero-padded to
    [width] digits. *)
Definition appendInt (x : Z) (width : nat) : gostring :=
  let d := decimal (Z.abs x) in
  (if x <? 0 then go "-" else [])
    ++ repeat "0"%char (width - length d) ++ d.

(** [t.Format] for the layout [2006-01-02_15-04-05]. *)
Definition FormatFilename (t : Time) : gostring :=
  let abs := sec t + offset t in
  let '(y, m, d) := civil (abs / 86400) in
  let s := abs mod 86400 in
  appendInt y 4 ++ go "-" ++ appendInt m 2 ++ go "-" ++ appendInt d 2
    ++ go "_" ++ appendInt (s / 3600) 2 ++ go "-" ++ appendInt (s mod 3600 / 60) 2
    ++ go "-" ++ appendInt (s mod 60) 2.

End Time.

(* --------------------------------------------------------------------- *)
(** ** internal/config *)

Module Config.

Record Config : Type := mkConfig {
  StoragePath : gostring;
  MaxFileSize : Z;
  Port : Z;
  AuthToken : gostring;
  Environment : gostring;
  AllowedExtensions : list gostring;
  MaxTitleLength : Z;
  MaxDescLength : Z;
  MaxDataSize : Z;
}.

Definition DefaultStoragePath : gostring := go "./storage".
Definition DefaultMaxFileSize : Z := 10 * 1024 * 1024.
Definition DefaultPort : Z := 8080.
Definition DefaultEnvironment : gostring := go "development".
Definition DefaultMaxTitleLength : Z := 64.
Definition DefaultMaxDescLength : Z := 512.
Definition DefaultMaxDataSize : Z := 5 * 1024 * 1024.
Definition DefaultAllowedExtensions : list gostring :=
  [go "json"; go "txt"; go "log"; go "csv"; go "xml"; go "yaml"; go "yml"].

(** [New] with no environment override. *)
Definition default : Config :=
  mkConfig DefaultStoragePath DefaultMaxFileSize DefaultPort [] DefaultEnvironment
           DefaultAllowedExtensions DefaultMaxTitleLength DefaultMaxDescLength
           DefaultMaxDataSize.

Definition GetStoragePath (c : Config) : gostring := StoragePath c.
Definition GetMaxFileSize (c : Config) : Z := MaxFileSize c.
Definition GetMaxTitleLength (c : Config) : Z := MaxTitleLength c.
Definition GetMaxDescLength (c : Config) : Z := MaxDescLength c.
Definition GetMaxDataSize (c : Config) : Z := MaxDataSize c.

Definition GetPort (c : Config) : Z := Port c.
Definition GetAuthToken (c : Config) : gostring := AuthToken c.
Definition GetAllowedExtensions (c : Config) : list gostring := AllowedExtensions c.

(** The errors of [Validate], one per message. *)
Inductive ValidateError : Type :=
| StoragePathEmpty
| ResolveStoragePathFailed
| MaxFileSizeNotPositive (n : Z)
| MaxFileSizeTooLarge (n : Z)
| InvalidPort (n : Z)
| AuthTokenRequired
| InvalidMaxTitleLength (n : Z)
| InvalidMaxDescLength (n : Z)
| MaxDataSizeNotPositive (n : Z)
| EmptyExtension
| ExtensionWithDot (ext : gostring).

Definition setStoragePath (c : Config) (path : gostring) : Config :=
  mkConfig path (MaxFileSize c) (Port c) (AuthToken c) (Environment c)
           (AllowedExtensions c) (MaxTitleLength c) (MaxDescLength c) (MaxDataSize c).

(** The loop over the allowed extensions. *)
Fixpoint checkExtensions (exts : list gostring) : option ValidateError :=
  match exts with
  | [] => None
  | ext :: rest =>
    if bool_decide (ext = []) then Some EmptyExtension
    else if Strings.Contains ext (go ".") then Some (ExtensionWithDot ext)
    else checkExtensions rest
  end.

Section WithEnvironment.
(** [unicode.ToLower], and the answer of [os.Getwd]. *)
Variable unicode_ToLower : Z -> Z.
Variable wd : option gostring.

Definition IsProduction (c : Config) : bool :=
  bool_decide (Strings.ToLower unicode_ToLower (Environment c) = go "production").

(** [Validate] has a pointer receiver and may rewrite the storage path: the
    configuration it returns is the caller's object after the call. *)
Definition Validate (c : Config) : Config * option ValidateError :=
  if bool_decide (StoragePath c = []) then (c, Some StoragePathEmpty)
  else
    let resolved :=
      if negb (Filepath.IsAbs (StoragePath c)) then
        match Filepath.Abs wd (StoragePath c) with
        | None => None
        | Some abs => Some (setStoragePath c abs)
        end
      else Some c in
    match resolved with
    | None => (c, Some ResolveStoragePathFailed)
    | Some c =>
      if MaxFileSize c <=? 0 then (c, Some (MaxFileSizeNotPositive (MaxFileSize c)))
      else if MaxFileSize c >? 100 * 1024 * 1024
      then (c, Some (MaxFileSizeTooLarge (MaxFileSize c)))
      else if (Port c <=? 0) || (Port c >? 65535) then (c, Some (InvalidPort (Port c)))
      else if IsProduction c && bool_decide (AuthToken c = [])
      then (c, Some AuthTokenRequired)
      else if (MaxTitleLength c <=? 0) || (MaxTitleLength c >? 1024)
      then (c, Some (InvalidMaxTitleLength (MaxTitleLength c)))
      else if (MaxDescLength c <? 0) || (MaxDescLength c >? 4096)
      then (c, Some (InvalidMaxDescLength (MaxDescLength c)))
      else if MaxDataSize c <=? 0
      then (c, Some (MaxDataSizeNotPositive (MaxDataSize c)))
      else (c, checkExtensions (AllowedExtensions c))
    end.

End WithEnvironment.

Section WithGetenv.
(** [os.Getenv]: the value of a variable, empty when it is not set. *)
Variable getenv : gostring -> gostring.

Definition getEnvString (key defaultValue : gostring) : gostring :=
  let value := getenv key in
  if negb (bool_decide (value = [])) then value else defaultValue.

Definition getEnvInt (key : gostring) (defaultValue : Z) : Z :=
  let value := getenv key in
  if negb (bool_decide (value = [])) then
    match Strconv.Atoi value with
    | Some parsed => parsed
    | None => defaultValue
    end
  else defaultValue.

Definition getEnvInt64 (key : gostring) (defaultValue : Z) : Z :=
  let value := getenv key in
  if negb (bool_decide (value = [])) then
    match Strconv.ParseInt value with
    | Some parsed => parsed
    | None => defaultValue
    end
  else defaultValue.

Definition getEnvStringSlice (key : gostring) (defaultValue : list gostring)
  : list gostring :=
  let value := getenv key in
  if negb (bool_decide (value = [])) then
    let parts := Strings.Split value ","%char in
    let result :=
      List.filter (fun trimmed : gostring => negb (bool_decide (trimmed = [])))
                  (map Strings.TrimSpace parts) in
    if (0 <? Z.of_nat (length result)) then result else defaultValue
  else defaultValue.

Definition New : Config :=
  mkConfig (getEnvString (go "HOKKU_STORAGE_PATH") DefaultStoragePath)
           (getEnvInt64 (go "HOKKU_MAX_FILE_SIZE") DefaultMaxFileSize)
           (getEnvInt (go "HOKKU_PORT") DefaultPort)
           (getEnvString (go "HOKKU_AUTH_TOKEN") [])
           (getEnvString (go "HOKKU_ENV") DefaultEnvironment)
           (getEnvStringSlice (go "HOKKU_ALLOWED_EXTENSIONS") DefaultAllowedExtensions)
           (getEnvInt (go "HOKKU_MAX_TITLE_LENGTH") DefaultMaxTitleLength)
           (getEnvInt (go "HOKKU_MAX_DESC_LENGTH") DefaultMaxDescLength)
           (getEnvInt64 (go "HOKKU_MAX_DATA_SIZE") DefaultMaxDataSize).

End WithGetenv.

End Config.

(* --------------------------------------------------------------------- *)
(** ** internal/model *)

Module Model.

(** [Data] is [None] for a nil map. *)
Record WebhookPayload : Type := mkPayload {
  Title : gostring;
  Description : gostring;
  Data : option (list (gostring * Value));
  ID : gostring;
  Timestamp : Time.Time;
  Source : gostring;
  Type_ : gostring;
}.

Definition entries (d : option (list (gostring * Value))) : list (gostring * Value) :=
  match d with
  | Some l => l
  | None => []
  end.

(** [uuid.New().String()] from the 16 random bytes it draws: version and
    variant bits are set, then the bytes are printed in hexadecimal in
    groups of 4, 2, 2, 2 and 6. *)
Definition uuidString (random : gostring) : gostring :=
  let b := take 16 (random ++ repeat (bytechr 0) 16) in
  let b := <[6%nat := bytechr (Z.lor (Z.land (byteval (nth 6 b (bytechr 0))) 15) 64)]> b in
  let b := <[8%nat := bytechr (Z.lor (Z.land (byteval (nth 8 b (bytechr 0))) 63) 128)]> b in
  Hex.EncodeToString (take 4 b) ++ go "-"
    ++ Hex.EncodeToString (take 2 (drop 4 b)) ++ go "-"
    ++ Hex.EncodeToString (take 2 (drop 6 b)) ++ go "-"
    ++ Hex.EncodeToString (take 2 (drop 8 b)) ++ go "-"
    ++ Hex.EncodeToString (drop 10 b).

Definition setID (p : WebhookPayload) (id : gostring) : WebhookPayload :=
  mkPayload (Title p) (Description p) (Data p) id (Timestamp p) (Source p) (Type_ p).

Definition setTimestampField (p : WebhookPayload) (t : Time.Time) : WebhookPayload :=
  mkPayload (Title p) (Description p) (Data p) (ID p) t (Source p) (Type_ p).

(** [GenerateID]; [random] is what the generator draws. *)
Definition GenerateID (random : gostring) (p : WebhookPayload) : WebhookPayload :=
  if bool_decide (ID p = []) then setID p (uuidString random) else p.

(** [SetTimestamp]; [now] is what [time.Now] answers. *)
Definition SetTimestamp (now : Time.Time) (p : WebhookPayload) : WebhookPayload :=
  if Time.IsZero (Timestamp p) then setTimestampField p (Time.UTC now) else p.

(** The characters [sanitizeForFilename] replaces, in the order of its
    loop. *)
Definition unsafeForFilename : list ascii :=
  ["/"%char; bytechr 92; ":"%char; "*"%char; "?"%char; bytechr 34; "<"%char;
   ">"%char; "|"%char; " "%char].

Definition sanitizeForFilename (title : gostring) : gostring :=
  let result :=
    fold_left (fun result char => Strings.ReplaceAllByte result char (go "_"))
              unsafeForFilename title in
  if len result >? 32 then take 32 result else result.

(** [GetFileName]; [now] is what [time.Now] answers. *)
Definition GetFileName (now : Time.Time) (p : WebhookPayload) : gostring :=
  let timestamp :=
    if Time.IsZero (Timestamp p) then Time.UTC now else Timestamp p in
  let safeTitle := sanitizeForFilename (Title p) in
  Time.FormatFilename timestamp ++ go "_" ++ ID p ++ go "_" ++ safeTitle ++ go ".json".

End Model.

(* --------------------------------------------------------------------- *)
(** ** internal/model: responses *)

Module Response.

(** [Data] holds [VNil] for a nil interface. *)
Record APIResponse : Type := mkAPIResponse {
  Success : bool;
  Message : gostring;
  Data : Value;
  Error : gostring;
  Timestamp : Time.Time;
  RequestID : gostring;
}.

(** [now] is what [time.Now] answers. *)
Definition NewSuccessResponse (now : Time.Time) (message : gostring) (data : Value)
  : APIResponse :=
  mkAPIResponse true message data [] (Time.UTC now) [].

Definition NewErrorResponse (now : Time.Time) (message errorDetail : gostring)
  : APIResponse :=
  mkAPIResponse false message VNil errorDetail (Time.UTC now) [].

(** The slice [s[i:j]] for indices in range. *)
Definition slice (s : gostring) (i j : nat) : gostring := take (j - i) (drop i s).

(** The loop of [containsMiddle]: [i] runs from 1 to
    [len(s) - len(substr) - 1]. *)
Definition containsMiddle (s substr : gostring) : bool :=
  existsb (fun i => bool_decide (slice s i (i + length substr) = substr))
          (seq 1 (Z.to_nat (len s - len substr - 1))).

Definition contains (s substr : gostring) : bool :=
  (len s >=? len substr)
  && (bool_decide (s = substr)
      || ((len s >? len substr)
          && (bool_decide (slice s 0 (length substr) = substr)
              || bool_decide (slice s (length s - length substr) (length s) = substr)
              || containsMiddle s substr))).

Definition StatusOK : Z := 200.
Definition StatusBadRequest : Z := 400.
Definition StatusUnauthorized : Z := 401.
Definition StatusNotFound : Z := 404.
Definition StatusInternalServerError : Z := 500.
Definition StatusInsufficientStorage : Z := 507.

Definition HTTPStatusCode (r : APIResponse) : Z :=
  if Success r then StatusOK
  else if contains (Error r) (go "unauthorized") then StatusUnauthorized
  else if contains (Error r) (go "validation") || contains (Error r) (go "invalid")
  then StatusBadRequest
  else if contains (Error r) (go "not found") then StatusNotFound
  else if contains (Error r) (go "insufficient space") || contains (Error r) (go "disk")
  then StatusInsufficientStorage
  else StatusInternalServerError.

End Response.

(* --------------------------------------------------------------------- *)
(** ** encoding/json: a reference encoder

    The validator and the file store take the encoder as a parameter and
    only look at the length of what it returns.  The encoder below is used
    to run them on examples.  It follows [encoding/json] on trees made of
    strings, integers, floating-point numbers, booleans, null, objects and
    arrays (keys sorted, HTML escaping on); it stops with an error on the
    other kinds, whose textual form is not modelled. *)

Module Json.

Fixpoint ltb (a b : gostring) : bool :=
  match a, b with
  | _, [] => false
  | [], _ :: _ => true
  | x :: a', y :: b' =>
    (byteval x <? byteval y) || ((byteval x =? byteval y) && ltb a' b')
  end.

Fixpoint insertSorted (kv : gostring * gostring) (l : list (gostring * gostring))
  : list (gostring * gostring) :=
  match l with
  | [] => [kv]
  | h :: t => if ltb (fst h) (fst kv) then h :: insertSorted kv t else kv :: l
  end.

Definition sortByKey (l : list (gostring * gostring)) : list (gostring * gostring) :=
  fold_right insertSorted [] l.

Definition hex4 (n : Z) : gostring :=
  [Hex.digit (Z.shiftr n 12 mod 16); Hex.digit (Z.shiftr n 8 mod 16);
   Hex.digit (Z.shiftr n 4 mod 16); Hex.digit (n mod 16)].

Definition backslash : ascii := bytechr 92.
Definition quote : ascii := bytechr 34.

Definition escapeRune (rb : Z * gostring) : gostring :=
  let r := fst rb in
  if negb (Utf8.wellFormed rb) then backslash :: go "ufffd"
  else if (r =? 34) || (r =? 92) then [backslash; bytechr r]
  else if r =? 8 then backslash :: go "b"
  else if r =? 12 then backslash :: go "f"
  else if r =? 10 then backslash :: go "n"
  else if r =? 13 then backslash :: go "r"
  else if r =? 9 then backslash :: go "t"
  else if (r <? 32) || (r =? 60) || (r =? 62) || (r =? 38)
          || (r =? 8232) || (r =? 8233)
  then backslash :: "u"%char :: hex4 r
  else snd rb.

Definition encodeString (s : gostring) : gostring :=
  quote :: concat (map escapeRune (Utf8.runes s)) ++ [quote].

Definition encodeInt (n : Z) : gostring :=
  (if n <? 0 then go "-" else []) ++ Time.decimal (Z.abs n).

(** *** Floating-point numbers

    A finite [float64] other than zero is [m * 2^e] for a mantissa [m]
    and an exponent [e]; as a fraction it is [num / den] with the two
    numbers below.  Lengths on the number line are counted in quarters of
    [1 / den], so that the number, the midpoints to its two neighbours and
    the decimal candidates are all integers. *)
Definition floatNum (m e : Z) : Z := if 0 <=? e then m * 2 ^ e else m.
Definition floatDen (e : Z) : Z := if 0 <=? e then 1 else 2 ^ (- e).

(** [x * 10^k] and [y] are compared as [scaleUp x k] and [scaleDown y k]. *)
Definition scaleUp (x k : Z) : Z := if 0 <=? k then x * 10 ^ k else x.
Definition scaleDown (y k : Z) : Z := if 0 <=? k then y else y * 10 ^ (- k).

(** The position of the decimal point is the least [point] with
    [num / den < 10 ^ point].  It is searched from an estimate by binary
    logarithms, which is off by less than three: upwards when the estimate
    is too small, downwards when it is large enough. *)
Definition below (num den point : Z) : bool :=
  scaleDown num point <? scaleUp den point.

Fixpoint pointUp (fuel : nat) (point num den : Z) : Z :=
  match fuel with
  | O => point
  | S fuel' =>
    if below num den point then point else pointUp fuel' (point + 1) num den
  end.

Fixpoint pointDown (fuel : nat) (point num den : Z) : Z :=
  match fuel with
  | O => point
  | S fuel' =>
    if below num den (point - 1) then pointDown fuel' (point - 1) num den else point
  end.

Definition decimalPoint (num den : Z) : Z :=
  let estimate := (Z.log2 num - Z.log2 den) * 3 / 10 in
  if below num den estimate then pointDown 8 estimate num den
  else pointUp 8 (estimate + 1) num den.

(** The shortest decimal that reads back as the number: with [digits]
    digits, the decimal below the number and the one above it are tried;
    one that lies between the midpoints [lo] and [hi] (themselves included
    when the mantissa is even) is taken, the nearer one if both do, the
    even one on a tie; otherwise one more digit is tried.  The result is
    the decimal [c * 10^k]. *)
Fixpoint shortestFrom (fuel : nat) (digits point num den lo mid hi : Z)
         (closed : bool) : Z * Z :=
  match fuel with
  | O => (0, 0)
  | S fuel' =>
    let k := point - digits in
    let c := scaleDown num k / scaleUp den k in
    let at_ (c : Z) := scaleUp (4 * den * c) k in
    let within (x : Z) :=
      if closed then (scaleDown lo k <=? x) && (x <=? scaleDown hi k)
      else (scaleDown lo k <? x) && (x <? scaleDown hi k) in
    let down := within (at_ c) in
    let up := within (at_ (c + 1)) in
    if down && up then
      let below := scaleDown mid k - at_ c in
      let above := at_ (c + 1) - scaleDown mid k in
      if below <? above then (c, k)
      else if above <? below then (c + 1, k)
      else (if Z.even c then c else c + 1, k)
    else if down then (c, k)
    else if up then (c + 1, k)
    else shortestFrom fuel' (digits + 1) point num den lo mid hi closed
  end.

(** [strconv.AppendFloat(b, f, fmt, -1, 64)] for the format [f]: the
    digits with the decimal point after the first [point] of them. *)
Definition formatF (ds : gostring) (point : Z) : gostring :=
  (if 0 <? point
   then take (Z.to_nat point) ds ++ repeat "0"%char (Z.to_nat (point - len ds))
   else go "0")
  ++ (if point <? len ds
      then go "." ++ repeat "0"%char (Z.to_nat (- point)) ++ drop (Z.to_nat point) ds
      else []).

(** The format [e], after the encoder has turned an exponent such as
    [e-09] into [e-9]. *)
Definition formatE (ds : gostring) (point : Z) : gostring :=
  let exponent := point - 1 in
  take 1 ds ++ (if 1 <? len ds then go "." ++ drop 1 ds else [])
    ++ go "e" ++ (if exponent <? 0 then go "-" else go "+")
    ++ (if (exponent <? 0) && (- 10 <? exponent) then Time.decimal (- exponent)
        else Time.appendInt (Z.abs exponent) 2).

(** The bits of the [float64] constants [1e-6] and [1e21]. *)
Definition bits1e_6 : Z := 4517329193108106637.
Definition bits1e21 : Z := 4921056587992461136.

(** The encoder of a [float64], given by its 64 bits: infinities and NaN
    are an error; the number is written with the fewest digits that read
    back as the same number, without exponent unless its absolute value is
    below [1e-6] or at least [1e21]. *)
Definition encodeFloat (bits : Z) : option gostring :=
  let bits := bits mod 2 ^ 64 in
  let negative := Z.testbit bits 63 in
  let magnitude := bits mod 2 ^ 63 in
  let exponent := magnitude / 2 ^ 52 in
  let fraction := magnitude mod 2 ^ 52 in
  let sign := if negative then go "-" else [] in
  if exponent =? 2047 then None
  else if magnitude =? 0 then Some (sign ++ go "0")
  else
    let m := if exponent =? 0 then fraction else fraction + 2 ^ 52 in
    let e := if exponent =? 0 then - 1074 else exponent - 1075 in
    let num := floatNum m e in
    let den := floatDen e in
    let unit := if 0 <=? e then 2 ^ e else 1 in
    let closer := (fraction =? 0) && (1 <? exponent) in
    let lo := 4 * num - (if closer then 1 else 2) * unit in
    let hi := 4 * num + 2 * unit in
    let point := decimalPoint num den in
    let '(c, k) := shortestFrom 17 1 point num den lo (4 * num) hi (Z.even m) in
    let ds := dropWhileEnd (Ascii.eqb "0"%char) (Time.decimal c) in
    let point := k + len (Time.decimal c) in
    Some (sign ++ (if (magnitude <? bits1e_6) || (bits1e21 <=? magnitude)
                   then formatE ds point else formatF ds point)).

(** With [pretty], the output is indented by two spaces per level as
    [MarshalIndent] does for an empty prefix. *)
Definition newline (pretty : bool) (depth : nat) : gostring :=
  if pretty then bytechr 10 :: concat (repeat (go "  ") depth) else [].

Definition colon (pretty : bool) : gostring :=
  if pretty then go ": " else go ":".

Definition joinItems (pretty : bool) (depth : nat) (opening closing : ascii)
           (items : list gostring) : gostring :=
  match items with
  | [] => [opening; closing]
  | _ =>
    opening :: newline pretty (S depth)
      ++ Strings.Join items (go "," ++ newline pretty (S depth))
      ++ newline pretty depth ++ [closing]
  end.

Fixpoint sequence {A} (l : list (option A)) : option (list A) :=
  match l with
  | [] => Some []
  | None :: _ => None
  | Some x :: rest =>
    match sequence rest with
    | Some xs => Some (x :: xs)
    | None => None
    end
  end.

Definition member (pretty : bool) (kv : gostring * gostring) : gostring :=
  encodeString (fst kv) ++ colon pretty ++ snd kv.

Fixpoint encode (pretty : bool) (depth : nat) (v : Value) : option gostring :=
  match v with
  | VString s => Some (encodeString s)
  | VInt n | VInt64 n => Some (encodeInt n)
  | VBool b => Some (if b then go "true" else go "false")
  | VNil => Some (go "null")
  | VFloat64 bits => encodeFloat bits
  | VOther _ => None
  | VSlice elems =>
    match sequence (map (encode pretty (S depth)) elems) with
    | Some items => Some (joinItems pretty depth "["%char "]"%char items)
    | None => None
    end
  | VMap entries =>
    match sequence
            ((fix each (kvs : list (gostring * Value)) : list (option (gostring * gostring)) :=
                match kvs with
                | [] => []
                | (key, sub) :: rest =>
                  match encode pretty (S depth) sub with
                  | Some text => Some (key, text)
                  | None => None
                  end :: each rest
                end) entries) with
    | Some members =>
      Some (joinItems pretty depth "{"%char "}"%char
                      (map (member pretty) (sortByKey members)))
    | None => None
    end
  end.

Definition encodeData (pretty : bool) (depth : nat)
           (data : option (list (gostring * Value))) : option gostring :=
  match data with
  | None => Some (go "null")
  | Some entries => encode pretty depth (VMap entries)
  end.

(** [json.Marshal] on the data map. *)
Definition Marshal (data : option (list (gostring * Value))) : option gostring :=
  encodeData false 0 data.

(** The fractional second of RFC 3339 with trailing zeros removed. *)
Definition fraction (nsec : Z) : gostring :=
  if nsec =? 0 then []
  else go "." ++ dropWhileEnd (Ascii.eqb "0"%char) (Time.appendInt nsec 9).

(** [Time.MarshalJSON]: RFC 3339 with nanoseconds; years outside 0..9999
    are an error. *)
Definition encodeTime (t : Time.Time) : option gostring :=
  let abs := Time.sec t + Time.offset t in
  let '(y, m, d) := Time.civil (abs / 86400) in
  let s := abs mod 86400 in
  if (y <? 0) || (9999 <? y) then None
  else
    let zone :=
      if Time.offset t =? 0 then go "Z"
      else
        let o := Z.abs (Time.offset t) / 60 in
        (if Time.offset t <? 0 then go "-" else go "+")
          ++ Time.appendInt (o / 60) 2 ++ go ":" ++ Time.appendInt (o mod 60) 2 in
    Some (quote :: Time.appendInt y 4 ++ go "-" ++ Time.appendInt m 2 ++ go "-"
            ++ Time.appendInt d 2 ++ go "T" ++ Time.appendInt (s / 3600) 2 ++ go ":"
            ++ Time.appendInt (s mod 3600 / 60) 2 ++ go ":" ++ Time.appendInt (s mod 60) 2
            ++ fraction (Time.nsec t) ++ zone ++ [quote]).

Definition field (name : gostring) (text : gostring) : list gostring :=
  [encodeString name ++ go ": " ++ text].

Definition optionalField (name value : gostring) : list gostring :=
  if bool_decide (value = []) then [] else field name (encodeString value).

(** [json.MarshalIndent(payload, "", "  ")] following the field tags of
    [WebhookPayload]. *)
Definition MarshalIndent (p : Model.WebhookPayload) : option gostring :=
  match encodeData true 1 (Model.Data p), encodeTime (Model.Timestamp p) with
  | Some data, Some timestamp =>
    Some (joinItems true 0 "{"%char "}"%char
            (field (go "title") (encodeString (Model.Title p))
             ++ optionalField (go "description") (Model.Description p)
             ++ field (go "data") data
             ++ optionalField (go "id") (Model.ID p)
             ++ field (go "timestamp") timestamp
             ++ optionalField (go "source") (Model.Source p)
             ++ optionalField (go "type") (Model.Type_ p)))
  | _, _ => None
  end.

End Json.

(* --------------------------------------------------------------------- *)
(** ** internal/service: the payload validator *)

Module Validator.

Definition MaxNestingDepth : Z := 5.
Definition MaxStringLength : Z := 10000.
Definition MaxArrayLength : Z := 1000.
Definition MaxObjectKeys : Z := 100.

Definition reservedFieldNames (name : gostring) : bool :=
  bool_decide (name ∈ [go "id"; go "timestamp"; go "title"; go "description";
                       go "source"; go "type"]).

(** What [validateDataStructure] can report; the last two constructors are
    the context it adds on the way back up. *)
Inductive DataError : Type :=
| NestingTooDeep (depth : Z)
| StringTooLong (n : Z)
| InvalidUTF8String
| UnsafeStringValue
| TooManyKeys (n : Z)
| KeyTooLong (key : gostring)
| InvalidUTF8Key (key : gostring)
| ArrayTooLong (n : Z)
| UnsupportedType (k : Kind)
| InObjectKey (key : gostring) (cause : DataError)
| InArrayIndex (i : Z) (cause : DataError).

Inductive FormatError : Type :=
| ContainsSpaces
| ConsecutiveDots
| UnsafeCharacter (c : gostring)
| StartsOrEndsWithDot.

Inductive Cause : Type :=
| PayloadNil
| FieldRequired
| DataRequired
| DataEmpty
| InvalidUTF8
| UnsafeCharacters
| TooShort (n min : Z)
| TooLong (n max : Z)
| NotSerializable
| DataTooLarge (size limit : Z)
| DataStructure (e : DataError)
| ReservedFieldName (key : gostring)
| BadFormat (e : FormatError).

(** [errors.WrapValidationError field cause]. *)
Inductive ValidationError : Type :=
| ValidationFailed (field : gostring) (cause : Cause).

(** The error at the bottom of the chain of contexts. *)
Fixpoint rootCause (e : DataError) : DataError :=
  match e with
  | InObjectKey _ c => rootCause c
  | InArrayIndex _ c => rootCause c
  | _ => e
  end.

Definition unsafeRune (r : Z) : bool :=
  (r =? 0) || ((r <? 32) && negb (r =? 9) && negb (r =? 10) && negb (r =? 13)).

Definition containsUnsafeCharacters (s : gostring) : bool :=
  existsb (fun rb : Z * gostring => unsafeRune (fst rb)) (Utf8.runes s).

Definition numericKind (k : Kind) : bool :=
  match k with
  | KInt | KInt8 | KInt16 | KInt32 | KInt64
  | KUint | KUint8 | KUint16 | KUint32 | KUint64
  | KFloat32 | KFloat64 => true
  | _ => false
  end.

Definition validateKey (key : gostring) : option DataError :=
  if len key >? 100 then Some (KeyTooLong key)
  else if negb (Utf8.ValidString key) then Some (InvalidUTF8Key key)
  else None.

Fixpoint validateDataStructure (value : Value) (depth : Z) : option DataError :=
  if depth >? MaxNestingDepth then Some (NestingTooDeep depth)
  else
    match value with
    | VString val =>
      if len val >? MaxStringLength then Some (StringTooLong (len val))
      else if negb (Utf8.ValidString val) then Some InvalidUTF8String
      else if containsUnsafeCharacters val then Some UnsafeStringValue
      else None
    | VMap val =>
      if Z.of_nat (length val) >? MaxObjectKeys
      then Some (TooManyKeys (Z.of_nat (length val)))
      else
        (fix each (kvs : list (gostring * Value)) : option DataError :=
           match kvs with
           | [] => None
           | (key, subValue) :: rest =>
             match validateKey key with
             | Some e => Some e
             | None =>
               match validateDataStructure subValue (depth + 1) with
               | Some err => Some (InObjectKey key err)
               | None => each rest
               end
             end
           end) val
    | VSlice val =>
      if Z.of_nat (length val) >? MaxArrayLength
      then Some (ArrayTooLong (Z.of_nat (length val)))
      else
        (fix each (i : Z) (elems : list Value) : option DataError :=
           match elems with
           | [] => None
           | element :: rest =>
             match validateDataStructure element (depth + 1) with
             | Some err => Some (InArrayIndex i err)
             | None => each (i + 1) rest
             end
           end) 0 val
    | VFloat64 _ | VInt _ | VInt64 _ | VBool _ | VNil => None
    | VOther k => if numericKind k then None else Some (UnsupportedType k)
    end.

Definition dangerousChars : list gostring :=
  [go "<"; go ">"; [bytechr 34]; go "'"; go "&"; go ";"; go "|"].

Fixpoint firstContained (s : gostring) (chars : list gostring) : option gostring :=
  match chars with
  | [] => None
  | char :: rest =>
    if Strings.Contains s char then Some char else firstContained s rest
  end.

Definition validateSourceFormat (source : gostring) : option FormatError :=
  if Strings.Contains source (go " ") then Some ContainsSpaces
  else if Strings.Contains source (go "..") then Some ConsecutiveDots
  else match firstContained source dangerousChars with
       | Some char => Some (UnsafeCharacter char)
       | None => None
       end.

Definition validateTypeFormat (eventType : gostring) : option FormatError :=
  if Strings.Contains eventType (go " ") then Some ContainsSpaces
  else match firstContained eventType dangerousChars with
       | Some char => Some (UnsafeCharacter char)
       | None =>
         if Strings.HasPrefix eventType (go ".") || Strings.HasSuffix eventType (go ".")
         then Some StartsOrEndsWithDot
         else if Strings.Contains eventType (go "..") then Some ConsecutiveDots
         else None
       end.

Section WithConfig.
Variable config : Config.Config.
(** [unicode.ToLower]. *)
Variable unicode_ToLower : Z -> Z.
(** [json.Marshal] on the data map ([None] for a nil map); the result is
    [None] when the encoder reports an error. *)
Variable json_Marshal : option (list (gostring * Value)) -> option gostring.

Definition validateString (fieldName value : gostring) (minLen maxLen : Z)
           (required : bool) : option ValidationError :=
  if required && bool_decide (Strings.TrimSpace value = [])
  then Some (ValidationFailed fieldName FieldRequired)
  else if negb (Utf8.ValidString value)
  then Some (ValidationFailed fieldName InvalidUTF8)
  else if containsUnsafeCharacters value
  then Some (ValidationFailed fieldName UnsafeCharacters)
  else if len value <? minLen
  then Some (ValidationFailed fieldName (TooShort (len value) minLen))
  else if len value >? maxLen
  then Some (ValidationFailed fieldName (TooLong (len value) maxLen))
  else None.

Definition validateDataField (data : option (list (gostring * Value)))
  : option ValidationError :=
  match json_Marshal data with
  | None => Some (ValidationFailed (go "data") NotSerializable)
  | Some jsonData =>
    if len jsonData >? Config.GetMaxDataSize config
    then Some (ValidationFailed (go "data")
                 (DataTooLarge (len jsonData) (Config.GetMaxDataSize config)))
    else match validateDataStructure (VMap (Model.entries data)) 0 with
         | Some err => Some (ValidationFailed (go "data") (DataStructure err))
         | None => None
         end
  end.

(** A payload pointer is [None] when it is nil. *)
Definition ValidateStructure (payload : option Model.WebhookPayload)
  : option ValidationError :=
  match payload with
  | None => Some (ValidationFailed (go "payload") PayloadNil)
  | Some payload =>
    if bool_decide (Strings.TrimSpace (Model.Title payload) = [])
    then Some (ValidationFailed (go "title") FieldRequired)
    else match Model.Data payload with
         | None => Some (ValidationFailed (go "data") DataRequired)
         | Some entries =>
           if (length entries =? 0)%nat
           then Some (ValidationFailed (go "data") DataEmpty)
           else None
         end
  end.

Definition ifSet (field : gostring) (check : option ValidationError)
           (next : option ValidationError) : option ValidationError :=
  if negb (bool_decide (field = [])) then
    match check with
    | Some err => Some err
    | None => next
    end
  else next.

Definition ValidateContent (payload : option Model.WebhookPayload)
  : option ValidationError :=
  match payload with
  | None => Some (ValidationFailed (go "payload") PayloadNil)
  | Some payload =>
    match validateString (go "title") (Model.Title payload) 1
                         (Config.GetMaxTitleLength config) true with
    | Some err => Some err
    | None =>
      ifSet (Model.Description payload)
        (validateString (go "description") (Model.Description payload) 0
                        (Config.GetMaxDescLength config) false)
      (ifSet (Model.Source payload)
        (validateString (go "source") (Model.Source payload) 0 128 false)
      (ifSet (Model.Type_ payload)
        (validateString (go "type") (Model.Type_ payload) 0 32 false)
      (validateDataField (Model.Data payload))))
    end
  end.

(** The loop over the top-level keys of [payload.Data]. *)
Fixpoint firstReserved (entries : list (gostring * Value)) : option gostring :=
  match entries with
  | [] => None
  | (fieldName, _) :: rest =>
    if reservedFieldNames (Strings.ToLower unicode_ToLower fieldName)
    then Some fieldName
    else firstReserved rest
  end.

Definition wrapFormat (field : gostring) (e : option FormatError)
  : option ValidationError :=
  match e with
  | Some err => Some (ValidationFailed field (BadFormat err))
  | None => None
  end.

Definition validateBusinessRules (payload : Model.WebhookPayload)
  : option ValidationError :=
  match firstReserved (Model.entries (Model.Data payload)) with
  | Some fieldName => Some (ValidationFailed (go "data") (ReservedFieldName fieldName))
  | None =>
    ifSet (Model.Source payload)
      (wrapFormat (go "source") (validateSourceFormat (Model.Source payload)))
    (ifSet (Model.Type_ payload)
      (wrapFormat (go "type") (validateTypeFormat (Model.Type_ payload)))
    None)
  end.

Definition Validate (payload : option Model.WebhookPayload)
  : option ValidationError :=
  match payload with
  | None => Some (ValidationFailed (go "payload") PayloadNil)
  | Some p =>
    match ValidateStructure payload with
    | Some err => Some err
    | None =>
      match ValidateContent payload with
      | Some err => Some err
      | None => validateBusinessRules p
      end
    end
  end.

End WithConfig.

End Validator.

(* --------------------------------------------------------------------- *)
(** ** os: the file system and the other services of the environment

    The file store reaches the outside world through a handful of calls.
    Their outcome is fixed by an environment (working directory, clock,
    random source, file mode creation mask, and which system calls fail)
    and they act on a state (the files, the open handles, and a log of the
    calls made).

    The files are kept under the path the calls name them by, compared as
    a string: two spellings of one location ([a/b] and [a/./b], or [y] and
    [x/../y]) are two keys.  The state therefore stands for a file system
    only as far as the calls use cleaned paths, which is what [Write]
    passes; statements about other paths say so. *)

Module OS.

Inductive Node : Type :=
| File (content : gostring) (mode : Z)
| Directory (mode : Z).

Inductive Syscall : Type :=
| SysStat | SysMkdirAll | SysCreateTemp | SysWrite | SysSync | SysClose
| SysChmod | SysRename | SysRemove | SysRandRead.

(** A call, its path argument and whether it succeeded. *)
Inductive Event : Type :=
| Called (call : Syscall) (path : gostring) (ok : bool).

Record Env : Type := mkEnv {
  wd : option gostring;            (* the answer of os.Getwd *)
  now : Time.Time;                 (* the answer of time.Now *)
  random : nat -> ascii;           (* the bytes of the random source *)
  tempNumbers : list N;           (* the random numbers os.CreateTemp tries *)
  faults : nat -> bool;            (* [faults n]: the n-th system call fails *)
  partial : nat;                   (* bytes that reach the file when a write fails *)
  umask : Z;                       (* the file mode creation mask of the process *)
}.

Record State : Type := mkState {
  files : gmap gostring Node;
  handles : list gostring;         (* paths of the open file handles *)
  steps : nat;                     (* system calls made so far *)
  drawn : nat;                     (* random bytes drawn so far *)
  trace : list Event;              (* the calls made, latest first *)
}.

Inductive StatResult : Type :=
| IsDirectory
| IsFile
| NotExist
| StatError.

Section WithEnv.
Variable env : Env.

(** The current directory and the root always exist. *)
Definition lookupNode (fs : gmap gostring Node) (path : gostring) : option Node :=
  if bool_decide (path = Filepath.dot) || bool_decide (path = [Filepath.Separator])
  then Some (Directory 493)
  else fs !! path.

(** Every system call is numbered; the environment says whether it fails.
    The call is logged with its outcome. *)
Definition enter (s : State) (call : Syscall) (path : gostring) (possible : bool)
  : State * bool :=
  let ok := negb (faults env (steps s)) && possible in
  (mkState (files s) (handles s) (S (steps s)) (drawn s)
           (Called call path ok :: trace s), ok).

Definition setFiles (s : State) (fs : gmap gostring Node) : State :=
  mkState fs (handles s) (steps s) (drawn s) (trace s).

Definition setHandles (s : State) (hs : list gostring) : State :=
  mkState (files s) hs (steps s) (drawn s) (trace s).

(** [rand.Read] into a buffer of [n] bytes, and the infallible draw of
    the UUID generator. *)
Definition draw (s : State) (n : nat) : State * gostring :=
  (mkState (files s) (handles s) (steps s) (drawn s + n) (trace s),
   map (random env) (seq (drawn s) n)).

Definition randRead (s : State) (n : nat) : State * option gostring :=
  let '(s, ok) := enter s SysRandRead [] true in
  if ok then let '(s, bytes) := draw s n in (s, Some bytes) else (s, None).

(** The chain of parent directories of a path, nearest first. *)
Fixpoint ancestorsFrom (fuel : nat) (path : gostring) : list gostring :=
  match fuel with
  | O => []
  | S fuel' =>
    let parent := Filepath.Dir path in
    if bool_decide (parent = path) then [] else parent :: ancestorsFrom fuel' parent
  end.

Definition ancestors (path : gostring) : list gostring :=
  ancestorsFrom (length path) path.

Definition isFileNode (n : option Node) : bool :=
  match n with
  | Some (File _ _) => true
  | _ => false
  end.

(** [os.Stat]: a path that leads through a regular file cannot be looked
    up; the error ([ENOTDIR]) is one [os.IsNotExist] does not take for a
    missing file. *)
Definition Stat (s : State) (path : gostring) : State * StatResult :=
  let '(s, ok) :=
    enter s SysStat path
          (negb (existsb (fun p => isFileNode (lookupNode (files s) p))
                         (ancestors path))) in
  if ok then
    match lookupNode (files s) path with
    | Some (Directory _) => (s, IsDirectory)
    | Some (File _ _) => (s, IsFile)
    | None => (s, NotExist)
    end
  else (s, StatError).

(** The mode a new file or directory gets when [perm] is asked for: the
    bits of the creation mask are cleared. *)
Definition created (perm : Z) : Z := Z.ldiff perm (umask env).

Definition makeDirectory (perm : Z) (fs : gmap gostring Node) (path : gostring)
  : gmap gostring Node :=
  match lookupNode fs path with
  | Some _ => fs
  | None => <[path := Directory perm]> fs
  end.

(** [os.MkdirAll] on a cleaned path: the directory and the missing
    directories above it are created, with the mode asked for less the
    creation mask; a regular file in the way is an error.  (A path that is
    not cleaned is kept under its spelling, see above.) *)
Definition MkdirAll (s : State) (path : gostring) (perm : Z) : State * bool :=
  let chain := path :: ancestors path in
  let '(s, ok) :=
    enter s SysMkdirAll path
          (negb (existsb (fun p => isFileNode (lookupNode (files s) p)) chain)) in
  if ok
  then (setFiles s (fold_left (makeDirectory (created perm)) chain (files s)), true)
  else (s, false).

(** [joinPath] of package os. *)
Definition joinPath (dir name : gostring) : gostring :=
  if match last dir with
     | Some c => Filepath.isSep c
     | None => false
     end
  then dir ++ name
  else dir ++ [Filepath.Separator] ++ name.

Definition isDirectoryNode (n : option Node) : bool :=
  match n with
  | Some (Directory _) => true
  | _ => false
  end.

(** [os.CreateTemp dir pattern] for a pattern that ends in the
    wildcard: the first candidate name that does not exist yet is created
    exclusively, empty, with mode 0600 less the creation mask, and
    opened. *)
Definition CreateTemp (s : State) (dir prefix : gostring) : State * option gostring :=
  let candidates :=
    filter (fun path => bool_decide (lookupNode (files s) path = None))
           (map (fun n => joinPath dir (prefix ++ Time.decimal (Z.of_N n)))
                (tempNumbers env)) in
  match candidates with
  | [] => let '(s, _) := enter s SysCreateTemp dir false in (s, None)
  | path :: _ =>
    let '(s, ok) := enter s SysCreateTemp path
                          (isDirectoryNode (lookupNode (files s) dir)) in
    if ok
    then (setHandles (setFiles s (<[path := File [] (created 384)]> (files s)))
                     (path :: handles s), Some path)
    else (s, None)
  end.

Definition isOpen (s : State) (handle : gostring) : bool :=
  bool_decide (handle ∈ handles s).

Definition appendTo (fs : gmap gostring Node) (path data : gostring)
  : gmap gostring Node :=
  match fs !! path with
  | Some (File content mode) => <[path := File (content ++ data) mode]> fs
  | _ => fs
  end.

(** [File.Write]: on failure a prefix of the data may have reached
    the file. *)
Definition Write (s : State) (handle data : gostring) : State * bool :=
  let '(s, ok) := enter s SysWrite handle (isOpen s handle) in
  if ok then (setFiles s (appendTo (files s) handle data), true)
  else if isOpen s handle
  then (setFiles s (appendTo (files s) handle (take (partial env) data)), false)
  else (s, false).

Definition Sync (s : State) (handle : gostring) : State * bool :=
  enter s SysSync handle (isOpen s handle).

(** [File.Close]: the handle is released whatever the outcome;
    closing a closed file is an error. *)
Definition Close (s : State) (handle : gostring) : State * bool :=
  let '(s, ok) := enter s SysClose handle (isOpen s handle) in
  (setHandles s (filter (fun h => negb (bool_decide (h = handle))) (handles s)), ok).

Definition Chmod (s : State) (path : gostring) (mode : Z) : State * bool :=
  let '(s, ok) := enter s SysChmod path (isFileNode (files s !! path)) in
  if ok then
    match files s !! path with
    | Some (File content _) => (setFiles s (<[path := File content mode]> (files s)), true)
    | _ => (s, false)
    end
  else (s, false).

(** [os.Rename] of a regular file: the new path is replaced in one step
    or not at all. *)
Definition Rename (s : State) (oldpath newpath : gostring) : State * bool :=
  let '(s, ok) :=
    enter s SysRename oldpath
          (isFileNode (files s !! oldpath)
           && negb (isDirectoryNode (lookupNode (files s) newpath))) in
  if ok then
    match files s !! oldpath with
    | Some node => (setFiles s (<[newpath := node]> (delete oldpath (files s))), true)
    | None => (s, false)
    end
  else (s, false).

Definition Remove (s : State) (path : gostring) : State * bool :=
  let '(s, ok) := enter s SysRemove path
                        (negb (bool_decide (files s !! path = None))) in
  if ok then (setFiles s (delete path (files s)), true) else (s, false).

End WithEnv.

End OS.

Arguments OS.created : simpl never.

(* --------------------------------------------------------------------- *)
(** ** internal/service: the file store *)

Module FileStore.

Inductive WriteError : Type :=
| CreateTempFailed
| WriteFailed
| SyncFailed
| CloseFailed
| ChmodFailed
| RenameFailed.

Inductive DirError : Type :=
| InvalidDirectoryPath (e : Security.Error)
| NotADirectory
| StatFailed
| MkdirFailed.

(** The errors of [Write], one per [errors.WrapFileError] operation. *)
Inductive FileError : Type :=
| PayloadNil
| FilenameGeneration (e : Security.Error)
| PathValidation (path : gostring) (e : Security.Error)
| DirectoryCreation (path : gostring) (e : DirError)
| JsonMarshaling (path : gostring)
| SizeValidation (path : gostring) (size limit : Z)
| AtomicWrite (path : gostring) (e : WriteError).

Definition tempPrefix : gostring := go ".tmp-webhook-".

Section WithConfig.
Variable config : Config.Config.
Variable env : OS.Env.
(** [unicode.ToUpper]. *)
Variable unicode_ToUpper : Z -> Z.
(** [json.MarshalIndent] on the payload, [None] for an encoder error. *)
Variable json_MarshalIndent : Model.WebhookPayload -> option gostring.

Definition generateSecureFilename (s : OS.State) (payload : Model.WebhookPayload)
  : OS.State * result gostring Security.Error :=
  let sanitizedTitle :=
    match Security.SanitizeFilename unicode_ToUpper (Model.Title payload) with
    | Ok t => t
    | Err _ => go "webhook"
    end in
  let timestamp := Model.Timestamp payload in
  let timestamp :=
    if Time.IsZero timestamp then Model.Timestamp payload else timestamp in
  let filename :=
    Time.FormatFilename timestamp ++ go "_" ++ Model.ID payload ++ go "_"
      ++ sanitizedTitle ++ go ".json" in
  match Security.SanitizeFilename unicode_ToUpper filename with
  | Ok finalFilename => (s, Ok finalFilename)
  | Err _ =>
    (* the prefix of the fallback is a constant that sanitizes to
       itself, so the random source is always consulted *)
    let '(s, randomBytes) := OS.randRead env s (Z.to_nat Security.MinRandomBytes) in
    match Security.GenerateSecureFilename unicode_ToUpper randomBytes
                                          (go "webhook") (go "json") with
    | Ok fallbackName => (s, Ok fallbackName)
    | Err genErr => (s, Err genErr)
    end
  end.

Definition ensureDirectoryExists (s : OS.State) (dirPath : gostring)
  : OS.State * option DirError :=
  match Security.ValidatePath (OS.wd env) dirPath [] with
  | Some err => (s, Some (InvalidDirectoryPath err))
  | None =>
    let '(s, info) := OS.Stat env s dirPath in
    match info with
    | OS.IsDirectory => (s, None)
    | OS.IsFile => (s, Some NotADirectory)
    | OS.StatError => (s, Some StatFailed)
    | OS.NotExist =>
      let '(s, ok) := OS.MkdirAll env s dirPath 493 in
      if ok then (s, None) else (s, Some MkdirFailed)
    end
  end.

(** The deferred function: close the temporary file and remove it,
    ignoring both outcomes. *)
Definition cleanup (s : OS.State) (tempPath : gostring) : OS.State :=
  let '(s, _) := OS.Close env s tempPath in
  let '(s, _) := OS.Remove env s tempPath in
  s.

Definition writeFileAtomically (s : OS.State) (filePath data : gostring)
  : OS.State * option WriteError :=
  let dir := Filepath.Dir filePath in
  let '(s, tempFile) := OS.CreateTemp env s dir tempPrefix in
  match tempFile with
  | None => (s, Some CreateTempFailed)
  | Some tempPath =>
    let '(s, ok) := OS.Write env s tempPath data in
    if negb ok then (cleanup s tempPath, Some WriteFailed)
    else
      let '(s, ok) := OS.Sync env s tempPath in
      if negb ok then (cleanup s tempPath, Some SyncFailed)
      else
        let '(s, ok) := OS.Close env s tempPath in
        if negb ok then (cleanup s tempPath, Some CloseFailed)
        else
          let '(s, ok) := OS.Chmod env s tempPath 420 in
          if negb ok then (cleanup s tempPath, Some ChmodFailed)
          else
            let '(s, ok) := OS.Rename env s tempPath filePath in
            if negb ok then (cleanup s tempPath, Some RenameFailed)
            else (cleanup s tempPath, None)
  end.

(** [Write] receives a pointer: [None] is the nil pointer, and the
    payload it returns is the caller's object after the call. *)
Definition Write (s : OS.State) (payload : option Model.WebhookPayload)
  : OS.State * option Model.WebhookPayload * result gostring FileError :=
  match payload with
  | None => (s, None, Err PayloadNil)
  | Some payload =>
    let '(s, payload) :=
      if bool_decide (Model.ID payload = []) then
        let '(s, bytes) := OS.draw env s 16 in (s, Model.GenerateID bytes payload)
      else (s, payload) in
    let payload :=
      if Time.IsZero (Model.Timestamp payload)
      then Model.SetTimestamp (OS.now env) payload
      else payload in
    let '(s, generated) := generateSecureFilename s payload in
    match generated with
    | Err err => (s, Some payload, Err (FilenameGeneration err))
    | Ok baseFilename =>
      let fullPath := Filepath.Join [Config.GetStoragePath config; baseFilename] in
      match Security.IsSecurePath unicode_ToUpper (OS.wd env) fullPath
                                  (Config.GetStoragePath config) with
      | Some err => (s, Some payload, Err (PathValidation fullPath err))
      | None =>
        let parentDir := Filepath.Dir fullPath in
        let '(s, dirErr) := ensureDirectoryExists s parentDir in
        match dirErr with
        | Some err => (s, Some payload, Err (DirectoryCreation parentDir err))
        | None =>
          match json_MarshalIndent payload with
          | None => (s, Some payload, Err (JsonMarshaling fullPath))
          | Some data =>
            if len data >? Config.GetMaxFileSize config
            then (s, Some payload,
                  Err (SizeValidation fullPath (len data)
                                      (Config.GetMaxFileSize config)))
            else
              let '(s, writeErr) := writeFileAtomically s fullPath data in
              match writeErr with
              | Some err => (s, Some payload, Err (AtomicWrite fullPath err))
              | None => (s, Some payload, Ok fullPath)
              end
          end
        end
      end
    end
  end.

End WithConfig.

(** The value of an integer expression held in an [int64]. *)
Definition int64 (z : Z) : Z := (z + 2 ^ 63) mod 2 ^ 64 - 2 ^ 63.

Inductive DiskError : Type :=
| DirectoryAccess (e : DirError)
| FilesystemStat
| InsufficientSpace (available required : Z).

Section DiskSpace.
Variable config : Config.Config.
Variable env : OS.Env.
(** [syscall.Statfs] on a path: the fields [Bavail] (a [uint64]) and
    [Bsize] (an [int64], as on linux/amd64) of the result, [None] when the
    call fails. *)
Variable statfs : gostring -> option (Z * Z).

(** [CheckDiskSpace] returns a number also beside an error. *)
Definition CheckDiskSpace (s : OS.State) : OS.State * Z * option DiskError :=
  let storagePath := Config.GetStoragePath config in
  let '(s, dirErr) := ensureDirectoryExists env s storagePath in
  match dirErr with
  | Some err => (s, 0, Some (DirectoryAccess err))
  | None =>
    match statfs storagePath with
    | None => (s, 0, Some FilesystemStat)
    | Some (bavail, bsize) =>
      let availableBytes := int64 (int64 bavail * bsize) in
      let minimumRequired := int64 (Config.GetMaxFileSize config * 2) in
      if availableBytes <? minimumRequired
      then (s, availableBytes, Some (InsufficientSpace availableBytes minimumRequired))
      else (s, availableBytes, None)
    end
  end.

End DiskSpace.

End FileStore.

(* --------------------------------------------------------------------- *)
(** ** Vocabulary of the specification *)

Module Spec.

(** Nesting depth of a value: the number of container (object or array)
    boundaries that are crossed to reach its deepest value.  A scalar and
    an empty container hold nothing below them. *)
Fixpoint nestingDepth (v : Value) : Z :=
  match v with
  | VMap entries =>
    (fix deepest (kvs : list (gostring * Value)) : Z :=
       match kvs with
       | [] => 0
       | (_, sub) :: rest => Z.max (1 + nestingDepth sub) (deepest rest)
       end) entries
  | VSlice elems =>
    (fix deepest (l : list Value) : Z :=
       match l with
       | [] => 0
       | e :: rest => Z.max (1 + nestingDepth e) (deepest rest)
       end) elems
  | _ => 0
  end.

(** Every limit of the walk other than the depth limit is met at every
    node: strings, key counts, keys, array lengths and value kinds. *)
Fixpoint withinLimits (v : Value) : bool :=
  match v with
  | VString s =>
    (len s <=? Validator.MaxStringLength) && Utf8.ValidString s
    && negb (Validator.containsUnsafeCharacters s)
  | VMap entries =>
    (Z.of_nat (length entries) <=? Validator.MaxObjectKeys)
    && (fix all (kvs : list (gostring * Value)) : bool :=
          match kvs with
          | [] => true
          | (key, sub) :: rest =>
            (len key <=? 100) && Utf8.ValidString key && withinLimits sub && all rest
          end) entries
  | VSlice elems =>
    (Z.of_nat (length elems) <=? Validator.MaxArrayLength)
    && (fix all (l : list Value) : bool :=
          match l with
          | [] => true
          | e :: rest => withinLimits e && all rest
          end) elems
  | VOther k => Validator.numericKind k
  | _ => true
  end.

(** Every object key of the tree passes the two checks made on keys. *)
Fixpoint keysAccepted (v : Value) : bool :=
  match v with
  | VMap entries =>
    (fix all (kvs : list (gostring * Value)) : bool :=
       match kvs with
       | [] => true
       | (key, sub) :: rest =>
         (len key <=? 100) && Utf8.ValidString key && keysAccepted sub && all rest
       end) entries
  | VSlice elems =>
    (fix all (l : list Value) : bool :=
       match l with
       | [] => true
       | e :: rest => keysAccepted e && all rest
       end) elems
  | _ => true
  end.

(** The same tree with every object key [k] replaced by [f k]. *)
Fixpoint renameKeys (f : gostring -> gostring) (v : Value) : Value :=
  match v with
  | VMap entries =>
    VMap ((fix each (kvs : list (gostring * Value)) : list (gostring * Value) :=
             match kvs with
             | [] => []
             | (key, sub) :: rest => (f key, renameKeys f sub) :: each rest
             end) entries)
  | VSlice elems =>
    VSlice ((fix each (l : list Value) : list Value :=
               match l with
               | [] => []
               | e :: rest => renameKeys f e :: each rest
               end) elems)
  | _ => v
  end.

(** [n] objects nested in one another around [leaf], each under the key
    [key]: [nest 0 leaf = leaf], [nest 2 leaf = {key: {key: leaf}}]. *)
Fixpoint nest (key : gostring) (n : nat) (leaf : Value) : Value :=
  match n with
  | O => leaf
  | S n' => VMap [(key, nest key n' leaf)]
  end.

(** A key matches a reserved field name without regard to case: its
    lower-case form is one of the reserved names. *)
Definition isReservedKey (unicode_ToLower : Z -> Z) (key : gostring) : bool :=
  Validator.reservedFieldNames (Strings.ToLower unicode_ToLower key).

(** The characters the source check names as dangerous. *)
Definition isDangerous (c : ascii) : bool :=
  bool_decide (c ∈ ["<"%char; ">"%char; bytechr 34; "'"%char; "&"%char;
                    ";"%char; "|"%char]).

(** The whitespace characters the specification lists for [source]. *)
Definition isListedWhitespace (c : ascii) : bool :=
  bool_decide (c ∈ [" "%char; bytechr 9; bytechr 10; bytechr 13]).

(** A proper path element: not empty, without separator, and neither of
    the two special names. *)
Definition pathElement (e : gostring) : Prop :=
  e <> [] /\ ~ In Filepath.Separator e /\ e <> Filepath.dot /\ e <> Filepath.dotdot.

(** The path has a [..] segment. *)
Definition hasDotDotSegment (path : gostring) : Prop :=
  In Filepath.dotdot (Strings.Split path Filepath.Separator).

(** The guards [ValidatePath] applies before it looks for traversal. *)
Definition passesPathGuards (path : gostring) : Prop :=
  path <> [] /\ Strings.Contains path [Security.nul] = false
  /\ len path <= Security.MaxPathLength.

(** [path] ends with the element [e]: it is [e] or some prefix, a separator
    and [e]. *)
Definition endsWithElement (path e : gostring) : Prop :=
  path = e \/ exists prefix, path = prefix ++ Filepath.Separator :: e.

(** The file name [generateSecureFilename] builds from the payload and
    sanitizes (its answer unless the sanitizer refuses the name). *)
Definition generatedName (unicode_ToUpper : Z -> Z) (payload : Model.WebhookPayload)
  : result gostring Security.Error :=
  Security.SanitizeFilename unicode_ToUpper
    (Time.FormatFilename (Model.Timestamp payload) ++ go "_" ++ Model.ID payload
       ++ go "_"
       ++ match Security.SanitizeFilename unicode_ToUpper (Model.Title payload) with
          | Ok t => t
          | Err _ => go "webhook"
          end
       ++ go ".json").

(** The two states hold the same files at every path but [t]. *)
Definition sameElsewhere (t : gostring) (s1 s2 : OS.State) : Prop :=
  forall path, path <> t -> OS.files s2 !! path = OS.files s1 !! path.

(** The length of the elements of a path with one separator for each. *)
Fixpoint weight (l : list gostring) : nat :=
  match l with
  | [] => 0
  | e :: rest => S (length e + weight rest)
  end.

(** A name that can be the last element of a path and is not hidden. *)
Definition visibleElement (name : gostring) : Prop :=
  pathElement name /\ exists c rest, name = c :: rest /\ c <> "."%char.

End Spec.

(** A byte that may appear in a sanitized name: one the sanitizer's
    character class does not match. *)
Definition safeByte (c : ascii) : Prop := Regexp.unsafeChars_match c = false.

(** A control byte other than tab, line feed and carriage return. *)
Definition controlByte (c : ascii) : bool :=
  (byteval c <? 32) && negb (byteval c =? 9) && negb (byteval c =? 10)
  && negb (byteval c =? 13).

(** A text field as the validator wants it: well-formed UTF-8 without
    control bytes other than tab, line feed and carriage return. *)
Definition plainText (s : gostring) : Prop :=
  Utf8.ValidString s = true /\ forall c, In c s -> controlByte c = false.

(** A token as the format checks want it: no space, none of the dangerous
    characters, no two consecutive dots. *)
Definition plainToken (s : gostring) : Prop :=
  (forall c, In c s -> c <> " "%char /\ Spec.isDangerous c = false)
  /\ (forall front rest, s <> front ++ "."%char :: "."%char :: rest).

(** A printable ASCII byte other than the space and the characters the
    sanitizer replaces. *)
Definition plainNameByte (c : ascii) : bool :=
  (33 <=? byteval c) && (byteval c <=? 126) && negb (Regexp.unsafeChars_match c).

(** [file] is the directory [base] or lies below it (both as cleaned,
    rooted paths). *)
Definition within (base file : gostring) : Prop :=
  file = base
  \/ exists tail,
      file = (if bool_decide (base = [Filepath.Separator]) then base
              else base ++ [Filepath.Separator]) ++ tail.

(** The segments [Clean] has kept, latest first: proper elements, on top
    of the [..] elements a relative path begins with. *)
Definition kept (rooted : bool) (out : list gostring) : Prop :=
  exists body k,
    out = body ++ repeat Filepath.dotdot k
    /\ Forall Spec.pathElement body
    /\ (rooted = true -> k = 0%nat).

(** [s] holds [sub] as a substring. *)
Definition mentions (s sub : gostring) : Prop := exists a b, s = a ++ sub ++ b.

(** The words [HTTPStatusCode] looks for in an error text. *)
Definition statusWords : list gostring :=
  [go "unauthorized"; go "validation"; go "invalid"; go "not found";
   go "insufficient space"; go "disk"].

(** What [sanitizeForFilename] makes of one byte. *)
Definition filenameByte (c : ascii) : ascii :=
  if existsb (Ascii.eqb c) Model.unsafeForFilename then "_"%char else c.

(** The bytes of a formatted time and of the fixed parts of a file name:
    decimal digits, hyphen, underscore and dot. *)
Definition stampByte (c : ascii) : Prop :=
  (48 <= byteval c <= 57) \/ c = "-"%char \/ c = "_"%char \/ c = "."%char.

(** An allowed extension as [Config.Validate] wants it. *)
Definition extensionOk (ext : gostring) : Prop := ext <> [] /\ ~ In "."%char ext.

(** The ranges [Config.Validate] checks; [production] tells whether the
    configuration is one for production. *)
Definition inRanges (production : bool) (c : Config.Config) : Prop :=
  0 < Config.MaxFileSize c <= 100 * 1024 * 1024
  /\ 1 <= Config.Port c <= 65535
  /\ (production = true -> Config.AuthToken c <> [])
  /\ 1 <= Config.MaxTitleLength c <= 1024
  /\ 0 <= Config.MaxDescLength c <= 4096
  /\ 0 < Config.MaxDataSize c
  /\ Forall extensionOk (Config.AllowedExtensions c).

(* --------------------------------------------------------------------- *)
(** ** Configurations and payloads used in examples *)

(** A configuration with a 16-byte data limit and a 1 KiB file limit. *)
Definition tinyConfig : Config.Config :=
  Config.mkConfig (go "/var/hokku") 1024 8080 [] (go "test") [go "json"] 64 512 16.

(** A configuration in the style of the file store tests. *)
Definition testConfig : Config.Config :=
  Config.mkConfig (go "/var/hokku") (1024 * 1024) 8080 [] (go "test") [go "json"]
                  64 512 (5 * 1024 * 1024).

Definition tab : ascii := bytechr 9.


(** An environment in which no call fails, with the creation mask 022, and
    a file system that holds the storage directory of [testConfig]. *)
Definition calmEnv : OS.Env :=
  OS.mkEnv (Some (go "/srv")) (Time.mkTime 63839664000 0 0)
           (fun n => bytechr (Z.of_nat (17 * n + 3) mod 256))
           [1804289383%N; 846930886%N] (fun _ => false) 0 18.

Definition storageOnly : OS.State :=
  OS.mkState (<[go "/var/hokku" := OS.Directory 493]> ∅) [] 0 0 [].

Definition helloPayload : Model.WebhookPayload :=
  Model.mkPayload (go "Hello") [] (Some [(go "a", VInt 1)]) [] Time.zero [] [].

(** A title of 203 bytes with two consecutive dots near its end. *)
Definition dottedTitle : gostring := Strings.Repeat (go "a") 200 ++ go "..b".

Definition dottedTitlePayload : Model.WebhookPayload :=
  Model.mkPayload dottedTitle [] (Some [(go "test", VBool true)]) [] Time.zero [] [].

Definition reportPayload : Model.WebhookPayload :=
  Model.mkPayload (go "report..txt") [] (Some [(go "test", VBool true)]) [] Time.zero [] [].

(** The environment of [calmEnv] but for one system call, the one with
    number [k], which fails; a failing write leaves five bytes behind.  In a
    run of [Write] on [storageOnly] call 0 is the [Stat] of the storage
    directory and calls 1 to 6 are the steps of the atomic write. *)
Definition failingAt (k : nat) : OS.Env :=
  OS.mkEnv (OS.wd calmEnv) (OS.now calmEnv) (OS.random calmEnv) (OS.tempNumbers calmEnv)
           (fun n => Nat.eqb n k) 5 (OS.umask calmEnv).

(** The environment of [calmEnv] with the creation mask 027. *)
Definition guardedEnv : OS.Env :=
  OS.mkEnv (OS.wd calmEnv) (OS.now calmEnv) (OS.random calmEnv) (OS.tempNumbers calmEnv)
           (OS.faults calmEnv) (OS.partial calmEnv) 23.

(** The path [Write] chooses for [helloPayload] in these environments. *)
Definition helloPath : gostring :=
  go "/var/hokku/2024-01-01_00-00-00_03142536-4758-497a-8b9c-adbecfe0f102_Hello.json".

(** A disk without a single file or directory. *)
Definition emptyDisk : OS.State := OS.mkState ∅ [] 0 0 [].

(** A valid payload but for its [source]. *)
Definition sourcePayload (source : gostring) : Model.WebhookPayload :=
  Model.mkPayload (go "X") [] (Some [(go "key", VString (go "value"))])
                  [] Time.zero source [].

(** A file system with 1000 free blocks of 4096 bytes. *)
Definition roomyDisk : gostring -> option (Z * Z) := fun _ => Some (1000, 4096).

(** The configurations of the table of [TestValidate]. *)
Definition validConfig : Config.Config :=
  Config.mkConfig (go "/valid/path") (1024 * 1024) 8080 [] (go "development")
                  [go "json"; go "txt"] 64 512 (5 * 1024 * 1024).

Definition withSizes (maxFileSize port : Z) : Config.Config :=
  Config.mkConfig (go "/valid/path") maxFileSize port [] (go "development") [] 0 0 0.

Definition withLimits (exts : list gostring) (title desc data : Z) : Config.Config :=
  Config.mkConfig (go "/valid/path") (1024 * 1024) 8080 [] (go "development")
                  exts title desc data.

(** The environment variables the tests of [New] and of the helpers set. *)
Definition overrides (key : gostring) : gostring :=
  if bool_decide (key = go "HOKKU_STORAGE_PATH") then go "/custom/path"
  else if bool_decide (key = go "HOKKU_MAX_FILE_SIZE") then go "2048"
  else if bool_decide (key = go "HOKKU_PORT") then go "9090"
  else if bool_decide (key = go "HOKKU_AUTH_TOKEN") then go "secret123"
  else if bool_decide (key = go "HOKKU_ENV") then go "production"
  else if bool_decide (key = go "HOKKU_ALLOWED_EXTENSIONS") then go "json,xml,txt"
  else if bool_decide (key = go "HOKKU_MAX_TITLE_LENGTH") then go "128"
  else if bool_decide (key = go "HOKKU_MAX_DESC_LENGTH") then go "1024"
  else if bool_decide (key = go "HOKKU_MAX_DATA_SIZE") then go "10485760"
  else if bool_decide (key = go "INVALID_INT") then go "not_a_number"
  else if bool_decide (key = go "TEST_SLICE_SPACES") then go "json, xml, , txt, "
  else [].

(** The payload of [TestWebhookPayload_GetFileName]: 2023-01-01 12:30:45
    UTC. *)
Definition titled (title : gostring) : Model.WebhookPayload :=
  Model.mkPayload title [] None (go "test-uuid") (Time.mkTime 63808173045 0 0) [] [].

(** A failure response with the given error text. *)
Definition failed (error : gostring) : Response.APIResponse :=
  Response.mkAPIResponse false [] VNil error Time.zero [].

(* --------------------------------------------------------------------- *)
(** ** Tactics *)

(** One case of the status table, the error text's words being settled in
    the context: a code that is not the one returned is told apart, the one
    returned is justified by the words. *)
Ltac status_case :=
  first [ solve [cbn; tauto]
        | split; discriminate
        | split; [discriminate | tauto]
        | split; [discriminate | intros [Hfail _]; discriminate Hfail] ].

(* ===================================================================== *)
(** * Part II: properties *)
(* ===================================================================== *)

(** ** The model against the repository's own test tables *)

Example Clean_examples :
  map Filepath.Clean
      [go "a/../b"; go "subdir/../../../etc/passwd"; go "folder//subfolder///file.txt";
       go "./file.txt"; go ""; go "/"; go "/../a/./b/"; go "a/b/../.."; go "../../x";
       go "report..txt"; go "/a/b/../../../c"]
  = [go "b"; go "../../etc/passwd"; go "folder/subfolder/file.txt";
     go "file.txt"; go "."; go "/"; go "/a/b"; go "."; go "../../x";
     go "report..txt"; go "/c"].
Proof. vm_compute. reflexivity. Qed.

Example Rel_examples :
  map (fun bt => Filepath.Rel (fst bt) (snd bt))
      [(go "/a", go "/a/b/c"); (go "/a/b", go "/a"); (go "/a/b", go "/a/c/d");
       (go "/", go "/x/y"); (go "/a", go "/a"); (go "a", go "/b"); (go ".", go "a/b");
       (go "..", go "a"); (go "/safe/storage", go "/safe/storage/b")]
  = [Some (go "b/c"); Some (go ".."); Some (go "../c/d"); Some (go "x/y");
     Some (go "."); None; Some (go "a/b"); None; Some (go "b")].
Proof. vm_compute. reflexivity. Qed.

Example Base_Dir_Ext_examples :
  (map Filepath.Base [go "/a/b.txt"; go "a/b/"; go "///"; go ""; go "x"; go "subfolder/."],
   map Filepath.Dir [go "/a/b.txt"; go "a/b/"; go "x"; go "/x"; go "a//b/c"],
   map Filepath.Ext [go "a.tar.gz"; go "a"; go "a.b/c"; go ".x"; go "a."])
  = ([go "b.txt"; go "b"; go "/"; go "."; go "x"; go "."],
     [go "/a"; go "a/b"; go "."; go "/"; go "a/b"],
     [go ".gz"; go ""; go ""; go ".x"; go "."]).
Proof. vm_compute. reflexivity. Qed.

Example utf8_examples :
  (Utf8.ValidString (go "Valid"), Utf8.ValidString [bytechr 255; bytechr 254],
   Utf8.ValidString [bytechr 228; bytechr 184; bytechr 173],
   map fst (Utf8.runes [bytechr 228; bytechr 184; bytechr 173; "a"%char; bytechr 195; bytechr 145]),
   Utf8.EncodeRune 20013, Utf8.ValidString [bytechr 237; bytechr 160; bytechr 128],
   Strings.TrimSpace (go "  ab c 	"), Strings.TrimSpace [bytechr 194; bytechr 160; "x"%char; bytechr 227; bytechr 128; bytechr 128])
  = (true, false, true, [20013; 97; 209], [bytechr 228; bytechr 184; bytechr 173], false, go "ab c", go "x").
Proof. vm_compute. reflexivity. Qed.

Example SanitizeFilename_tests :
  map (Security.SanitizeFilename Unicode.latin1ToUpper)
      [go "document.txt"; go "my document.txt"; go "folder/file\name.txt";
       go "CON.txt"; go "con.txt"; go "PRN"; go ""; go "   "; go "..."; go "___";
       Strings.Repeat (go "a") 255 ++ go ".txt"; Strings.Repeat (go "b") 265;
       go "file   name.txt"; go "file<>|name?*.txt"; go "...___file.txt";
       go "file.txt...__"; go "file" ++ [bytechr 255; bytechr 254] ++ go ".txt";
       go "../../../etc/passwd"]
  = [Ok (go "document.txt"); Ok (go "my_document.txt"); Ok (go "folder_file_name.txt");
     Ok (go "_CON.txt"); Ok (go "_con.txt"); Ok (go "_PRN");
     Err Security.ErrEmptyFilename; Err Security.ErrEmptyFilename;
     Err Security.ErrInvalidFilename; Err Security.ErrInvalidFilename;
     Ok (Strings.Repeat (go "a") 251 ++ go ".txt"); Ok (Strings.Repeat (go "b") 255);
     Ok (go "file_name.txt"); Ok (go "file_name_.txt"); Ok (go "file.txt");
     Ok (go "file.txt"); Err Security.ErrUnsafeCharacters; Ok (go "etc_passwd")].
Proof. vm_compute. reflexivity. Qed.

Example ValidatePath_tests :
  map (fun p => Security.ValidatePath (Some (go "/srv")) p (go "/safe/storage"))
      [go "subfolder/file.txt"; go "file.txt"; go "../../../etc/passwd";
       go "subdir/../../../etc/passwd"; go "..%2F..%2F..%2Fetc%2Fpasswd";
       go "file.txt" ++ [Security.nul] ++ go ".exe"; go "";
       go "folder//subfolder///file.txt"; go "./file.txt"; go "a/../b"; go "report..txt"]
  = [None; None; Some Security.ErrPathTraversal; Some Security.ErrPathTraversal;
     Some Security.ErrPathTraversal; Some Security.ErrUnsafeCharacters;
     Some Security.ErrEmptyFilename; None; None; None; Some Security.ErrPathTraversal].
Proof. vm_compute. reflexivity. Qed.

(** ** Generic list facts *)

Lemma Forall_dropWhile {A} (P : A -> Prop) (p : A -> bool) (l : list A) :
  Forall P l -> Forall P (dropWhile p l).
Proof.
  induction 1 as [|x l Hx Hl IH]; simpl; [constructor|].
  destruct (p x); [exact IH | constructor; assumption].
Qed.

Lemma Forall_takeWhile {A} (P : A -> Prop) (p : A -> bool) (l : list A) :
  Forall P l -> Forall P (takeWhile p l).
Proof.
  induction 1 as [|x l Hx Hl IH]; simpl; [constructor|].
  destruct (p x); constructor; assumption.
Qed.

Lemma Forall_dropWhileEnd {A} (P : A -> Prop) (p : A -> bool) (l : list A) :
  Forall P l -> Forall P (dropWhileEnd p l).
Proof.
  intros H. unfold dropWhileEnd.
  apply Forall_rev, Forall_dropWhile, Forall_rev, H.
Qed.

(** ** The sanitizer (C2) *)

Lemma safeByte_spec (c : ascii) :
  safeByte c ->
  c <> "/"%char /\ c <> "\"%char /\ c <> Security.nul /\ 32 <= byteval c.
Proof.
  unfold safeByte, Regexp.unsafeChars_match. intros H.
  repeat (apply orb_false_elim in H; destruct H as [H ?]).
  repeat split; try (intros ->; vm_compute in *; congruence).
  lia.
Qed.

Lemma safeByte_underscore : safeByte Regexp.underscore.
Proof. reflexivity. Qed.

Lemma unsafeChars_ReplaceAllString_safe (s : gostring) :
  Forall safeByte (Regexp.unsafeChars_ReplaceAllString s).
Proof.
  unfold Regexp.unsafeChars_ReplaceAllString.
  induction s as [|c s IH]; simpl; constructor; [|exact IH].
  destruct (Regexp.unsafeChars_match c) eqn:E; [apply safeByte_underscore | exact E].
Qed.

Lemma underscores_ReplaceAllString_safe (s : gostring) :
  Forall safeByte s -> Forall safeByte (Regexp.underscores_ReplaceAllString s).
Proof.
  induction 1 as [|c s Hc Hs IH]; simpl; [constructor|].
  destruct (_ && _); [exact IH | constructor; assumption].
Qed.

Lemma Trim_safe (s cutset : gostring) :
  Forall safeByte s -> Forall safeByte (Strings.Trim s cutset).
Proof.
  intros H. unfold Strings.Trim, Strings.TrimRight, Strings.TrimLeft.
  apply Forall_dropWhileEnd, Forall_dropWhile, H.
Qed.

Lemma extFrom_safe (r acc : gostring) :
  Forall safeByte r -> Forall safeByte acc -> Forall safeByte (Filepath.extFrom r acc).
Proof.
  intros Hr. revert acc.
  induction Hr as [|c r Hc Hr IH]; simpl; intros acc Hacc; [constructor|].
  destruct (Filepath.isSep c); [constructor|].
  destruct (Ascii.eqb c "."); [constructor; assumption|].
  apply IH. constructor; assumption.
Qed.

Lemma Ext_safe (s : gostring) :
  Forall safeByte s -> Forall safeByte (Filepath.Ext s).
Proof.
  intros H. apply extFrom_safe; [apply Forall_rev, H | constructor].
Qed.

(** C2.  Whenever [SanitizeFilename] succeeds, the name it returns holds no
    path separator (slash or backslash), no NUL byte and no control byte
    (0x00 to 0x1F), and is at most 255 bytes long. *)
Theorem SanitizeFilename_safe (unicode_ToUpper : Z -> Z) (filename name : gostring) :
  Security.SanitizeFilename unicode_ToUpper filename = Ok name ->
  Forall (fun c => c <> "/"%char /\ c <> "\"%char /\ c <> Security.nul
                   /\ 32 <= byteval c) name
  /\ len name <= 255.
Proof.
  unfold Security.SanitizeFilename.
  repeat (case_bool_decide; [discriminate|]).
  destruct (negb _); [discriminate|].
  case_bool_decide; [discriminate|].
  case_bool_decide; [discriminate|].
  set (s0 := Strings.Trim _ _).
  assert (Hs0 : Forall safeByte s0).
  { apply Trim_safe, underscores_ReplaceAllString_safe,
      unsafeChars_ReplaceAllString_safe. }
  set (s1 := if Security.reservedNames _ then _ else _).
  assert (Hs1 : Forall safeByte s1).
  { subst s1. destruct (Security.reservedNames _); [constructor|]; auto.
    apply safeByte_underscore. }
  clearbody s1. clear Hs0. intros [= <-].
  assert (Hext : Forall safeByte (Filepath.Ext s1)) by (apply Ext_safe, Hs1).
  unfold Security.MaxFilenameLength, len in *.
  split.
  - eapply Forall_impl; [|intros c Hc; apply safeByte_spec, Hc].
    repeat match goal with
           | |- context [if ?b then _ else _] => destruct b
           end;
      rewrite ?Forall_app; repeat split;
      auto using Forall_take.
  - repeat match goal with
           | |- context [if ?b then _ else _] => destruct b eqn:?
           end;
      rewrite ?length_app, ?length_take; lia.
Qed.

Example time_examples :
  (Time.FormatFilename (Time.mkTime 63839664000 0 0),
   Time.FormatFilename (Time.mkTime (62135596800 + 1718454896) 5 0),
   Time.FormatFilename Time.zero,
   Model.uuidString (map bytechr [0;1;2;3;4;5;6;7;8;9;10;11;12;13;14;255]))
  = (go "2024-01-01_00-00-00", go "2024-06-15_12-34-56", go "0001-01-01_00-00-00",
     go "00010203-0405-4607-8809-0a0b0c0d0eff").
Proof. vm_compute. reflexivity. Qed.

Lemma SanitizeFilename_safe_witness :
  Security.SanitizeFilename Unicode.latin1ToUpper (go "my report/2024 : final?.txt")
  = Ok (go "my_report_2024_final_.txt")
  /\ Forall (fun c => c <> "/"%char /\ c <> "\"%char /\ c <> Security.nul
                      /\ 32 <= byteval c) (go "my_report_2024_final_.txt")
  /\ len (go "my_report_2024_final_.txt") <= 255.
Proof.
  split; [reflexivity|].
  apply (SanitizeFilename_safe Unicode.latin1ToUpper (go "my report/2024 : final?.txt")).
  reflexivity.
Defined.

(** ** Induction on data trees *)

Lemma Value_induction (P : Value -> Prop) :
  (forall s, P (VString s)) ->
  (forall entries, Forall (fun kv => P (snd kv)) entries -> P (VMap entries)) ->
  (forall elems, Forall P elems -> P (VSlice elems)) ->
  (forall bits, P (VFloat64 bits)) ->
  (forall n, P (VInt n)) ->
  (forall n, P (VInt64 n)) ->
  (forall b, P (VBool b)) ->
  P VNil ->
  (forall k, P (VOther k)) ->
  forall v, P v.
Proof.
  intros HS HM HL HF HI HI64 HB HN HO.
  fix IH 1.
  intros [s|entries|elems|bits|n|n|b| |k].
  - apply HS.
  - apply HM. induction entries as [|[key sub] entries IHe]; constructor.
    + apply IH.
    + exact IHe.
  - apply HL. induction elems as [|e elems IHe]; constructor.
    + apply IH.
    + exact IHe.
  - apply HF.
  - apply HI.
  - apply HI64.
  - apply HB.
  - exact HN.
  - apply HO.
Qed.

(** ** The depth limit of the data walk (C5) *)

Lemma nestingDepth_nonneg (v : Value) : 0 <= Spec.nestingDepth v.
Proof.
  destruct v as [s|entries|elems|bits|n|n|b| |k]; simpl; try lia.
  - induction entries as [|[key sub] rest IH]; lia.
  - induction elems as [|e rest IH]; lia.
Qed.

Lemma validateDataStructure_too_deep (v : Value) (d : Z) :
  Validator.MaxNestingDepth < d ->
  Validator.validateDataStructure v d = Some (Validator.NestingTooDeep d).
Proof.
  intros Hd. unfold Validator.MaxNestingDepth in Hd.
  destruct v; simpl; unfold Validator.MaxNestingDepth;
    destruct (Z.gtb_spec d 5); try lia; reflexivity.
Qed.

Lemma validateDataStructure_within_depth (v : Value) :
  forall d,
    Spec.withinLimits v = true ->
    d + Spec.nestingDepth v <= Validator.MaxNestingDepth ->
    Validator.validateDataStructure v d = None.
Proof.
  unfold Validator.MaxNestingDepth.
  induction v as [s|entries IH|elems IH|bits|n|n|b| |k] using Value_induction;
    intros d HW Hd; pose proof (nestingDepth_nonneg) as Hnn;
    simpl in *; unfold Validator.MaxNestingDepth;
    (destruct (Z.gtb_spec d 5) as [Hgt|_];
     [ exfalso; first [ lia
                      | pose proof (Hnn (VMap entries)); simpl in *; lia
                      | pose proof (Hnn (VSlice elems)); simpl in *; lia ] | ]);
    try reflexivity.
  - (* string *)
    apply andb_prop in HW as [HW Hunsafe]. apply andb_prop in HW as [Hlen Hvalid].
    unfold Validator.MaxStringLength in *.
    destruct (Z.gtb_spec (len s) 10000); [lia|].
    rewrite Hvalid. simpl.
    destruct (Validator.containsUnsafeCharacters s); [discriminate | reflexivity].
  - (* object *)
    apply andb_prop in HW as [Hcount HW].
    unfold Validator.MaxObjectKeys in *.
    destruct (Z.gtb_spec (Z.of_nat (length entries)) 100) as [|Hle]; [lia|].
    clear Hcount Hle.
    induction IH as [|[key sub] rest Hsub _ IHrest]; [reflexivity|].
    simpl in *.
    apply andb_prop in HW as [HW Hrest]. apply andb_prop in HW as [HW Hsubw].
    apply andb_prop in HW as [Hklen Hkvalid].
    unfold Validator.validateKey.
    destruct (Z.gtb_spec (len key) 100); [lia|].
    rewrite Hkvalid. simpl.
    rewrite (Hsub (d + 1) Hsubw) by lia.
    apply IHrest; [exact Hrest | lia].
  - (* array *)
    apply andb_prop in HW as [Hcount HW].
    unfold Validator.MaxArrayLength in *.
    destruct (Z.gtb_spec (Z.of_nat (length elems)) 1000) as [|Hle]; [lia|].
    clear Hcount Hle.
    generalize 0 as i.
    induction IH as [|e rest He _ IHrest]; intros i; [reflexivity|].
    simpl in *.
    apply andb_prop in HW as [Hew Hrest].
    rewrite (He (d + 1) Hew) by lia.
    apply IHrest; [exact Hrest | lia].
  - (* other kinds *)
    rewrite HW. reflexivity.
Qed.

Lemma validateDataStructure_beyond_depth (v : Value) :
  forall d,
    Spec.withinLimits v = true ->
    d <= Validator.MaxNestingDepth + 1 ->
    Validator.MaxNestingDepth < d + Spec.nestingDepth v ->
    exists e,
      Validator.validateDataStructure v d = Some e
      /\ Validator.rootCause e
         = Validator.NestingTooDeep (Validator.MaxNestingDepth + 1).
Proof.
  unfold Validator.MaxNestingDepth.
  induction v as [s|entries IH|elems IH|bits|n|n|b| |k] using Value_induction;
    intros d HW Hd6 Hex;
    (destruct (Z.le_gt_cases d 5) as [Hd|Hd];
     [ | assert (d = 6) as -> by lia;
         rewrite validateDataStructure_too_deep by (unfold Validator.MaxNestingDepth; lia);
         eexists; split; reflexivity ]);
    simpl in Hex; try lia; simpl; unfold Validator.MaxNestingDepth;
    (destruct (Z.gtb_spec d 5) as [Hgt|_]; [lia|]).
  - (* object *)
    simpl in HW. apply andb_prop in HW as [Hcount HW].
    unfold Validator.MaxObjectKeys in *.
    destruct (Z.gtb_spec (Z.of_nat (length entries)) 100) as [|Hle]; [lia|].
    clear Hcount Hle.
    induction IH as [|[key sub] rest Hsub _ IHrest]; [simpl in Hex; lia|].
    simpl in *.
    apply andb_prop in HW as [HW Hrest]. apply andb_prop in HW as [HW Hsubw].
    apply andb_prop in HW as [Hklen Hkvalid].
    unfold Validator.validateKey.
    destruct (Z.gtb_spec (len key) 100); [lia|].
    rewrite Hkvalid. simpl.
    destruct (Z.le_gt_cases (d + 1 + Spec.nestingDepth sub) 5) as [Hfits|Hdeep].
    + rewrite (validateDataStructure_within_depth sub (d + 1) Hsubw)
        by (unfold Validator.MaxNestingDepth; lia).
      apply IHrest; [exact Hrest | lia].
    + destruct (Hsub (d + 1) Hsubw) as (e & -> & Hroot); [lia | lia |].
      eexists; split; [reflexivity | exact Hroot].
  - (* array *)
    simpl in HW. apply andb_prop in HW as [Hcount HW].
    unfold Validator.MaxArrayLength in *.
    destruct (Z.gtb_spec (Z.of_nat (length elems)) 1000) as [|Hle]; [lia|].
    clear Hcount Hle.
    generalize 0 as i.
    induction IH as [|e0 rest He _ IHrest]; intros i; [simpl in Hex; lia|].
    simpl in *.
    apply andb_prop in HW as [Hew Hrest].
    destruct (Z.le_gt_cases (d + 1 + Spec.nestingDepth e0) 5) as [Hfits|Hdeep].
    + rewrite (validateDataStructure_within_depth e0 (d + 1) Hew)
        by (unfold Validator.MaxNestingDepth; lia).
      apply IHrest; [exact Hrest | lia].
    + destruct (He (d + 1) Hew) as (e & -> & Hroot); [lia | lia |].
      eexists; split; [reflexivity | exact Hroot].
Qed.

Example json_examples :
  (Json.Marshal (Some [(go "b", VInt 1); (go "a", VSlice [VString (go "x<y"); VBool true; VNil])]),
   Json.MarshalIndent
     (Model.mkPayload (go "Hello") [] (Some [(go "a", VInt 1); (go "m", VMap [])])
                      (go "id-1") (Time.mkTime 63839664000 5000000 0) [] []))
  = (Some (go "{" ++ Json.encodeString (go "a") ++ go ":[" ++ [Json.quote]
             ++ go "x" ++ [Json.backslash] ++ go "u003cy" ++ [Json.quote] ++ go ",true,null],"
             ++ Json.encodeString (go "b") ++ go ":1}"),
     Some (concat
       [go "{"; [bytechr 10];
        go "  "; Json.encodeString (go "title"); go ": "; Json.encodeString (go "Hello"); go ","; [bytechr 10];
        go "  "; Json.encodeString (go "data"); go ": {"; [bytechr 10];
        go "    "; Json.encodeString (go "a"); go ": 1,"; [bytechr 10];
        go "    "; Json.encodeString (go "m"); go ": {}"; [bytechr 10];
        go "  },"; [bytechr 10];
        go "  "; Json.encodeString (go "id"); go ": "; Json.encodeString (go "id-1"); go ","; [bytechr 10];
        go "  "; Json.encodeString (go "timestamp"); go ": ";
                 Json.encodeString (go "2024-01-01T00:00:00.005Z"); [bytechr 10];
        go "}"])).
Proof. vm_compute. reflexivity. Qed.

(** Floating-point numbers as the encoder writes them: 1, 0.1, 3.14, 1e21,
    1e-7, 1e-6, 1/3, the least positive number, the greatest finite number,
    2^53, 1e20, -2.5, 0.1 + 0.2, negative zero, the least normal number and
    1234.5678; infinity and NaN are errors.  The escapes of backspace and
    form feed. *)
Example json_float_examples :
  map Json.encodeFloat
      [4607182418800017408; 4591870180066957722; 4614253070214989087;
       4921056587992461136; 4502148214488346440; 4517329193108106637;
       4599676419421066581; 1; 9218868437227405311; 4845873199050653696;
       4906019910204099648; 13836183955189006336; 4599075939470750516;
       9223372036854775808; 4503599627370496; 4653144502051863213;
       9218868437227405312; 9221120237041090561]
  = [Some (go "1"); Some (go "0.1"); Some (go "3.14"); Some (go "1e+21");
     Some (go "1e-7"); Some (go "0.000001"); Some (go "0.3333333333333333");
     Some (go "5e-324"); Some (go "1.7976931348623157e+308");
     Some (go "9007199254740992"); Some (go "100000000000000000000");
     Some (go "-2.5"); Some (go "0.30000000000000004"); Some (go "-0");
     Some (go "2.2250738585072014e-308"); Some (go "1234.5678"); None; None]
  /\ Json.Marshal (Some [(go "n", VFloat64 4609434218613702656)])
     = Some (go "{" ++ Json.encodeString (go "n") ++ go ":1.5}")
  /\ Json.encodeString [bytechr 8; bytechr 12; bytechr 1]
     = Json.quote :: Json.backslash :: go "b" ++ Json.backslash :: go "f"
         ++ Json.backslash :: go "u0001" ++ [Json.quote].
Proof. vm_compute. repeat split; reflexivity. Qed.

(** C5.  With the maximum nesting depth 5, a data tree that is nested to
    exactly 5 container levels (its deepest value lies 5 object or array
    boundaries below the top-level data object) passes data-field
    validation, and a tree nested to 6 levels (or more) fails with a
    nesting-too-deep error.  The depth counter is 0 at the top-level data
    object and grows by one with each container boundary entered: a value
    reached with counter [d] is accepted exactly when [d] plus the nesting
    below it stays within 5.  (All other limits are assumed to be met.) *)
Theorem nesting_depth_limit
        (config : Config.Config)
        (json_Marshal : option (list (gostring * Value)) -> option gostring)
        (data : list (gostring * Value)) (jsonData : gostring) :
  json_Marshal (Some data) = Some jsonData ->
  len jsonData <= Config.GetMaxDataSize config ->
  Spec.withinLimits (VMap data) = true ->
  Validator.MaxNestingDepth = 5
  /\ (Spec.nestingDepth (VMap data) <= 5 ->
      Validator.validateDataField config json_Marshal (Some data) = None)
  /\ (6 <= Spec.nestingDepth (VMap data) ->
      exists e,
        Validator.validateDataField config json_Marshal (Some data)
        = Some (Validator.ValidationFailed (go "data") (Validator.DataStructure e))
        /\ Validator.rootCause e = Validator.NestingTooDeep 6)
  /\ (forall v d,
        Spec.withinLimits v = true ->
        (Validator.validateDataStructure v d = None
         <-> d + Spec.nestingDepth v <= 5)).
Proof.
  intros Hjson Hsize HW.
  split; [reflexivity|].
  unfold Validator.validateDataField. rewrite Hjson.
  destruct (Z.gtb_spec (len jsonData) (Config.GetMaxDataSize config)) as [|_]; [lia|].
  cbn [Model.entries].
  split; [|split].
  - intros Hd.
    rewrite (validateDataStructure_within_depth (VMap data) 0 HW)
      by (unfold Validator.MaxNestingDepth; lia).
    reflexivity.
  - intros Hd.
    destruct (validateDataStructure_beyond_depth (VMap data) 0 HW) as (e & -> & Hroot);
      [unfold Validator.MaxNestingDepth; lia ..|].
    exists e. split; [reflexivity | exact Hroot].
  - intros v d Hv. split.
    + intros Hnone.
      destruct (Z.le_gt_cases (d + Spec.nestingDepth v) 5) as [|Hdeep]; [assumption|].
      exfalso.
      destruct (Z.le_gt_cases d 6) as [Hd|Hd].
      * destruct (validateDataStructure_beyond_depth v d Hv) as (e & He & _);
          [unfold Validator.MaxNestingDepth; lia ..|].
        congruence.
      * rewrite validateDataStructure_too_deep in Hnone
          by (unfold Validator.MaxNestingDepth; lia).
        discriminate.
    + intros Hd. apply validateDataStructure_within_depth; [exact Hv|].
      unfold Validator.MaxNestingDepth. lia.
Qed.

Lemma nesting_depth_limit_witness :
  let data := [(go "level1", Spec.nest (go "level") 4 (VString (go "value")))] in
  Spec.nestingDepth (VMap data) = 5
  /\ Validator.validateDataField Config.default Json.Marshal (Some data) = None.
Proof.
  split; [reflexivity|].
  refine (proj1 (proj2 (nesting_depth_limit Config.default Json.Marshal
                          [(go "level1", Spec.nest (go "level") 4 (VString (go "value")))]
                          _ eq_refl _ _)) _);
    vm_compute; congruence.
Defined.

(** The tree of the validator's own test (six objects below the data object)
    is rejected; so is a leaf below five such objects, which the walk reaches
    with counter 6; a leaf below four objects passes. *)
Example nesting_examples :
  map (fun n => option_map Validator.rootCause
                  (Validator.validateDataStructure
                     (VMap [(go "level1", Spec.nest (go "level") n
                                            (VMap [(go "deep", VString (go "value"))]))]) 0))
      [5%nat; 4%nat; 3%nat]
  = [Some (Validator.NestingTooDeep 6); Some (Validator.NestingTooDeep 6); None].
Proof. vm_compute. reflexivity. Qed.

(** ** The size check precedes the walk (C8) *)

(** C8.  In data-field validation the serialized size of the whole data
    tree is compared with the configured maximum before the recursive walk:
    whenever the size exceeds the maximum the result is the data-too-large
    error, whatever the walk would report on the tree (no per-node check
    contributes), and the walk alone decides the result only once the size
    is within the maximum. *)
Theorem data_size_checked_before_walk
        (config : Config.Config)
        (json_Marshal : option (list (gostring * Value)) -> option gostring)
        (data : option (list (gostring * Value))) (jsonData : gostring) :
  json_Marshal data = Some jsonData ->
  (Config.GetMaxDataSize config < len jsonData ->
   Validator.validateDataField config json_Marshal data
   = Some (Validator.ValidationFailed (go "data")
             (Validator.DataTooLarge (len jsonData) (Config.GetMaxDataSize config))))
  /\ (len jsonData <= Config.GetMaxDataSize config ->
      Validator.validateDataField config json_Marshal data
      = match Validator.validateDataStructure (VMap (Model.entries data)) 0 with
        | Some err => Some (Validator.ValidationFailed (go "data")
                              (Validator.DataStructure err))
        | None => None
        end).
Proof.
  intros Hjson. unfold Validator.validateDataField. rewrite Hjson.
  destruct (Z.gtb_spec (len jsonData) (Config.GetMaxDataSize config)); split;
    intros; try lia; reflexivity.
Qed.

Lemma data_size_checked_before_walk_witness :
  let data := Some [(go "level1", Spec.nest (go "level") 9 VNil)] in
  (exists e, Validator.validateDataStructure (VMap (Model.entries data)) 0 = Some e)
  /\ exists size,
      Validator.validateDataField tinyConfig Json.Marshal data
      = Some (Validator.ValidationFailed (go "data") (Validator.DataTooLarge size 16)).
Proof.
  split; [eexists; vm_compute; reflexivity|].
  eexists.
  eapply (data_size_checked_before_walk tinyConfig Json.Marshal
            (Some [(go "level1", Spec.nest (go "level") 9 VNil)])).
  - vm_compute. reflexivity.
  - vm_compute. reflexivity.
Defined.

(** ** Keys in the data walk (C10) *)

Lemma validateKey_accepted (key : gostring) :
  (len key <=? 100) && Utf8.ValidString key = true ->
  Validator.validateKey key = None.
Proof.
  intros H. apply andb_prop in H as [Hlen Hvalid].
  unfold Validator.validateKey.
  destruct (Z.gtb_spec (len key) 100); [lia|].
  rewrite Hvalid. reflexivity.
Qed.

(** C10.  The recursive data walk checks an object key only for its byte
    length (at most 100) and for UTF-8 validity.  For every data tree whose
    keys pass these two checks, whatever bytes the keys hold (NUL and other
    control characters included), the walk gives the verdict it gives for
    the same tree under any other keys that pass the two checks: the keys
    never cause a rejection, and an unsafe-character rejection can only come
    from a string value. *)
Theorem keys_checked_for_length_and_encoding_only
        (f : gostring -> gostring) (v : Value) (d : Z) :
  Spec.keysAccepted v = true ->
  Spec.keysAccepted (Spec.renameKeys f v) = true ->
  option_map Validator.rootCause
             (Validator.validateDataStructure (Spec.renameKeys f v) d)
  = option_map Validator.rootCause (Validator.validateDataStructure v d).
Proof.
  revert d.
  induction v as [s|entries IH|elems IH|bits|n|n|b| |k] using Value_induction;
    intros d HK HK'; try reflexivity.
  - (* object *)
    simpl. destruct (d >? Validator.MaxNestingDepth); [reflexivity|].
    match goal with
    | |- context [length (?g entries)] =>
      assert (Hlen : length (g entries) = length entries)
        by (clear; induction entries as [|[key sub] rest IHl]; simpl; congruence)
    end.
    rewrite Hlen. clear Hlen.
    destruct (Z.of_nat (length entries) >? Validator.MaxObjectKeys); [reflexivity|].
    simpl in HK, HK'.
    induction IH as [|[key sub] rest Hsub _ IHrest]; [reflexivity|].
    simpl in *.
    apply andb_prop in HK as [HK Hrest]. apply andb_prop in HK as [Hkey Hsubk].
    apply andb_prop in HK' as [HK' Hrest']. apply andb_prop in HK' as [Hkey' Hsubk'].
    rewrite (validateKey_accepted key Hkey), (validateKey_accepted (f key) Hkey').
    specialize (Hsub (d + 1) Hsubk Hsubk').
    destruct (Validator.validateDataStructure (Spec.renameKeys f sub) (d + 1)),
             (Validator.validateDataStructure sub (d + 1));
      simpl in Hsub |- *; try congruence.
    apply IHrest; assumption.
  - (* array *)
    simpl. destruct (d >? Validator.MaxNestingDepth); [reflexivity|].
    match goal with
    | |- context [length (?g elems)] =>
      assert (Hlen : length (g elems) = length elems)
        by (clear; induction elems as [|e rest IHl]; simpl; congruence)
    end.
    rewrite Hlen. clear Hlen.
    destruct (Z.of_nat (length elems) >? Validator.MaxArrayLength); [reflexivity|].
    simpl in HK, HK'.
    generalize 0 as i.
    induction IH as [|e rest He _ IHrest]; intros i; [reflexivity|].
    simpl in *.
    apply andb_prop in HK as [Hek Hrest].
    apply andb_prop in HK' as [Hek' Hrest'].
    specialize (He (d + 1) Hek Hek').
    destruct (Validator.validateDataStructure (Spec.renameKeys f e) (d + 1)),
             (Validator.validateDataStructure e (d + 1));
      simpl in He |- *; try congruence.
    apply IHrest; assumption.
Qed.

Lemma keys_checked_for_length_and_encoding_only_witness :
  let clean := VMap [(go "key", VMap [(go "key", VString (go "value"))])] in
  let hostile := Spec.renameKeys (fun _ => [Security.nul; bytechr 7; bytechr 27]) clean in
  Validator.containsUnsafeCharacters [Security.nul; bytechr 7; bytechr 27] = true
  /\ Validator.validateDataStructure clean 0 = None
  /\ option_map Validator.rootCause (Validator.validateDataStructure hostile 0) = None.
Proof.
  split; [reflexivity|]. split; [reflexivity|].
  exact (keys_checked_for_length_and_encoding_only
           (fun _ => [Security.nul; bytechr 7; bytechr 27])
           (VMap [(go "key", VMap [(go "key", VString (go "value"))])]) 0
           eq_refl eq_refl).
Defined.

(** ** Reserved field names (C6) *)






(** ** The format of [source] (C7) *)

Lemma Contains_singleton (s : gostring) (c : ascii) :
  In c s -> Strings.Contains s [c] = true.
Proof.
  induction s as [|x s IH]; simpl; [tauto|].
  intros [->|Hin].
  - rewrite Ascii.eqb_refl. destruct s; reflexivity.
  - rewrite (IH Hin). apply orb_true_r.
Qed.

Lemma firstContained_some (s : gostring) (chars : list gostring) (char : gostring) :
  In char chars -> Strings.Contains s char = true ->
  Validator.firstContained s chars <> None.
Proof.
  induction chars as [|c0 chars IH]; simpl; [tauto|].
  intros [->|Hin] Hc.
  - rewrite Hc. discriminate.
  - destruct (Strings.Contains s c0); [discriminate | auto].
Qed.

Lemma validateSourceFormat_rejects (source : gostring) :
  Strings.Contains source (go " ") = true
  \/ Strings.Contains source (go "..") = true
  \/ existsb Spec.isDangerous source = true ->
  Validator.validateSourceFormat source <> None.
Proof.
  unfold Validator.validateSourceFormat.
  intros [H|[H|H]].
  - rewrite H. discriminate.
  - destruct (Strings.Contains source (go " ")); [discriminate|].
    rewrite H. discriminate.
  - destruct (Strings.Contains source (go " ")); [discriminate|].
    destruct (Strings.Contains source (go "..")); [discriminate|].
    apply existsb_exists in H as (c & Hin & Hc).
    unfold Spec.isDangerous in Hc. apply bool_decide_eq_true in Hc.
    assert (Hcontained : Validator.firstContained source Validator.dangerousChars <> None).
    { apply (firstContained_some source _ [c]); [|apply Contains_singleton, Hin].
      unfold Validator.dangerousChars.
      repeat (apply elem_of_cons in Hc as [->|Hc]; [simpl; tauto|]).
      apply elem_of_nil in Hc. contradiction. }
    destruct (Validator.firstContained source Validator.dangerousChars);
      [discriminate | contradiction].
Qed.

(** C7, as the code has it.  A payload with a non-empty source is rejected
    by validation whenever the source contains a space, one of the
    characters less-than, greater-than, double quote, apostrophe, ampersand,
    semicolon or vertical bar, or two consecutive dots. *)
Theorem source_format_rejections
        (config : Config.Config) (unicode_ToLower : Z -> Z)
        (json_Marshal : option (list (gostring * Value)) -> option gostring)
        (p : Model.WebhookPayload) :
  Model.Source p <> [] ->
  Strings.Contains (Model.Source p) (go " ") = true
  \/ Strings.Contains (Model.Source p) (go "..") = true
  \/ existsb Spec.isDangerous (Model.Source p) = true ->
  Validator.Validate config unicode_ToLower json_Marshal (Some p) <> None.
Proof.
  intros Hset Hbad.
  unfold Validator.Validate.
  destruct (Validator.ValidateStructure (Some p)); [discriminate|].
  destruct (Validator.ValidateContent config json_Marshal (Some p)); [discriminate|].
  unfold Validator.validateBusinessRules.
  destruct (Validator.firstReserved _ _); [discriminate|].
  unfold Validator.ifSet at 1.
  rewrite bool_decide_eq_false_2 by exact Hset. simpl.
  pose proof (validateSourceFormat_rejects _ Hbad) as Hfmt.
  destruct (Validator.validateSourceFormat (Model.Source p)); [discriminate | contradiction].
Qed.

Lemma source_format_rejections_witness :
  Validator.Validate Config.default Unicode.latin1ToLower Json.Marshal
                     (Some (sourcePayload (go "api;example")))
  <> None.
Proof.
  apply source_format_rejections.
  - discriminate.
  - right. right. reflexivity.
Defined.

(** C7 as stated fails: a source holding a tab, a newline or a carriage
    return (and nothing else that is rejected) passes the whole validation. *)
Lemma source_with_tab_newline_or_return_accepted :
  Forall (fun source => source <> [] /\ existsb Spec.isListedWhitespace source = true)
         [go "api" ++ [tab] ++ go "example"; go "api" ++ [bytechr 10] ++ go "example";
          go "api" ++ [bytechr 13] ++ go "example"]
  /\ map (fun source => Validator.Validate Config.default Unicode.latin1ToLower Json.Marshal
                          (Some (sourcePayload source)))
         [go "api" ++ [tab] ++ go "example"; go "api" ++ [bytechr 10] ++ go "example";
          go "api" ++ [bytechr 13] ++ go "example"]
     = [None; None; None].
Proof.
  split.
  - repeat constructor; discriminate.
  - vm_compute. reflexivity.
Qed.

(** ** The file store *)

Example Write_hello :
  let '(s, p, r) := FileStore.Write testConfig calmEnv Unicode.latin1ToUpper
                                    Json.MarshalIndent storageOnly (Some helloPayload) in
  r = Ok (go "/var/hokku/2024-01-01_00-00-00_03142536-4758-497a-8b9c-adbecfe0f102_Hello.json")
  /\ option_map Model.ID p = Some (go "03142536-4758-497a-8b9c-adbecfe0f102")
  /\ map fst (map_to_list (OS.files s))
     = [go "/var/hokku";
        go "/var/hokku/2024-01-01_00-00-00_03142536-4758-497a-8b9c-adbecfe0f102_Hello.json"]
  /\ (match r, p with
      | Ok path, Some p' =>
        match OS.files s !! path, Json.MarshalIndent p' with
        | Some (OS.File content mode), Some text => content = text /\ mode = 420
        | _, _ => False
        end
      | _, _ => False
      end).
Proof. vm_compute. repeat split; reflexivity. Qed.

(** ** Substrings, splitting and joining *)

Lemma HasPrefix_app (s t : gostring) : Strings.HasPrefix (s ++ t) s = true.
Proof.
  induction s as [|c s IH]; simpl; [reflexivity|].
  rewrite Ascii.eqb_refl. exact IH.
Qed.

Lemma Contains_nil (s : gostring) : Strings.Contains s [] = true.
Proof. destruct s; reflexivity. Qed.

Lemma Contains_app_r (x y sub : gostring) :
  Strings.Contains y sub = true -> Strings.Contains (x ++ y) sub = true.
Proof.
  intros H. induction x as [|c x IH]; simpl; [exact H|].
  rewrite IH. apply orb_true_r.
Qed.

Lemma Contains_app_l (x y sub : gostring) :
  Strings.Contains x sub = true -> Strings.Contains (x ++ y) sub = true.
Proof.
  revert sub. induction x as [|c x IH]; intros sub H.
  - destruct sub; [apply Contains_nil | discriminate].
  - simpl in H. apply orb_prop in H as [H|H].
    + assert (Hp : Strings.HasPrefix ((c :: x) ++ y) sub = true).
      { clear IH. revert sub H. generalize (c :: x). intros l.
        induction l as [|a l IHl]; intros [|b sub] H; simpl in *;
          try reflexivity; try discriminate.
        apply andb_prop in H as [-> H]. simpl. auto. }
      simpl in Hp |- *. rewrite Hp. reflexivity.
    + simpl. rewrite (IH _ H). apply orb_true_r.
Qed.

Lemma Split_nonempty (s : gostring) (sep : ascii) : Strings.Split s sep <> [].
Proof.
  destruct s as [|c s]; simpl; [discriminate|].
  destruct (Ascii.eqb c sep); [discriminate|].
  destruct (Strings.Split s sep); discriminate.
Qed.

Lemma Split_app (x y : gostring) (sep : ascii) :
  Strings.Split (x ++ sep :: y) sep = Strings.Split x sep ++ Strings.Split y sep.
Proof.
  induction x as [|c x IH]; simpl.
  - rewrite Ascii.eqb_refl. reflexivity.
  - destruct (Ascii.eqb c sep); [rewrite IH; reflexivity|].
    rewrite IH. pose proof (Split_nonempty x sep).
    destruct (Strings.Split x sep); [contradiction | reflexivity].
Qed.

Lemma Split_no_separator (s : gostring) (sep : ascii) :
  ~ In sep s -> Strings.Split s sep = [s].
Proof.
  induction s as [|c s IH]; simpl; intros Hin; [reflexivity|].
  destruct (Ascii.eqb_spec c sep) as [->|_]; [tauto|].
  rewrite IH by tauto. reflexivity.
Qed.

Lemma Split_head_prefix (s : gostring) (sep : ascii) (h : gostring) (rest : list gostring) :
  Strings.Split s sep = h :: rest -> Strings.HasPrefix s h = true.
Proof.
  revert h rest. induction s as [|c s IH]; simpl; intros h rest.
  - intros [= <- <-]. reflexivity.
  - destruct (Ascii.eqb c sep).
    + intros [= <- <-]. reflexivity.
    + pose proof (Split_nonempty s sep).
      destruct (Strings.Split s sep) as [|h' rest'] eqn:E; [contradiction|].
      intros [= <- <-]. simpl. rewrite Ascii.eqb_refl. eapply IH. reflexivity.
Qed.

(** An element of a split string is a substring of it. *)
Lemma Split_element_contained (s : gostring) (sep : ascii) (elem : gostring) :
  In elem (Strings.Split s sep) -> Strings.Contains s elem = true.
Proof.
  induction s as [|c s IH]; simpl.
  - intros [<-|[]]. reflexivity.
  - destruct (Ascii.eqb c sep).
    + intros [<-|Hin]; [reflexivity|]. rewrite (IH Hin). apply orb_true_r.
    + pose proof (Split_nonempty s sep).
      destruct (Strings.Split s sep) as [|h rest] eqn:E; [contradiction|].
      intros [<-|Hin].
      * simpl. rewrite Ascii.eqb_refl.
        rewrite (Split_head_prefix s sep h rest E). reflexivity.
      * rewrite IH by (right; exact Hin). apply orb_true_r.
Qed.

Lemma Join_snoc (l : list gostring) (b sep : gostring) :
  Strings.Join (l ++ [b]) sep
  = match l with
    | [] => b
    | _ => Strings.Join l sep ++ sep ++ b
    end.
Proof.
  induction l as [|a l IH]; [reflexivity|].
  destruct l as [|a' l']; [reflexivity|].
  change (Strings.Join ((a :: a' :: l') ++ [b]) sep)
    with (a ++ sep ++ Strings.Join ((a' :: l') ++ [b]) sep).
  rewrite IH.
  change (Strings.Join (a :: a' :: l') sep) with (a ++ sep ++ Strings.Join (a' :: l') sep).
  rewrite <- !app_assoc. reflexivity.
Qed.

(** ** Path validation (C1) *)

Lemma ValidatePath_cleaned_dotdot (wd : option gostring) (path baseDir : gostring) :
  Spec.passesPathGuards path ->
  Strings.Contains (Filepath.Clean path) (go "..") = true ->
  Security.ValidatePath wd path baseDir = Some Security.ErrPathTraversal.
Proof.
  intros (Hne & Hnul & Hlen) Hdots.
  unfold Security.ValidatePath.
  rewrite bool_decide_eq_false_2 by exact Hne.
  rewrite Hnul.
  destruct (Z.gtb_spec (len path) Security.MaxPathLength); [lia|].
  rewrite Hdots. reflexivity.
Qed.

(** C1, as the code has it.  For every path that passes the first guards
    (not empty, no NUL byte, at most 4096 bytes) and whose lexically cleaned
    form still has a [..] segment, [ValidatePath] returns the path-traversal
    error, whatever the base directory. *)
Theorem ValidatePath_rejects_remaining_dotdot
        (wd : option gostring) (path baseDir : gostring) :
  Spec.passesPathGuards path ->
  Spec.hasDotDotSegment (Filepath.Clean path) ->
  Security.ValidatePath wd path baseDir = Some Security.ErrPathTraversal.
Proof.
  intros Hguards Hseg.
  apply ValidatePath_cleaned_dotdot; [exact Hguards|].
  apply (Split_element_contained _ Filepath.Separator), Hseg.
Qed.

Lemma ValidatePath_rejects_remaining_dotdot_witness :
  Filepath.Clean (go "subdir/../../../etc/passwd") = go "../../etc/passwd"
  /\ Security.ValidatePath (Some (go "/srv")) (go "subdir/../../../etc/passwd")
                           (go "/safe/storage")
     = Some Security.ErrPathTraversal.
Proof.
  split; [reflexivity|].
  apply ValidatePath_rejects_remaining_dotdot.
  - repeat split; [discriminate | vm_compute; congruence].
  - vm_compute. tauto.
Defined.

(** C1 as stated fails: a path with a [..] segment that cleaning resolves
    inside the base directory is accepted. *)
Lemma ValidatePath_accepts_resolved_dotdot :
  Spec.hasDotDotSegment (go "a/../b")
  /\ Security.ValidatePath (Some (go "/srv")) (go "a/../b") (go "/safe/storage") = None.
Proof.
  split.
  - vm_compute. tauto.
  - vm_compute. reflexivity.
Qed.

(** ** Payload metadata (C4) *)

Lemma uuidString_nonempty (random : gostring) : Model.uuidString random <> [].
Proof.
  unfold Model.uuidString.
  destruct (Hex.EncodeToString _); discriminate.
Qed.

(** The payload [Write] hands back is the one it was given after the two
    conditional assignments at its start. *)
Lemma Write_payload
      (config : Config.Config) (env : OS.Env) (unicode_ToUpper : Z -> Z)
      (json_MarshalIndent : Model.WebhookPayload -> option gostring)
      (s s' : OS.State) (p : Model.WebhookPayload)
      (p' : option Model.WebhookPayload) (r : result gostring FileStore.FileError) :
  FileStore.Write config env unicode_ToUpper json_MarshalIndent s (Some p) = (s', p', r) ->
  let p1 := if bool_decide (Model.ID p = [])
            then Model.GenerateID (snd (OS.draw env s 16)) p else p in
  p' = Some (if Time.IsZero (Model.Timestamp p1)
             then Model.SetTimestamp (OS.now env) p1 else p1).
Proof.
  unfold FileStore.Write. intros H. cbv zeta.
  destruct (bool_decide (Model.ID p = []));
    [destruct (OS.draw env s 16) as [sd bytes]; cbn [snd]|];
    cbv beta iota zeta in H;
    match type of H with
    | context [FileStore.generateSecureFilename _ _ ?s0 ?q] =>
      generalize dependent q; generalize dependent s0
    end; intros s0 q H;
    (destruct (FileStore.generateSecureFilename env unicode_ToUpper s0 q) as [s1 [base|e]];
     [|inversion H; reflexivity]);
    (destruct (Security.IsSecurePath _ _ _ _); [inversion H; reflexivity|]);
    (destruct (FileStore.ensureDirectoryExists _ _ _) as [s2 [e|]];
     [inversion H; reflexivity|]);
    (destruct (json_MarshalIndent q); [|inversion H; reflexivity]);
    (destruct (_ >? _); [inversion H; reflexivity|]);
    destruct (FileStore.writeFileAtomically _ _ _ _) as [s3 [e|]];
    inversion H; reflexivity.
Qed.

(** C4.  [Write] assigns the identifier and the timestamp of the payload
    only when they are unset and keeps a value that is already there; every
    other field (title, description, data, source, type) is left as it was.
    Once both are set (the clock never shows the zero instant), a second
    call, in whatever environment, leaves the payload as it is. *)
Theorem Write_assigns_metadata_once
        (config : Config.Config) (env : OS.Env) (unicode_ToUpper : Z -> Z)
        (json_MarshalIndent : Model.WebhookPayload -> option gostring)
        (s s' : OS.State) (p : Model.WebhookPayload)
        (p' : option Model.WebhookPayload) (r : result gostring FileStore.FileError) :
  FileStore.Write config env unicode_ToUpper json_MarshalIndent s (Some p) = (s', p', r) ->
  exists q,
    p' = Some q
    /\ Model.Title q = Model.Title p
    /\ Model.Description q = Model.Description p
    /\ Model.Data q = Model.Data p
    /\ Model.Source q = Model.Source p
    /\ Model.Type_ q = Model.Type_ p
    /\ (Model.ID p <> [] -> Model.ID q = Model.ID p)
    /\ (Model.ID p = [] ->
        Model.ID q = Model.uuidString (snd (OS.draw env s 16)) /\ Model.ID q <> [])
    /\ (Time.IsZero (Model.Timestamp p) = false -> Model.Timestamp q = Model.Timestamp p)
    /\ (Time.IsZero (Model.Timestamp p) = true ->
        Model.Timestamp q = Time.UTC (OS.now env))
    /\ (Time.IsZero (OS.now env) = false ->
        forall config2 env2 unicode_ToUpper2 json_MarshalIndent2 s2 s2' q' r2,
          FileStore.Write config2 env2 unicode_ToUpper2 json_MarshalIndent2 s2 (Some q)
          = (s2', q', r2) ->
          q' = Some q).
Proof.
  intros H. apply Write_payload in H. cbv zeta in H.
  eexists. split; [exact H|]. clear H.
  generalize (snd (OS.draw env s 16)). intros random.
  pose proof (uuidString_nonempty random) as Huuid.
  unfold Model.GenerateID, Model.SetTimestamp, Model.setID, Model.setTimestampField.
  generalize dependent (Model.uuidString random). intros uuid Huuid.
  destruct p as [title description data id timestamp source type_].
  cbn [Model.ID Model.Timestamp Model.Title Model.Description Model.Data
       Model.Source Model.Type_].
  destruct (bool_decide_reflect (id = [])) as [Hempty|Hset];
    cbn [Model.ID Model.Timestamp Model.Title Model.Description Model.Data
         Model.Source Model.Type_];
    destruct (Time.IsZero timestamp) eqn:Hzero;
    cbn [Model.ID Model.Timestamp Model.Title Model.Description Model.Data
         Model.Source Model.Type_].
  all: repeat (split; [first [reflexivity | congruence | (intros _; split; [reflexivity|exact Huuid])]|]).
  all: intros Hclock config2 env2 up2 mi2 s2 s2' q' r2 H2;
    apply Write_payload in H2; cbv zeta in H2; rewrite H2; clear H2;
    unfold Model.GenerateID, Model.SetTimestamp, Model.setID, Model.setTimestampField;
    cbn [Model.ID Model.Timestamp Model.Title Model.Description Model.Data
         Model.Source Model.Type_];
    try rewrite (bool_decide_eq_false_2 _ Huuid);
    try rewrite (bool_decide_eq_false_2 _ Hset);
    cbn [Model.ID Model.Timestamp Model.Title Model.Description Model.Data
         Model.Source Model.Type_];
    try (change (Time.IsZero (Time.UTC (OS.now env))) with (Time.IsZero (OS.now env));
         rewrite Hclock);
    rewrite ?Hzero; reflexivity.
Qed.

Lemma Write_assigns_metadata_once_witness :
  exists q,
    snd (fst (FileStore.Write testConfig calmEnv Unicode.latin1ToUpper Json.MarshalIndent
                              storageOnly (Some helloPayload))) = Some q
    /\ Model.Title q = go "Hello"
    /\ Model.Data q = Some [(go "a", VInt 1)]
    /\ Model.ID q <> []
    /\ Model.Timestamp q = Time.UTC (OS.now calmEnv).
Proof.
  destruct (FileStore.Write testConfig calmEnv Unicode.latin1ToUpper Json.MarshalIndent
                            storageOnly (Some helloPayload)) as [[s' p'] r] eqn:Hrun.
  destruct (Write_assigns_metadata_once _ _ _ _ _ _ _ _ _ Hrun)
    as (q & Hq & Htitle & _ & Hdata & _ & _ & _ & Hid & _ & Htime & _).
  exists q. repeat split.
  - exact Hq.
  - exact Htitle.
  - exact Hdata.
  - apply Hid. reflexivity.
  - apply Htime. reflexivity.
Defined.

(** ** What the sanitizer returns, as a path element *)

Lemma dropWhile_suffix {A} (p : A -> bool) (l : list A) :
  exists pre, l = pre ++ dropWhile p l.
Proof.
  induction l as [|x l [pre IH]]; simpl.
  - exists []. reflexivity.
  - destruct (p x).
    + exists (x :: pre). simpl. f_equal. exact IH.
    + exists []. reflexivity.
Qed.

Lemma dropWhile_head {A} (p : A -> bool) (l : list A) (x : A) (rest : list A) :
  dropWhile p l = x :: rest -> p x = false.
Proof.
  induction l as [|y l IH]; simpl; [discriminate|].
  destruct (p y) eqn:E; [exact IH|].
  intros [= <- <-]. exact E.
Qed.

Lemma dropWhileEnd_prefix {A} (p : A -> bool) (l : list A) :
  exists suf, l = dropWhileEnd p l ++ suf.
Proof.
  unfold dropWhileEnd.
  destruct (dropWhile_suffix p (rev l)) as [pre Hpre].
  exists (rev pre).
  rewrite <- rev_app_distr, <- Hpre, rev_involutive. reflexivity.
Qed.

Lemma Trim_head (s cutset : gostring) (c : ascii) (rest : gostring) :
  Strings.Trim s cutset = c :: rest -> Strings.ContainsByte cutset c = false.
Proof.
  unfold Strings.Trim, Strings.TrimRight, Strings.TrimLeft. intros H.
  destruct (dropWhileEnd_prefix (Strings.ContainsByte cutset)
                                (dropWhile (Strings.ContainsByte cutset) s)) as [suf Hsuf].
  rewrite H in Hsuf. simpl in Hsuf.
  apply (dropWhile_head _ _ _ _ Hsuf).
Qed.

(** The name the sanitizer returns is made of safe bytes and does not begin
    with a dot. *)
Lemma SanitizeFilename_shape (unicode_ToUpper : Z -> Z) (filename name : gostring) :
  Security.SanitizeFilename unicode_ToUpper filename = Ok name ->
  Forall safeByte name
  /\ exists c rest, name = c :: rest /\ c <> "."%char.
Proof.
  unfold Security.SanitizeFilename.
  case_bool_decide; [discriminate|].
  destruct (negb _); [discriminate|].
  case_bool_decide; [discriminate|].
  destruct (Strings.Trim _ _) as [|c0 rest0] eqn:Htrim; [discriminate|].
  rewrite bool_decide_eq_false_2 by discriminate.
  assert (Hsafe0 : Forall safeByte (c0 :: rest0)).
  { rewrite <- Htrim.
    apply Trim_safe, underscores_ReplaceAllString_safe,
      unsafeChars_ReplaceAllString_safe. }
  assert (Hc0 : c0 <> "."%char).
  { apply Trim_head in Htrim. intros ->. vm_compute in Htrim. discriminate. }
  clear Htrim.
  set (s1 := if Security.reservedNames _ then _ else _).
  assert (Hs1 : Forall safeByte s1 /\ exists c rest, s1 = c :: rest /\ c <> "."%char).
  { subst s1. destruct (Security.reservedNames _).
    - split; [constructor; [apply safeByte_underscore | exact Hsafe0]|].
      eexists _, _. split; [reflexivity | discriminate].
    - split; [exact Hsafe0|]. eexists _, _. split; [reflexivity | exact Hc0]. }
  clearbody s1. clear Hsafe0 Hc0 c0 rest0.
  destruct Hs1 as (Hs1 & c & rest & -> & Hc).
  intros [= <-].
  pose proof (Ext_safe _ Hs1) as Hext.
  unfold Security.MaxFilenameLength, len.
  destruct (Z.gtb_spec (Z.of_nat (length (c :: rest))) 255) as [Hlong|_].
  2:{ split; [exact Hs1|]. eexists _, _. split; [reflexivity | exact Hc]. }
  destruct ((_ >? 0) && (_ <? 10)) eqn:Hextlen.
  2:{ split; [apply (Forall_take safeByte 255 (c :: rest)), Hs1|].
      eexists _, _. split; [reflexivity | exact Hc]. }
  apply andb_prop in Hextlen as [Hext0 Hext10].
  destruct (Z.gtb_spec (255 - Z.of_nat (length (Filepath.Ext (c :: rest)))) 0) as [Hpos|_].
  2:{ split; [apply (Forall_take safeByte 255 (c :: rest)), Hs1|].
      eexists _, _. split; [reflexivity | exact Hc]. }
  split.
  - apply Forall_app. split; [apply Forall_take, Forall_take, Hs1 | exact Hext].
  - apply Z.ltb_lt in Hext10.
    match goal with
    | |- context [take ?a (take ?b (c :: rest))] =>
      assert (Ha : a <> 0%nat) by lia;
      assert (Hb : b <> 0%nat) by (cbn [length] in *; lia);
      destruct a; [contradiction|]; destruct b; [contradiction|]
    end.
    simpl. eexists _, _. split; [reflexivity | exact Hc].
Qed.

Lemma shape_pathElement (name : gostring) :
  Forall safeByte name ->
  (exists c rest, name = c :: rest /\ c <> "."%char) ->
  Spec.pathElement name.
Proof.
  intros Hsafe (c & rest & -> & Hc).
  repeat split.
  - discriminate.
  - intros Hin. rewrite Forall_forall in Hsafe.
    apply list_elem_of_In, Hsafe, safeByte_spec in Hin. tauto.
  - intros [= -> _]. congruence.
  - intros [= -> _]. congruence.
Qed.

(** ** [Clean] keeps a last proper element *)

Lemma cleanStep_element (rooted : bool) (out : list gostring) (e : gostring) :
  Spec.pathElement e -> Filepath.cleanStep rooted out e = e :: out.
Proof.
  intros (Hne & _ & Hdot & Hdotdot). unfold Filepath.cleanStep.
  rewrite !bool_decide_eq_false_2 by assumption. reflexivity.
Qed.

Lemma Clean_keeps_last_element (path e : gostring) :
  Spec.pathElement e ->
  Spec.endsWithElement path e ->
  Spec.endsWithElement (Filepath.Clean path) e.
Proof.
  intros He [->|[x ->]].
  - left. destruct He as (Hne & Hsep & Hdot & Hdotdot).
    unfold Filepath.Clean.
    rewrite bool_decide_eq_false_2 by exact Hne.
    rewrite Split_no_separator by exact Hsep.
    assert (Habs : Filepath.IsAbs e = false).
    { destruct e as [|c rest]; [contradiction|].
      unfold Filepath.IsAbs. simpl.
      destruct (Ascii.eqb_spec c Filepath.Separator) as [->|_]; [|reflexivity].
      exfalso. apply Hsep. left. reflexivity. }
    rewrite Habs. simpl.
    rewrite cleanStep_element by (repeat split; assumption).
    reflexivity.
  - unfold Filepath.Clean.
    rewrite bool_decide_eq_false_2 by (destruct x; discriminate).
    rewrite Split_app, (Split_no_separator e) by apply He.
    rewrite fold_left_app. simpl.
    rewrite cleanStep_element by exact He.
    set (out := fold_left _ _ _).
    simpl rev. rewrite Join_snoc.
    destruct (Filepath.IsAbs _).
    + right. destruct (rev out) as [|a l].
      * exists []. reflexivity.
      * exists (Filepath.Separator :: Strings.Join (a :: l) [Filepath.Separator]).
        reflexivity.
    + rewrite bool_decide_eq_false_2 by discriminate.
      destruct (rev out) as [|a l].
      * left. reflexivity.
      * right. exists (Strings.Join (a :: l) [Filepath.Separator]). reflexivity.
Qed.

Lemma Join_ends_with_element (dir e : gostring) :
  Spec.pathElement e ->
  Spec.endsWithElement (Filepath.Join [dir; e]) e.
Proof.
  intros He. unfold Filepath.Join. simpl.
  destruct He as (Hne & Hrest).
  case_bool_decide as Hdir.
  - rewrite bool_decide_eq_false_2 by exact Hne.
    destruct e as [|c rest]; [contradiction|].
    apply Clean_keeps_last_element; [split; assumption | left; reflexivity].
  - destruct dir as [|d dir']; [contradiction|].
    apply Clean_keeps_last_element; [split; assumption|].
    right. exists (d :: dir'). reflexivity.
Qed.

Lemma endsWithElement_Contains (path e sub : gostring) :
  Spec.endsWithElement path e ->
  Strings.Contains e sub = true -> Strings.Contains path sub = true.
Proof.
  intros [->|[x ->]] H; [exact H|].
  apply Contains_app_r. simpl. rewrite H. apply orb_true_r.
Qed.

(** ** Consecutive dots in a file name (C9) *)

Lemma ValidatePath_dots_rejected (wd : option gostring) (path baseDir : gostring) :
  Strings.Contains (Filepath.Clean path) (go "..") = true ->
  Security.ValidatePath wd path baseDir <> None.
Proof.
  intros Hdots. unfold Security.ValidatePath.
  case_bool_decide; [discriminate|].
  destruct (Strings.Contains path [Security.nul]); [discriminate|].
  destruct (len path >? Security.MaxPathLength); [discriminate|].
  rewrite Hdots. discriminate.
Qed.

Lemma generateSecureFilename_generated
      (env : OS.Env) (unicode_ToUpper : Z -> Z) (s : OS.State)
      (payload : Model.WebhookPayload) (name : gostring) :
  Spec.generatedName unicode_ToUpper payload = Ok name ->
  FileStore.generateSecureFilename env unicode_ToUpper s payload = (s, Ok name).
Proof.
  unfold Spec.generatedName, FileStore.generateSecureFilename. intros H.
  destruct (Time.IsZero (Model.Timestamp payload)); rewrite H; reflexivity.
Qed.


Lemma generatedName_element (unicode_ToUpper : Z -> Z) (payload : Model.WebhookPayload)
      (name : gostring) :
  Spec.generatedName unicode_ToUpper payload = Ok name -> Spec.pathElement name.
Proof.
  unfold Spec.generatedName. intros Hname.
  destruct (SanitizeFilename_shape _ _ _ Hname) as [Hsafe Hhead].
  exact (shape_pathElement _ Hsafe Hhead).
Qed.

Lemma IsSecurePath_rejects_cleaned_dots
      (unicode_ToUpper : Z -> Z) (wd : option gostring) (path baseDir : gostring) :
  Strings.Contains (Filepath.Clean path) (go "..") = true ->
  exists err,
    Security.IsSecurePath unicode_ToUpper wd path baseDir = Some err
    /\ (Spec.passesPathGuards path -> err = Security.ErrPathTraversal).
Proof.
  intros Hdots.
  pose proof (ValidatePath_dots_rejected wd path baseDir Hdots) as Hvalidate.
  unfold Security.IsSecurePath.
  destruct (Security.ValidatePath wd path baseDir) as [err|] eqn:E; [|contradiction].
  exists err. split; [reflexivity|].
  intros Hguards.
  rewrite (ValidatePath_cleaned_dotdot wd path baseDir Hguards Hdots) in E.
  congruence.
Qed.

Lemma Join_element_dots (dir name : gostring) :
  Spec.pathElement name ->
  Strings.Contains name (go "..") = true ->
  Strings.Contains (Filepath.Clean (Filepath.Join [dir; name])) (go "..") = true.
Proof.
  intros Helem Hdots.
  pose proof (Join_ends_with_element dir name Helem) as Hjoin.
  pose proof (Clean_keeps_last_element _ _ Helem Hjoin) as Hclean.
  exact (endsWithElement_Contains _ _ _ Hclean Hdots).
Qed.

(** When the generated file name holds two consecutive dots, [Write] stops
    at its path validation. *)
Lemma Write_dotted_name
      (config : Config.Config) (env : OS.Env) (unicode_ToUpper : Z -> Z)
      (json_MarshalIndent : Model.WebhookPayload -> option gostring)
      (s s' : OS.State) (p q : Model.WebhookPayload)
      (r : result gostring FileStore.FileError) (name : gostring) :
  FileStore.Write config env unicode_ToUpper json_MarshalIndent s (Some p) = (s', Some q, r) ->
  Spec.generatedName unicode_ToUpper q = Ok name ->
  Strings.Contains name (go "..") = true ->
  exists err,
    r = Err (FileStore.PathValidation
               (Filepath.Join [Config.GetStoragePath config; name]) err)
    /\ (Spec.passesPathGuards (Filepath.Join [Config.GetStoragePath config; name]) ->
        err = Security.ErrPathTraversal).
Proof.
  intros Hrun Hname Hdots.
  pose proof (Write_payload _ _ _ _ _ _ _ _ _ Hrun) as Hq. cbv zeta in Hq.
  destruct (IsSecurePath_rejects_cleaned_dots unicode_ToUpper (OS.wd env)
              (Filepath.Join [Config.GetStoragePath config; name])
              (Config.GetStoragePath config)
              (Join_element_dots _ _ (generatedName_element _ _ _ Hname) Hdots))
    as (err & Hsecure & Hkind).
  exists err. split; [|exact Hkind].
  unfold FileStore.Write in Hrun.
  destruct (bool_decide (Model.ID p = []));
    [destruct (OS.draw env s 16) as [sd bytes]; cbn [snd] in Hq|];
    cbv beta iota zeta in Hrun;
    match type of Hq with
    | Some q = Some ?q' => set (qq := q') in *; clearbody qq
    end;
    injection Hq as <-;
    rewrite (generateSecureFilename_generated env unicode_ToUpper _ q name Hname) in Hrun;
    rewrite Hsecure in Hrun;
    injection Hrun as _ Hr; subst r; reflexivity.
Qed.

(** C9, as the code has it.  [ValidatePath] answers with the path-traversal
    error for every path that passes its first guards (not empty, no NUL
    byte, at most 4096 bytes) and whose cleaned form holds two consecutive
    dots anywhere, also inside a single file name; [IsSecurePath] fails on
    the same paths with the same error; and [Write] fails in its path
    validation for every payload whose generated file name (sanitized and cut
    to 255 bytes) still holds two consecutive dots, although such a path
    never leaves the storage directory. *)
Theorem consecutive_dots_rejected
        (config : Config.Config) (env : OS.Env) (unicode_ToUpper : Z -> Z)
        (json_MarshalIndent : Model.WebhookPayload -> option gostring) :
  (forall wd path baseDir,
      Spec.passesPathGuards path ->
      Strings.Contains (Filepath.Clean path) (go "..") = true ->
      Security.ValidatePath wd path baseDir = Some Security.ErrPathTraversal
      /\ Security.IsSecurePath unicode_ToUpper wd path baseDir
         = Some Security.ErrPathTraversal)
  /\ (forall s s' p q r name,
         FileStore.Write config env unicode_ToUpper json_MarshalIndent s (Some p)
         = (s', Some q, r) ->
         Spec.generatedName unicode_ToUpper q = Ok name ->
         Strings.Contains name (go "..") = true ->
         exists err,
           r = Err (FileStore.PathValidation
                      (Filepath.Join [Config.GetStoragePath config; name]) err)
           /\ (Spec.passesPathGuards (Filepath.Join [Config.GetStoragePath config; name]) ->
               err = Security.ErrPathTraversal)).
Proof.
  split.
  - intros wd path baseDir Hguards Hdots.
    pose proof (ValidatePath_cleaned_dotdot wd path baseDir Hguards Hdots) as Hvalidate.
    split; [exact Hvalidate|].
    unfold Security.IsSecurePath. rewrite Hvalidate. reflexivity.
  - intros s s' p q r name Hrun Hname Hdots.
    exact (Write_dotted_name _ _ _ _ _ _ _ _ _ _ Hrun Hname Hdots).
Qed.

Lemma consecutive_dots_rejected_witness :
  Security.ValidatePath (Some (go "/srv")) (go "report..txt") (go "/safe/storage")
  = Some Security.ErrPathTraversal
  /\ Security.IsSecurePath Unicode.latin1ToUpper (Some (go "/srv")) (go "report..txt")
                           (go "/safe/storage")
     = Some Security.ErrPathTraversal
  /\ exists fullPath,
      snd (FileStore.Write testConfig calmEnv Unicode.latin1ToUpper Json.MarshalIndent
                           storageOnly (Some reportPayload))
      = Err (FileStore.PathValidation fullPath Security.ErrPathTraversal).
Proof.
  pose proof (consecutive_dots_rejected testConfig calmEnv Unicode.latin1ToUpper
                                        Json.MarshalIndent) as [Hpath Hwrite].
  split; [|split].
  - apply (Hpath (Some (go "/srv")) (go "report..txt") (go "/safe/storage")).
    + repeat split; [discriminate | vm_compute; congruence].
    + reflexivity.
  - apply (Hpath (Some (go "/srv")) (go "report..txt") (go "/safe/storage")).
    + repeat split; [discriminate | vm_compute; congruence].
    + reflexivity.
  - destruct (FileStore.Write testConfig calmEnv Unicode.latin1ToUpper Json.MarshalIndent
                              storageOnly (Some reportPayload)) as [[s' p'] r] eqn:Hrun.
    assert (Hp' : exists q, p' = Some q /\ Spec.generatedName Unicode.latin1ToUpper q
              = Ok (go "2024-01-01_00-00-00_03142536-4758-497a-8b9c-adbecfe0f102_report..txt.json")).
    { eexists. split.
      - exact (Write_payload _ _ _ _ _ _ _ _ _ Hrun).
      - vm_compute. reflexivity. }
    destruct Hp' as (q & -> & Hname).
    destruct (Hwrite _ _ _ _ _ _ Hrun Hname eq_refl) as (err & -> & Hkind).
    eexists. simpl. rewrite Hkind; [reflexivity|].
    repeat split; [vm_compute; discriminate | vm_compute; congruence].
Defined.

(** C9 as stated fails twice.  A path whose cleaned form holds two dots is
    rejected with another error when it holds a NUL byte; and a payload
    whose sanitized title holds two consecutive dots is persisted when the
    cut to 255 bytes removes them from the generated file name. *)
Lemma dots_without_traversal_error_or_failure :
  (Strings.Contains (Filepath.Clean (go ".." ++ [Security.nul])) (go "..") = true
   /\ Security.ValidatePath (Some (go "/srv")) (go ".." ++ [Security.nul]) (go "/safe/storage")
      = Some Security.ErrUnsafeCharacters)
  /\ (Security.SanitizeFilename Unicode.latin1ToUpper (Model.Title dottedTitlePayload)
      = Ok dottedTitle
      /\ Strings.Contains dottedTitle (go "..") = true
      /\ isOk (snd (FileStore.Write testConfig calmEnv Unicode.latin1ToUpper
                                    Json.MarshalIndent storageOnly
                                    (Some dottedTitlePayload))) = true).
Proof.
  split; [split|split; [|split]]; vm_compute; reflexivity.
Qed.

Example decimal_examples :
  map Time.decimal [0; 9; 10; 99; 100; 1023; 1024; 1804289383; 4294967295]
  = [go "0"; go "9"; go "10"; go "99"; go "100"; go "1023"; go "1024";
     go "1804289383"; go "4294967295"].
Proof. vm_compute. reflexivity. Qed.

(** ** The calls of the file store, one by one *)

Lemma sameElsewhere_refl t s : Spec.sameElsewhere t s s.
Proof. intros path _. reflexivity. Qed.

Lemma sameElsewhere_trans t s1 s2 s3 :
  Spec.sameElsewhere t s1 s2 -> Spec.sameElsewhere t s2 s3 -> Spec.sameElsewhere t s1 s3.
Proof. intros H12 H23 path Hp. rewrite (H23 path Hp). apply H12, Hp. Qed.

Lemma sameElsewhere_files t s1 s2 :
  OS.files s2 = OS.files s1 -> Spec.sameElsewhere t s1 s2.
Proof. intros H path _. rewrite H. reflexivity. Qed.

Section Calls.
Variable env : OS.Env.

Lemma enter_spec s call path possible s1 ok :
  OS.enter env s call path possible = (s1, ok) ->
  OS.files s1 = OS.files s /\ OS.handles s1 = OS.handles s
  /\ OS.trace s1 = OS.Called call path ok :: OS.trace s
  /\ (ok = true -> possible = true).
Proof.
  unfold OS.enter. intros [= <- <-]. cbn.
  repeat split. intros H. apply andb_prop in H. tauto.
Qed.

Lemma Write_spec s h data s1 ok :
  OS.Write env s h data = (s1, ok) ->
  Spec.sameElsewhere h s s1 /\ OS.trace s1 = OS.Called OS.SysWrite h ok :: OS.trace s.
Proof.
  unfold OS.Write.
  destruct (OS.enter env s OS.SysWrite h (OS.isOpen s h)) as [s0 ok0] eqn:E.
  apply enter_spec in E as (Hf & Hh & Ht & _).
  assert (Happ : forall d path, path <> h ->
             OS.appendTo (OS.files s0) h d !! path = OS.files s !! path).
  { intros d path Hp. unfold OS.appendTo.
    destruct (OS.files s0 !! h) as [[c m|m]|]; rewrite <- ?Hf; [|reflexivity..].
    rewrite lookup_insert_ne by congruence. reflexivity. }
  destruct ok0.
  - intros [= <- <-]. split; [|exact Ht]. intros path Hp. cbn. apply Happ, Hp.
  - destruct (OS.isOpen s0 h); intros [= <- <-]; (split; [|exact Ht]).
    + intros path Hp. cbn. apply Happ, Hp.
    + apply sameElsewhere_files, Hf.
Qed.

Lemma Sync_spec s h s1 ok :
  OS.Sync env s h = (s1, ok) ->
  OS.files s1 = OS.files s /\ OS.trace s1 = OS.Called OS.SysSync h ok :: OS.trace s.
Proof.
  unfold OS.Sync. intros E. apply enter_spec in E as (Hf & _ & Ht & _). tauto.
Qed.

Lemma Close_spec s h s1 ok :
  OS.Close env s h = (s1, ok) ->
  OS.files s1 = OS.files s /\ OS.trace s1 = OS.Called OS.SysClose h ok :: OS.trace s.
Proof.
  unfold OS.Close.
  destruct (OS.enter env s OS.SysClose h (OS.isOpen s h)) as [s0 ok0] eqn:E.
  apply enter_spec in E as (Hf & _ & Ht & _).
  intros [= <- <-]. cbn. tauto.
Qed.

Lemma Chmod_spec s path mode s1 ok :
  OS.Chmod env s path mode = (s1, ok) ->
  Spec.sameElsewhere path s s1 /\ OS.trace s1 = OS.Called OS.SysChmod path ok :: OS.trace s.
Proof.
  unfold OS.Chmod.
  destruct (OS.enter env s OS.SysChmod path _) as [s0 ok0] eqn:E.
  apply enter_spec in E as (Hf & _ & Ht & Hposs).
  destruct ok0.
  - destruct (OS.files s0 !! path) as [[c m|m]|] eqn:El.
    + intros [= <- <-]. split; [|exact Ht].
      intros p Hp. cbn. rewrite lookup_insert_ne by congruence. rewrite Hf. reflexivity.
    + specialize (Hposs eq_refl). rewrite <- Hf, El in Hposs. discriminate.
    + specialize (Hposs eq_refl). rewrite <- Hf, El in Hposs. discriminate.
  - intros [= <- <-]. split; [apply sameElsewhere_files, Hf | exact Ht].
Qed.

Lemma Rename_spec s oldpath newpath s1 ok :
  OS.Rename env s oldpath newpath = (s1, ok) ->
  (ok = false -> OS.files s1 = OS.files s)
  /\ OS.trace s1 = OS.Called OS.SysRename oldpath ok :: OS.trace s.
Proof.
  unfold OS.Rename.
  destruct (OS.enter env s OS.SysRename oldpath _) as [s0 ok0] eqn:E.
  apply enter_spec in E as (Hf & _ & Ht & Hposs).
  destruct ok0.
  - destruct (OS.files s0 !! oldpath) as [node|] eqn:El.
    + intros [= <- <-]. split; [discriminate | exact Ht].
    + specialize (Hposs eq_refl). rewrite <- Hf, El in Hposs. discriminate.
  - intros [= <- <-]. split; [intros _; exact Hf | exact Ht].
Qed.

Lemma Remove_spec s path s1 ok :
  OS.Remove env s path = (s1, ok) ->
  Spec.sameElsewhere path s s1
  /\ OS.trace s1 = OS.Called OS.SysRemove path ok :: OS.trace s
  /\ (ok = true -> OS.files s1 !! path = None).
Proof.
  unfold OS.Remove.
  destruct (OS.enter env s OS.SysRemove path _) as [s0 ok0] eqn:E.
  apply enter_spec in E as (Hf & _ & Ht & _).
  destruct ok0; intros [= <- <-].
  - split; [|split; [exact Ht|]].
    + intros p Hp. cbn. rewrite lookup_delete_ne by congruence. rewrite Hf. reflexivity.
    + intros _. cbn. apply lookup_delete_eq.
  - split; [apply sameElsewhere_files, Hf | split; [exact Ht | discriminate]].
Qed.

Lemma cleanup_spec s t s1 :
  FileStore.cleanup env s t = s1 ->
  Spec.sameElsewhere t s s1
  /\ exists ok closed,
      OS.trace s1 = OS.Called OS.SysRemove t ok :: OS.Called OS.SysClose t closed :: OS.trace s
      /\ (ok = true -> OS.files s1 !! t = None).
Proof.
  unfold FileStore.cleanup.
  destruct (OS.Close env s t) as [s0 closed] eqn:Ec.
  destruct (OS.Remove env s0 t) as [s2 ok] eqn:Er.
  intros <-.
  apply Close_spec in Ec as (Hf & Ht).
  apply Remove_spec in Er as (Hsame & Ht2 & Hgone).
  split.
  - eapply sameElsewhere_trans; [apply sameElsewhere_files, Hf | exact Hsame].
  - exists ok, closed. rewrite Ht2, Ht. tauto.
Qed.

Lemma CreateTemp_spec s dir prefix s1 r :
  OS.CreateTemp env s dir prefix = (s1, r) ->
  match r with
  | None => OS.files s1 = OS.files s
  | Some t =>
    In t (map (fun n => OS.joinPath dir (prefix ++ Time.decimal (Z.of_N n)))
              (OS.tempNumbers env))
    /\ Spec.sameElsewhere t s s1
    /\ OS.trace s1 = OS.Called OS.SysCreateTemp t true :: OS.trace s
  end.
Proof.
  unfold OS.CreateTemp.
  set (candidates := filter _ _).
  assert (Hcand : forall t, t ∈ candidates ->
             In t (map (fun n => OS.joinPath dir (prefix ++ Time.decimal (Z.of_N n)))
                       (OS.tempNumbers env))).
  { intros t Ht. subst candidates.
    apply list_elem_of_filter in Ht as [_ Ht]. apply list_elem_of_In, Ht. }
  destruct candidates as [|t rest].
  - destruct (OS.enter env s OS.SysCreateTemp dir false) as [s0 ok0] eqn:E.
    apply enter_spec in E as (Hf & _). intros [= <- <-]. exact Hf.
  - destruct (OS.enter env s OS.SysCreateTemp t _) as [s0 ok0] eqn:E.
    apply enter_spec in E as (Hf & _ & Ht & _).
    destruct ok0; intros [= <- <-].
    + split; [apply Hcand; left|split; [|exact Ht]].
      intros p Hp. cbn. rewrite lookup_insert_ne by congruence. rewrite Hf. reflexivity.
    + exact Hf.
Qed.

(** When the atomic write fails, the destination holds what it held, and the
    temporary file, if one was created, has been removed or its removal was
    the last call made and failed. *)
Lemma writeFileAtomically_failure s filePath data s' e :
  FileStore.writeFileAtomically env s filePath data = (s', Some e) ->
  ~ In filePath (map (fun n => OS.joinPath (Filepath.Dir filePath)
                                 (FileStore.tempPrefix ++ Time.decimal (Z.of_N n)))
                     (OS.tempNumbers env)) ->
  OS.files s' !! filePath = OS.files s !! filePath
  /\ (e = FileStore.CreateTempFailed /\ OS.files s' = OS.files s
      \/ exists t ok between,
          OS.trace s' = OS.Called OS.SysRemove t ok :: between
                          ++ OS.Called OS.SysCreateTemp t true :: OS.trace s
          /\ (ok = true -> OS.files s' !! t = None)).
Proof.
  unfold FileStore.writeFileAtomically. intros Hrun Hfresh.
  destruct (OS.CreateTemp env s (Filepath.Dir filePath) FileStore.tempPrefix)
    as [s1 [t|]] eqn:Ecreate;
    apply CreateTemp_spec in Ecreate.
  2:{ injection Hrun as <- <-. rewrite Ecreate. split; [reflexivity|]. left. tauto. }
  destruct Ecreate as (Hin & Hsame1 & Htrace1).
  assert (Hne : filePath <> t) by (intros ->; contradiction).
  assert (Hdone : forall s2 between,
             Spec.sameElsewhere t s s2 ->
             OS.trace s2 = between ++ OS.Called OS.SysCreateTemp t true :: OS.trace s ->
             OS.files (FileStore.cleanup env s2 t) !! filePath = OS.files s !! filePath
             /\ (e = FileStore.CreateTempFailed
                 /\ OS.files (FileStore.cleanup env s2 t) = OS.files s
                 \/ exists t0 ok between0,
                     OS.trace (FileStore.cleanup env s2 t)
                     = OS.Called OS.SysRemove t0 ok :: between0
                         ++ OS.Called OS.SysCreateTemp t0 true :: OS.trace s
                     /\ (ok = true -> OS.files (FileStore.cleanup env s2 t) !! t0 = None))).
  { intros s2 between Hsame2 Htrace2.
    destruct (cleanup_spec s2 t _ eq_refl) as (Hsame3 & ok & closed & Htrace3 & Hgone).
    split.
    - rewrite (Hsame3 _ Hne). apply Hsame2, Hne.
    - right. exists t, ok, (OS.Called OS.SysClose t closed :: between).
      rewrite Htrace3, Htrace2. split; [reflexivity | exact Hgone]. }
  destruct (OS.Write env s1 t data) as [s2 ok2] eqn:E2.
  apply Write_spec in E2 as (Hsame2 & Htrace2).
  pose proof (sameElsewhere_trans _ _ _ _ Hsame1 Hsame2) as Hs2.
  rewrite Htrace1 in Htrace2.
  destruct ok2; cbn [negb] in Hrun.
  2:{ injection Hrun as <- <-. apply (Hdone s2 [OS.Called OS.SysWrite t false] Hs2 Htrace2). }
  destruct (OS.Sync env s2 t) as [s3 ok3] eqn:E3.
  apply Sync_spec in E3 as (Hf3 & Htrace3).
  pose proof (sameElsewhere_trans _ _ _ _ Hs2 (sameElsewhere_files t _ _ Hf3)) as Hs3.
  rewrite Htrace2 in Htrace3.
  destruct ok3; cbn [negb] in Hrun.
  2:{ injection Hrun as <- <-.
      apply (Hdone s3 [OS.Called OS.SysSync t false; OS.Called OS.SysWrite t true] Hs3 Htrace3). }
  destruct (OS.Close env s3 t) as [s4 ok4] eqn:E4.
  apply Close_spec in E4 as (Hf4 & Htrace4).
  pose proof (sameElsewhere_trans _ _ _ _ Hs3 (sameElsewhere_files t _ _ Hf4)) as Hs4.
  rewrite Htrace3 in Htrace4.
  destruct ok4; cbn [negb] in Hrun.
  2:{ injection Hrun as <- <-.
      apply (Hdone s4 [OS.Called OS.SysClose t false; OS.Called OS.SysSync t true;
                       OS.Called OS.SysWrite t true] Hs4 Htrace4). }
  destruct (OS.Chmod env s4 t 420) as [s5 ok5] eqn:E5.
  apply Chmod_spec in E5 as (Hsame5 & Htrace5).
  pose proof (sameElsewhere_trans _ _ _ _ Hs4 Hsame5) as Hs5.
  rewrite Htrace4 in Htrace5.
  destruct ok5; cbn [negb] in Hrun.
  2:{ injection Hrun as <- <-.
      apply (Hdone s5 [OS.Called OS.SysChmod t false; OS.Called OS.SysClose t true;
                       OS.Called OS.SysSync t true; OS.Called OS.SysWrite t true]
                   Hs5 Htrace5). }
  destruct (OS.Rename env s5 t filePath) as [s6 ok6] eqn:E6.
  apply Rename_spec in E6 as (Hf6 & Htrace6).
  rewrite Htrace5 in Htrace6.
  destruct ok6; cbn [negb] in Hrun; [discriminate|].
  injection Hrun as <- <-.
  apply (Hdone s6 [OS.Called OS.SysRename t false; OS.Called OS.SysChmod t true;
                   OS.Called OS.SysClose t true; OS.Called OS.SysSync t true;
                   OS.Called OS.SysWrite t true]).
  - eapply sameElsewhere_trans; [exact Hs5 | apply sameElsewhere_files, Hf6; reflexivity].
  - exact Htrace6.
Qed.

(** The atomic write reports success only after each of its six steps has
    succeeded. *)
Lemma writeFileAtomically_success s filePath data s' :
  FileStore.writeFileAtomically env s filePath data = (s', None) ->
  exists t removed closed,
    OS.trace s'
    = OS.Called OS.SysRemove t removed :: OS.Called OS.SysClose t closed
        :: OS.Called OS.SysRename t true :: OS.Called OS.SysChmod t true
        :: OS.Called OS.SysClose t true :: OS.Called OS.SysSync t true
        :: OS.Called OS.SysWrite t true :: OS.Called OS.SysCreateTemp t true
        :: OS.trace s.
Proof.
  unfold FileStore.writeFileAtomically. intros Hrun.
  destruct (OS.CreateTemp env s (Filepath.Dir filePath) FileStore.tempPrefix)
    as [s1 [t|]] eqn:Ecreate; [|discriminate].
  apply CreateTemp_spec in Ecreate as (_ & _ & Htrace1).
  destruct (OS.Write env s1 t data) as [s2 [|]] eqn:E2; [|discriminate].
  apply Write_spec in E2 as (_ & Htrace2).
  destruct (OS.Sync env s2 t) as [s3 [|]] eqn:E3; [|discriminate].
  apply Sync_spec in E3 as (_ & Htrace3).
  destruct (OS.Close env s3 t) as [s4 [|]] eqn:E4; [|discriminate].
  apply Close_spec in E4 as (_ & Htrace4).
  destruct (OS.Chmod env s4 t 420) as [s5 [|]] eqn:E5; [|discriminate].
  apply Chmod_spec in E5 as (_ & Htrace5).
  destruct (OS.Rename env s5 t filePath) as [s6 [|]] eqn:E6; [|discriminate].
  apply Rename_spec in E6 as (_ & Htrace6).
  cbn [negb] in Hrun. injection Hrun as <-.
  destruct (cleanup_spec s6 t _ eq_refl) as (_ & removed & closed & Htrace7 & _).
  exists t, removed, closed.
  rewrite Htrace7, Htrace6, Htrace5, Htrace4, Htrace3, Htrace2, Htrace1. reflexivity.
Qed.
End Calls.

(** ** [Clean] never lengthens a path *)

Lemma weight_app (l1 l2 : list gostring) : Spec.weight (l1 ++ l2) = (Spec.weight l1 + Spec.weight l2)%nat.
Proof. induction l1 as [|e l1 IH]; simpl; [reflexivity|]. rewrite IH. lia. Qed.

Lemma weight_rev (l : list gostring) : Spec.weight (rev l) = Spec.weight l.
Proof.
  induction l as [|e l IH]; simpl; [reflexivity|].
  rewrite weight_app, IH. simpl. lia.
Qed.

Lemma Join_length (l : list gostring) (sep : ascii) :
  l <> [] -> S (length (Strings.Join l [sep])) = Spec.weight l.
Proof.
  induction l as [|e l IH]; [contradiction|]. intros _.
  destruct l as [|e' l'].
  - simpl. lia.
  - change (Strings.Join (e :: e' :: l') [sep])
      with (e ++ [sep] ++ Strings.Join (e' :: l') [sep]).
    rewrite !length_app. simpl length at 2.
    change (Spec.weight (e :: e' :: l')) with (S (length e + Spec.weight (e' :: l'))).
    rewrite <- IH by discriminate. lia.
Qed.

Lemma Split_weight (x : gostring) (sep : ascii) :
  Spec.weight (Strings.Split x sep) = S (length x).
Proof.
  induction x as [|c x IH]; simpl; [reflexivity|].
  destruct (Ascii.eqb c sep).
  - simpl. rewrite IH. reflexivity.
  - pose proof (Split_nonempty x sep).
    destruct (Strings.Split x sep) as [|h rest]; [contradiction|].
    simpl in *. lia.
Qed.

Lemma cleanStep_weight (rooted : bool) (out : list gostring) (e : gostring) :
  (Spec.weight (Filepath.cleanStep rooted out e) <= Spec.weight out + S (length e))%nat.
Proof.
  unfold Filepath.cleanStep.
  repeat case_bool_decide; try lia.
  - destruct out as [|top out']; [destruct rooted; simpl; lia|].
    case_bool_decide; simpl; lia.
  - simpl. lia.
Qed.

Lemma fold_cleanStep_weight (rooted : bool) (segs acc : list gostring) :
  (Spec.weight (fold_left (Filepath.cleanStep rooted) segs acc) <= Spec.weight acc + Spec.weight segs)%nat.
Proof.
  revert acc. induction segs as [|e segs IH]; intros acc; simpl; [lia|].
  specialize (IH (Filepath.cleanStep rooted acc e)).
  pose proof (cleanStep_weight rooted acc e). lia.
Qed.

Lemma Clean_length (path : gostring) :
  path <> [] -> (length (Filepath.Clean path) <= length path)%nat.
Proof.
  intros Hne. unfold Filepath.Clean.
  rewrite bool_decide_eq_false_2 by exact Hne.
  destruct path as [|c x]; [contradiction|].
  unfold Filepath.IsAbs. cbn [Strings.HasPrefix].
  rewrite andb_true_r.
  destruct (Ascii.eqb_spec c Filepath.Separator) as [->|Hc].
  - cbn [Strings.Split]. rewrite Ascii.eqb_refl. cbn [fold_left].
    change (Filepath.cleanStep true [] []) with (@nil gostring).
    pose proof (fold_cleanStep_weight true (Strings.Split x Filepath.Separator) []) as Hw.
    rewrite Split_weight in Hw. cbn [Spec.weight] in Hw.
    destruct (fold_left _ _ _) as [|e out] eqn:E.
    + simpl. lia.
    + rewrite <- (weight_rev (e :: out)) in Hw.
      rewrite <- (Join_length (rev (e :: out)) Filepath.Separator) in Hw
        by (simpl; destruct (rev out); discriminate).
      cbn [length]. lia.
  - pose proof (fold_cleanStep_weight false (Strings.Split (c :: x) Filepath.Separator) [])
      as Hw.
    rewrite Split_weight in Hw. cbn [Spec.weight] in Hw.
    destruct (fold_left _ _ _) as [|e out] eqn:E.
    + rewrite bool_decide_eq_true_2 by reflexivity. simpl. lia.
    + rewrite bool_decide_eq_false_2 by discriminate.
      rewrite <- (weight_rev (e :: out)) in Hw.
      rewrite <- (Join_length (rev (e :: out)) Filepath.Separator) in Hw
        by (simpl; destruct (rev out); discriminate).
      lia.
Qed.

Lemma dropWhile_app_all {A} (p : A -> bool) (l1 l2 : list A) :
  Forall (fun x => p x = true) l1 -> dropWhile p (l1 ++ l2) = dropWhile p l2.
Proof. induction 1 as [|x l1 Hx _ IH]; simpl; [reflexivity|]. rewrite Hx. exact IH. Qed.

Lemma takeWhile_app_all {A} (p : A -> bool) (l1 l2 : list A) :
  Forall (fun x => p x = true) l1 -> takeWhile p (l1 ++ l2) = l1 ++ takeWhile p l2.
Proof. induction 1 as [|x l1 Hx _ IH]; simpl; [reflexivity|]. rewrite Hx, IH. reflexivity. Qed.

Lemma no_separator_rev (e : gostring) :
  ~ In Filepath.Separator e ->
  Forall (fun c => negb (Filepath.isSep c) = true) (rev e).
Proof.
  intros Hsep. apply Forall_rev, Forall_forall. intros c Hc.
  apply list_elem_of_In in Hc.
  unfold Filepath.isSep. destruct (Ascii.eqb_spec c Filepath.Separator) as [->|_];
    [contradiction | reflexivity].
Qed.

Lemma uptoLastSep_element (e : gostring) :
  ~ In Filepath.Separator e -> Filepath.uptoLastSep e = [].
Proof.
  intros Hsep. unfold Filepath.uptoLastSep.
  rewrite <- (app_nil_r (rev e)), dropWhile_app_all by apply no_separator_rev, Hsep.
  reflexivity.
Qed.

Lemma uptoLastSep_snoc (x e : gostring) :
  ~ In Filepath.Separator e ->
  Filepath.uptoLastSep (x ++ Filepath.Separator :: e) = x ++ [Filepath.Separator].
Proof.
  intros Hsep. unfold Filepath.uptoLastSep.
  rewrite rev_app_distr. simpl rev. rewrite <- app_assoc.
  rewrite dropWhile_app_all by apply no_separator_rev, Hsep.
  simpl. rewrite rev_involutive. reflexivity.
Qed.

Lemma afterLastSep_snoc (x e : gostring) :
  ~ In Filepath.Separator e ->
  Filepath.afterLastSep (x ++ Filepath.Separator :: e) = e.
Proof.
  intros Hsep. unfold Filepath.afterLastSep.
  rewrite rev_app_distr. simpl rev. rewrite <- app_assoc.
  rewrite takeWhile_app_all by apply no_separator_rev, Hsep.
  simpl. rewrite app_nil_r, rev_involutive. reflexivity.
Qed.

Lemma dropWhile_length {A} (p : A -> bool) (l : list A) :
  (length (dropWhile p l) <= length l)%nat.
Proof. induction l as [|x l IH]; simpl; [lia|]. destruct (p x); simpl; lia. Qed.

Lemma Dir_length (path : gostring) :
  (length (Filepath.Dir path) <= Nat.max 1 (length path))%nat.
Proof.
  unfold Filepath.Dir.
  assert (Hup : (length (Filepath.uptoLastSep path) <= length path)%nat).
  { unfold Filepath.uptoLastSep. rewrite length_rev.
    etransitivity; [apply dropWhile_length|]. rewrite length_rev. lia. }
  destruct (Filepath.uptoLastSep path) as [|c u] eqn:E.
  - simpl. lia.
  - pose proof (Clean_length (c :: u)) as Hc.
    specialize (Hc ltac:(discriminate)). lia.
Qed.

Lemma ancestorsFrom_length (fuel : nat) (path q : gostring) :
  In q (OS.ancestorsFrom fuel path) -> (length q <= Nat.max 1 (length path))%nat.
Proof.
  revert path. induction fuel as [|fuel IH]; intros path; simpl; [tauto|].
  case_bool_decide; [simpl; tauto|].
  pose proof (Dir_length path) as Hd.
  intros [<-|Hin]; [exact Hd|].
  apply IH in Hin. lia.
Qed.

(** The directories [MkdirAll] may create for the parent of a path that ends
    with a proper element never include the path itself. *)
Lemma parent_chain_excludes (fullPath base : gostring) :
  Spec.pathElement base ->
  Spec.endsWithElement fullPath base ->
  ~ In fullPath (Filepath.Dir fullPath :: OS.ancestors (Filepath.Dir fullPath)).
Proof.
  intros (Hne & Hsep & Hdot & Hdotdot) [->|[x ->]].
  - unfold Filepath.Dir. rewrite uptoLastSep_element by exact Hsep.
    change (Filepath.Clean []) with Filepath.dot.
    change (OS.ancestors Filepath.dot) with (@nil gostring).
    intros [H|[]]. congruence.
  - unfold Filepath.Dir. rewrite uptoLastSep_snoc by exact Hsep.
    set (parent := Filepath.Clean (x ++ [Filepath.Separator])).
    assert (Hp : (length parent <= length x + 1)%nat).
    { subst parent. etransitivity; [apply Clean_length; destruct x; discriminate|].
      rewrite length_app. simpl. lia. }
    assert (Hlong : (length x + 1 < length (x ++ Filepath.Separator :: base))%nat).
    { rewrite length_app. simpl. destruct base; [contradiction|]. simpl. lia. }
    intros [H|Hin].
    + rewrite <- H in Hlong. lia.
    + apply ancestorsFrom_length in Hin. lia.
Qed.

(** ** Temporary names and fallback names *)

Lemma digit_not_separator (k : Z) :
  0 <= k < 10 -> bytechr (48 + k) <> Filepath.Separator.
Proof.
  intros Hk.
  assert (Hcases : k = 0 \/ k = 1 \/ k = 2 \/ k = 3 \/ k = 4 \/ k = 5 \/ k = 6
                   \/ k = 7 \/ k = 8 \/ k = 9) by lia.
  repeat (destruct Hcases as [->|Hcases]; [discriminate|]). subst k. discriminate.
Qed.

Lemma digitsFrom_no_separator (fuel : nat) (n : Z) (acc : gostring) :
  0 <= n -> ~ In Filepath.Separator acc ->
  ~ In Filepath.Separator (Time.digitsFrom fuel n acc).
Proof.
  revert n acc. induction fuel as [|fuel IH]; intros n acc Hn Hacc; simpl; [exact Hacc|].
  assert (Hacc' : ~ In Filepath.Separator (bytechr (48 + n mod 10) :: acc)).
  { intros [H|H]; [|contradiction].
    apply (digit_not_separator (n mod 10)); [apply Z.mod_pos_bound; lia | exact H]. }
  destruct (n <? 10); [exact Hacc'|].
  apply IH; [apply Z.div_pos; lia | exact Hacc'].
Qed.

Lemma decimal_no_separator (n : N) :
  ~ In Filepath.Separator (Time.decimal (Z.of_N n)).
Proof.
  unfold Time.decimal. apply digitsFrom_no_separator; [lia | simpl; tauto].
Qed.

Lemma joinPath_form (dir name : gostring) :
  exists x, OS.joinPath dir name = x ++ Filepath.Separator :: name.
Proof.
  unfold OS.joinPath.
  destruct (last dir) as [c|] eqn:El.
  - destruct (Filepath.isSep c) eqn:Ec.
    + apply last_Some in El as [d' ->].
      unfold Filepath.isSep in Ec. apply Ascii.eqb_eq in Ec as ->.
      exists d'. rewrite <- app_assoc. reflexivity.
    + exists dir. reflexivity.
  - exists dir. reflexivity.
Qed.

(** No candidate for the temporary file is the destination, whose last
    element does not begin with a dot. *)
Lemma temp_candidates_exclude (fullPath base : gostring) (numbers : list N) :
  Spec.visibleElement base ->
  Spec.endsWithElement fullPath base ->
  ~ In fullPath (map (fun n => OS.joinPath (Filepath.Dir fullPath)
                                 (FileStore.tempPrefix ++ Time.decimal (Z.of_N n)))
                     numbers).
Proof.
  intros ((Hne & Hsep & _) & c & rest & Hbase & Hc) Hends Hin.
  apply in_map_iff in Hin as (n & Heq & _).
  destruct (joinPath_form (Filepath.Dir fullPath)
                          (FileStore.tempPrefix ++ Time.decimal (Z.of_N n))) as [x Hx].
  rewrite Hx in Heq. clear Hx.
  assert (Hname : ~ In Filepath.Separator
                    (FileStore.tempPrefix ++ Time.decimal (Z.of_N n))).
  { intros H. apply in_app_or in H as [H|H].
    - vm_compute in H. intuition discriminate.
    - exact (decimal_no_separator n H). }
  destruct Hends as [->|[x' ->]].
  - apply Hsep. rewrite <- Heq. apply in_or_app. right. left. reflexivity.
  - apply (f_equal Filepath.afterLastSep) in Heq.
    rewrite !afterLastSep_snoc in Heq by assumption.
    subst base. injection Heq as Hhead _. apply Hc. rewrite <- Hhead. reflexivity.
Qed.

Lemma hex_no_separator (bytes : gostring) :
  ~ In Filepath.Separator (Hex.EncodeToString bytes).
Proof.
  unfold Hex.EncodeToString.
  induction bytes as [|c bytes IH]; simpl; [tauto|].
  intros [H|[H|H]]; [| |exact (IH H)];
    destruct c as [[] [] [] [] [] [] [] []]; vm_compute in H; discriminate.
Qed.

Lemma SanitizeFilename_webhook (unicode_ToUpper : Z -> Z) :
  Security.SanitizeFilename unicode_ToUpper (go "webhook") = Ok (go "webhook").
Proof. vm_compute. reflexivity. Qed.

Lemma SanitizeFilename_json (unicode_ToUpper : Z -> Z) :
  Security.SanitizeFilename unicode_ToUpper (go "json") = Ok (go "json").
Proof. vm_compute. reflexivity. Qed.

Lemma fallback_name_visible (unicode_ToUpper : Z -> Z) (randomBytes : option gostring)
      (name : gostring) :
  Security.GenerateSecureFilename unicode_ToUpper randomBytes (go "webhook") (go "json")
  = Ok name ->
  Spec.visibleElement name.
Proof.
  unfold Security.GenerateSecureFilename.
  rewrite !bool_decide_eq_false_2 by discriminate. cbn [negb].
  rewrite SanitizeFilename_webhook.
  destruct randomBytes as [bytes|]; [|discriminate].
  rewrite !bool_decide_eq_false_2 by discriminate. cbn [negb].
  change (Strings.HasPrefix (go "json") (go ".")) with false. cbv iota.
  rewrite SanitizeFilename_json.
  intros [= <-].
  change (Strings.Join ([go "webhook"] ++ [Hex.EncodeToString bytes]) (go "_"))
    with (go "webhook" ++ go "_" ++ Hex.EncodeToString bytes).
  split; [repeat split|].
  - discriminate.
  - intros H. cbn [In] in H.
    repeat (destruct H as [H|H]; [discriminate|]).
    apply in_app_or in H as [H|H]; [exact (hex_no_separator _ H)|].
    cbn [In] in H. intuition discriminate.
  - discriminate.
  - discriminate.
  - eexists _, _. split; [reflexivity | discriminate].
Qed.

(** ** The steps of [Write] before the atomic write *)

Section Steps.
Variable env : OS.Env.

Lemma randRead_spec s n s1 r :
  OS.randRead env s n = (s1, r) ->
  OS.files s1 = OS.files s /\ exists events, OS.trace s1 = events ++ OS.trace s.
Proof.
  unfold OS.randRead.
  destruct (OS.enter env s OS.SysRandRead [] true) as [s0 ok] eqn:E.
  apply enter_spec in E as (Hf & _ & Ht & _).
  destruct ok; [unfold OS.draw|]; intros [= <- <-]; cbn; (split; [exact Hf|]);
    eexists [_]; rewrite Ht; reflexivity.
Qed.

Lemma generateSecureFilename_spec (unicode_ToUpper : Z -> Z) s payload s1 base :
  FileStore.generateSecureFilename env unicode_ToUpper s payload = (s1, Ok base) ->
  OS.files s1 = OS.files s
  /\ (exists events, OS.trace s1 = events ++ OS.trace s)
  /\ Spec.visibleElement base.
Proof.
  unfold FileStore.generateSecureFilename.
  match goal with
  | |- context [Security.SanitizeFilename unicode_ToUpper (?a ++ ?b)] =>
    generalize (a ++ b)
  end.
  intros filename.
  destruct (Security.SanitizeFilename unicode_ToUpper filename) as [name|err] eqn:Esan.
  - intros [= <- <-]. split; [reflexivity|]. split; [exists []; reflexivity|].
    destruct (SanitizeFilename_shape _ _ _ Esan) as [Hsafe Hhead].
    split; [exact (shape_pathElement _ Hsafe Hhead) | exact Hhead].
  - destruct (OS.randRead env s _) as [s0 randomBytes] eqn:Er.
    apply randRead_spec in Er as (Hf & Ht).
    destruct (Security.GenerateSecureFilename _ _ _ _) as [name|e] eqn:Eg; [|discriminate].
    intros [= <- <-]. split; [exact Hf|]. split; [exact Ht|].
    exact (fallback_name_visible _ _ _ Eg).
Qed.

Lemma fold_makeDirectory_elsewhere (perm : Z) (chain : list gostring)
      (fs : gmap gostring OS.Node) (path : gostring) :
  ~ In path chain ->
  fold_left (OS.makeDirectory perm) chain fs !! path = fs !! path.
Proof.
  revert fs. induction chain as [|d chain IH]; intros fs Hnot; simpl; [reflexivity|].
  rewrite IH by (intros H; apply Hnot; right; exact H).
  unfold OS.makeDirectory.
  destruct (OS.lookupNode fs d); [reflexivity|].
  apply lookup_insert_ne. intros ->. apply Hnot. left. reflexivity.
Qed.

Lemma ensureDirectoryExists_spec s dirPath s1 r path :
  FileStore.ensureDirectoryExists env s dirPath = (s1, r) ->
  ~ In path (dirPath :: OS.ancestors dirPath) ->
  OS.files s1 !! path = OS.files s !! path
  /\ exists events, OS.trace s1 = events ++ OS.trace s.
Proof.
  unfold FileStore.ensureDirectoryExists. intros Hrun Hnot.
  destruct (Security.ValidatePath _ _ _).
  { injection Hrun as <- <-. split; [reflexivity | exists []; reflexivity]. }
  unfold OS.Stat in Hrun.
  destruct (OS.enter env s OS.SysStat dirPath _) as [s0 ok] eqn:E.
  apply enter_spec in E as (Hf & _ & Ht & _).
  assert (Hbase : OS.files s0 !! path = OS.files s !! path
                  /\ exists events, OS.trace s0 = events ++ OS.trace s).
  { rewrite Hf. split; [reflexivity|]. eexists [_]. rewrite Ht. reflexivity. }
  destruct ok.
  2:{ injection Hrun as <- <-. exact Hbase. }
  destruct (OS.lookupNode (OS.files s0) dirPath) as [[c m|m]|].
  1,2: injection Hrun as <- <-; exact Hbase.
  unfold OS.MkdirAll in Hrun.
  destruct (OS.enter env s0 OS.SysMkdirAll dirPath _) as [s2 ok2] eqn:E2.
  apply enter_spec in E2 as (Hf2 & _ & Ht2 & _).
  destruct Hbase as (Hfiles & events & Hevents).
  destruct ok2; injection Hrun as <- <-; unfold OS.setFiles; cbn [OS.files OS.trace].
  - split.
    + etransitivity;
        [exact (fold_makeDirectory_elsewhere (OS.created env 493)
                  (dirPath :: OS.ancestors dirPath) _ path Hnot)|].
      rewrite Hf2. exact Hfiles.
    + eexists (_ :: events). rewrite Ht2, Hevents. reflexivity.
  - split.
    + rewrite Hf2. exact Hfiles.
    + eexists (_ :: events). rewrite Ht2, Hevents. reflexivity.
Qed.

Lemma draw_spec s n s1 bytes :
  OS.draw env s n = (s1, bytes) ->
  OS.files s1 = OS.files s /\ OS.trace s1 = OS.trace s.
Proof. unfold OS.draw. intros [= <- <-]. split; reflexivity. Qed.

End Steps.

(** ** What a successful atomic write leaves at the destination *)

Section Contents.
Variable env : OS.Env.

Lemma CreateTemp_content s dir prefix s1 t :
  OS.CreateTemp env s dir prefix = (s1, Some t) ->
  OS.files s1 !! t = Some (OS.File [] (OS.created env 384)).
Proof.
  unfold OS.CreateTemp.
  destruct (filter _ _) as [|c rest].
  - destruct (OS.enter env s OS.SysCreateTemp dir false); discriminate.
  - destruct (OS.enter env s OS.SysCreateTemp c _) as [s0 []]; [|discriminate].
    intros [= <- <-]. cbn. apply lookup_insert_eq.
Qed.

Lemma Write_content s h data s1 content mode :
  OS.Write env s h data = (s1, true) ->
  OS.files s !! h = Some (OS.File content mode) ->
  OS.files s1 !! h = Some (OS.File (content ++ data) mode).
Proof.
  unfold OS.Write.
  destruct (OS.enter env s OS.SysWrite h (OS.isOpen s h)) as [s0 ok0] eqn:E.
  apply enter_spec in E as (Hf & _).
  destruct ok0; [|destruct (OS.isOpen s0 h); discriminate].
  intros [= <-] Hl. cbn. unfold OS.appendTo. rewrite Hf, Hl. apply lookup_insert_eq.
Qed.

Lemma Chmod_content s path mode s1 content mode0 :
  OS.Chmod env s path mode = (s1, true) ->
  OS.files s !! path = Some (OS.File content mode0) ->
  OS.files s1 !! path = Some (OS.File content mode).
Proof.
  unfold OS.Chmod.
  destruct (OS.enter env s OS.SysChmod path _) as [s0 ok0] eqn:E.
  apply enter_spec in E as (Hf & _).
  destruct ok0; [|discriminate].
  intros Hrun Hl. rewrite Hf, Hl in Hrun. injection Hrun as <-.
  cbn. apply lookup_insert_eq.
Qed.

Lemma Rename_content s oldpath newpath s1 node :
  OS.Rename env s oldpath newpath = (s1, true) ->
  OS.files s !! oldpath = Some node ->
  OS.files s1 !! newpath = Some node.
Proof.
  unfold OS.Rename.
  destruct (OS.enter env s OS.SysRename oldpath _) as [s0 ok0] eqn:E.
  apply enter_spec in E as (Hf & _).
  destruct ok0; [|discriminate].
  intros Hrun Hl. rewrite Hf, Hl in Hrun. injection Hrun as <-.
  cbn. apply lookup_insert_eq.
Qed.

(** When the atomic write succeeds, the destination holds exactly the data,
    with mode 0644. *)
Lemma writeFileAtomically_content s filePath data s' :
  FileStore.writeFileAtomically env s filePath data = (s', None) ->
  ~ In filePath (map (fun n => OS.joinPath (Filepath.Dir filePath)
                                 (FileStore.tempPrefix ++ Time.decimal (Z.of_N n)))
                     (OS.tempNumbers env)) ->
  OS.files s' !! filePath = Some (OS.File data 420).
Proof.
  unfold FileStore.writeFileAtomically. intros Hrun Hfresh.
  destruct (OS.CreateTemp env s (Filepath.Dir filePath) FileStore.tempPrefix)
    as [s1 [t|]] eqn:Ecreate; [|discriminate].
  pose proof (CreateTemp_content _ _ _ _ _ Ecreate) as Hc1.
  apply CreateTemp_spec in Ecreate as (Hin & _).
  assert (Hne : filePath <> t) by (intros ->; contradiction).
  destruct (OS.Write env s1 t data) as [s2 []] eqn:E2; [|discriminate].
  pose proof (Write_content _ _ _ _ _ _ E2 Hc1) as Hc2.
  destruct (OS.Sync env s2 t) as [s3 []] eqn:E3; [|discriminate].
  apply Sync_spec in E3 as (Hf3 & _).
  destruct (OS.Close env s3 t) as [s4 []] eqn:E4; [|discriminate].
  apply Close_spec in E4 as (Hf4 & _).
  destruct (OS.Chmod env s4 t 420) as [s5 []] eqn:E5; [|discriminate].
  rewrite <- Hf3, <- Hf4 in Hc2.
  pose proof (Chmod_content _ _ _ _ _ _ E5 Hc2) as Hc5.
  destruct (OS.Rename env s5 t filePath) as [s6 []] eqn:E6; [|discriminate].
  pose proof (Rename_content _ _ _ _ _ E6 Hc5) as Hc6.
  cbn [negb] in Hrun. injection Hrun as <-.
  destruct (cleanup_spec env s6 t _ eq_refl) as (Hsame & _).
  rewrite (Hsame _ Hne). exact Hc6.
Qed.
End Contents.

(** ** The atomic write under a failure of each call *)

(** One call fails in each run: the [Stat] before the atomic write, then
    each of its six steps, then each of the two deferred calls. *)
Example Write_failures :
  map (fun k => snd (FileStore.Write testConfig (failingAt k) Unicode.latin1ToUpper
                                     Json.MarshalIndent storageOnly (Some helloPayload)))
      (seq 0 9)
  = [Err (FileStore.DirectoryCreation (go "/var/hokku") FileStore.StatFailed);
     Err (FileStore.AtomicWrite helloPath FileStore.CreateTempFailed);
     Err (FileStore.AtomicWrite helloPath FileStore.WriteFailed);
     Err (FileStore.AtomicWrite helloPath FileStore.SyncFailed);
     Err (FileStore.AtomicWrite helloPath FileStore.CloseFailed);
     Err (FileStore.AtomicWrite helloPath FileStore.ChmodFailed);
     Err (FileStore.AtomicWrite helloPath FileStore.RenameFailed);
     Ok helloPath; Ok helloPath].
Proof. vm_compute. reflexivity. Qed.

(** The files left behind by each of these runs: the storage directory
    alone after a failure, and the destination beside it after a success. *)
Example Write_failures_files :
  map (fun k => map fst (map_to_list (OS.files (fst (fst
         (FileStore.Write testConfig (failingAt k) Unicode.latin1ToUpper
                          Json.MarshalIndent storageOnly (Some helloPayload)))))))
      (seq 0 9)
  = [[go "/var/hokku"]; [go "/var/hokku"]; [go "/var/hokku"]; [go "/var/hokku"];
     [go "/var/hokku"]; [go "/var/hokku"]; [go "/var/hokku"];
     [go "/var/hokku"; helloPath]; [go "/var/hokku"; helloPath]].
Proof. vm_compute. reflexivity. Qed.

(** ** The removal of the temporary file *)

Section Removal.
Variable env : OS.Env.

Lemma enter_steps s call path possible s1 ok :
  OS.enter env s call path possible = (s1, ok) ->
  OS.files s1 = OS.files s
  /\ OS.steps s1 = S (OS.steps s)
  /\ ok = negb (OS.faults env (OS.steps s)) && possible.
Proof. unfold OS.enter. intros [= <- <-]. cbn. auto. Qed.

Lemma CreateTemp_present s dir prefix s1 t :
  OS.CreateTemp env s dir prefix = (s1, Some t) -> OS.files s1 !! t <> None.
Proof.
  unfold OS.CreateTemp.
  destruct (filter _ _) as [|c rest].
  - destruct (OS.enter env s OS.SysCreateTemp dir false); discriminate.
  - destruct (OS.enter env s OS.SysCreateTemp c _) as [s0 []]; [|discriminate].
    intros [= <- <-]. unfold OS.setHandles, OS.setFiles. cbn [OS.files].
    rewrite lookup_insert_eq. discriminate.
Qed.

Lemma Write_present s h data s1 ok t :
  OS.Write env s h data = (s1, ok) ->
  OS.files s !! t <> None -> OS.files s1 !! t <> None.
Proof.
  unfold OS.Write.
  destruct (OS.enter env s OS.SysWrite h (OS.isOpen s h)) as [s0 ok0] eqn:E.
  apply enter_steps in E as (Hf & _).
  assert (Happ : forall d, OS.files s !! t <> None ->
                           OS.appendTo (OS.files s0) h d !! t <> None).
  { intros d Ht. unfold OS.appendTo. rewrite Hf.
    destruct (OS.files s !! h) as [[c m|m]|]; try exact Ht.
    destruct (decide (t = h)) as [->|Hne].
    - rewrite lookup_insert_eq. discriminate.
    - rewrite lookup_insert_ne by congruence. exact Ht. }
  destruct ok0.
  - intros [= <- <-] Ht. unfold OS.setFiles. cbn [OS.files]. apply Happ, Ht.
  - destruct (OS.isOpen s0 h); intros [= <- <-] Ht.
    + unfold OS.setFiles. cbn [OS.files]. apply Happ, Ht.
    + rewrite Hf. exact Ht.
Qed.

Lemma Chmod_present s path mode s1 ok t :
  OS.Chmod env s path mode = (s1, ok) ->
  OS.files s !! t <> None -> OS.files s1 !! t <> None.
Proof.
  unfold OS.Chmod.
  destruct (OS.enter env s OS.SysChmod path _) as [s0 ok0] eqn:E.
  apply enter_steps in E as (Hf & _).
  destruct ok0; [|intros [= <- <-] Ht; rewrite Hf; exact Ht].
  rewrite Hf.
  destruct (OS.files s !! path) as [[c m|m]|] eqn:El;
    intros [= <- <-] Ht; try (rewrite Hf; exact Ht).
  unfold OS.setFiles. cbn [OS.files].
  destruct (decide (t = path)) as [->|Hne].
  - rewrite lookup_insert_eq. discriminate.
  - rewrite lookup_insert_ne by congruence. exact Ht.
Qed.

(** The deferred function on a temporary file that is still there: the
    removal is the last call made, it succeeds unless the environment makes
    that very call fail, and then the file is gone. *)
Lemma cleanup_removal s t s1 :
  FileStore.cleanup env s t = s1 ->
  OS.files s !! t <> None ->
  exists ok rest,
    OS.trace s1 = OS.Called OS.SysRemove t ok :: rest
    /\ ok = negb (OS.faults env (Nat.pred (OS.steps s1)))
    /\ (ok = true -> OS.files s1 !! t = None).
Proof.
  unfold FileStore.cleanup.
  destruct (OS.Close env s t) as [s0' closed] eqn:Ec.
  apply Close_spec in Ec as (Hf0' & _).
  unfold OS.Remove.
  destruct (OS.enter env s0' OS.SysRemove t _) as [s2 ok] eqn:Er.
  pose proof Er as Etrace. apply enter_spec in Etrace as (_ & _ & Ht & _).
  apply enter_steps in Er as (Hf2 & Hsteps & Hok).
  intros <- Hpresent.
  assert (Hposs : negb (bool_decide (OS.files s0' !! t = None)) = true).
  { rewrite Hf0'. rewrite bool_decide_eq_false_2 by exact Hpresent. reflexivity. }
  rewrite Hposs, andb_true_r in Hok.
  destruct ok.
  - exists true, (OS.trace s0'). unfold OS.setFiles. cbn [OS.trace OS.steps OS.files].
    split; [exact Ht|]. split; [rewrite Hsteps; exact Hok|].
    intros _. apply lookup_delete_eq.
  - exists false, (OS.trace s0'). split; [exact Ht|].
    split; [rewrite Hsteps; exact Hok | discriminate].
Qed.

(** A failed atomic write that got as far as creating its temporary file
    ends with the removal of that file, which succeeds unless the
    environment makes that very call fail. *)
Lemma writeFileAtomically_removal s filePath data s' e :
  FileStore.writeFileAtomically env s filePath data = (s', Some e) ->
  e = FileStore.CreateTempFailed
  \/ exists t ok rest,
      OS.trace s' = OS.Called OS.SysRemove t ok :: rest
      /\ ok = negb (OS.faults env (Nat.pred (OS.steps s')))
      /\ (ok = true -> OS.files s' !! t = None).
Proof.
  unfold FileStore.writeFileAtomically. intros Hrun.
  destruct (OS.CreateTemp env s (Filepath.Dir filePath) FileStore.tempPrefix)
    as [s1 [t|]] eqn:Ecreate.
  2:{ injection Hrun as _ <-. left. reflexivity. }
  right. exists t.
  apply CreateTemp_present in Ecreate.
  destruct (OS.Write env s1 t data) as [s2 ok2] eqn:E2.
  apply (Write_present _ _ _ _ _ t) in E2; [|exact Ecreate].
  destruct ok2; cbn [negb] in Hrun.
  2:{ injection Hrun as <- _. exact (cleanup_removal _ _ _ eq_refl E2). }
  destruct (OS.Sync env s2 t) as [s3 ok3] eqn:E3.
  apply Sync_spec in E3 as (Hf3 & _). rewrite <- Hf3 in E2.
  destruct ok3; cbn [negb] in Hrun.
  2:{ injection Hrun as <- _. exact (cleanup_removal _ _ _ eq_refl E2). }
  destruct (OS.Close env s3 t) as [s4 ok4] eqn:E4.
  apply Close_spec in E4 as (Hf4 & _). rewrite <- Hf4 in E2.
  destruct ok4; cbn [negb] in Hrun.
  2:{ injection Hrun as <- _. exact (cleanup_removal _ _ _ eq_refl E2). }
  destruct (OS.Chmod env s4 t 420) as [s5 ok5] eqn:E5.
  apply (Chmod_present _ _ _ _ _ t) in E5; [|exact E2].
  destruct ok5; cbn [negb] in Hrun.
  2:{ injection Hrun as <- _. exact (cleanup_removal _ _ _ eq_refl E5). }
  destruct (OS.Rename env s5 t filePath) as [s6 ok6] eqn:E6.
  destruct ok6; cbn [negb] in Hrun; [discriminate|].
  apply Rename_spec in E6 as (Hf6 & _). rewrite <- (Hf6 eq_refl) in E5.
  injection Hrun as <- _. exact (cleanup_removal _ _ _ eq_refl E5).
Qed.

End Removal.

(** ** The atomic write within [Write] *)

(** C3.  Whatever the environment and the state of the file system:
    [Write] reports success only when each of the six steps of the atomic
    write (creation of the temporary file, write, sync, close, chmod, rename)
    has succeeded, so that a failure of any of them makes it return an error;
    the destination then holds exactly the serialized payload.  When it
    returns the error of the atomic write, the destination holds what it held
    before the call (nothing, or the earlier file, never a part of the new
    one), and unless no temporary file could be created, the last call made
    (the one with number [steps s' - 1]) was the removal of the temporary
    file: that removal succeeds unless the environment makes this very call
    fail, and when it succeeds the temporary file is gone; so the temporary
    file is gone whenever the environment lets the removal through. *)
Theorem atomic_write_failure_leaves_destination
      (config : Config.Config) (env : OS.Env) (unicode_ToUpper : Z -> Z)
      (json_MarshalIndent : Model.WebhookPayload -> option gostring)
      (s s' : OS.State) (p : option Model.WebhookPayload)
      (p' : option Model.WebhookPayload) (r : result gostring FileStore.FileError) :
  FileStore.Write config env unicode_ToUpper json_MarshalIndent s p = (s', p', r) ->
  (forall fullPath, r = Ok fullPath ->
     exists t removed closed events,
       OS.trace s'
       = OS.Called OS.SysRemove t removed :: OS.Called OS.SysClose t closed
         :: OS.Called OS.SysRename t true :: OS.Called OS.SysChmod t true
         :: OS.Called OS.SysClose t true :: OS.Called OS.SysSync t true
         :: OS.Called OS.SysWrite t true :: OS.Called OS.SysCreateTemp t true
         :: events ++ OS.trace s
       /\ exists q data,
           p' = Some q /\ json_MarshalIndent q = Some data
           /\ OS.files s' !! fullPath = Some (OS.File data 420))
  /\ (forall fullPath e, r = Err (FileStore.AtomicWrite fullPath e) ->
        OS.files s' !! fullPath = OS.files s !! fullPath
        /\ (e = FileStore.CreateTempFailed
            \/ exists t ok between events,
                OS.trace s' = OS.Called OS.SysRemove t ok :: between
                                ++ OS.Called OS.SysCreateTemp t true
                                :: events ++ OS.trace s
                /\ ok = negb (OS.faults env (Nat.pred (OS.steps s')))
                /\ (ok = true -> OS.files s' !! t = None)
                /\ (OS.faults env (Nat.pred (OS.steps s')) = false ->
                    OS.files s' !! t = None))).
Proof.
  unfold FileStore.Write. intros H.
  destruct p as [p|]; [|injection H as _ _ <-; split; intros; discriminate].
  assert (Hstart : exists s0 q,
             OS.files s0 = OS.files s /\ OS.trace s0 = OS.trace s
             /\ (let '(s1, generated) :=
                     FileStore.generateSecureFilename env unicode_ToUpper s0 q in
                 match generated with
                 | Err err => (s1, Some q, Err (FileStore.FilenameGeneration err))
                 | Ok baseFilename =>
                   let fullPath := Filepath.Join [Config.GetStoragePath config; baseFilename] in
                   match Security.IsSecurePath unicode_ToUpper (OS.wd env) fullPath
                                               (Config.GetStoragePath config) with
                   | Some err => (s1, Some q, Err (FileStore.PathValidation fullPath err))
                   | None =>
                     let parentDir := Filepath.Dir fullPath in
                     let '(s2, dirErr) := FileStore.ensureDirectoryExists env s1 parentDir in
                     match dirErr with
                     | Some err => (s2, Some q, Err (FileStore.DirectoryCreation parentDir err))
                     | None =>
                       match json_MarshalIndent q with
                       | None => (s2, Some q, Err (FileStore.JsonMarshaling fullPath))
                       | Some data =>
                         if len data >? Config.GetMaxFileSize config
                         then (s2, Some q,
                               Err (FileStore.SizeValidation fullPath (len data)
                                      (Config.GetMaxFileSize config)))
                         else
                           let '(s3, writeErr) :=
                             FileStore.writeFileAtomically env s2 fullPath data in
                           match writeErr with
                           | Some err => (s3, Some q, Err (FileStore.AtomicWrite fullPath err))
                           | None => (s3, Some q, Ok fullPath)
                           end
                       end
                     end
                   end
                 end) = (s', p', r)).
  { destruct (bool_decide (Model.ID p = [])).
    - destruct (OS.draw env s 16) as [sd bytes] eqn:Ed.
      apply draw_spec in Ed as [Hf Ht].
      eexists sd, _. split; [exact Hf|]. split; [exact Ht|]. exact H.
    - eexists s, _. split; [reflexivity|]. split; [reflexivity|]. exact H. }
  clear H. destruct Hstart as (s0 & q & Hf0 & Ht0 & H).
  destruct (FileStore.generateSecureFilename env unicode_ToUpper s0 q)
    as [s1 [base|err]] eqn:Egen;
    [|injection H as _ _ <-; split; intros; discriminate].
  apply generateSecureFilename_spec in Egen as (Hf1 & (ev1 & Ht1) & Hvisible).
  cbv zeta in H.
  set (fullPath := Filepath.Join [Config.GetStoragePath config; base]) in *.
  assert (Hends : Spec.endsWithElement fullPath base)
    by (apply Join_ends_with_element; exact (proj1 Hvisible)).
  clearbody fullPath.
  destruct (Security.IsSecurePath _ _ _ _);
    [injection H as _ _ <-; split; intros; discriminate|].
  destruct (FileStore.ensureDirectoryExists env s1 (Filepath.Dir fullPath))
    as [s2 [err|]] eqn:Edir;
    [injection H as _ _ <-; split; intros; discriminate|].
  apply (ensureDirectoryExists_spec _ _ _ _ _ fullPath) in Edir as (Hf2 & ev2 & Ht2);
    [|exact (parent_chain_excludes _ _ (proj1 Hvisible) Hends)].
  destruct (json_MarshalIndent q) as [data|] eqn:Ejson;
    [|injection H as _ _ <-; split; intros; discriminate].
  destruct (len data >? Config.GetMaxFileSize config);
    [injection H as _ _ <-; split; intros; discriminate|].
  destruct (FileStore.writeFileAtomically env s2 fullPath data) as [s3 [err|]] eqn:Ew;
    injection H as <- <- <-.
  - split; [intros; discriminate|].
    intros path e [= <- <-].
    pose proof (writeFileAtomically_removal _ _ _ _ _ _ Ew) as Hremoval.
    apply writeFileAtomically_failure in Ew as (Hdest & Hcases);
      [|exact (temp_candidates_exclude _ _ _ Hvisible Hends)].
    split.
    + rewrite Hdest, Hf2, Hf1, Hf0. reflexivity.
    + destruct Hcases as [[He _]|(t & ok & between & Htrace & Hgone)]; [left; exact He|].
      destruct Hremoval as [He|(t' & ok' & rest & Htrace' & Hok & _)]; [left; exact He|].
      right. exists t, ok, between, (ev2 ++ ev1).
      split; [rewrite Htrace, Ht2, Ht1, Ht0, <- app_assoc; reflexivity|].
      rewrite Htrace in Htrace'. injection Htrace' as _ Hsame _.
      rewrite <- Hsame in Hok.
      split; [exact Hok|]. split; [exact Hgone|].
      intros Hcalm. apply Hgone. rewrite Hok, Hcalm. reflexivity.
  - split; [|intros; discriminate].
    intros path [= <-].
    pose proof (writeFileAtomically_content _ _ _ _ _ Ew
                  (temp_candidates_exclude _ _ _ Hvisible Hends)) as Hcontent.
    apply writeFileAtomically_success in Ew as (t & removed & closed & Htrace).
    exists t, removed, closed, (ev2 ++ ev1). split.
    + rewrite Htrace, Ht2, Ht1, Ht0, <- app_assoc. reflexivity.
    + exists q, data. split; [reflexivity|]. split; [exact Ejson | exact Hcontent].
Qed.


Lemma atomic_write_failure_leaves_destination_witness :
  exists s' p',
    FileStore.Write testConfig (failingAt 6) Unicode.latin1ToUpper Json.MarshalIndent
                    storageOnly (Some helloPayload)
    = (s', p', Err (FileStore.AtomicWrite helloPath FileStore.RenameFailed))
    /\ OS.files s' !! helloPath = OS.files storageOnly !! helloPath
    /\ exists t rest,
        OS.trace s' = OS.Called OS.SysRemove t true :: rest
        /\ OS.files s' !! t = None.
Proof.
  destruct (FileStore.Write testConfig (failingAt 6) Unicode.latin1ToUpper
                            Json.MarshalIndent storageOnly (Some helloPayload))
    as [[s' p'] r] eqn:Hrun.
  assert (Hr : r = Err (FileStore.AtomicWrite helloPath FileStore.RenameFailed)).
  { change r with (snd (s', p', r)). rewrite <- Hrun. vm_compute. reflexivity. }
  assert (Hsteps : OS.steps s' = 9%nat).
  { change s' with (fst (fst (s', p', r))). rewrite <- Hrun. vm_compute. reflexivity. }
  destruct (proj2 (atomic_write_failure_leaves_destination _ _ _ _ _ _ _ _ _ Hrun)
              helloPath FileStore.RenameFailed Hr)
    as (Hdest & [Hnone|(t & ok & between & events & Htrace & Hok & Hgone & _)]);
    [discriminate Hnone|].
  rewrite Hsteps in Hok. cbn in Hok. subst ok.
  exists s', p'. split; [rewrite Hr; reflexivity|]. split; [exact Hdest|].
  exists t, (between ++ OS.Called OS.SysCreateTemp t true :: events ++ OS.trace storageOnly).
  split; [exact Htrace | exact (Hgone eq_refl)].
Defined.

(* ===================================================================== *)
(** * Part III: further properties of the code *)
(* ===================================================================== *)

(** ** The data walk, complete *)

Lemma validateDataStructure_accepts_within_limits (v : Value) :
  forall d, Validator.validateDataStructure v d = None -> Spec.withinLimits v = true.
Proof.
  induction v as [s|entries IH|elems IH|bits|n|n|b| |k] using Value_induction;
    intros d; simpl;
    (destruct (d >? Validator.MaxNestingDepth); [discriminate|]);
    try reflexivity.
  - (* string *)
    destruct (Z.gtb_spec (len s) Validator.MaxStringLength) as [|Hlen]; [discriminate|].
    destruct (Utf8.ValidString s); [|discriminate]. cbn [negb].
    destruct (Validator.containsUnsafeCharacters s); [discriminate|].
    intros _. rewrite andb_true_r, andb_true_r. apply Z.leb_le, Hlen.
  - (* object *)
    destruct (Z.gtb_spec (Z.of_nat (length entries)) Validator.MaxObjectKeys)
      as [|Hcount]; [discriminate|].
    apply Z.leb_le in Hcount. rewrite Hcount. cbn [andb]. clear Hcount.
    induction IH as [|[key sub] rest Hsub _ IHrest]; [reflexivity|].
    cbn [snd] in Hsub. unfold Validator.validateKey.
    destruct (Z.gtb_spec (len key) 100) as [|Hklen]; [discriminate|].
    destruct (Utf8.ValidString key); [|discriminate]. cbn [negb].
    destruct (Validator.validateDataStructure sub (d + 1)) eqn:Esub; [discriminate|].
    intros Hrest.
    rewrite (Hsub _ Esub), (IHrest Hrest), andb_true_r, andb_true_r, andb_true_r.
    apply Z.leb_le, Hklen.
  - (* array *)
    destruct (Z.gtb_spec (Z.of_nat (length elems)) Validator.MaxArrayLength)
      as [|Hcount]; [discriminate|].
    apply Z.leb_le in Hcount. rewrite Hcount. cbn [andb]. clear Hcount.
    generalize 0 as i.
    induction IH as [|e rest He _ IHrest]; intros i; [reflexivity|].
    destruct (Validator.validateDataStructure e (d + 1)) eqn:Ee; [discriminate|].
    intros Hrest. rewrite (He _ Ee), (IHrest _ Hrest). reflexivity.
  - (* other kinds *)
    destruct (Validator.numericKind k); [reflexivity | discriminate].
Qed.

(** X1.  [validateDataStructure], started with counter 0, accepts a value
    exactly when every limit holds at every node of the tree (strings of at
    most 10000 bytes that are well-formed UTF-8 without unsafe characters,
    objects of at most 100 keys, keys of at most 100 bytes that are
    well-formed UTF-8, arrays of at most 1000 elements, no value of an
    unsupported type) and the tree is nested at most 5 levels deep. *)
Theorem walk_accepts_exactly (v : Value) :
  Validator.validateDataStructure v 0 = None
  <-> Spec.withinLimits v = true /\ Spec.nestingDepth v <= Validator.MaxNestingDepth.
Proof.
  split.
  - intros Hnone.
    pose proof (validateDataStructure_accepts_within_limits v 0 Hnone) as HW.
    split; [exact HW|].
    destruct (Z.le_gt_cases (Spec.nestingDepth v) Validator.MaxNestingDepth) as [|Hdeep];
      [assumption|].
    destruct (validateDataStructure_beyond_depth v 0 HW) as (e & He & _);
      [unfold Validator.MaxNestingDepth in *; lia ..|].
    congruence.
  - intros [HW Hd]. apply validateDataStructure_within_depth; [exact HW | lia].
Qed.

(** ** Prefixes, suffixes and substrings *)

Lemma HasPrefix_spec (s p : gostring) :
  Strings.HasPrefix s p = true <-> exists t, s = p ++ t.
Proof.
  revert s. induction p as [|c p IH]; intros s; simpl.
  - split; [intros _; exists s; reflexivity | reflexivity].
  - destruct s as [|x s].
    + split; [discriminate | intros [t Ht]; discriminate].
    + split.
      * intros H. apply andb_prop in H as [Hc Hp].
        apply Ascii.eqb_eq in Hc as ->. apply IH in Hp as [t ->]. exists t. reflexivity.
      * intros [t [= -> ->]]. rewrite Ascii.eqb_refl. apply IH. exists t. reflexivity.
Qed.

Lemma Contains_spec (s sub : gostring) :
  Strings.Contains s sub = true <-> exists a b, s = a ++ sub ++ b.
Proof.
  split.
  - induction s as [|c s IH]; simpl.
    + rewrite orb_false_r. intros H. apply HasPrefix_spec in H as [t Ht].
      exists [], t. exact Ht.
    + intros H. apply orb_prop in H as [H|H].
      * apply (HasPrefix_spec (c :: s)) in H as [t Ht]. exists [], t. exact Ht.
      * destruct (IH H) as (a & b & ->). exists (c :: a), b. reflexivity.
  - intros (a & b & ->). apply Contains_app_r, Contains_app_l.
    clear. destruct sub as [|c sub]; [reflexivity|].
    simpl. rewrite Ascii.eqb_refl.
    replace (Strings.HasPrefix sub sub) with true; [reflexivity|].
    symmetry. rewrite <- (app_nil_r sub) at 1. apply HasPrefix_app.
Qed.

Lemma Contains_byte (s : gostring) (c : ascii) :
  Strings.Contains s [c] = true <-> In c s.
Proof.
  split; [|apply Contains_singleton].
  intros H. apply Contains_spec in H as (a & b & ->).
  apply in_or_app. right. left. reflexivity.
Qed.

Lemma HasSuffix_spec (s p : gostring) :
  Strings.HasSuffix s p = true <-> exists t, s = t ++ p.
Proof.
  unfold Strings.HasSuffix. rewrite HasPrefix_spec. split.
  - intros [t Ht]. exists (rev t).
    rewrite <- (rev_involutive s), Ht, rev_app_distr, rev_involutive. reflexivity.
  - intros [t ->]. exists (rev t). apply rev_app_distr.
Qed.

Lemma firstContained_none (s : gostring) (chars : list gostring) :
  Validator.firstContained s chars = None
  <-> forall char, In char chars -> Strings.Contains s char = false.
Proof.
  induction chars as [|c0 chars IH]; simpl.
  - split; [intros _ ? [] | reflexivity].
  - destruct (Strings.Contains s c0) eqn:E.
    + split; [discriminate|]. intros H. rewrite (H c0) in E by tauto. discriminate.
    + rewrite IH. split.
      * intros H char [<-|Hin]; [exact E | exact (H _ Hin)].
      * intros H char Hin. apply H. right. exact Hin.
Qed.

Lemma no_dangerous_chars (s : gostring) :
  Validator.firstContained s Validator.dangerousChars = None
  <-> forall c, In c s -> Spec.isDangerous c = false.
Proof.
  rewrite firstContained_none. split.
  - intros H c Hin. unfold Spec.isDangerous.
    apply bool_decide_eq_false. intros Hd.
    assert (Hc : In [c] Validator.dangerousChars).
    { unfold Validator.dangerousChars.
      repeat (apply elem_of_cons in Hd as [->|Hd]; [simpl; tauto|]).
      apply elem_of_nil in Hd. contradiction. }
    specialize (H _ Hc). rewrite (Contains_singleton _ _ Hin) in H. discriminate.
  - intros H char Hin.
    destruct (Strings.Contains s char) eqn:E; [|reflexivity].
    exfalso. unfold Validator.dangerousChars in Hin. cbn [In] in Hin.
    repeat (destruct Hin as [<-|Hin];
            [apply Contains_byte in E; specialize (H _ E); vm_compute in H; discriminate|]).
    contradiction.
Qed.

(** X2.  [validateTypeFormat] accepts an event type exactly when it holds
    no space and none of the characters less-than, greater-than, double
    quote, apostrophe, ampersand, semicolon and vertical bar, neither begins
    nor ends with a dot, and has no two consecutive dots. *)
Theorem validateTypeFormat_accepts_exactly (eventType : gostring) :
  Validator.validateTypeFormat eventType = None
  <-> (forall c, In c eventType -> c <> " "%char /\ Spec.isDangerous c = false)
      /\ (forall rest, eventType <> "."%char :: rest)
      /\ (forall front, eventType <> front ++ ["."%char])
      /\ (forall front rest, eventType <> front ++ "."%char :: "."%char :: rest).
Proof.
  unfold Validator.validateTypeFormat. split.
  - destruct (Strings.Contains eventType (go " ")) eqn:Espace; [discriminate|].
    destruct (Validator.firstContained eventType Validator.dangerousChars) eqn:Edanger;
      [discriminate|].
    destruct (Strings.HasPrefix eventType (go ".")) eqn:Eprefix; [discriminate|].
    destruct (Strings.HasSuffix eventType (go ".")) eqn:Esuffix; [discriminate|].
    destruct (Strings.Contains eventType (go "..")) eqn:Edots; [discriminate|].
    intros _. repeat split.
    + intros ->. apply (Contains_singleton eventType " "%char) in H. 
      change (go " ") with [" "%char] in Espace. congruence.
    + exact (proj1 (no_dangerous_chars _) Edanger c H).
    + intros rest ->. discriminate.
    + intros front ->.
      assert (Strings.HasSuffix (front ++ ["."%char]) (go ".") = true)
        by (apply HasSuffix_spec; exists front; reflexivity).
      congruence.
    + intros front rest ->.
      assert (Strings.Contains (front ++ "."%char :: "."%char :: rest) (go "..") = true)
        by (apply Contains_spec; exists front, rest; reflexivity).
      congruence.
  - intros (Hchars & Hhead & Hlast & Hdots).
    destruct (Strings.Contains eventType (go " ")) eqn:Espace.
    { apply (Contains_byte eventType " "%char) in Espace.
      destruct (Hchars _ Espace) as [Hne _]. contradiction. }
    assert (Hd : Validator.firstContained eventType Validator.dangerousChars = None).
    { apply no_dangerous_chars. intros c Hin. apply Hchars, Hin. }
    rewrite Hd.
    destruct (Strings.HasPrefix eventType (go ".")) eqn:Eprefix.
    { apply HasPrefix_spec in Eprefix as [t ->]. exfalso. exact (Hhead t eq_refl). }
    destruct (Strings.HasSuffix eventType (go ".")) eqn:Esuffix.
    { apply HasSuffix_spec in Esuffix as [t ->]. exfalso. exact (Hlast t eq_refl). }
    destruct (Strings.Contains eventType (go "..")) eqn:Edots.
    { apply Contains_spec in Edots as (a & b & ->). exfalso. exact (Hdots a b eq_refl). }
    reflexivity.
Qed.

(** X3.  [validateSourceFormat] accepts a source exactly when it holds no
    space, none of the characters less-than, greater-than, double quote,
    apostrophe, ampersand, semicolon and vertical bar, and no two
    consecutive dots; unlike an event type it may begin or end with a
    dot. *)
Theorem validateSourceFormat_accepts_exactly (source : gostring) :
  Validator.validateSourceFormat source = None
  <-> (forall c, In c source -> c <> " "%char /\ Spec.isDangerous c = false)
      /\ (forall front rest, source <> front ++ "."%char :: "."%char :: rest).
Proof.
  unfold Validator.validateSourceFormat. split.
  - destruct (Strings.Contains source (go " ")) eqn:Espace; [discriminate|].
    destruct (Strings.Contains source (go "..")) eqn:Edots; [discriminate|].
    destruct (Validator.firstContained source Validator.dangerousChars) eqn:Edanger;
      [discriminate|].
    intros _. repeat split.
    + intros ->. apply (Contains_singleton source " "%char) in H.
      change (go " ") with [" "%char] in Espace. congruence.
    + exact (proj1 (no_dangerous_chars _) Edanger c H).
    + intros front rest ->.
      assert (Strings.Contains (front ++ "."%char :: "."%char :: rest) (go "..") = true)
        by (apply Contains_spec; exists front, rest; reflexivity).
      congruence.
  - intros (Hchars & Hdots).
    destruct (Strings.Contains source (go " ")) eqn:Espace.
    { apply (Contains_byte source " "%char) in Espace.
      destruct (Hchars _ Espace) as [Hne _]. contradiction. }
    destruct (Strings.Contains source (go "..")) eqn:Edots.
    { apply Contains_spec in Edots as (a & b & ->). exfalso. exact (Hdots a b eq_refl). }
    assert (Hd : Validator.firstContained source Validator.dangerousChars = None).
    { apply no_dangerous_chars. intros c Hin. apply Hchars, Hin. }
    rewrite Hd. reflexivity.
Qed.

(** ** Unsafe characters, byte by byte *)

Lemma byteval_range (c : ascii) : 0 <= byteval c < 256.
Proof.
  unfold byteval. pose proof (N_ascii_bounded c) as H. lia.
Qed.

Lemma lor_at_least (a b : Z) : 0 <= a -> 0 <= b -> 32 <= a -> 32 <= Z.lor a b.
Proof.
  intros Ha Hb H.
  assert (Hnn : 0 <= Z.lor a b) by (apply Z.lor_nonneg; split; assumption).
  destruct (Z.le_gt_cases 32 (Z.lor a b)) as [|Hlt]; [assumption|exfalso].
  pose proof (Z.log2_lor a b Ha Hb) as Hlog.
  pose proof (Z.log2_le_mono 32 a H) as H1.
  assert (Hsmall : Z.log2 (Z.lor a b) <= Z.log2 31) by (apply Z.log2_le_mono; lia).
  change (Z.log2 32) with 5 in H1. change (Z.log2 31) with 4 in Hsmall. lia.
Qed.

Lemma lor_at_least_r (a b : Z) : 0 <= a -> 0 <= b -> 32 <= b -> 32 <= Z.lor a b.
Proof. intros. rewrite Z.lor_comm. apply lor_at_least; assumption. Qed.

Lemma unsafeRune_byte (c : ascii) : Validator.unsafeRune (byteval c) = controlByte c.
Proof.
  unfold Validator.unsafeRune, controlByte. pose proof (byteval_range c).
  destruct (Z.eqb_spec (byteval c) 0) as [->|]; [reflexivity|]. reflexivity.
Qed.

Lemma unsafeRune_large (r : Z) : 32 <= r -> Validator.unsafeRune r = false.
Proof.
  intros H. unfold Validator.unsafeRune.
  destruct (Z.eqb_spec r 0); [lia|]. destruct (Z.ltb_spec r 32); [lia|]. reflexivity.
Qed.

Lemma controlByte_high (c : ascii) : 32 <= byteval c -> controlByte c = false.
Proof.
  intros H. unfold controlByte. destruct (Z.ltb_spec (byteval c) 32); [lia|]. reflexivity.
Qed.

Lemma land_nonneg_l (a b : Z) : 0 <= a -> 0 <= Z.land a b.
Proof. intros. apply Z.land_nonneg. left. assumption. Qed.

(** One step of decoding: the rune is unsafe exactly when one of the bytes
    it was decoded from is a control byte. *)
Lemma DecodeRuneInString_unsafe (c0 : ascii) (t : gostring) :
  let '(r, w) := Utf8.DecodeRuneInString (c0 :: t) in
  (1 <= w <= length (c0 :: t))%nat
  /\ Validator.unsafeRune r = existsb controlByte (take w (c0 :: t)).
Proof.
  unfold Utf8.DecodeRuneInString.
  pose proof (byteval_range c0) as H0.
  destruct (Z.ltb_spec (byteval c0) 128) as [Hascii|Hhigh].
  { assert (Hsz : Utf8.seqSize (byteval c0) = 1).
    { unfold Utf8.seqSize. destruct (Z.ltb_spec (byteval c0) 128); [reflexivity | lia]. }
    rewrite Hsz. cbn [Z.eqb Pos.eqb].
    split; [simpl; lia|]. cbn [take existsb]. rewrite orb_false_r. apply unsafeRune_byte. }
  assert (Herr : forall l : gostring,
             (1 <= 1 <= length (c0 :: l))%nat
             /\ Validator.unsafeRune Utf8.RuneError = existsb controlByte (take 1 (c0 :: l))).
  { intros l. split; [simpl; lia|].
    cbn [take existsb]. rewrite controlByte_high by lia. reflexivity. }
  assert (Hsize : Utf8.seqSize (byteval c0) = 0
                  \/ (Utf8.seqSize (byteval c0) = 2 /\ 194 <= byteval c0 < 224)
                  \/ (Utf8.seqSize (byteval c0) = 3 /\ 224 <= byteval c0 < 240)
                  \/ (Utf8.seqSize (byteval c0) = 4 /\ 240 <= byteval c0 < 245)).
  { unfold Utf8.seqSize.
    repeat match goal with
           | |- context [?a <? ?b] => destruct (Z.ltb_spec a b)
           end; lia. }
  destruct Hsize as [Hsz|[[Hsz Hlead]|[[Hsz Hlead]|[Hsz Hlead]]]]; rewrite Hsz;
    cbn [Z.eqb Pos.eqb Z.leb Z.compare Pos.compare Pos.compare_cont];
    [apply Herr | | |];
    (destruct t as [|c1 t1]; [apply Herr|]);
    pose proof (byteval_range c1) as H1;
    (destruct (len (c0 :: c1 :: t1) <? _) eqn:Elen; [apply Herr|]);
    (destruct (Utf8.accepted (byteval c0) (byteval c1)) eqn:Eacc; [|apply Herr]);
    cbn [orb negb];
    assert (Hc1 : 128 <= byteval c1)
      by (unfold Utf8.accepted, Utf8.acceptRange in Eacc;
          repeat match type of Eacc with
                 | context [?a =? ?b] => destruct (Z.eqb_spec a b)
                 end; cbv beta iota in Eacc; apply andb_prop in Eacc as [Hlo _];
          apply Z.leb_le in Hlo; lia);
    assert (Hsecond : byteval c0 = 224 \/ byteval c0 = 240 -> 16 <= Z.land (byteval c1) 63)
      by (intros Hcase; change 63 with (Z.ones 6); rewrite Z.land_ones by lia;
          change (2 ^ 6) with 64;
          unfold Utf8.accepted, Utf8.acceptRange in Eacc;
          destruct Hcase as [Hcase|Hcase]; rewrite Hcase in Eacc; cbv beta iota in Eacc;
          simpl in Eacc; apply andb_prop in Eacc as [Hlo Hhi];
          apply Z.leb_le in Hlo; apply Z.leb_le in Hhi;
          replace (byteval c1) with ((byteval c1 - 128) + 2 * 64) by lia;
          rewrite Z.mod_add by lia; rewrite Z.mod_small by lia; lia).
  - (* two bytes *)
    split; [simpl; lia|].
    cbn [take existsb]. rewrite !controlByte_high by lia. cbn [orb].
    apply unsafeRune_large, lor_at_least.
    + apply Z.shiftl_nonneg, land_nonneg_l. lia.
    + apply land_nonneg_l. lia.
    + rewrite Z.shiftl_mul_pow2 by lia. change 31 with (Z.ones 5).
      rewrite Z.land_ones by lia. change (2 ^ 5) with 32. change (2 ^ 6) with 64.
      replace (byteval c0) with ((byteval c0 - 192) + 6 * 32) by lia.
      rewrite Z.mod_add by lia. rewrite Z.mod_small by lia. lia.
  - (* three bytes *)
    destruct t1 as [|c2 t2]; [apply Herr|].
    pose proof (byteval_range c2) as Hr2.
    destruct (Utf8.isCont (byteval c2)) eqn:Ec2; [|apply Herr].
    cbn [negb].
    assert (Hc2 : 128 <= byteval c2).
    { unfold Utf8.isCont in Ec2. apply andb_prop in Ec2 as [Hlo _].
      apply Z.leb_le in Hlo. lia. }
    split; [simpl; lia|].
    cbn [take existsb]. rewrite !controlByte_high by lia. cbn [orb].
    apply unsafeRune_large, lor_at_least.
    + apply Z.lor_nonneg. split; apply Z.shiftl_nonneg, land_nonneg_l; lia.
    + apply land_nonneg_l. lia.
    + destruct (Z.eq_dec (byteval c0) 224) as [He|Hne].
      * apply lor_at_least_r.
        -- apply Z.shiftl_nonneg, land_nonneg_l. lia.
        -- apply Z.shiftl_nonneg, land_nonneg_l. lia.
        -- rewrite Z.shiftl_mul_pow2 by lia. change (2 ^ 6) with 64.
           specialize (Hsecond (or_introl He)). lia.
      * apply lor_at_least.
        -- apply Z.shiftl_nonneg, land_nonneg_l. lia.
        -- apply Z.shiftl_nonneg, land_nonneg_l. lia.
        -- rewrite Z.shiftl_mul_pow2 by lia. change 15 with (Z.ones 4).
           rewrite Z.land_ones by lia. change (2 ^ 4) with 16. change (2 ^ 12) with 4096.
           replace (byteval c0) with ((byteval c0 - 224) + 14 * 16) by lia.
           rewrite Z.mod_add by lia. rewrite Z.mod_small by lia. lia.
  - (* four bytes *)
    destruct t1 as [|c2 t2]; [apply Herr|].
    pose proof (byteval_range c2) as Hr2.
    destruct (Utf8.isCont (byteval c2)) eqn:Ec2; [|apply Herr].
    cbn [negb].
    assert (Hc2 : 128 <= byteval c2).
    { unfold Utf8.isCont in Ec2. apply andb_prop in Ec2 as [Hlo _].
      apply Z.leb_le in Hlo. lia. }
    destruct t2 as [|c3 t3]; [apply Herr|].
    pose proof (byteval_range c3) as Hr3.
    destruct (Utf8.isCont (byteval c3)) eqn:Ec3; [|apply Herr].
    cbn [negb].
    assert (Hc3 : 128 <= byteval c3).
    { unfold Utf8.isCont in Ec3. apply andb_prop in Ec3 as [Hlo _].
      apply Z.leb_le in Hlo. lia. }
    split; [simpl; lia|].
    cbn [take existsb]. rewrite !controlByte_high by lia. cbn [orb].
    apply unsafeRune_large, lor_at_least.
    + apply Z.lor_nonneg. split; [apply Z.lor_nonneg; split|];
        apply Z.shiftl_nonneg, land_nonneg_l; lia.
    + apply land_nonneg_l. lia.
    + apply lor_at_least.
      * apply Z.lor_nonneg. split; apply Z.shiftl_nonneg, land_nonneg_l; lia.
      * apply Z.shiftl_nonneg, land_nonneg_l. lia.
      * destruct (Z.eq_dec (byteval c0) 240) as [He|Hne].
        -- apply lor_at_least_r.
           ++ apply Z.shiftl_nonneg, land_nonneg_l. lia.
           ++ apply Z.shiftl_nonneg, land_nonneg_l. lia.
           ++ rewrite Z.shiftl_mul_pow2 by lia. change (2 ^ 12) with 4096.
              specialize (Hsecond (or_intror He)). lia.
        -- apply lor_at_least.
           ++ apply Z.shiftl_nonneg, land_nonneg_l. lia.
           ++ apply Z.shiftl_nonneg, land_nonneg_l. lia.
           ++ rewrite Z.shiftl_mul_pow2 by lia. change 7 with (Z.ones 3).
              rewrite Z.land_ones by lia. change (2 ^ 3) with 8.
              change (2 ^ 18) with 262144.
              replace (byteval c0) with ((byteval c0 - 240) + 30 * 8) by lia.
              rewrite Z.mod_add by lia. rewrite Z.mod_small by lia. lia.
Qed.

Lemma runesFrom_unsafe (fuel : nat) (s : gostring) :
  (length s <= fuel)%nat ->
  existsb (fun rb : Z * gostring => Validator.unsafeRune (fst rb)) (Utf8.runesFrom fuel s)
  = existsb controlByte s.
Proof.
  revert s. induction fuel as [|fuel IH]; intros s Hlen.
  - destruct s; [reflexivity | simpl in Hlen; lia].
  - destruct s as [|c0 t]; [reflexivity|].
    cbn [Utf8.runesFrom].
    pose proof (DecodeRuneInString_unsafe c0 t) as Hstep.
    destruct (Utf8.DecodeRuneInString (c0 :: t)) as [r w].
    destruct Hstep as [Hw Hr].
    cbn [existsb fst]. rewrite Hr, IH.
    + rewrite <- existsb_app, take_drop. reflexivity.
    + rewrite length_drop. simpl in *. lia.
Qed.

(** X4.  [containsUnsafeCharacters] flags exactly the strings that hold a
    byte below 0x20 other than tab, line feed and carriage return, whether
    the string is well-formed UTF-8 or not: a rune decoded from several
    bytes, or from a malformed byte, is never taken for a control
    character, and the byte 0x7f passes. *)
Theorem containsUnsafeCharacters_bytes (s : gostring) :
  Validator.containsUnsafeCharacters s = true
  <-> exists c, In c s /\ byteval c < 32 /\ byteval c <> 9 /\ byteval c <> 10
                /\ byteval c <> 13.
Proof.
  unfold Validator.containsUnsafeCharacters, Utf8.runes.
  rewrite runesFrom_unsafe by lia. rewrite existsb_exists.
  split; intros (c & Hin & Hc); exists c; (split; [exact Hin|]).
  - unfold controlByte in Hc.
    repeat (apply andb_prop in Hc as [Hc ?]).
    apply Z.ltb_lt in Hc.
    repeat match goal with
           | H : negb (_ =? _) = true |- _ =>
             apply negb_true_iff, Z.eqb_neq in H
           end.
    tauto.
  - destruct Hc as (Hlt & H9 & H10 & H13). unfold controlByte.
    apply Z.ltb_lt in Hlt. apply Z.eqb_neq in H9, H10, H13.
    rewrite Hlt, H9, H10, H13. reflexivity.
Qed.

(** ** What [Validate] accepts *)

Lemma validateString_accepts (config : Config.Config)
      (fieldName value : gostring) (minLen maxLen : Z) (required : bool) :
  Validator.validateString fieldName value minLen maxLen required = None
  <-> (required = true -> Strings.TrimSpace value <> [])
      /\ Utf8.ValidString value = true
      /\ Validator.containsUnsafeCharacters value = false
      /\ minLen <= len value <= maxLen.
Proof.
  unfold Validator.validateString.
  destruct required; cbn [andb].
  - case_bool_decide as Hblank.
    + split; [discriminate | intros [H _]; exfalso; exact (H eq_refl Hblank)].
    + destruct (Utf8.ValidString value); cbn [negb];
        [|split; [discriminate | intros (_ & ? & _); discriminate]].
      destruct (Validator.containsUnsafeCharacters value);
        [split; [discriminate | intros (_ & _ & ? & _); discriminate]|].
      destruct (Z.ltb_spec (len value) minLen);
        [split; [discriminate | intros (_ & _ & _ & ?); lia]|].
      destruct (Z.gtb_spec (len value) maxLen);
        [split; [discriminate | intros (_ & _ & _ & ?); lia]|].
      split; [intros _; split; [intros _; exact Hblank|]; repeat split; try assumption; lia | reflexivity].
  - destruct (Utf8.ValidString value); cbn [negb];
      [|split; [discriminate | intros (_ & ? & _); discriminate]].
    destruct (Validator.containsUnsafeCharacters value);
      [split; [discriminate | intros (_ & _ & ? & _); discriminate]|].
    destruct (Z.ltb_spec (len value) minLen);
      [split; [discriminate | intros (_ & _ & _ & ?); lia]|].
    destruct (Z.gtb_spec (len value) maxLen);
      [split; [discriminate | intros (_ & _ & _ & ?); lia]|].
    split; [intros _; split; [discriminate|]; repeat split; try assumption; lia | reflexivity].
Qed.

Lemma ifSet_none (field : gostring) (check next : option Validator.ValidationError) :
  Validator.ifSet field check next = None
  <-> (field <> [] -> check = None) /\ next = None.
Proof.
  unfold Validator.ifSet. case_bool_decide as Hf; cbn [negb].
  - split; [intros ->; split; [contradiction | reflexivity] | intros [_ H]; exact H].
  - destruct check.
    + split; [discriminate | intros [H _]; specialize (H Hf); discriminate].
    + split; [intros ->; split; reflexivity | intros [_ H]; exact H].
Qed.

Lemma firstReserved_none_iff (unicode_ToLower : Z -> Z) (entries : list (gostring * Value)) :
  Validator.firstReserved unicode_ToLower entries = None
  <-> forall key, In key (map fst entries) -> Spec.isReservedKey unicode_ToLower key = false.
Proof.
  unfold Spec.isReservedKey.
  induction entries as [|[key v] rest IH]; simpl.
  - split; [intros _ ? [] | reflexivity].
  - destruct (Validator.reservedFieldNames (Strings.ToLower unicode_ToLower key)) eqn:E.
    + split; [discriminate|]. intros H. rewrite H in E by (left; reflexivity). discriminate.
    + rewrite IH. split.
      * intros H k [<-|Hin]; [exact E | exact (H _ Hin)].
      * intros H k Hin. apply H. right. exact Hin.
Qed.

Lemma TrimSpace_nil : Strings.TrimSpace [] = [].
Proof. reflexivity. Qed.

Lemma ValidString_nil : Utf8.ValidString [] = true.
Proof. reflexivity. Qed.

Lemma plainText_spec (s : gostring) :
  plainText s
  <-> Utf8.ValidString s = true /\ Validator.containsUnsafeCharacters s = false.
Proof.
  unfold plainText, Validator.containsUnsafeCharacters, Utf8.runes.
  rewrite runesFrom_unsafe by lia.
  split; intros [Hv Hc]; (split; [exact Hv|]).
  - destruct (existsb controlByte s) eqn:E; [|reflexivity].
    apply existsb_exists in E as (c & Hin & Hcb). rewrite (Hc c Hin) in Hcb. discriminate.
  - intros c Hin. destruct (controlByte c) eqn:E; [|reflexivity].
    assert (existsb controlByte s = true) by (apply existsb_exists; eauto). congruence.
Qed.

(** The two format checks in the vocabulary of [plainToken]. *)
Lemma sourceFormat_plainToken (source : gostring) :
  Validator.validateSourceFormat source = None <-> plainToken source.
Proof.
  unfold Validator.validateSourceFormat, plainToken.
  destruct (Strings.Contains source (go " ")) eqn:Espace.
  { split; [discriminate|]. intros [Hchars _].
    apply (Contains_byte source " "%char) in Espace.
    destruct (Hchars _ Espace) as [Hne _]. contradiction. }
  destruct (Strings.Contains source (go "..")) eqn:Edots.
  { split; [discriminate|]. intros [_ Hdots].
    apply Contains_spec in Edots as (a & b & ->). exfalso. exact (Hdots a b eq_refl). }
  destruct (Validator.firstContained source Validator.dangerousChars) eqn:Edanger.
  { split; [discriminate|]. intros [Hchars _].
    assert (Hd : Validator.firstContained source Validator.dangerousChars = None)
      by (apply no_dangerous_chars; intros c Hin; apply Hchars, Hin).
    congruence. }
  split; [intros _|reflexivity].
  split.
  - intros c Hin. split; [|exact (proj1 (no_dangerous_chars _) Edanger c Hin)].
    intros ->. apply (Contains_singleton source " "%char) in Hin.
    change (go " ") with [" "%char] in Espace. congruence.
  - intros front rest ->.
    assert (Strings.Contains (front ++ "."%char :: "."%char :: rest) (go "..") = true)
      by (apply Contains_spec; exists front, rest; reflexivity).
    congruence.
Qed.

Lemma typeFormat_plainToken (eventType : gostring) :
  Validator.validateTypeFormat eventType = None
  <-> plainToken eventType
      /\ (forall rest, eventType <> "."%char :: rest)
      /\ (forall front, eventType <> front ++ ["."%char]).
Proof.
  unfold Validator.validateTypeFormat, plainToken.
  destruct (Strings.Contains eventType (go " ")) eqn:Espace.
  { split; [discriminate|]. intros [[Hchars _] _].
    apply (Contains_byte eventType " "%char) in Espace.
    destruct (Hchars _ Espace) as [Hne _]. contradiction. }
  destruct (Validator.firstContained eventType Validator.dangerousChars) eqn:Edanger.
  { split; [discriminate|]. intros [[Hchars _] _].
    assert (Hd : Validator.firstContained eventType Validator.dangerousChars = None)
      by (apply no_dangerous_chars; intros c Hin; apply Hchars, Hin).
    congruence. }
  destruct (Strings.HasPrefix eventType (go ".")) eqn:Eprefix.
  { split; [discriminate|]. intros (_ & Hhead & _).
    apply HasPrefix_spec in Eprefix as [t ->]. exfalso. exact (Hhead t eq_refl). }
  destruct (Strings.HasSuffix eventType (go ".")) eqn:Esuffix.
  { split; [discriminate|]. intros (_ & _ & Hlast).
    apply HasSuffix_spec in Esuffix as [t ->]. exfalso. exact (Hlast t eq_refl). }
  destruct (Strings.Contains eventType (go "..")) eqn:Edots.
  { split; [discriminate|]. intros ([_ Hdots] & _).
    apply Contains_spec in Edots as (a & b & ->). exfalso. exact (Hdots a b eq_refl). }
  cbn [orb].
  split; [intros _|reflexivity].
  split; [split|split].
  - intros c Hin. split; [|exact (proj1 (no_dangerous_chars _) Edanger c Hin)].
    intros ->. apply (Contains_singleton eventType " "%char) in Hin.
    change (go " ") with [" "%char] in Espace. congruence.
  - intros front rest ->.
    assert (Strings.Contains (front ++ "."%char :: "."%char :: rest) (go "..") = true)
      by (apply Contains_spec; exists front, rest; reflexivity).
    congruence.
  - intros rest ->. discriminate.
  - intros front ->.
    assert (Strings.HasSuffix (front ++ ["."%char]) (go ".") = true)
      by (apply HasSuffix_spec; exists front; reflexivity).
    congruence.
Qed.

(** The walk from the top, by the three lemmas on the depth counter. *)
Lemma walk_from_top (v : Value) :
  Validator.validateDataStructure v 0 = None
  <-> Spec.withinLimits v = true /\ Spec.nestingDepth v <= 5.
Proof.
  split.
  - intros Hnone.
    pose proof (validateDataStructure_accepts_within_limits v 0 Hnone) as HW.
    split; [exact HW|].
    destruct (Z.le_gt_cases (Spec.nestingDepth v) 5) as [|Hdeep]; [assumption|].
    destruct (validateDataStructure_beyond_depth v 0 HW) as (e & He & _);
      [unfold Validator.MaxNestingDepth; lia ..|].
    congruence.
  - intros [HW Hd]. apply validateDataStructure_within_depth; [exact HW|].
    unfold Validator.MaxNestingDepth. lia.
Qed.

(** X5.  [Validate] accepts a payload exactly when: the title is not
    blank, is plain text and is at most [MaxTitleLength] bytes long; the
    description is plain text and, unless empty, at most [MaxDescLength]
    bytes long; the source is plain text of at most 128 bytes in the format
    of X3; the type is plain text of at most 32 bytes in the format of X2;
    and the data map is present, not empty, serializes to at most
    [MaxDataSize] bytes, meets the limits of the walk (X1) and has no
    reserved name among its top-level keys. *)
Theorem Validate_accepts_exactly
        (config : Config.Config) (unicode_ToLower : Z -> Z)
        (json_Marshal : option (list (gostring * Value)) -> option gostring)
        (p : Model.WebhookPayload) :
  Validator.Validate config unicode_ToLower json_Marshal (Some p) = None
  <-> (Strings.TrimSpace (Model.Title p) <> []
       /\ plainText (Model.Title p)
       /\ len (Model.Title p) <= Config.GetMaxTitleLength config)
      /\ (plainText (Model.Description p)
          /\ (Model.Description p <> [] ->
              len (Model.Description p) <= Config.GetMaxDescLength config))
      /\ (plainText (Model.Source p) /\ len (Model.Source p) <= 128
          /\ plainToken (Model.Source p))
      /\ (plainText (Model.Type_ p) /\ len (Model.Type_ p) <= 32
          /\ plainToken (Model.Type_ p)
          /\ (forall rest, Model.Type_ p <> "."%char :: rest)
          /\ (forall front, Model.Type_ p <> front ++ ["."%char]))
      /\ (exists entries jsonData,
             Model.Data p = Some entries /\ entries <> []
             /\ json_Marshal (Some entries) = Some jsonData
             /\ len jsonData <= Config.GetMaxDataSize config
             /\ Spec.withinLimits (VMap entries) = true
             /\ Spec.nestingDepth (VMap entries) <= 5
             /\ forall key, In key (map fst entries) ->
                            Spec.isReservedKey unicode_ToLower key = false).
Proof.
  assert (Hempty : forall s : gostring, s = [] -> plainText s /\ len s <= 128 /\ len s <= 32
                                                /\ plainToken s).
  { intros s ->.
    split; [split; [reflexivity | intros c []]|].
    split; [discriminate|]. split; [discriminate|].
    split; [intros c [] | intros [|x front] rest; discriminate]. }
  unfold Validator.Validate, Validator.ValidateStructure, Validator.ValidateContent,
    Validator.validateBusinessRules, Validator.validateDataField.
  split.
  - case_bool_decide as Htitle; [discriminate|].
    destruct (Model.Data p) as [entries|] eqn:Edata; [|discriminate].
    destruct (Nat.eqb_spec (length entries) 0) as [|Hlen]; [discriminate|].
    destruct (Validator.validateString (go "title") _ _ _ _) eqn:Et; [discriminate|].
    apply (validateString_accepts config) in Et as (_ & Htv & Htu & Htl).
    destruct (Validator.ifSet (Model.Description p) _ _) eqn:Econtent; [discriminate|].
    apply ifSet_none in Econtent as [Hdesc Econtent].
    apply ifSet_none in Econtent as [Hsrc Econtent].
    apply ifSet_none in Econtent as [Htype Econtent].
    cbn [Model.entries].
    destruct (Validator.firstReserved unicode_ToLower entries) eqn:Eres; [discriminate|].
    intros Hrules.
    apply ifSet_none in Hrules as [Hsrcf Hrules].
    apply ifSet_none in Hrules as [Htypef _].
    revert Econtent.
    destruct (json_Marshal (Some entries)) as [jsonData|] eqn:Ejson; [|discriminate].
    destruct (Z.gtb_spec (len jsonData) (Config.GetMaxDataSize config));
      [intros ?; discriminate|].
    cbn [Model.entries].
    destruct (Validator.validateDataStructure (VMap entries) 0) eqn:Ewalk; [discriminate|].
    intros _.
    apply walk_from_top in Ewalk as [Hlimits Hdepth].
    split; [|split; [|split; [|split]]].
    + split; [exact Htitle|]. split; [apply plainText_spec; tauto | lia].
    + destruct (decide (Model.Description p = [])) as [Ed|Ed].
      * rewrite Ed. split; [apply (Hempty []); reflexivity | intros Hset; contradiction].
      * specialize (Hdesc Ed).
        apply (validateString_accepts config) in Hdesc as (_ & Hv & Hu & Hl).
        split; [apply plainText_spec; tauto | intros _; lia].
    + destruct (decide (Model.Source p = [])) as [Es|Es].
      * rewrite Es. destruct (Hempty [] eq_refl) as (? & ? & ? & ?). tauto.
      * specialize (Hsrc Es). specialize (Hsrcf Es).
        apply (validateString_accepts config) in Hsrc as (_ & Hv & Hu & Hl).
        destruct (Validator.validateSourceFormat (Model.Source p)) eqn:Ef; [discriminate|].
        apply sourceFormat_plainToken in Ef.
        split; [apply plainText_spec; tauto|]. split; [lia | exact Ef].
    + destruct (decide (Model.Type_ p = [])) as [Es|Es].
      * rewrite Es. destruct (Hempty [] eq_refl) as (? & ? & ? & ?).
        split; [assumption|]. split; [assumption|]. split; [assumption|].
        split; [discriminate | intros [|x front]; discriminate].
      * specialize (Htype Es). specialize (Htypef Es).
        apply (validateString_accepts config) in Htype as (_ & Hv & Hu & Hl).
        destruct (Validator.validateTypeFormat (Model.Type_ p)) eqn:Ef; [discriminate|].
        apply typeFormat_plainToken in Ef as (Htok & Hh & Hla).
        split; [apply plainText_spec; tauto|]. split; [lia|].
        split; [exact Htok|]. split; assumption.
    + exists entries, jsonData.
      split; [reflexivity|]. split; [intros ->; apply Hlen; reflexivity|].
      split; [exact Ejson|]. split; [assumption|]. split; [exact Hlimits|].
      split; [exact Hdepth | apply firstReserved_none_iff, Eres].
  - intros ((Htitle & Htp & Htl) & (Hdp & Hdl) & (Hsp & Hsl & Hsf)
            & (Hyp & Hyl & Hyf & Hyh & Hyt)
            & (entries & jsonData & Edata & Hne & Ejson & Hsize & Hlimits & Hdepth & Hres)).
    rewrite bool_decide_eq_false_2 by exact Htitle.
    rewrite Edata.
    destruct (Nat.eqb_spec (length entries) 0) as [Hz|_];
      [destruct entries; [contradiction | discriminate]|].
    assert (Et : Validator.validateString (go "title") (Model.Title p) 1
                   (Config.GetMaxTitleLength config) true = None).
    { apply (validateString_accepts config). apply plainText_spec in Htp as [? ?].
      split; [intros _; exact Htitle|]. split; [assumption|]. split; [assumption|].
      split; [|exact Htl].
      assert (Hne0 : Model.Title p <> [])
        by (intros E; rewrite E in Htitle; apply Htitle; reflexivity).
      unfold len. destruct (Model.Title p); [contradiction | simpl length; lia]. }
    rewrite Et.
    assert (Econtent :
              Validator.ifSet (Model.Description p)
                (Validator.validateString (go "description") (Model.Description p) 0
                   (Config.GetMaxDescLength config) false)
                (Validator.ifSet (Model.Source p)
                   (Validator.validateString (go "source") (Model.Source p) 0 128 false)
                   (Validator.ifSet (Model.Type_ p)
                      (Validator.validateString (go "type") (Model.Type_ p) 0 32 false)
                      (match json_Marshal (Some entries) with
                       | Some jsonData0 =>
                         if len jsonData0 >? Config.GetMaxDataSize config
                         then Some (Validator.ValidationFailed (go "data")
                                      (Validator.DataTooLarge (len jsonData0)
                                         (Config.GetMaxDataSize config)))
                         else match Validator.validateDataStructure
                                      (VMap (Model.entries (Some entries))) 0 with
                              | Some err => Some (Validator.ValidationFailed (go "data")
                                                    (Validator.DataStructure err))
                              | None => None
                              end
                       | None => Some (Validator.ValidationFailed (go "data")
                                         Validator.NotSerializable)
                       end))) = None).
    { apply ifSet_none. split.
      { intros Hset. apply (validateString_accepts config).
        apply plainText_spec in Hdp as [? ?]. specialize (Hdl Hset).
        repeat split; try assumption; try discriminate. unfold len. lia. }
      apply ifSet_none. split.
      { intros Hset. apply (validateString_accepts config).
        apply plainText_spec in Hsp as [? ?].
        repeat split; try assumption; try discriminate. unfold len. lia. }
      apply ifSet_none. split.
      { intros Hset. apply (validateString_accepts config).
        apply plainText_spec in Hyp as [? ?].
        repeat split; try assumption; try discriminate. unfold len. lia. }
      rewrite Ejson.
      destruct (Z.gtb_spec (len jsonData) (Config.GetMaxDataSize config)); [lia|].
      cbn [Model.entries].
      rewrite (proj2 (walk_from_top (VMap entries)));
        [reflexivity | split; [exact Hlimits | exact Hdepth]]. }
    rewrite Econtent. cbn [Model.entries].
    rewrite (proj2 (firstReserved_none_iff unicode_ToLower entries) Hres).
    apply ifSet_none. split.
    { intros _. rewrite (proj2 (sourceFormat_plainToken _) Hsf). reflexivity. }
    apply ifSet_none. split; [|reflexivity].
    intros _.
    rewrite (proj2 (typeFormat_plainToken _)); [reflexivity|].
    split; [exact Hyf|]. split; assumption.
Qed.

(** ** The stages of [Write] *)

(** The stages of [Write], laid out: the state after each stage and the
    result of the call. *)
Lemma Write_stages
      (config : Config.Config) (env : OS.Env) (unicode_ToUpper : Z -> Z)
      (json_MarshalIndent : Model.WebhookPayload -> option gostring)
      (s s' : OS.State) (p : Model.WebhookPayload)
      (p' : option Model.WebhookPayload) (r : result gostring FileStore.FileError) :
  FileStore.Write config env unicode_ToUpper json_MarshalIndent s (Some p) = (s', p', r) ->
  exists s0 q s1 generated,
    OS.files s0 = OS.files s /\ OS.trace s0 = OS.trace s /\ OS.handles s0 = OS.handles s
    /\ p' = Some q
    /\ FileStore.generateSecureFilename env unicode_ToUpper s0 q = (s1, generated)
    /\ match generated with
       | Err err => s' = s1 /\ r = Err (FileStore.FilenameGeneration err)
       | Ok base =>
         let fullPath := Filepath.Join [Config.GetStoragePath config; base] in
         match Security.IsSecurePath unicode_ToUpper (OS.wd env) fullPath
                                     (Config.GetStoragePath config) with
         | Some err => s' = s1 /\ r = Err (FileStore.PathValidation fullPath err)
         | None =>
           exists s2 dirErr,
             FileStore.ensureDirectoryExists env s1 (Filepath.Dir fullPath) = (s2, dirErr)
             /\ match dirErr with
                | Some err =>
                  s' = s2
                  /\ r = Err (FileStore.DirectoryCreation (Filepath.Dir fullPath) err)
                | None =>
                  match json_MarshalIndent q with
                  | None => s' = s2 /\ r = Err (FileStore.JsonMarshaling fullPath)
                  | Some data =>
                    if len data >? Config.GetMaxFileSize config
                    then s' = s2
                         /\ r = Err (FileStore.SizeValidation fullPath (len data)
                                       (Config.GetMaxFileSize config))
                    else
                      exists writeErr,
                        FileStore.writeFileAtomically env s2 fullPath data = (s', writeErr)
                        /\ r = match writeErr with
                               | Some err => Err (FileStore.AtomicWrite fullPath err)
                               | None => Ok fullPath
                               end
                  end
                end
         end
       end.
Proof.
  unfold FileStore.Write. intros H.
  assert (Hstart : exists s0 q,
             OS.files s0 = OS.files s /\ OS.trace s0 = OS.trace s
             /\ OS.handles s0 = OS.handles s
             /\ (let '(s1, generated) :=
                     FileStore.generateSecureFilename env unicode_ToUpper s0 q in
                 match generated with
                 | Err err => (s1, Some q, Err (FileStore.FilenameGeneration err))
                 | Ok baseFilename =>
                   let fullPath := Filepath.Join [Config.GetStoragePath config; baseFilename] in
                   match Security.IsSecurePath unicode_ToUpper (OS.wd env) fullPath
                                               (Config.GetStoragePath config) with
                   | Some err => (s1, Some q, Err (FileStore.PathValidation fullPath err))
                   | None =>
                     let parentDir := Filepath.Dir fullPath in
                     let '(s2, dirErr) := FileStore.ensureDirectoryExists env s1 parentDir in
                     match dirErr with
                     | Some err => (s2, Some q, Err (FileStore.DirectoryCreation parentDir err))
                     | None =>
                       match json_MarshalIndent q with
                       | None => (s2, Some q, Err (FileStore.JsonMarshaling fullPath))
                       | Some data =>
                         if len data >? Config.GetMaxFileSize config
                         then (s2, Some q,
                               Err (FileStore.SizeValidation fullPath (len data)
                                      (Config.GetMaxFileSize config)))
                         else
                           let '(s3, writeErr) :=
                             FileStore.writeFileAtomically env s2 fullPath data in
                           match writeErr with
                           | Some err => (s3, Some q, Err (FileStore.AtomicWrite fullPath err))
                           | None => (s3, Some q, Ok fullPath)
                           end
                       end
                     end
                   end
                 end) = (s', p', r)).
  { destruct (bool_decide (Model.ID p = [])).
    - destruct (OS.draw env s 16) as [sd bytes] eqn:Ed.
      assert (Hd : OS.files sd = OS.files s /\ OS.trace sd = OS.trace s
                   /\ OS.handles sd = OS.handles s)
        by (unfold OS.draw in Ed; injection Ed as <- _; repeat split).
      destruct Hd as (Hf & Ht & Hh).
      eexists sd, _. split; [exact Hf|]. split; [exact Ht|]. split; [exact Hh|]. exact H.
    - eexists s, _. split; [reflexivity|]. split; [reflexivity|]. split; [reflexivity|].
      exact H. }
  clear H. destruct Hstart as (s0 & q & Hf0 & Ht0 & Hh0 & H).
  exists s0, q.
  destruct (FileStore.generateSecureFilename env unicode_ToUpper s0 q)
    as [s1 [base|err]] eqn:Egen;
    [exists s1, (Ok base) | exists s1, (Err err)];
    (split; [exact Hf0|]); (split; [exact Ht0|]); (split; [exact Hh0|]).
  2:{ injection H as <- <- <-. repeat split. }
  cbv zeta in H |- *.
  remember (Filepath.Join [Config.GetStoragePath config; base]) as fullPath eqn:Efull in *.
  clear Efull.
  destruct (Security.IsSecurePath _ _ _ _);
    [injection H as <- <- <-; repeat split|].
  destruct (FileStore.ensureDirectoryExists env s1 (Filepath.Dir fullPath))
    as [s2 [err|]] eqn:Edir.
  { injection H as <- <- <-. split; [reflexivity|]. split; [reflexivity|].
    eexists _, _. split; [reflexivity|]. split; reflexivity. }
  destruct (json_MarshalIndent q) as [data|] eqn:Ejson.
  2:{ injection H as <- <- <-. split; [reflexivity|]. split; [reflexivity|].
      eexists _, _. split; [reflexivity|]. cbv beta iota.
      split; reflexivity. }
  destruct (len data >? Config.GetMaxFileSize config) eqn:Esize.
  { injection H as <- <- <-. split; [reflexivity|]. split; [reflexivity|].
    eexists _, _. split; [reflexivity|]. cbv beta iota.
    split; reflexivity. }
  destruct (FileStore.writeFileAtomically env s2 fullPath data) as [s3 writeErr] eqn:Ew.
  split; [destruct writeErr; injection H as <- <- <-; reflexivity|].
  split; [reflexivity|].
  eexists _, _. split; [reflexivity|]. cbv beta iota.
  exists writeErr. destruct writeErr; injection H as <- <- <-; (split; [exact Ew | reflexivity]).
Qed.

Section Frames.
Variable env : OS.Env.

Lemma lookupNode_none (fs : gmap gostring OS.Node) (path : gostring) :
  OS.lookupNode fs path = None -> fs !! path = None.
Proof.
  unfold OS.lookupNode. destruct (_ || _); [discriminate | auto].
Qed.

Lemma CreateTemp_fresh s dir prefix s1 t :
  OS.CreateTemp env s dir prefix = (s1, Some t) -> OS.files s !! t = None.
Proof.
  unfold OS.CreateTemp.
  destruct (filter _ _) as [|c rest] eqn:Ef.
  - destruct (OS.enter env s OS.SysCreateTemp dir false); discriminate.
  - assert (Hc : c ∈ c :: rest) by left.
    rewrite <- Ef in Hc. apply list_elem_of_filter in Hc as [Hc _].
    apply bool_decide_unpack in Hc.
    destruct (OS.enter env s OS.SysCreateTemp c _) as [s0 []]; [|discriminate].
    intros [= <- <-]. apply lookupNode_none, Hc.
Qed.

Lemma Rename_moved s oldpath newpath s1 :
  OS.Rename env s oldpath newpath = (s1, true) ->
  (forall path, path <> oldpath -> path <> newpath ->
                OS.files s1 !! path = OS.files s !! path)
  /\ (oldpath <> newpath -> OS.files s1 !! oldpath = None).
Proof.
  unfold OS.Rename.
  destruct (OS.enter env s OS.SysRename oldpath _) as [s0 ok0] eqn:E.
  apply enter_spec in E as (Hf & _).
  destruct ok0; [|discriminate].
  destruct (OS.files s0 !! oldpath) as [node|]; [|discriminate].
  intros [= <-]. cbn. split.
  - intros path Ho Hn. rewrite lookup_insert_ne by congruence.
    rewrite lookup_delete_ne by congruence. rewrite Hf. reflexivity.
  - intros Hne. rewrite lookup_insert_ne by congruence. apply lookup_delete_eq.
Qed.

Lemma Remove_absent s path s1 ok :
  OS.Remove env s path = (s1, ok) ->
  OS.files s !! path = None -> OS.files s1 !! path = None.
Proof.
  unfold OS.Remove.
  destruct (OS.enter env s OS.SysRemove path _) as [s0 ok0] eqn:E.
  apply enter_spec in E as (Hf & _).
  destruct ok0; intros [= <- <-] Habs; cbn.
  - apply lookup_delete_eq.
  - rewrite Hf. exact Habs.
Qed.

Lemma cleanup_absent s t :
  OS.files s !! t = None -> OS.files (FileStore.cleanup env s t) !! t = None.
Proof.
  unfold FileStore.cleanup. intros Habs.
  destruct (OS.Close env s t) as [s0 closed] eqn:Ec.
  destruct (OS.Remove env s0 t) as [s2 ok] eqn:Er.
  apply Close_spec in Ec as (Hf & _).
  apply (Remove_absent _ _ _ _ Er). rewrite Hf. exact Habs.
Qed.

(** What the atomic write does to the files: unless no temporary file
    could be created, it works on a path [t] that did not exist; every
    other path keeps what it held, except the destination when the write
    succeeds, and after a success [t] is gone again. *)
Lemma writeFileAtomically_files s filePath data s' e :
  FileStore.writeFileAtomically env s filePath data = (s', e) ->
  (e = Some FileStore.CreateTempFailed /\ OS.files s' = OS.files s)
  \/ exists t,
      OS.files s !! t = None
      /\ (forall path, path <> t -> (e = None -> path <> filePath) ->
                       OS.files s' !! path = OS.files s !! path)
      /\ (e = None -> t <> filePath -> OS.files s' !! t = None).
Proof.
  unfold FileStore.writeFileAtomically. intros Hrun.
  destruct (OS.CreateTemp env s (Filepath.Dir filePath) FileStore.tempPrefix)
    as [s1 [t|]] eqn:Ecreate.
  2:{ apply CreateTemp_spec in Ecreate. injection Hrun as <- <-. left. tauto. }
  pose proof (CreateTemp_fresh _ _ _ _ _ Ecreate) as Hfresh.
  apply CreateTemp_spec in Ecreate as (_ & Hsame1 & _).
  right. exists t. split; [exact Hfresh|].
  assert (Hfail : forall s2,
             Spec.sameElsewhere t s s2 ->
             forall path, path <> t ->
                          OS.files (FileStore.cleanup env s2 t) !! path = OS.files s !! path).
  { intros s2 Hsame2 path Hne.
    destruct (cleanup_spec env s2 t _ eq_refl) as (Hsame3 & _).
    rewrite (Hsame3 _ Hne). apply Hsame2, Hne. }
  destruct (OS.Write env s1 t data) as [s2 ok2] eqn:E2.
  apply Write_spec in E2 as (Hsame2 & _).
  pose proof (sameElsewhere_trans _ _ _ _ Hsame1 Hsame2) as Hs2.
  destruct ok2; cbn [negb] in Hrun.
  2:{ injection Hrun as <- <-. split; [intros path Hne _; apply Hfail; assumption|].
      discriminate. }
  destruct (OS.Sync env s2 t) as [s3 ok3] eqn:E3.
  apply Sync_spec in E3 as (Hf3 & _).
  pose proof (sameElsewhere_trans _ _ _ _ Hs2 (sameElsewhere_files t _ _ Hf3)) as Hs3.
  destruct ok3; cbn [negb] in Hrun.
  2:{ injection Hrun as <- <-. split; [intros path Hne _; apply Hfail; assumption|].
      discriminate. }
  destruct (OS.Close env s3 t) as [s4 ok4] eqn:E4.
  apply Close_spec in E4 as (Hf4 & _).
  pose proof (sameElsewhere_trans _ _ _ _ Hs3 (sameElsewhere_files t _ _ Hf4)) as Hs4.
  destruct ok4; cbn [negb] in Hrun.
  2:{ injection Hrun as <- <-. split; [intros path Hne _; apply Hfail; assumption|].
      discriminate. }
  destruct (OS.Chmod env s4 t 420) as [s5 ok5] eqn:E5.
  apply Chmod_spec in E5 as (Hsame5 & _).
  pose proof (sameElsewhere_trans _ _ _ _ Hs4 Hsame5) as Hs5.
  destruct ok5; cbn [negb] in Hrun.
  2:{ injection Hrun as <- <-. split; [intros path Hne _; apply Hfail; assumption|].
      discriminate. }
  destruct (OS.Rename env s5 t filePath) as [s6 ok6] eqn:E6.
  destruct ok6; cbn [negb] in Hrun.
  2:{ apply Rename_spec in E6 as (Hf6 & _).
      injection Hrun as <- <-.
      split; [intros path Hne _; apply Hfail; [|assumption]|discriminate].
      eapply sameElsewhere_trans; [exact Hs5 | apply sameElsewhere_files, Hf6; reflexivity]. }
  apply Rename_moved in E6 as (Hframe & Hgone).
  injection Hrun as <- <-. split.
  - intros path Hne Hdest.
    destruct (cleanup_spec env s6 t _ eq_refl) as (Hsame7 & _).
    rewrite (Hsame7 _ Hne), (Hframe path Hne (Hdest eq_refl)). apply Hs5, Hne.
  - intros _ Hne. apply cleanup_absent, Hgone, Hne.
Qed.

Lemma fold_makeDirectory_preserves (perm : Z) (chain : list gostring)
      (fs : gmap gostring OS.Node) (path : gostring) (node : OS.Node) :
  fs !! path = Some node ->
  fold_left (OS.makeDirectory perm) chain fs !! path = Some node.
Proof.
  revert fs. induction chain as [|d chain IH]; intros fs Hl; simpl; [exact Hl|].
  apply IH. unfold OS.makeDirectory.
  destruct (OS.lookupNode fs d) eqn:El; [exact Hl|].
  rewrite lookup_insert_ne; [exact Hl|].
  intros ->. apply lookupNode_none in El. congruence.
Qed.

Lemma fold_makeDirectory_new (perm : Z) (chain : list gostring)
      (fs : gmap gostring OS.Node) (path : gostring) :
  fs !! path = None ->
  fold_left (OS.makeDirectory perm) chain fs !! path = None
  \/ (fold_left (OS.makeDirectory perm) chain fs !! path = Some (OS.Directory perm)
      /\ In path chain).
Proof.
  revert fs. induction chain as [|d chain IH]; intros fs Hl; [left; exact Hl|].
  cbn [fold_left].
  assert (Hstep : OS.makeDirectory perm fs d !! path = None
                  \/ (OS.makeDirectory perm fs d !! path = Some (OS.Directory perm)
                      /\ path = d)).
  { unfold OS.makeDirectory. destruct (OS.lookupNode fs d); [left; exact Hl|].
    destruct (decide (path = d)) as [->|Hne].
    - right. split; [apply lookup_insert_eq | reflexivity].
    - left. rewrite lookup_insert_ne by congruence. exact Hl. }
  destruct Hstep as [Hn|[Hs ->]].
  - destruct (IH _ Hn) as [H|[H Hin]];
      [left; exact H | right; split; [exact H | right; exact Hin]].
  - right. split; [apply fold_makeDirectory_preserves, Hs | left; reflexivity].
Qed.

(** [ensureDirectoryExists] keeps every node there is, and what it adds
    are directories with mode 0755 less the creation mask, under [dirPath]
    and the names of its parents. *)
Lemma ensureDirectoryExists_files s dirPath s1 r path :
  FileStore.ensureDirectoryExists env s dirPath = (s1, r) ->
  OS.files s1 !! path = OS.files s !! path
  \/ (OS.files s !! path = None
      /\ OS.files s1 !! path = Some (OS.Directory (OS.created env 493))
      /\ In path (dirPath :: OS.ancestors dirPath)).
Proof.
  unfold FileStore.ensureDirectoryExists. intros Hrun.
  destruct (Security.ValidatePath _ _ _).
  { injection Hrun as <- <-. left. reflexivity. }
  unfold OS.Stat in Hrun.
  destruct (OS.enter env s OS.SysStat dirPath _) as [s0 ok] eqn:E.
  apply enter_spec in E as (Hf & _).
  destruct ok.
  2:{ injection Hrun as <- <-. left. rewrite Hf. reflexivity. }
  destruct (OS.lookupNode (OS.files s0) dirPath) as [[c m|m]|].
  1,2: injection Hrun as <- <-; left; rewrite Hf; reflexivity.
  unfold OS.MkdirAll in Hrun.
  destruct (OS.enter env s0 OS.SysMkdirAll dirPath _) as [s2 ok2] eqn:E2.
  apply enter_spec in E2 as (Hf2 & _).
  destruct ok2; injection Hrun as <- <-; unfold OS.setFiles; cbn [OS.files].
  2:{ left. rewrite Hf2, Hf. reflexivity. }
  rewrite Hf2, Hf.
  destruct (OS.files s !! path) as [node|] eqn:El.
  - left.
    apply (fold_makeDirectory_preserves (OS.created env 493)
                                        (dirPath :: OS.ancestors dirPath)), El.
  - destruct (fold_makeDirectory_new (OS.created env 493)
                                     (dirPath :: OS.ancestors dirPath) _ _ El)
      as [H|[H Hin]]; [left; exact H | right; tauto].
Qed.

End Frames.

(** ** File handles *)

Section Handles.
Variable env : OS.Env.

Lemma generateSecureFilename_keeps (unicode_ToUpper : Z -> Z) s payload s1 r :
  FileStore.generateSecureFilename env unicode_ToUpper s payload = (s1, r) ->
  OS.files s1 = OS.files s /\ OS.handles s1 = OS.handles s.
Proof.
  unfold FileStore.generateSecureFilename.
  destruct (Security.SanitizeFilename unicode_ToUpper _) as [name|err].
  - intros [= <- <-]. split; reflexivity.
  - unfold OS.randRead.
    destruct (OS.enter env s OS.SysRandRead [] true) as [s0 ok] eqn:E.
    apply enter_spec in E as (Hf & Hh & _).
    destruct ok; [unfold OS.draw|]; cbv beta iota zeta;
      destruct (Security.GenerateSecureFilename _ _ _ _); intros [= <- <-]; cbn;
      split; assumption.
Qed.

Lemma ensureDirectoryExists_handles s dirPath s1 r :
  FileStore.ensureDirectoryExists env s dirPath = (s1, r) ->
  OS.handles s1 = OS.handles s.
Proof.
  unfold FileStore.ensureDirectoryExists.
  destruct (Security.ValidatePath _ _ _); [intros [= <- <-]; reflexivity|].
  unfold OS.Stat.
  destruct (OS.enter env s OS.SysStat dirPath _) as [s0 ok] eqn:E.
  apply enter_spec in E as (_ & Hh & _).
  destruct ok; [|intros [= <- <-]; exact Hh].
  destruct (OS.lookupNode (OS.files s0) dirPath) as [[c m|m]|];
    try (intros [= <- <-]; exact Hh).
  unfold OS.MkdirAll.
  destruct (OS.enter env s0 OS.SysMkdirAll dirPath _) as [s2 ok2] eqn:E2.
  apply enter_spec in E2 as (_ & Hh2 & _).
  destruct ok2; intros [= <- <-]; cbn; congruence.
Qed.

Lemma Close_handles s h s1 ok :
  OS.Close env s h = (s1, ok) ->
  OS.handles s1 = filter (fun x => negb (bool_decide (x = h))) (OS.handles s).
Proof.
  unfold OS.Close.
  destruct (OS.enter env s OS.SysClose h _) as [s0 ok0] eqn:E.
  apply enter_spec in E as (_ & Hh & _).
  intros [= <- <-]. cbn. rewrite Hh. reflexivity.
Qed.

Lemma Remove_handles s path s1 ok :
  OS.Remove env s path = (s1, ok) -> OS.handles s1 = OS.handles s.
Proof.
  unfold OS.Remove.
  destruct (OS.enter env s OS.SysRemove path _) as [s0 ok0] eqn:E.
  apply enter_spec in E as (_ & Hh & _).
  destruct ok0; intros [= <- <-]; exact Hh.
Qed.

Lemma Write_handles s h data s1 ok :
  OS.Write env s h data = (s1, ok) -> OS.handles s1 = OS.handles s.
Proof.
  unfold OS.Write.
  destruct (OS.enter env s OS.SysWrite h _) as [s0 ok0] eqn:E.
  apply enter_spec in E as (_ & Hh & _).
  destruct ok0; [|destruct (OS.isOpen s0 h)]; intros [= <- <-]; exact Hh.
Qed.

Lemma Sync_handles s h s1 ok :
  OS.Sync env s h = (s1, ok) -> OS.handles s1 = OS.handles s.
Proof.
  unfold OS.Sync. intros E. apply enter_spec in E as (_ & Hh & _). exact Hh.
Qed.

Lemma Chmod_handles s path mode s1 ok :
  OS.Chmod env s path mode = (s1, ok) -> OS.handles s1 = OS.handles s.
Proof.
  unfold OS.Chmod.
  destruct (OS.enter env s OS.SysChmod path _) as [s0 ok0] eqn:E.
  apply enter_spec in E as (_ & Hh & _).
  destruct ok0; [destruct (OS.files s0 !! path) as [[c m|m]|]|];
    intros [= <- <-]; exact Hh.
Qed.

Lemma Rename_handles s oldpath newpath s1 ok :
  OS.Rename env s oldpath newpath = (s1, ok) -> OS.handles s1 = OS.handles s.
Proof.
  unfold OS.Rename.
  destruct (OS.enter env s OS.SysRename oldpath _) as [s0 ok0] eqn:E.
  apply enter_spec in E as (_ & Hh & _).
  destruct ok0; [destruct (OS.files s0 !! oldpath)|]; intros [= <- <-]; exact Hh.
Qed.

Lemma CreateTemp_handles s dir prefix s1 r :
  OS.CreateTemp env s dir prefix = (s1, r) ->
  OS.handles s1 = match r with
                  | Some t => t :: OS.handles s
                  | None => OS.handles s
                  end.
Proof.
  unfold OS.CreateTemp.
  destruct (filter _ _) as [|c rest].
  - destruct (OS.enter env s OS.SysCreateTemp dir false) as [s0 ok0] eqn:E.
    apply enter_spec in E as (_ & Hh & _). intros [= <- <-]. exact Hh.
  - destruct (OS.enter env s OS.SysCreateTemp c _) as [s0 ok0] eqn:E.
    apply enter_spec in E as (_ & Hh & _).
    destruct ok0; intros [= <- <-]; cbn; congruence.
Qed.

Lemma cleanup_handles s t :
  OS.handles (FileStore.cleanup env s t)
  = filter (fun x => negb (bool_decide (x = t))) (OS.handles s).
Proof.
  unfold FileStore.cleanup.
  destruct (OS.Close env s t) as [s0 closed] eqn:Ec.
  destruct (OS.Remove env s0 t) as [s2 ok] eqn:Er.
  apply Close_handles in Ec. apply Remove_handles in Er. congruence.
Qed.

(** The atomic write closes what it opens: the handles open after it are
    the ones that were open before, less those on the temporary path. *)
Lemma writeFileAtomically_handles s filePath data s' e :
  FileStore.writeFileAtomically env s filePath data = (s', e) ->
  OS.handles s' = OS.handles s
  \/ exists t, OS.handles s' = filter (fun x => negb (bool_decide (x = t))) (OS.handles s).
Proof.
  unfold FileStore.writeFileAtomically. intros Hrun.
  destruct (OS.CreateTemp env s (Filepath.Dir filePath) FileStore.tempPrefix)
    as [s1 [t|]] eqn:Ecreate; apply CreateTemp_handles in Ecreate.
  2:{ injection Hrun as <- <-. left. exact Ecreate. }
  right. exists t.
  assert (Hdone : forall s2,
             OS.handles s2 = t :: OS.handles s
             \/ OS.handles s2 = filter (fun x => negb (bool_decide (x = t))) (OS.handles s) ->
             OS.handles (FileStore.cleanup env s2 t)
             = filter (fun x => negb (bool_decide (x = t))) (OS.handles s)).
  { intros s2 [H2|H2]; rewrite cleanup_handles, H2.
    - rewrite filter_cons. rewrite decide_False; [reflexivity|].
      rewrite bool_decide_eq_true_2 by reflexivity. cbn. tauto.
    - rewrite list_filter_filter. apply list_filter_iff. tauto. }
  destruct (OS.Write env s1 t data) as [s2 ok2] eqn:E2. apply Write_handles in E2.
  destruct ok2; cbn [negb] in Hrun;
    [|injection Hrun as <- <-; apply Hdone; left; congruence].
  destruct (OS.Sync env s2 t) as [s3 ok3] eqn:E3. apply Sync_handles in E3.
  destruct ok3; cbn [negb] in Hrun;
    [|injection Hrun as <- <-; apply Hdone; left; congruence].
  destruct (OS.Close env s3 t) as [s4 ok4] eqn:E4. apply Close_handles in E4.
  assert (H4 : OS.handles s4 = filter (fun x => negb (bool_decide (x = t))) (OS.handles s)).
  { rewrite E4, E3, E2, Ecreate. rewrite filter_cons. rewrite decide_False; [reflexivity|].
    rewrite bool_decide_eq_true_2 by reflexivity. cbn. tauto. }
  destruct ok4; cbn [negb] in Hrun;
    [|injection Hrun as <- <-; apply Hdone; right; exact H4].
  destruct (OS.Chmod env s4 t 420) as [s5 ok5] eqn:E5. apply Chmod_handles in E5.
  destruct ok5; cbn [negb] in Hrun;
    [|injection Hrun as <- <-; apply Hdone; right; congruence].
  destruct (OS.Rename env s5 t filePath) as [s6 ok6] eqn:E6. apply Rename_handles in E6.
  destruct ok6; cbn [negb] in Hrun;
    injection Hrun as <- <-; apply Hdone; right; congruence.
Qed.

End Handles.

(** ** The footprint of [Write] *)

(** X6.  Whatever its result and whichever system calls fail, [Write]
    leaves every file and directory that existed before it as it was, with
    one exception: the destination, when the write succeeds.  (The
    temporary file is created under a name that did not exist.) *)
Theorem Write_keeps_existing_files
      (config : Config.Config) (env : OS.Env) (unicode_ToUpper : Z -> Z)
      (json_MarshalIndent : Model.WebhookPayload -> option gostring)
      (s s' : OS.State) (p p' : option Model.WebhookPayload)
      (r : result gostring FileStore.FileError) (path : gostring) (node : OS.Node) :
  FileStore.Write config env unicode_ToUpper json_MarshalIndent s p = (s', p', r) ->
  OS.files s !! path = Some node ->
  r <> Ok path ->
  OS.files s' !! path = Some node.
Proof.
  intros Hrun Hnode Hother.
  destruct p as [p|]; [|injection Hrun as <- _ _; exact Hnode].
  apply Write_stages in Hrun
    as (s0 & q & s1 & generated & Hf0 & _ & _ & _ & Hgen & Hrest).
  apply generateSecureFilename_keeps in Hgen as [Hf1 _].
  assert (H1 : OS.files s1 !! path = Some node) by (rewrite Hf1, Hf0; exact Hnode).
  destruct generated as [base|err]; [|destruct Hrest as [-> _]; exact H1].
  cbv zeta in Hrest.
  destruct (Security.IsSecurePath _ _ _ _); [destruct Hrest as [-> _]; exact H1|].
  destruct Hrest as (s2 & dirErr & Hdir & Hrest).
  assert (H2 : OS.files s2 !! path = Some node).
  { destruct (ensureDirectoryExists_files env _ _ _ _ path Hdir) as [H|[H _]];
      [rewrite H; exact H1 | congruence]. }
  destruct dirErr as [err|]; [destruct Hrest as [-> _]; exact H2|].
  destruct (json_MarshalIndent q) as [data|]; [|destruct Hrest as [-> _]; exact H2].
  destruct (len data >? Config.GetMaxFileSize config);
    [destruct Hrest as [-> _]; exact H2|].
  destruct Hrest as (writeErr & Hwrite & Hr).
  destruct (writeFileAtomically_files env _ _ _ _ _ Hwrite)
    as [[_ Hsame]|(t & Hfresh & Hframe & _)].
  - rewrite Hsame. exact H2.
  - rewrite Hframe; [exact H2 | congruence |].
    intros ->. intros ->. apply Hother. exact Hr.
Qed.

Lemma Write_keeps_existing_files_witness :
  OS.files (fst (fst (FileStore.Write testConfig (failingAt 3) Unicode.latin1ToUpper
                                      Json.MarshalIndent storageOnly (Some helloPayload))))
    !! go "/var/hokku"
  = Some (OS.Directory 493).
Proof.
  destruct (FileStore.Write testConfig (failingAt 3) Unicode.latin1ToUpper
                            Json.MarshalIndent storageOnly (Some helloPayload))
    as [[s' p'] r] eqn:Hrun.
  apply (Write_keeps_existing_files _ _ _ _ _ _ _ _ _ _ _ Hrun).
  - reflexivity.
  - change r with (snd (s', p', r)). rewrite <- Hrun. vm_compute. discriminate.
Defined.

(** X7.  After a successful [Write] the file system differs from what it
    was only at the destination and at the directories on the way to it
    that had to be created, which have mode 0755 less the bits of the
    process's file mode creation mask; in particular no temporary file is
    left behind. *)
Theorem Write_success_footprint
      (config : Config.Config) (env : OS.Env) (unicode_ToUpper : Z -> Z)
      (json_MarshalIndent : Model.WebhookPayload -> option gostring)
      (s s' : OS.State) (p p' : option Model.WebhookPayload)
      (fullPath path : gostring) :
  FileStore.Write config env unicode_ToUpper json_MarshalIndent s p
  = (s', p', Ok fullPath) ->
  path <> fullPath ->
  OS.files s' !! path = OS.files s !! path
  \/ (OS.files s !! path = None
      /\ OS.files s' !! path = Some (OS.Directory (Z.ldiff 493 (OS.umask env)))
      /\ In path (Filepath.Dir fullPath :: OS.ancestors (Filepath.Dir fullPath))).
Proof.
  intros Hrun Hne.
  destruct p as [p|]; [|discriminate].
  apply Write_stages in Hrun
    as (s0 & q & s1 & generated & Hf0 & _ & _ & _ & Hgen & Hrest).
  apply generateSecureFilename_keeps in Hgen as [Hf1 _].
  destruct generated as [base|err]; [|destruct Hrest as [_ [=]]].
  cbv zeta in Hrest.
  destruct (Security.IsSecurePath _ _ _ _); [destruct Hrest as [_ [=]]|].
  destruct Hrest as (s2 & dirErr & Hdir & Hrest).
  destruct dirErr as [err|]; [destruct Hrest as [_ [=]]|].
  destruct (json_MarshalIndent q) as [data|]; [|destruct Hrest as [_ [=]]].
  destruct (len data >? Config.GetMaxFileSize config); [destruct Hrest as [_ [=]]|].
  destruct Hrest as (writeErr & Hwrite & Hr).
  destruct writeErr as [err|]; [discriminate|].
  injection Hr as Hr. rewrite <- Hr in *. clear Hr.
  assert (Hlast : OS.files s' !! path = OS.files s2 !! path).
  { destruct (writeFileAtomically_files env _ _ _ _ _ Hwrite)
      as [[[=] _]|(t & Hfresh & Hframe & Hgone)].
    destruct (decide (path = t)) as [->|Hnt].
    - rewrite Hfresh. apply Hgone; [reflexivity | exact Hne].
    - apply Hframe; [exact Hnt | intros _; exact Hne]. }
  rewrite Hlast, <- Hf0, <- Hf1.
  apply (ensureDirectoryExists_files env _ _ _ _ path Hdir).
Qed.

Lemma Write_success_footprint_witness :
  OS.files (fst (fst (FileStore.Write testConfig guardedEnv Unicode.latin1ToUpper
                                      Json.MarshalIndent emptyDisk (Some helloPayload))))
    !! go "/var/hokku/.tmp-webhook-1804289383"
  = None
  /\ OS.files (fst (fst (FileStore.Write testConfig guardedEnv Unicode.latin1ToUpper
                                         Json.MarshalIndent emptyDisk (Some helloPayload))))
       !! go "/var"
     = Some (OS.Directory 488).
Proof.
  destruct (FileStore.Write testConfig guardedEnv Unicode.latin1ToUpper
                            Json.MarshalIndent emptyDisk (Some helloPayload))
    as [[s' p'] r] eqn:Hrun.
  assert (Hr : r = Ok helloPath).
  { change r with (snd (s', p', r)). rewrite <- Hrun. vm_compute. reflexivity. }
  assert (Hvar : OS.files s' !! go "/var" <> None).
  { change s' with (fst (fst (s', p', r))). rewrite <- Hrun. vm_compute. discriminate. }
  rewrite Hr in Hrun. cbn [fst]. split.
  - destruct (Write_success_footprint _ _ _ _ _ _ _ _ _
                (go "/var/hokku/.tmp-webhook-1804289383") Hrun)
      as [Hsame|(_ & _ & Hin)].
    + discriminate.
    + rewrite Hsame. reflexivity.
    + exfalso. vm_compute in Hin. intuition discriminate.
  - destruct (Write_success_footprint _ _ _ _ _ _ _ _ _ (go "/var") Hrun)
      as [Hsame|(_ & Hnew & _)].
    + discriminate.
    + rewrite Hsame in Hvar. destruct (Hvar (lookup_empty _)).
    + exact Hnew.
Defined.

(** X8.  [Write] leaks no file handle: whatever its result and whichever
    system calls fail, every handle open after the call was open before
    it. *)
Theorem Write_leaves_no_handle_open
      (config : Config.Config) (env : OS.Env) (unicode_ToUpper : Z -> Z)
      (json_MarshalIndent : Model.WebhookPayload -> option gostring)
      (s s' : OS.State) (p p' : option Model.WebhookPayload)
      (r : result gostring FileStore.FileError) :
  FileStore.Write config env unicode_ToUpper json_MarshalIndent s p = (s', p', r) ->
  incl (OS.handles s') (OS.handles s).
Proof.
  intros Hrun.
  destruct p as [p|]; [|injection Hrun as <- _ _; apply incl_refl].
  apply Write_stages in Hrun
    as (s0 & q & s1 & generated & _ & _ & Hh0 & _ & Hgen & Hrest).
  apply generateSecureFilename_keeps in Hgen as [_ Hh1].
  assert (H1 : OS.handles s1 = OS.handles s) by congruence.
  destruct generated as [base|err];
    [|destruct Hrest as [-> _]; rewrite H1; apply incl_refl].
  cbv zeta in Hrest.
  destruct (Security.IsSecurePath _ _ _ _);
    [destruct Hrest as [-> _]; rewrite H1; apply incl_refl|].
  destruct Hrest as (s2 & dirErr & Hdir & Hrest).
  apply ensureDirectoryExists_handles in Hdir.
  assert (H2 : OS.handles s2 = OS.handles s) by congruence.
  destruct dirErr as [err|]; [destruct Hrest as [-> _]; rewrite H2; apply incl_refl|].
  destruct (json_MarshalIndent q) as [data|];
    [|destruct Hrest as [-> _]; rewrite H2; apply incl_refl].
  destruct (len data >? Config.GetMaxFileSize config);
    [destruct Hrest as [-> _]; rewrite H2; apply incl_refl|].
  destruct Hrest as (writeErr & Hwrite & _).
  destruct (writeFileAtomically_handles env _ _ _ _ _ Hwrite) as [Hh|[t Hh]];
    rewrite Hh, H2; [apply incl_refl|].
  intros h Hin. apply list_elem_of_In in Hin. apply list_elem_of_filter in Hin as [_ Hin].
  apply list_elem_of_In, Hin.
Qed.

Lemma Write_leaves_no_handle_open_witness :
  incl (OS.handles (fst (fst (FileStore.Write testConfig (failingAt 2)
                                Unicode.latin1ToUpper Json.MarshalIndent storageOnly
                                (Some helloPayload)))))
       [].
Proof.
  destruct (FileStore.Write testConfig (failingAt 2) Unicode.latin1ToUpper
                            Json.MarshalIndent storageOnly (Some helloPayload))
    as [[s' p'] r] eqn:Hrun.
  exact (Write_leaves_no_handle_open _ _ _ _ _ _ _ _ _ Hrun).
Defined.

(** The creation mask at work, and the outcomes of [ensureDirectoryExists]
    on a missing path, on a regular file and below a regular file. *)
Example created_modes :
  map (fun mask => OS.created (OS.mkEnv None Time.zero (fun _ => "0"%char) [] (fun _ => false)
                                        0 mask) 493)
      [0; 18; 23; 63; 511]
  = [493; 493; 488; 448; 0].
Proof. vm_compute. reflexivity. Qed.

Example ensureDirectoryExists_examples :
  map_to_list (OS.files (fst (FileStore.ensureDirectoryExists guardedEnv emptyDisk
                                                              (go "/data/in"))))
  = [(go "/data/in", OS.Directory 488); (go "/data", OS.Directory 488)]
  /\ snd (FileStore.ensureDirectoryExists calmEnv
            (OS.mkState (<[go "/data" := OS.File [] 420]> ∅) [] 0 0 []) (go "/data"))
     = Some FileStore.NotADirectory
  /\ FileStore.ensureDirectoryExists calmEnv
       (OS.mkState (<[go "/data" := OS.File [] 420]> ∅) [] 0 0 []) (go "/data/in")
     = (OS.mkState (<[go "/data" := OS.File [] 420]> ∅) [] 1 0
                   [OS.Called OS.SysStat (go "/data/in") false],
        Some FileStore.StatFailed).
Proof. vm_compute. repeat split; reflexivity. Qed.

Section Directory.
Variable env : OS.Env.

Lemma ensureDirectoryExists_directory s dirPath s1 :
  FileStore.ensureDirectoryExists env s dirPath = (s1, None) ->
  OS.isDirectoryNode (OS.lookupNode (OS.files s1) dirPath) = true.
Proof.
  unfold FileStore.ensureDirectoryExists.
  destruct (Security.ValidatePath _ _ _); [discriminate|].
  unfold OS.Stat.
  destruct (OS.enter env s OS.SysStat dirPath _) as [s0 ok] eqn:E.
  destruct ok; [|discriminate].
  destruct (OS.lookupNode (OS.files s0) dirPath) as [[c m|m]|] eqn:El; [discriminate| |].
  - intros [= <-]. rewrite El. reflexivity.
  - unfold OS.MkdirAll.
    destruct (OS.enter env s0 OS.SysMkdirAll dirPath _) as [s2 ok2] eqn:E2.
    apply enter_spec in E2 as (Hf2 & _).
    destruct ok2; [|discriminate].
    intros [= <-]. unfold OS.setFiles. cbn [OS.files fold_left].
    assert (Habsent : OS.makeDirectory (OS.created env 493) (OS.files s2) dirPath
                        !! dirPath
                      = Some (OS.Directory (OS.created env 493))).
    { unfold OS.makeDirectory. rewrite Hf2, El.
      apply lookup_insert_eq. }
    unfold OS.lookupNode.
    destruct (_ || _); [reflexivity|].
    rewrite (fold_makeDirectory_preserves _ _ _ dirPath _ Habsent).
    reflexivity.
Qed.

(** X9.  [ensureDirectoryExists] returns nil only when the path is a
    directory afterwards, either because it was one already or because
    [MkdirAll] has just created it; whatever it returns, every node that
    existed is kept as it was (a regular file in the way is not replaced);
    and when the path is a cleaned one, what is new are directories at the
    path or above it, of mode 0755 less the bits of the process's file
    mode creation mask. *)
Theorem ensureDirectoryExists_outcome s dirPath s1 r :
  FileStore.ensureDirectoryExists env s dirPath = (s1, r) ->
  (r = None -> OS.isDirectoryNode (OS.lookupNode (OS.files s1) dirPath) = true)
  /\ (forall path node,
         OS.files s !! path = Some node -> OS.files s1 !! path = Some node)
  /\ (Filepath.Clean dirPath = dirPath ->
      forall path,
         OS.files s !! path = None ->
         OS.files s1 !! path = None
         \/ (OS.files s1 !! path = Some (OS.Directory (Z.ldiff 493 (OS.umask env)))
             /\ In path (dirPath :: OS.ancestors dirPath))).
Proof.
  intros Hrun. split; [|split].
  - intros ->. exact (ensureDirectoryExists_directory _ _ _ Hrun).
  - intros path node Hnode.
    destruct (ensureDirectoryExists_files env _ _ _ _ path Hrun) as [H|[H _]];
      [rewrite H; exact Hnode | congruence].
  - intros _ path Habsent.
    destruct (ensureDirectoryExists_files env _ _ _ _ path Hrun) as [H|(_ & H & Hin)];
      [left; rewrite H; exact Habsent | right; split; assumption].
Qed.

End Directory.

Lemma ensureDirectoryExists_outcome_witness :
  Filepath.Clean (go "/data/in") = go "/data/in"
  /\ OS.isDirectoryNode
       (OS.lookupNode
          (OS.files (fst (FileStore.ensureDirectoryExists guardedEnv emptyDisk
                                                          (go "/data/in"))))
          (go "/data/in")) = true
  /\ OS.files (fst (FileStore.ensureDirectoryExists guardedEnv emptyDisk (go "/data/in")))
       !! go "/data"
     = Some (OS.Directory 488).
Proof.
  destruct (FileStore.ensureDirectoryExists guardedEnv emptyDisk (go "/data/in"))
    as [s1 r] eqn:Hrun.
  assert (Hr : r = None).
  { change r with (snd (s1, r)). rewrite <- Hrun. vm_compute. reflexivity. }
  assert (Hclean : Filepath.Clean (go "/data/in") = go "/data/in")
    by (vm_compute; reflexivity).
  assert (Hdata : OS.files s1 !! go "/data" <> None).
  { change s1 with (fst (s1, r)). rewrite <- Hrun. vm_compute. discriminate. }
  destruct (ensureDirectoryExists_outcome _ _ _ _ _ Hrun) as (Hdir & _ & Hnew).
  split; [exact Hclean|]. split; [exact (Hdir Hr)|]. cbn [fst].
  destruct (Hnew Hclean (go "/data") (lookup_empty _)) as [Hnone|[Hsome _]].
  - destruct (Hdata Hnone).
  - exact Hsome.
Defined.

(** X10.  When [Write] succeeds, the path it returns is the storage path
    joined with a single file name that holds no separator and does not
    begin with a dot; the path has passed [IsSecurePath]; its parent is a
    directory; and the file at the path has mode 0644 and holds at most
    [MaxFileSize] bytes. *)
Theorem Write_success_within_limits
      (config : Config.Config) (env : OS.Env) (unicode_ToUpper : Z -> Z)
      (json_MarshalIndent : Model.WebhookPayload -> option gostring)
      (s s' : OS.State) (p p' : option Model.WebhookPayload) (fullPath : gostring) :
  FileStore.Write config env unicode_ToUpper json_MarshalIndent s p
  = (s', p', Ok fullPath) ->
  (exists base,
      fullPath = Filepath.Join [Config.GetStoragePath config; base]
      /\ Spec.visibleElement base /\ Spec.endsWithElement fullPath base)
  /\ Security.IsSecurePath unicode_ToUpper (OS.wd env) fullPath
                           (Config.GetStoragePath config) = None
  /\ OS.isDirectoryNode (OS.lookupNode (OS.files s') (Filepath.Dir fullPath)) = true
  /\ exists content,
      OS.files s' !! fullPath = Some (OS.File content 420)
      /\ len content <= Config.GetMaxFileSize config.
Proof.
  intros Hrun.
  destruct p as [p|]; [|discriminate].
  apply Write_stages in Hrun
    as (s0 & q & s1 & generated & Hf0 & _ & _ & _ & Hgen & Hrest).
  destruct generated as [base|err]; [|destruct Hrest as [_ [=]]].
  apply generateSecureFilename_spec in Hgen as (_ & _ & Hvisible).
  cbv zeta in Hrest.
  assert (Hends : Spec.endsWithElement
                    (Filepath.Join [Config.GetStoragePath config; base]) base)
    by (apply Join_ends_with_element; exact (proj1 Hvisible)).
  destruct (Security.IsSecurePath _ _ _ _) eqn:Esecure; [destruct Hrest as [_ [=]]|].
  destruct Hrest as (s2 & dirErr & Hdir & Hrest).
  destruct dirErr as [err|]; [destruct Hrest as [_ [=]]|].
  destruct (json_MarshalIndent q) as [data|]; [|destruct Hrest as [_ [=]]].
  destruct (Z.gtb_spec (len data) (Config.GetMaxFileSize config)) as [|Hsize];
    [destruct Hrest as [_ [=]]|].
  destruct Hrest as (writeErr & Hwrite & Hr).
  destruct writeErr as [err|]; [discriminate|].
  injection Hr as Hr. subst fullPath.
  split; [exists base; split; [reflexivity|]; split; assumption|].
  split; [exact Esecure|].
  split.
  - pose proof (ensureDirectoryExists_directory env _ _ _ Hdir) as Hd.
    revert Hd. unfold OS.lookupNode.
    destruct (_ || _); [reflexivity|].
    destruct (OS.files s2 !! Filepath.Dir (Filepath.Join [Config.GetStoragePath config; base]))
      as [node|] eqn:El; [|discriminate].
    intros Hd.
    destruct (writeFileAtomically_files env _ _ _ _ _ Hwrite)
      as [[[=] _]|(t & Hfresh & Hframe & _)].
    rewrite Hframe, El; [exact Hd | congruence |].
    intros _ Heq.
    apply (parent_chain_excludes _ _ (proj1 Hvisible) Hends). left. exact Heq.
  - exists data. split; [|exact Hsize].
    apply (writeFileAtomically_content env _ _ _ _ Hwrite).
    exact (temp_candidates_exclude _ _ _ Hvisible Hends).
Qed.

Lemma Write_success_within_limits_witness :
  exists content,
    OS.files (fst (fst (FileStore.Write testConfig calmEnv Unicode.latin1ToUpper
                                        Json.MarshalIndent storageOnly (Some helloPayload))))
      !! helloPath = Some (OS.File content 420)
    /\ len content <= 1024 * 1024.
Proof.
  destruct (FileStore.Write testConfig calmEnv Unicode.latin1ToUpper
                            Json.MarshalIndent storageOnly (Some helloPayload))
    as [[s' p'] r] eqn:Hrun.
  assert (Hr : r = Ok helloPath).
  { change r with (snd (s', p', r)). rewrite <- Hrun. vm_compute. reflexivity. }
  rewrite Hr in Hrun.
  exact (proj2 (proj2 (proj2 (Write_success_within_limits _ _ _ _ _ _ _ _ _ Hrun)))).
Defined.

(** ** Names the security package returns *)

(** X11.  Whatever [SanitizeFilename] returns is a single visible path
    element: not empty, without a separator, neither [.] nor [..], and not
    beginning with a dot. *)
Theorem SanitizeFilename_visible_element
        (unicode_ToUpper : Z -> Z) (filename name : gostring) :
  Security.SanitizeFilename unicode_ToUpper filename = Ok name ->
  Spec.visibleElement name.
Proof.
  intros Hrun.
  destruct (SanitizeFilename_shape _ _ _ Hrun) as [Hsafe Hhead].
  split; [exact (shape_pathElement _ Hsafe Hhead) | exact Hhead].
Qed.

Lemma SanitizeFilename_visible_element_witness :
  Spec.visibleElement (go "bashrc_backup").
Proof.
  apply (SanitizeFilename_visible_element Unicode.latin1ToUpper (go "../.bashrc backup.")).
  vm_compute. reflexivity.
Defined.

Lemma hex_safe (bytes : gostring) : Forall safeByte (Hex.EncodeToString bytes).
Proof.
  unfold Hex.EncodeToString.
  induction bytes as [|c bytes IH]; simpl; [constructor|].
  constructor; [|constructor; [|exact IH]];
    destruct c as [[] [] [] [] [] [] [] []]; vm_compute; reflexivity.
Qed.

Lemma hex_head (c : ascii) (bytes : gostring) :
  exists d rest, Hex.EncodeToString (c :: bytes) = d :: rest /\ d <> "."%char.
Proof.
  unfold Hex.EncodeToString. simpl. eexists _, _. split; [reflexivity|].
  destruct c as [[] [] [] [] [] [] [] []]; vm_compute; discriminate.
Qed.

Lemma safeByte_dot : safeByte "."%char.
Proof. reflexivity. Qed.

(** X12.  [GenerateSecureFilename] succeeds only when the random source
    has delivered; the name then holds the hexadecimal form of the random
    bytes, is made of bytes the sanitizer accepts (no separator, no control
    byte) whatever prefix and extension were asked for, and, the random
    bytes not being empty, is a single visible path element. *)
Theorem GenerateSecureFilename_shape
        (unicode_ToUpper : Z -> Z) (randomBytes : option gostring)
        (prefix extension name : gostring) :
  Security.GenerateSecureFilename unicode_ToUpper randomBytes prefix extension = Ok name ->
  exists bytes,
    randomBytes = Some bytes
    /\ (exists front back, name = front ++ Hex.EncodeToString bytes ++ back)
    /\ Forall safeByte name
    /\ (bytes <> [] -> Spec.visibleElement name).
Proof.
  unfold Security.GenerateSecureFilename.
  set (prefix' := if negb (bool_decide (prefix = [])) then _ else _).
  assert (Hprefix : forall p, prefix' = Ok p ->
             p = [] \/ (Forall safeByte p /\ exists c rest, p = c :: rest /\ c <> "."%char)).
  { subst prefix'. intros p. case_bool_decide as Hp; cbn [negb].
    - intros [= <-]. left. exact Hp.
    - destruct (Security.SanitizeFilename unicode_ToUpper prefix) as [p0|e] eqn:Es;
        [|discriminate].
      intros [= <-]. right. exact (SanitizeFilename_shape _ _ _ Es). }
  destruct prefix' as [p|e]; [|discriminate].
  specialize (Hprefix p eq_refl).
  destruct randomBytes as [bytes|]; [|discriminate].
  intros Hrun. exists bytes. split; [reflexivity|].
  set (filename := Strings.Join _ _) in Hrun.
  assert (Hfile : (exists front, filename = front ++ Hex.EncodeToString bytes)
                  /\ Forall safeByte filename
                  /\ (bytes <> [] ->
                      exists c rest, filename = c :: rest /\ c <> "."%char)).
  { unfold filename.
    destruct (decide (p = [])) as [Hp|Hp];
      [rewrite (bool_decide_eq_true_2 _ Hp) | rewrite (bool_decide_eq_false_2 _ Hp)];
      cbn [negb app Strings.Join].
    - split; [exists []; reflexivity|]. split; [apply hex_safe|].
      intros Hne. destruct bytes as [|c bytes]; [contradiction|]. apply hex_head.
    - destruct Hprefix as [->|(Hsafe & c & rest & -> & Hc)]; [contradiction|].
      split; [exists ((c :: rest) ++ go "_"); rewrite <- app_assoc; reflexivity|].
      split.
      + apply Forall_app. split; [exact Hsafe|].
        apply Forall_app. split; [repeat constructor | apply hex_safe].
      + intros _. eexists _, _. split; [reflexivity | exact Hc]. }
  clearbody filename. destruct Hfile as ([front Hfront] & Hsafe & Hhead).
  assert (Hdone : forall back,
             Forall safeByte back ->
             (exists front0 back0,
                 filename ++ back = front0 ++ Hex.EncodeToString bytes ++ back0)
             /\ Forall safeByte (filename ++ back)
             /\ (bytes <> [] -> Spec.visibleElement (filename ++ back))).
  { intros back Hback.
    split; [exists front, back; rewrite Hfront, <- app_assoc; reflexivity|].
    assert (Hall : Forall safeByte (filename ++ back))
      by (apply Forall_app; split; assumption).
    split; [exact Hall|].
    intros Hne. destruct (Hhead Hne) as (c & rest & -> & Hc).
    assert (Hh : exists c0 rest0, (c :: rest) ++ back = c0 :: rest0 /\ c0 <> "."%char)
      by (eexists _, _; split; [reflexivity | exact Hc]).
    split; [exact (shape_pathElement _ Hall Hh) | exact Hh]. }
  revert Hrun.
  destruct (decide (extension = [])) as [Hext|Hext];
    [rewrite (bool_decide_eq_true_2 _ Hext) | rewrite (bool_decide_eq_false_2 _ Hext)];
    cbn [negb].
  - intros [= <-]. rewrite <- (app_nil_r filename). apply Hdone. constructor.
  - destruct (Security.SanitizeFilename unicode_ToUpper _) as [cleanExt|e] eqn:Es;
      [|discriminate].
    intros [= <-]. apply Hdone.
    constructor; [exact safeByte_dot|].
    exact (proj1 (SanitizeFilename_shape _ _ _ Es)).
Qed.

Lemma GenerateSecureFilename_shape_witness :
  Spec.visibleElement (go "upload_00ff10.tar.gz").
Proof.
  destruct (GenerateSecureFilename_shape Unicode.latin1ToUpper
              (Some [bytechr 0; bytechr 255; bytechr 16]) (go " upload ") (go ".tar.gz")
              (go "upload_00ff10.tar.gz"))
    as (bytes & Hb & _ & _ & Hv).
  - vm_compute. reflexivity.
  - apply Hv. injection Hb as <-. discriminate.
Defined.

Lemma DecodeRuneInString_ascii (c : ascii) (t : gostring) :
  byteval c < 128 -> Utf8.DecodeRuneInString (c :: t) = (byteval c, 1%nat).
Proof.
  intros H. unfold Utf8.DecodeRuneInString, Utf8.seqSize.
  destruct (Z.ltb_spec (byteval c) 128); [reflexivity | lia].
Qed.

Lemma runesFrom_ascii (fuel : nat) (s : gostring) :
  Forall (fun c => byteval c < 128) s ->
  (length s <= fuel)%nat ->
  Utf8.runesFrom fuel s = map (fun c => (byteval c, [c])) s.
Proof.
  revert s. induction fuel as [|fuel IH]; intros s Hs Hlen.
  - destruct s; [reflexivity | simpl in Hlen; lia].
  - destruct s as [|c t]; [reflexivity|].
    apply Forall_cons in Hs as [Hc Ht].
    cbn [Utf8.runesFrom]. rewrite (DecodeRuneInString_ascii c t Hc).
    cbn [take drop map]. rewrite take_0. f_equal. apply IH; [exact Ht|].
    simpl in Hlen. lia.
Qed.

Lemma runes_ascii (s : gostring) :
  Forall (fun c => byteval c < 128) s ->
  Utf8.runes s = map (fun c => (byteval c, [c])) s.
Proof. intros H. apply runesFrom_ascii; [exact H | lia]. Qed.

Lemma ValidString_ascii (s : gostring) :
  Forall (fun c => byteval c < 128) s -> Utf8.ValidString s = true.
Proof.
  intros H. unfold Utf8.ValidString. rewrite (runes_ascii s H).
  apply forallb_forall. intros rb Hin. apply in_map_iff in Hin as (c & <- & Hc).
  rewrite Forall_forall in H. apply list_elem_of_In, H in Hc.
  unfold Utf8.wellFormed, Utf8.RuneError. cbn [fst snd].
  destruct (Z.eqb_spec (byteval c) 65533); [lia | reflexivity].
Qed.

Lemma dropWhile_none {A} (p : A -> bool) (l : list A) :
  Forall (fun x => p x = false) l -> dropWhile p l = l.
Proof. intros H. destruct H as [|x l Hx _]; simpl; [reflexivity|]. rewrite Hx. reflexivity. Qed.

Lemma dropWhileEnd_none {A} (p : A -> bool) (l : list A) :
  Forall (fun x => p x = false) l -> dropWhileEnd p l = l.
Proof.
  intros H. unfold dropWhileEnd.
  rewrite dropWhile_none by (apply Forall_rev, H). apply rev_involutive.
Qed.

Lemma concat_singletons {A B} (f : A -> B) (l : list A) :
  concat (map snd (map (fun c => (f c, [c])) l)) = l.
Proof. induction l as [|x l IH]; simpl; [reflexivity|]. rewrite IH. reflexivity. Qed.

Lemma plainNameByte_spec (c : ascii) :
  plainNameByte c = true ->
  33 <= byteval c <= 126 /\ Regexp.unsafeChars_match c = false.
Proof.
  unfold plainNameByte. intros H.
  apply andb_prop in H as [H Hu]. apply andb_prop in H as [Hlo Hhi].
  apply Z.leb_le in Hlo, Hhi. apply negb_true_iff in Hu. tauto.
Qed.

Lemma TrimSpace_plain (s : gostring) :
  forallb plainNameByte s = true -> Strings.TrimSpace s = s.
Proof.
  intros H. rewrite forallb_forall in H.
  unfold Strings.TrimSpace.
  rewrite runes_ascii.
  2:{ apply Forall_forall. intros c Hc. apply list_elem_of_In, H, plainNameByte_spec in Hc. lia. }
  assert (Hns : Forall (fun rb : Z * gostring => Strings.isSpaceRune rb = false)
                       (map (fun c => (byteval c, [c])) s)).
  { apply Forall_forall. intros rb Hin. apply list_elem_of_In, in_map_iff in Hin as (c & <- & Hc).
    apply H, plainNameByte_spec in Hc as [Hc _].
    unfold Strings.isSpaceRune, Unicode.IsSpace. cbn [fst].
    destruct ((0 <=? byteval c) && (byteval c <=? 255)) eqn:E.
    - repeat match goal with
             | |- context [?a =? ?b] => destruct (Z.eqb_spec a b); [lia|]
             end.
      reflexivity.
    - apply andb_false_iff in E as [E|E]; [apply Z.leb_gt in E | apply Z.leb_gt in E]; lia. }
  rewrite (dropWhile_none _ _ Hns), (dropWhileEnd_none _ _ Hns).
  apply concat_singletons.
Qed.

Lemma unsafeChars_ReplaceAllString_plain (s : gostring) :
  forallb plainNameByte s = true -> Regexp.unsafeChars_ReplaceAllString s = s.
Proof.
  unfold Regexp.unsafeChars_ReplaceAllString.
  induction s as [|c s IH]; simpl; [reflexivity|].
  intros H. apply andb_prop in H as [Hc Hs].
  apply plainNameByte_spec in Hc as [_ ->]. rewrite (IH Hs). reflexivity.
Qed.

Lemma underscores_ReplaceAllString_single (s : gostring) :
  (forall front rest, s <> front ++ "_"%char :: "_"%char :: rest) ->
  Regexp.underscores_ReplaceAllString s = s.
Proof.
  induction s as [|c s IH]; intros H; simpl; [reflexivity|].
  rewrite IH by (intros front rest ->; exact (H (c :: front) rest eq_refl)).
  destruct (Ascii.eqb_spec c Regexp.underscore) as [->|_]; [|reflexivity].
  destruct s as [|c' s']; [reflexivity|].
  destruct (Ascii.eqb_spec c' Regexp.underscore) as [->|_]; [|reflexivity].
  exfalso. exact (H [] s' eq_refl).
Qed.

Lemma Trim_ends (s cutset : gostring) :
  (forall c rest, s = c :: rest -> Strings.ContainsByte cutset c = false) ->
  (forall front c, s = front ++ [c] -> Strings.ContainsByte cutset c = false) ->
  Strings.Trim s cutset = s.
Proof.
  intros Hhead Hlast.
  unfold Strings.Trim, Strings.TrimRight, Strings.TrimLeft.
  assert (Hl : dropWhile (Strings.ContainsByte cutset) s = s).
  { destruct s as [|c rest]; [reflexivity|]. simpl.
    rewrite (Hhead c rest eq_refl). reflexivity. }
  rewrite Hl. unfold dropWhileEnd.
  assert (Hs : s = rev (rev s)) by (symmetry; apply rev_involutive).
  destruct (rev s) as [|c front]; [exact (eq_sym Hs)|].
  cbn [dropWhile]. rewrite (Hlast (rev front) c Hs). exact (eq_sym Hs).
Qed.

Lemma SplitN2_head_forallb (p : ascii -> bool) (s : gostring) (sep : ascii) :
  forallb p s = true -> forallb p (hd [] (Strings.SplitN2 s sep)) = true.
Proof.
  induction s as [|c s IH]; simpl; [reflexivity|].
  intros H. apply andb_prop in H as [Hc Hs].
  destruct (Ascii.eqb c sep); [reflexivity|].
  specialize (IH Hs).
  destruct (Strings.SplitN2 s sep) as [|h rest]; simpl in *; rewrite Hc; [reflexivity | exact IH].
Qed.

(** X13.  [SanitizeFilename] returns a name unchanged when the name is
    not empty, is at most 255 bytes long, is made of printable ASCII bytes
    other than the space and the characters the sanitizer replaces, has no
    two consecutive underscores, neither begins nor ends with an underscore
    or a dot, and its part before the first dot is not a reserved device
    name in any letter case. *)
Theorem SanitizeFilename_keeps_plain_names (unicode_ToUpper : Z -> Z) (name : gostring) :
  name <> [] ->
  len name <= Security.MaxFilenameLength ->
  forallb plainNameByte name = true ->
  (forall front rest, name <> front ++ "_"%char :: "_"%char :: rest) ->
  (forall c rest, name = c :: rest -> c <> "_"%char /\ c <> "."%char) ->
  (forall front c, name = front ++ [c] -> c <> "_"%char /\ c <> "."%char) ->
  Security.reservedNames
    (map Strings.asciiUpper (hd [] (Strings.SplitN2 name "."%char))) = false ->
  Security.SanitizeFilename unicode_ToUpper name = Ok name.
Proof.
  intros Hne Hlen Hplain Hsingle Hhead Hlast Hreserved.
  unfold Security.SanitizeFilename.
  rewrite bool_decide_eq_false_2 by exact Hne.
  rewrite ValidString_ascii.
  2:{ apply Forall_forall. intros c Hc. rewrite forallb_forall in Hplain.
      apply list_elem_of_In, Hplain, plainNameByte_spec in Hc. lia. }
  cbn [negb].
  rewrite (TrimSpace_plain _ Hplain).
  rewrite bool_decide_eq_false_2 by exact Hne.
  rewrite (unsafeChars_ReplaceAllString_plain _ Hplain).
  rewrite (underscores_ReplaceAllString_single _ Hsingle).
  assert (Hcut : forall c, c <> "_"%char /\ c <> "."%char ->
                           Strings.ContainsByte (go "_.") c = false).
  { intros c [H1 H2]. unfold Strings.ContainsByte. simpl.
    destruct (Ascii.eqb_spec c "_"%char); [contradiction|].
    destruct (Ascii.eqb_spec c "."%char); [contradiction|]. reflexivity. }
  rewrite Trim_ends.
  2:{ intros c rest E. apply Hcut, (Hhead c rest E). }
  2:{ intros front c E. apply Hcut, (Hlast front c E). }
  rewrite bool_decide_eq_false_2 by exact Hne.
  assert (Hupper : Strings.ToUpper unicode_ToUpper (hd [] (Strings.SplitN2 name "."%char))
                   = map Strings.asciiUpper (hd [] (Strings.SplitN2 name "."%char))).
  { unfold Strings.ToUpper.
    replace (Strings.isASCII _) with true; [reflexivity|]. symmetry.
    unfold Strings.isASCII.
    apply (SplitN2_head_forallb (fun c => byteval c <? Utf8.RuneSelf)).
    apply forallb_forall. intros c Hc. rewrite forallb_forall in Hplain.
    apply Hplain, plainNameByte_spec in Hc. apply Z.ltb_lt. unfold Utf8.RuneSelf. lia. }
  rewrite Hupper, Hreserved.
  destruct (Z.gtb_spec (len name) Security.MaxFilenameLength); [lia | reflexivity].
Qed.

Lemma SanitizeFilename_keeps_plain_names_witness :
  Security.SanitizeFilename Unicode.latin1ToUpper (go "report-2024_v1.final.txt")
  = Ok (go "report-2024_v1.final.txt").
Proof.
  apply SanitizeFilename_keeps_plain_names.
  - discriminate.
  - vm_compute. discriminate.
  - reflexivity.
  - intros front rest H.
    assert (Hc : Strings.Contains (go "report-2024_v1.final.txt") (go "__") = true).
    { rewrite H. apply Contains_app_r. simpl. reflexivity. }
    vm_compute in Hc. discriminate.
  - intros c rest [= <- _]. split; discriminate.
  - intros front c H.
    assert (Hr : rev (go "report-2024_v1.final.txt") = rev (front ++ [c])) by (rewrite H; reflexivity).
    rewrite rev_app_distr in Hr. injection Hr as <- _. split; discriminate.
  - reflexivity.
Defined.

(** ** [Clean] is idempotent, and accepted paths stay inside the base *)

Lemma Join_Split (s : gostring) (sep : ascii) :
  Strings.Join (Strings.Split s sep) [sep] = s.
Proof.
  induction s as [|c s IH]; [reflexivity|].
  cbn [Strings.Split].
  destruct (Ascii.eqb_spec c sep) as [->|Hc].
  - pose proof (Split_nonempty s sep).
    destruct (Strings.Split s sep) as [|h rest] eqn:E; [contradiction|].
    change (Strings.Join ([] :: h :: rest) [sep])
      with ([] ++ [sep] ++ Strings.Join (h :: rest) [sep]).
    rewrite IH. reflexivity.
  - pose proof (Split_nonempty s sep).
    destruct (Strings.Split s sep) as [|h rest] eqn:E; [contradiction|].
    destruct rest as [|h' rest'].
    + simpl in *. rewrite IH. reflexivity.
    + change (Strings.Join ((c :: h) :: h' :: rest') [sep])
        with ((c :: h) ++ [sep] ++ Strings.Join (h' :: rest') [sep]).
      change (Strings.Join (h :: h' :: rest') [sep])
        with (h ++ [sep] ++ Strings.Join (h' :: rest') [sep]) in IH.
      rewrite <- IH. reflexivity.
Qed.

Lemma Join_app (l1 l2 : list gostring) (sep : gostring) :
  l1 <> [] -> l2 <> [] ->
  Strings.Join (l1 ++ l2) sep = Strings.Join l1 sep ++ sep ++ Strings.Join l2 sep.
Proof.
  intros H1 H2. induction l1 as [|a l1 IH]; [contradiction|].
  destruct l1 as [|a' l1'].
  - destruct l2 as [|b l2]; [contradiction|]. reflexivity.
  - change (Strings.Join ((a :: a' :: l1') ++ l2) sep)
      with (a ++ sep ++ Strings.Join ((a' :: l1') ++ l2) sep).
    rewrite IH by discriminate.
    change (Strings.Join (a :: a' :: l1') sep)
      with (a ++ sep ++ Strings.Join (a' :: l1') sep).
    rewrite <- !app_assoc. reflexivity.
Qed.

Lemma Split_no_sep_elements (s : gostring) (sep : ascii) :
  Forall (fun e => ~ In sep e) (Strings.Split s sep).
Proof.
  induction s as [|c s IH]; simpl; [repeat constructor; tauto|].
  destruct (Ascii.eqb_spec c sep) as [->|Hc].
  - constructor; [tauto | exact IH].
  - destruct (Strings.Split s sep) as [|h rest]; [repeat constructor; simpl; tauto|].
    apply Forall_cons in IH as [Hh Hrest].
    constructor; [|exact Hrest]. simpl. intros [E|Hin]; [congruence | tauto].
Qed.

Lemma Split_Join (l : list gostring) (sep : ascii) :
  l <> [] -> Forall (fun e => ~ In sep e) l ->
  Strings.Split (Strings.Join l [sep]) sep = l.
Proof.
  intros Hne Hl. induction l as [|a l IH]; [contradiction|].
  apply Forall_cons in Hl as [Ha Hl].
  destruct l as [|a' l'].
  - apply Split_no_separator, Ha.
  - change (Strings.Join (a :: a' :: l') [sep])
      with (a ++ sep :: Strings.Join (a' :: l') [sep]).
    rewrite Split_app, (Split_no_separator a sep Ha), IH by (try discriminate; exact Hl).
    reflexivity.
Qed.

Lemma kept_nil (rooted : bool) : kept rooted [].
Proof. exists [], 0%nat. split; [reflexivity|]. split; [constructor | reflexivity]. Qed.

Lemma cleanStep_kept (rooted : bool) (out : list gostring) (e : gostring) :
  ~ In Filepath.Separator e ->
  kept rooted out -> kept rooted (Filepath.cleanStep rooted out e).
Proof.
  intros He (body & k & -> & Hbody & Hk).
  unfold Filepath.cleanStep.
  case_bool_decide as Hempty; [exists body, k; tauto|].
  case_bool_decide as Hdot; [exists body, k; tauto|].
  case_bool_decide as Hdd.
  - destruct body as [|top body'].
    + destruct k as [|k']; cbn [repeat app].
      * destruct rooted.
        -- exists [], 0%nat. split; [reflexivity|]. split; [constructor | reflexivity].
        -- exists [], 1%nat. subst e. split; [reflexivity|].
           split; [constructor | discriminate].
      * rewrite bool_decide_eq_true_2 by reflexivity.
        exists [], (S (S k')). subst e. split; [reflexivity|].
        split; [constructor | intros Hr; discriminate (Hk Hr)].
    + apply Forall_cons in Hbody as [Htop Hbody].
      cbn [app]. rewrite bool_decide_eq_false_2 by apply Htop.
      exists body', k. tauto.
  - exists (e :: body), k. split; [reflexivity|]. split; [|exact Hk].
    constructor; [|exact Hbody].
    split; [exact Hempty|]. split; [exact He|]. split; assumption.
Qed.

Lemma fold_cleanStep_kept (rooted : bool) (segs out : list gostring) :
  Forall (fun e => ~ In Filepath.Separator e) segs ->
  kept rooted out -> kept rooted (fold_left (Filepath.cleanStep rooted) segs out).
Proof.
  revert out. induction segs as [|e segs IH]; intros out Hsegs Hout; [exact Hout|].
  apply Forall_cons in Hsegs as [He Hsegs].
  cbn [fold_left]. apply IH; [exact Hsegs|]. apply cleanStep_kept; assumption.
Qed.

Lemma fold_cleanStep_elements (rooted : bool) (l acc : list gostring) :
  Forall Spec.pathElement l ->
  fold_left (Filepath.cleanStep rooted) l acc = rev l ++ acc.
Proof.
  revert acc. induction l as [|e l IH]; intros acc Hl; [reflexivity|].
  apply Forall_cons in Hl as [He Hl].
  cbn [fold_left rev]. rewrite cleanStep_element by exact He.
  rewrite IH by exact Hl. rewrite <- app_assoc. reflexivity.
Qed.

Lemma fold_cleanStep_dotdots (k : nat) :
  fold_left (Filepath.cleanStep false) (repeat Filepath.dotdot k) []
  = repeat Filepath.dotdot k.
Proof.
  assert (H : forall j acc,
             acc = repeat Filepath.dotdot j ->
             fold_left (Filepath.cleanStep false) (repeat Filepath.dotdot k) acc
             = repeat Filepath.dotdot (k + j)).
  { induction k as [|k IH]; intros j acc ->; [reflexivity|].
    cbn [repeat fold_left].
    rewrite (IH (S j)); [f_equal; lia|].
    destruct j; reflexivity. }
  rewrite (H 0%nat []) by reflexivity. f_equal. lia.
Qed.

Lemma rev_repeat {A} (x : A) (k : nat) : rev (repeat x k) = repeat x k.
Proof.
  induction k as [|k IH]; [reflexivity|].
  cbn [repeat rev]. rewrite IH. symmetry. apply repeat_cons.
Qed.

Lemma IsAbs_cons (c : ascii) (s : gostring) :
  Filepath.IsAbs (c :: s) = Ascii.eqb c Filepath.Separator.
Proof. unfold Filepath.IsAbs. simpl. apply andb_true_r. Qed.

Lemma Join_head_not_abs (e : gostring) (l : list gostring) :
  e <> [] -> ~ In Filepath.Separator e ->
  Strings.Join (e :: l) [Filepath.Separator] <> []
  /\ Filepath.IsAbs (Strings.Join (e :: l) [Filepath.Separator]) = false.
Proof.
  intros Hne Hsep. destruct e as [|c e]; [contradiction|].
  assert (Hc : Ascii.eqb c Filepath.Separator = false).
  { destruct (Ascii.eqb_spec c Filepath.Separator) as [->|]; [|reflexivity].
    exfalso. apply Hsep. left. reflexivity. }
  destruct l as [|e' l']; cbn [Strings.Join app]; rewrite IsAbs_cons;
    (split; [discriminate | exact Hc]).
Qed.

Lemma pathElement_no_sep (l : list gostring) :
  Forall Spec.pathElement l -> Forall (fun e => ~ In Filepath.Separator e) l.
Proof. intros H. eapply Forall_impl; [exact H|]. intros e He. apply He. Qed.

(** The three forms of a cleaned path. *)
Lemma Clean_form (path : gostring) :
  (Filepath.IsAbs path = false /\ Filepath.Clean path = Filepath.dot)
  \/ (Filepath.IsAbs path = true
      /\ exists l, Forall Spec.pathElement l
                   /\ Filepath.Clean path
                      = Filepath.Separator :: Strings.Join l [Filepath.Separator])
  \/ (Filepath.IsAbs path = false
      /\ exists k body,
          repeat Filepath.dotdot k ++ body <> []
          /\ Forall Spec.pathElement body
          /\ Filepath.Clean path
             = Strings.Join (repeat Filepath.dotdot k ++ body) [Filepath.Separator]).
Proof.
  unfold Filepath.Clean.
  case_bool_decide as Hempty; [left; rewrite Hempty; split; reflexivity|].
  pose proof (fold_cleanStep_kept (Filepath.IsAbs path)
                (Strings.Split path Filepath.Separator) []
                (Split_no_sep_elements _ _) (kept_nil _))
    as (body & k & Hout & Hbody & Hk).
  rewrite Hout. clear Hout.
  destruct (Filepath.IsAbs path).
  - right. left. split; [reflexivity|]. rewrite (Hk eq_refl). cbn [repeat].
    rewrite app_nil_r.
    exists (rev body). split; [apply Forall_rev, Hbody | reflexivity].
  - case_bool_decide as Hnil; [left; split; reflexivity|].
    right. right. split; [reflexivity|]. exists k, (rev body).
    rewrite rev_app_distr, rev_repeat.
    split; [|split; [apply Forall_rev, Hbody | reflexivity]].
    intros E. apply app_eq_nil in E as [Ek Eb]. apply Hnil.
    rewrite Ek. rewrite <- (rev_involutive body), Eb. reflexivity.
Qed.

(** [Clean] is idempotent. *)
Lemma Clean_idempotent (path : gostring) :
  Filepath.Clean (Filepath.Clean path) = Filepath.Clean path.
Proof.
  destruct (Clean_form path)
    as [[_ ->]|[(_ & l & Hl & ->)|(_ & k & body & Hne0 & Hbody & ->)]].
  - reflexivity.
  - unfold Filepath.Clean. rewrite bool_decide_eq_false_2 by discriminate.
    rewrite IsAbs_cons, Ascii.eqb_refl.
    cbn [Strings.Split]. rewrite Ascii.eqb_refl. cbn [fold_left].
    change (Filepath.cleanStep true [] []) with (@nil gostring).
    destruct l as [|e l].
    + reflexivity.
    + rewrite Split_Join by (try discriminate; apply pathElement_no_sep, Hl).
      rewrite fold_cleanStep_elements by exact Hl.
      rewrite app_nil_r, rev_involutive. reflexivity.
  - assert (Hnosep : Forall (fun e => ~ In Filepath.Separator e)
                            (repeat Filepath.dotdot k ++ body)).
    { apply Forall_app. split.
      - apply Forall_forall. intros e He. apply list_elem_of_In, repeat_spec in He as ->.
        simpl. intros [E|[E|[]]]; discriminate.
      - apply pathElement_no_sep, Hbody. }
    assert (Hhead : exists e0 l0, repeat Filepath.dotdot k ++ body = e0 :: l0 /\ e0 <> []).
    { destruct k as [|k']; cbn [repeat app].
      - destruct body as [|e0 l0]; [contradiction|].
        exists e0, l0. split; [reflexivity|].
        apply Forall_cons in Hbody as [He0 _]. apply He0.
      - eexists _, _. split; [reflexivity | discriminate]. }
    destruct Hhead as (e0 & l0 & El & Hhead).
    assert (Hjoin : Strings.Join (repeat Filepath.dotdot k ++ body) [Filepath.Separator] <> []
                    /\ Filepath.IsAbs (Strings.Join (repeat Filepath.dotdot k ++ body)
                                                    [Filepath.Separator]) = false).
    { rewrite El. apply Join_head_not_abs; [exact Hhead|].
      rewrite El in Hnosep. apply Forall_cons in Hnosep as [H _]. exact H. }
    destruct Hjoin as [Hne Habs].
    unfold Filepath.Clean.
    rewrite bool_decide_eq_false_2 by exact Hne.
    rewrite Habs, Split_Join by assumption.
    rewrite fold_left_app, fold_cleanStep_dotdots.
    rewrite fold_cleanStep_elements by exact Hbody.
    assert (Hout : rev body ++ repeat Filepath.dotdot k <> []).
    { intros E. apply app_eq_nil in E as [Eb Ek].
      rewrite Ek in Hne0. rewrite <- (rev_involutive body), Eb in Hne0.
      apply Hne0. reflexivity. }
    rewrite bool_decide_eq_false_2 by exact Hout.
    rewrite rev_app_distr, rev_repeat, rev_involutive. reflexivity.
Qed.

Lemma Join_dotdots_not_abs (k : nat) (body : list gostring) :
  repeat Filepath.dotdot k ++ body <> [] ->
  Forall Spec.pathElement body ->
  Filepath.IsAbs (Strings.Join (repeat Filepath.dotdot k ++ body) [Filepath.Separator])
  = false.
Proof.
  intros Hne Hbody.
  destruct k as [|k']; cbn [repeat app] in *.
  - destruct body as [|e0 l0]; [contradiction|].
    apply Forall_cons in Hbody as [He0 _].
    apply Join_head_not_abs; apply He0.
  - apply Join_head_not_abs; [discriminate|].
    simpl. intros [E|[E|[]]]; discriminate.
Qed.

Lemma IsAbs_Clean (path : gostring) :
  Filepath.IsAbs (Filepath.Clean path) = Filepath.IsAbs path.
Proof.
  destruct (Clean_form path)
    as [[-> ->]|[(-> & l & Hl & ->)|(-> & k & body & Hne0 & Hbody & ->)]].
  - reflexivity.
  - rewrite IsAbs_cons. apply Ascii.eqb_refl.
  - apply Join_dotdots_not_abs; assumption.
Qed.

Lemma stripCommon_spec (b t b' t' : list gostring) :
  Filepath.stripCommon b t = (b', t') ->
  exists common, b = common ++ b' /\ t = common ++ t'.
Proof.
  revert t. induction b as [|x b IH]; intros t; simpl.
  - intros [= <- <-]. exists []. split; reflexivity.
  - destruct t as [|y t]; [intros [= <- <-]; exists []; split; reflexivity|].
    case_bool_decide as Hxy.
    + subst y. intros H. destruct (IH _ H) as (common & -> & ->).
      exists (x :: common). split; reflexivity.
    + intros [= <- <-]. exists []. split; reflexivity.
Qed.

Lemma Join_dotdot_prefix (l : list gostring) :
  Strings.HasPrefix (Strings.Join (Filepath.dotdot :: l) [Filepath.Separator])
                    (go "..") = true.
Proof. destruct l; reflexivity. Qed.

(** Below [base]: what [Rel] finds when its answer does not begin with
    two dots. *)
Lemma Rel_within (base targ rel : gostring) :
  Filepath.Clean base = base -> Filepath.Clean targ = targ ->
  Filepath.IsAbs base = true ->
  Filepath.Rel base targ = Some rel ->
  Strings.HasPrefix rel (go "..") = false ->
  within base targ.
Proof.
  intros Hcb Hct Habs. unfold Filepath.Rel. rewrite Hcb, Hct.
  case_bool_decide as Hsame; [intros _ _; left; exact Hsame|].
  assert (Hdot : base <> Filepath.dot) by (intros ->; discriminate).
  rewrite (bool_decide_eq_false_2 _ Hdot), Habs.
  destruct (Filepath.IsAbs targ) eqn:Htarg; [|discriminate].
  cbn [eqb negb].
  destruct (Filepath.stripCommon (Filepath.elements base) (Filepath.elements targ))
    as [b' t'] eqn:Estrip.
  destruct b' as [|b0 brest].
  2:{ destruct t' as [|t0 trest].
      - intros Hrel Hp. apply Some_inj in Hrel. subst rel.
        cbn [map] in Hp. rewrite Join_dotdot_prefix in Hp. discriminate.
      - case_bool_decide; [discriminate|].
        intros Hrel Hp. apply Some_inj in Hrel. subst rel.
        cbn [map app] in Hp. rewrite Join_dotdot_prefix in Hp. discriminate. }
  intros _ _.
  apply stripCommon_spec in Estrip as (common & Hb & Ht).
  rewrite app_nil_r in Hb. subst common.
  right. unfold within.
  destruct base as [|c0 base0]; [discriminate|].
  destruct targ as [|d0 targ0]; [discriminate|].
  rewrite IsAbs_cons in Habs, Htarg.
  apply Ascii.eqb_eq in Habs, Htarg. subst c0 d0.
  case_bool_decide as Hroot; [exists targ0; rewrite Hroot; reflexivity|].
  unfold Filepath.elements in Ht.
  rewrite (bool_decide_eq_false_2 (Filepath.Separator :: base0 = [])) in Ht by discriminate.
  rewrite (bool_decide_eq_false_2 _ Hroot) in Ht.
  rewrite (bool_decide_eq_false_2 (Filepath.Separator :: targ0 = [])) in Ht by discriminate.
  set (base := Filepath.Separator :: base0) in *.
  set (targ := Filepath.Separator :: targ0) in *.
  assert (Hsplit : Strings.Split targ Filepath.Separator
                   = Strings.Split base Filepath.Separator ++ t').
  { revert Ht. case_bool_decide as Htroot; [|auto].
    intros Ht. exfalso.
    pose proof (Split_nonempty base Filepath.Separator) as Hn.
    destruct (Strings.Split base Filepath.Separator) as [|h rest] eqn:Es; [contradiction|].
    injection Ht as <- Hrest.
    symmetry in Hrest. apply app_eq_nil in Hrest as [-> _].
    pose proof (Join_Split base Filepath.Separator) as Hj. rewrite Es in Hj.
    discriminate. }
  assert (Ht' : t' <> []).
  { intros ->. rewrite app_nil_r in Hsplit. apply Hsame.
    rewrite <- (Join_Split targ Filepath.Separator), Hsplit. apply Join_Split. }
  exists (Strings.Join t' [Filepath.Separator]).
  rewrite <- (Join_Split targ Filepath.Separator), Hsplit.
  rewrite Join_app by (try apply Split_nonempty; exact Ht').
  rewrite Join_Split, <- app_assoc. reflexivity.
Qed.

Lemma Abs_form (wd : option gostring) (path abs : gostring) :
  (forall d, wd = Some d -> Filepath.IsAbs d = true) ->
  Filepath.Abs wd path = Some abs ->
  Filepath.Clean abs = abs /\ Filepath.IsAbs abs = true.
Proof.
  intros Hwd. unfold Filepath.Abs.
  destruct (Filepath.IsAbs path) eqn:Hp.
  - intros [= <-]. split; [apply Clean_idempotent|]. rewrite IsAbs_Clean. exact Hp.
  - destruct wd as [d|]; [|discriminate].
    specialize (Hwd d eq_refl).
    destruct d as [|c d]; [discriminate|].
    unfold Filepath.Join. cbn [dropWhile].
    rewrite bool_decide_eq_false_2 by discriminate.
    intros [= <-]. split; [apply Clean_idempotent|].
    rewrite IsAbs_Clean. cbn [Strings.Join app].
    rewrite IsAbs_cons in Hwd |- *. exact Hwd.
Qed.

(** X14.  A path that [ValidatePath] accepts for a base directory stays
    inside it: the absolute form of the base joined with the cleaned path
    is the absolute form of the base itself or continues it after a
    separator.  (The working directory, as [os.Getwd] answers it, is a
    rooted path.) *)
Theorem ValidatePath_confines (wd : option gostring) (path baseDir : gostring) :
  (forall d, wd = Some d -> Filepath.IsAbs d = true) ->
  baseDir <> [] ->
  Security.ValidatePath wd path baseDir = None ->
  exists absBase absFile,
    Filepath.Abs wd baseDir = Some absBase
    /\ Filepath.Abs wd (Filepath.Join [baseDir; Filepath.Clean path]) = Some absFile
    /\ within absBase absFile.
Proof.
  intros Hwd Hbase. unfold Security.ValidatePath.
  case_bool_decide; [discriminate|].
  destruct (Strings.Contains path [Security.nul]); [discriminate|].
  destruct (len path >? Security.MaxPathLength); [discriminate|].
  destruct (Strings.Contains (Filepath.Clean path) (go "..")); [discriminate|].
  rewrite (bool_decide_eq_false_2 _ Hbase). cbn [negb].
  destruct (Filepath.Abs wd baseDir) as [absBase|] eqn:Eb; [|discriminate].
  destruct (Filepath.Abs wd (Filepath.Join [baseDir; Filepath.Clean path]))
    as [absFile|] eqn:Ef; [|discriminate].
  destruct (Filepath.Rel absBase absFile) as [rel|] eqn:Er; [|discriminate].
  destruct (Strings.HasPrefix rel (go "..")) eqn:Ep; [discriminate|].
  intros _. exists absBase, absFile. split; [reflexivity|]. split; [reflexivity|].
  destruct (Abs_form _ _ _ Hwd Eb) as [Hcb Hab].
  destruct (Abs_form _ _ _ Hwd Ef) as [Hcf _].
  exact (Rel_within _ _ _ Hcb Hcf Hab Er Ep).
Qed.

Lemma ValidatePath_confines_witness :
  exists absBase absFile,
    Filepath.Abs (Some (go "/srv")) (go "storage") = Some absBase
    /\ Filepath.Abs (Some (go "/srv"))
                    (Filepath.Join [go "storage"; Filepath.Clean (go "in/../2024/a.json")])
       = Some absFile
    /\ within absBase absFile.
Proof.
  apply ValidatePath_confines.
  - intros d [= <-]. reflexivity.
  - discriminate.
  - vm_compute. reflexivity.
Defined.

(** ** The added models against the repository's test tables *)

Example Config_Validate_tests :
  map (fun c => snd (Config.Validate Unicode.latin1ToLower (Some (go "/srv")) c))
      [validConfig;
       Config.mkConfig [] (1024 * 1024) 8080 [] (go "development") [] 0 0 0;
       withSizes (-1) 8080;
       withSizes (200 * 1024 * 1024) 8080;
       withSizes (1024 * 1024) 0;
       withSizes (1024 * 1024) 70000;
       Config.mkConfig (go "/valid/path") (1024 * 1024) 8080 [] (go "production") [] 0 0 0;
       Config.mkConfig (go "/valid/path") (1024 * 1024) 8080 (go "secure-token")
                       (go "production") [go "json"] 64 512 (5 * 1024 * 1024);
       withLimits [go "json"] 0 512 (5 * 1024 * 1024);
       withLimits [go "json"] 2000 512 (5 * 1024 * 1024);
       withLimits [go "json"] 64 5000 (5 * 1024 * 1024);
       withLimits [go "json"] 64 512 0;
       withLimits [go "json"; []; go "txt"] 64 512 (5 * 1024 * 1024);
       withLimits [go "json"; go ".txt"] 64 512 (5 * 1024 * 1024)]
  = [None;
     Some Config.StoragePathEmpty;
     Some (Config.MaxFileSizeNotPositive (-1));
     Some (Config.MaxFileSizeTooLarge (200 * 1024 * 1024));
     Some (Config.InvalidPort 0);
     Some (Config.InvalidPort 70000);
     Some Config.AuthTokenRequired;
     None;
     Some (Config.InvalidMaxTitleLength 0);
     Some (Config.InvalidMaxTitleLength 2000);
     Some (Config.InvalidMaxDescLength 5000);
     Some (Config.MaxDataSizeNotPositive 0);
     Some Config.EmptyExtension;
     Some (Config.ExtensionWithDot (go ".txt"))].
Proof. vm_compute. reflexivity. Qed.

Example Config_IsProduction_tests :
  map (fun e => Config.IsProduction Unicode.latin1ToLower
                  (Config.mkConfig [] 0 0 [] e [] 0 0 0))
      [go "production"; go "PRODUCTION"; go "Production"; go "development"; go "dev";
       go "test"; []]
  = [true; true; true; false; false; false; false].
Proof. vm_compute. reflexivity. Qed.

Example Config_New_tests :
  Config.New (fun _ => []) = Config.default
  /\ Config.New overrides
     = Config.mkConfig (go "/custom/path") 2048 9090 (go "secret123") (go "production")
                       [go "json"; go "xml"; go "txt"] 128 1024 10485760
  /\ Config.getEnvInt overrides (go "INVALID_INT") 10 = 10
  /\ Config.getEnvInt overrides (go "NON_EXISTENT") 10 = 10
  /\ Config.getEnvStringSlice overrides (go "TEST_SLICE_SPACES") [go "default"]
     = [go "json"; go "xml"; go "txt"]
  /\ Config.getEnvStringSlice overrides (go "NON_EXISTENT") [go "default"] = [go "default"].
Proof. vm_compute. repeat split; reflexivity. Qed.

Example Strconv_examples :
  map Strconv.ParseInt
      [go "42"; go "-7"; go "+15"; go ""; go "-"; go "+"; go "4 2"; go "1_000"; go "0x10";
       go "9223372036854775807"; go "9223372036854775808"; go "-9223372036854775808";
       go "-9223372036854775809"; go "007"]
  = [Some 42; Some (-7); Some 15; None; None; None; None; None; None;
     Some 9223372036854775807; None; Some (-9223372036854775808); None; Some 7].
Proof. vm_compute. reflexivity. Qed.

Example sanitizeForFilename_tests :
  map Model.sanitizeForFilename
      [go "SafeTitle"; go "Unsafe/Title:With*Special?Chars"; go "Title With Spaces";
       go "This is a very long string that should be truncated"]
  = [go "SafeTitle"; go "Unsafe_Title_With_Special_Chars"; go "Title_With_Spaces";
     go "This_is_a_very_long_string_that_"].
Proof. vm_compute. reflexivity. Qed.

Example GetFileName_tests :
  map (fun title => Model.GetFileName Time.zero (titled title))
      [go "Test Title"; go "Test/Title:With*Unsafe?Chars";
       go "This is a very long title that should be truncated to a reasonable length"]
  = [go "2023-01-01_12-30-45_test-uuid_Test_Title.json";
     go "2023-01-01_12-30-45_test-uuid_Test_Title_With_Unsafe_Chars.json";
     go "2023-01-01_12-30-45_test-uuid_This_is_a_very_long_title_that_s.json"].
Proof. vm_compute. reflexivity. Qed.

Example HTTPStatusCode_tests :
  map Response.HTTPStatusCode
      [Response.mkAPIResponse true [] VNil [] Time.zero [];
       failed (go "unauthorized access"); failed (go "validation failed");
       failed (go "invalid request format"); failed (go "resource not found");
       failed (go "insufficient space available"); failed (go "disk write failed");
       failed (go "something went wrong")]
  = [200; 401; 400; 400; 404; 507; 507; 500].
Proof. vm_compute. reflexivity. Qed.

Example contains_tests :
  map (fun '(s, substr) => Response.contains (go s) (go substr))
      [("unauthorized", "unauthorized"); ("unauthorized access", "unauthorized");
       ("access unauthorized", "unauthorized"); ("some unauthorized action", "unauthorized");
       ("authorized access", "unauthorized"); ("", "unauthorized"); ("unauthorized", "");
       ("Unauthorized", "unauthorized")]%string
  = [true; true; true; true; false; false; true; false].
Proof. vm_compute. reflexivity. Qed.

(** ** Status codes of responses *)

Lemma slice_mentions (s sub : gostring) (i j : nat) :
  Response.slice s i j = sub -> mentions s sub.
Proof.
  unfold Response.slice. intros <-.
  exists (take i s), (drop (j - i) (drop i s)).
  rewrite take_drop, take_drop. reflexivity.
Qed.

Lemma slice_app (a sub b : gostring) :
  Response.slice (a ++ sub ++ b) (length a) (length a + length sub) = sub.
Proof.
  unfold Response.slice.
  rewrite drop_app_length.
  replace (length a + length sub - length a)%nat with (length sub) by lia.
  apply take_app_length.
Qed.

Lemma contains_spec (s sub : gostring) :
  Response.contains s sub = true <-> mentions s sub.
Proof.
  unfold Response.contains, Response.containsMiddle, len. split.
  - intros H. apply andb_prop in H as [_ H].
    apply orb_prop in H as [H|H].
    { apply bool_decide_eq_true in H as ->. exists [], []. rewrite app_nil_r. reflexivity. }
    apply andb_prop in H as [_ H].
    apply orb_prop in H as [H|H]; [apply orb_prop in H as [H|H]|].
    + apply bool_decide_eq_true in H. exact (slice_mentions _ _ _ _ H).
    + apply bool_decide_eq_true in H. exact (slice_mentions _ _ _ _ H).
    + apply existsb_exists in H as (i & _ & H).
      apply bool_decide_eq_true in H. exact (slice_mentions _ _ _ _ H).
  - intros (a & b & ->).
    apply andb_true_intro. split; [rewrite !length_app; apply Z.geb_le; lia|].
    destruct a as [|x a].
    + destruct b as [|y b].
      * rewrite app_nil_r. cbn [app]. rewrite bool_decide_eq_true_2 by reflexivity.
        reflexivity.
      * apply orb_true_intro. right.
        apply andb_true_intro. split.
        { rewrite !length_app. cbn [length]. apply Z.gtb_lt. lia. }
        apply orb_true_intro. left. apply orb_true_intro. left.
        apply bool_decide_eq_true.
        exact (slice_app [] sub (y :: b)).
    + apply orb_true_intro. right.
      apply andb_true_intro. split.
      { rewrite !length_app. cbn [length]. apply Z.gtb_lt. lia. }
      destruct b as [|y b].
      * apply orb_true_intro. left. apply orb_true_intro. right.
        apply bool_decide_eq_true.
        rewrite app_nil_r.
        pose proof (slice_app (x :: a) sub []) as Hs. rewrite app_nil_r in Hs.
        rewrite length_app.
        replace (length (x :: a) + length sub - length sub)%nat
          with (length (x :: a)) by lia.
        exact Hs.
      * apply orb_true_intro. right.
        apply existsb_exists. exists (length (x :: a)). split.
        -- apply in_seq. rewrite !length_app. cbn [length]. lia.
        -- apply bool_decide_eq_true. apply slice_app.
Qed.

Lemma bool_eq_iff (x y : bool) : (x = true <-> y = true) -> x = y.
Proof. destruct x, y; intuition congruence. Qed.

(** X15.  The hand-written [contains] of the response model decides the
    same thing as [strings.Contains], for every string and every
    substring, the empty ones included. *)
Theorem contains_is_Contains (s substr : gostring) :
  Response.contains s substr = Strings.Contains s substr.
Proof.
  apply bool_eq_iff. rewrite contains_spec, Contains_spec. reflexivity.
Qed.

Lemma contains_false (s sub : gostring) :
  Response.contains s sub = false <-> ~ mentions s sub.
Proof.
  rewrite <- contains_spec. destruct (Response.contains s sub); intuition congruence.
Qed.

(** X16.  [HTTPStatusCode] answers one of 200, 400, 401, 404, 500 and 507,
    and each of them for exactly one class of responses: 200 for a success,
    whatever its error text; for a failure, 401 when the error text
    mentions [unauthorized]; else 400 when it mentions [validation] or
    [invalid]; else 404 when it mentions [not found]; else 507 when it
    mentions [insufficient space] or [disk]; and 500 when it mentions none
    of the six words. *)
Theorem HTTPStatusCode_classes (r : Response.APIResponse) :
  let e := Response.Error r in
  let code := Response.HTTPStatusCode r in
  let failure := Response.Success r = false in
  In code [200; 400; 401; 404; 500; 507]
  /\ (code = 200 <-> Response.Success r = true)
  /\ (code = 401 <-> failure /\ mentions e (go "unauthorized"))
  /\ (code = 400
      <-> failure /\ ~ mentions e (go "unauthorized")
          /\ (mentions e (go "validation") \/ mentions e (go "invalid")))
  /\ (code = 404
      <-> failure /\ ~ mentions e (go "unauthorized")
          /\ ~ mentions e (go "validation") /\ ~ mentions e (go "invalid")
          /\ mentions e (go "not found"))
  /\ (code = 507
      <-> failure /\ ~ mentions e (go "unauthorized")
          /\ ~ mentions e (go "validation") /\ ~ mentions e (go "invalid")
          /\ ~ mentions e (go "not found")
          /\ (mentions e (go "insufficient space") \/ mentions e (go "disk")))
  /\ (code = 500
      <-> failure /\ forall word, In word statusWords -> ~ mentions e word).
Proof.
  cbv zeta. unfold Response.HTTPStatusCode.
  assert (Hall : forall P : gostring -> Prop,
            (forall word, In word statusWords -> P word)
            <-> P (go "unauthorized") /\ P (go "validation") /\ P (go "invalid")
                /\ P (go "not found") /\ P (go "insufficient space") /\ P (go "disk")).
  { intros P. unfold statusWords. split.
    - intros H. repeat split; apply H; cbn; tauto.
    - intros (H1 & H2 & H3 & H4 & H5 & H6) word [<-|[<-|[<-|[<-|[<-|[<-|[]]]]]]]; assumption. }
  rewrite Hall. clear Hall.
  destruct (Response.Success r).
  { repeat match goal with |- _ /\ _ => split end; status_case. }
  assert (Hfailure : false = false) by reflexivity. revert Hfailure.
  generalize (false = false). intros failure Hfailure.
  destruct (Response.contains (Response.Error r) (go "unauthorized")) eqn:E1;
    [apply contains_spec in E1 | apply contains_false in E1];
    [repeat match goal with |- _ /\ _ => split end; status_case|].
  destruct (Response.contains (Response.Error r) (go "validation")) eqn:E2;
    [apply contains_spec in E2 | apply contains_false in E2]; cbn [orb];
    [repeat match goal with |- _ /\ _ => split end; status_case|].
  destruct (Response.contains (Response.Error r) (go "invalid")) eqn:E3;
    [apply contains_spec in E3 | apply contains_false in E3]; cbn [orb];
    [repeat match goal with |- _ /\ _ => split end; status_case|].
  destruct (Response.contains (Response.Error r) (go "not found")) eqn:E4;
    [apply contains_spec in E4 | apply contains_false in E4];
    [repeat match goal with |- _ /\ _ => split end; status_case|].
  destruct (Response.contains (Response.Error r) (go "insufficient space")) eqn:E5;
    [apply contains_spec in E5 | apply contains_false in E5]; cbn [orb];
    [repeat match goal with |- _ /\ _ => split end; status_case|].
  destruct (Response.contains (Response.Error r) (go "disk")) eqn:E6;
    [apply contains_spec in E6 | apply contains_false in E6]; cbn [orb];
    repeat match goal with |- _ /\ _ => split end; status_case.
Qed.

(** ** File names of the payload model *)

Lemma ReplaceAllByte_map (s : gostring) (old new : ascii) :
  Strings.ReplaceAllByte s old [new]
  = map (fun c => if Ascii.eqb c old then new else c) s.
Proof.
  unfold Strings.ReplaceAllByte.
  induction s as [|c s IH]; [reflexivity|].
  cbn [map concat]. rewrite IH. destruct (Ascii.eqb c old); reflexivity.
Qed.

Lemma fold_ReplaceAllByte (chars : list ascii) (new : ascii) (s : gostring) :
  fold_left (fun result char => Strings.ReplaceAllByte result char [new]) chars s
  = map (fun c => if existsb (Ascii.eqb c) chars then new else c) s.
Proof.
  revert s. induction chars as [|ch chars IH]; intros s; cbn [fold_left existsb].
  - symmetry. apply map_id.
  - rewrite IH, ReplaceAllByte_map, map_map.
    apply map_ext. intros c.
    destruct (Ascii.eqb c ch); cbn [orb]; [|reflexivity].
    destruct (existsb (Ascii.eqb new) chars); reflexivity.
Qed.

Lemma sanitizeForFilename_spec (title : gostring) :
  Model.sanitizeForFilename title = take 32 (map filenameByte title).
Proof.
  unfold Model.sanitizeForFilename.
  change (go "_") with ["_"%char].
  rewrite fold_ReplaceAllByte. fold filenameByte.
  destruct (len (map filenameByte title) >? 32) eqn:E; [reflexivity|].
  symmetry. apply take_ge.
  unfold len in E. rewrite Z.gtb_ltb in E. apply Z.ltb_ge in E. lia.
Qed.

Lemma filenameByte_safe (c : ascii) :
  existsb (Ascii.eqb (filenameByte c)) Model.unsafeForFilename = false.
Proof.
  unfold filenameByte.
  destruct (existsb (Ascii.eqb c) Model.unsafeForFilename) eqn:E; [reflexivity|exact E].
Qed.

Lemma unsafeForFilename_In (c : ascii) :
  existsb (Ascii.eqb c) Model.unsafeForFilename = true <-> In c Model.unsafeForFilename.
Proof.
  rewrite existsb_exists. split.
  - intros (x & Hx & E). apply Ascii.eqb_eq in E as ->. exact Hx.
  - intros H. exists c. split; [exact H | apply Ascii.eqb_refl].
Qed.

Lemma sanitizeForFilename_bytes (title : gostring) (c : ascii) :
  In c (Model.sanitizeForFilename title) -> ~ In c Model.unsafeForFilename.
Proof.
  rewrite sanitizeForFilename_spec. intros H Hc.
  apply list_elem_of_In, elem_of_take in H as (i & H & _).
  rewrite list_lookup_fmap in H.
  destruct (title !! i) as [c0|]; [|discriminate].
  injection H as <-.
  apply unsafeForFilename_In in Hc. rewrite filenameByte_safe in Hc. discriminate.
Qed.

(** X17.  [sanitizeForFilename] returns as many bytes as the title has, but
    at most 32; none of them is one of the ten characters it replaces; and
    byte for byte the result is the title, with an underscore where the
    title has one of the ten. *)
Theorem sanitizeForFilename_safe (title : gostring) :
  length (Model.sanitizeForFilename title) = Nat.min (length title) 32
  /\ (forall c, In c (Model.sanitizeForFilename title) -> ~ In c Model.unsafeForFilename)
  /\ (forall i c, Model.sanitizeForFilename title !! i = Some c ->
        exists c0, title !! i = Some c0
                   /\ c = (if bool_decide (In c0 Model.unsafeForFilename)
                           then "_"%char else c0)).
Proof.
  split; [|split].
  - rewrite sanitizeForFilename_spec, length_take, length_map. lia.
  - apply sanitizeForFilename_bytes.
  - intros i c. rewrite sanitizeForFilename_spec. intros H.
    apply lookup_take_Some in H as [H _].
    rewrite list_lookup_fmap in H.
    destruct (title !! i) as [c0|]; [|discriminate].
    injection H as <-. exists c0. split; [reflexivity|].
    unfold filenameByte.
    destruct (existsb (Ascii.eqb c0) Model.unsafeForFilename) eqn:E.
    + rewrite bool_decide_eq_true_2; [reflexivity|]. apply unsafeForFilename_In, E.
    + rewrite bool_decide_eq_false_2; [reflexivity|].
      rewrite <- unsafeForFilename_In, E. discriminate.
Qed.

Lemma map_filenameByte_id (s : gostring) :
  (forall c, In c s -> ~ In c Model.unsafeForFilename) -> map filenameByte s = s.
Proof.
  intros H. rewrite <- (map_id s) at 2. apply map_ext_in. intros c Hc.
  unfold filenameByte.
  destruct (existsb (Ascii.eqb c) Model.unsafeForFilename) eqn:E; [|reflexivity].
  apply unsafeForFilename_In in E. destruct (H c Hc E).
Qed.

(** X18.  Sanitizing twice is sanitizing once, and the titles
    [sanitizeForFilename] returns unchanged are exactly those of at most 32
    bytes without any of the ten characters: dots, control bytes and
    malformed UTF-8 pass through. *)
Theorem sanitizeForFilename_fixpoints (title : gostring) :
  Model.sanitizeForFilename (Model.sanitizeForFilename title)
  = Model.sanitizeForFilename title
  /\ (Model.sanitizeForFilename title = title
      <-> (length title <= 32)%nat
          /\ forall c, In c title -> ~ In c Model.unsafeForFilename).
Proof.
  assert (Hfix : forall s, (length s <= 32)%nat ->
                   (forall c, In c s -> ~ In c Model.unsafeForFilename) ->
                   Model.sanitizeForFilename s = s).
  { intros s Hlen Hs. rewrite sanitizeForFilename_spec, map_filenameByte_id by exact Hs.
    apply take_ge. lia. }
  split; [|split].
  - apply Hfix; [|apply sanitizeForFilename_bytes].
    rewrite sanitizeForFilename_spec, length_take. lia.
  - intros E. split.
    + rewrite <- E, sanitizeForFilename_spec, length_take. lia.
    + rewrite <- E. apply sanitizeForFilename_bytes.
  - intros [Hlen Hs]. apply Hfix; assumption.
Qed.

Lemma filenameByte_pattern (c : ascii) :
  32 <= byteval c ->
  filenameByte c = (if Regexp.unsafeChars_match c then Regexp.underscore else c).
Proof.
  intros H.
  destruct c as [[] [] [] [] [] [] [] []]; try reflexivity;
    exfalso; vm_compute in H; apply H; reflexivity.
Qed.

(** X19.  On a title without control bytes, [sanitizeForFilename] replaces
    the same bytes as the pattern [unsafeChars] of the security package:
    its result is the first 32 bytes of what the pattern's replacement
    gives. *)
Theorem sanitizeForFilename_agrees_with_pattern (title : gostring) :
  (forall c, In c title -> 32 <= byteval c) ->
  Model.sanitizeForFilename title = take 32 (Regexp.unsafeChars_ReplaceAllString title).
Proof.
  intros H. rewrite sanitizeForFilename_spec. f_equal.
  unfold Regexp.unsafeChars_ReplaceAllString.
  apply map_ext_in. intros c Hc. apply filenameByte_pattern, H, Hc.
Qed.

Lemma sanitizeForFilename_agrees_with_pattern_witness :
  Model.sanitizeForFilename (go "a b/c:d")
  = take 32 (Regexp.unsafeChars_ReplaceAllString (go "a b/c:d")).
Proof.
  apply sanitizeForFilename_agrees_with_pattern.
  intros c Hc. cbn in Hc.
  repeat (destruct Hc as [<-|Hc]; [vm_compute; discriminate|]).
  destruct Hc.
Defined.

Lemma byteval_bytechr (n : Z) : 0 <= n < 256 -> byteval (bytechr n) = n.
Proof.
  intros H. unfold byteval, bytechr.
  rewrite N_ascii_embedding; [lia|].
  change 256%N with (Z.to_N 256). lia.
Qed.

Lemma digitsFrom_stamp (fuel : nat) (n : Z) (acc : gostring) :
  0 <= n -> Forall stampByte acc -> Forall stampByte (Time.digitsFrom fuel n acc).
Proof.
  revert n acc. induction fuel as [|fuel IH]; intros n acc Hn Hacc; cbn [Time.digitsFrom];
    [exact Hacc|].
  assert (Hacc' : Forall stampByte (bytechr (48 + n mod 10) :: acc)).
  { constructor; [|exact Hacc]. left.
    pose proof (Z.mod_pos_bound n 10 ltac:(lia)).
    rewrite byteval_bytechr by lia. lia. }
  destruct (n <? 10); [exact Hacc'|].
  apply IH; [apply Z.div_pos; lia | exact Hacc'].
Qed.

Lemma appendInt_stamp (x : Z) (width : nat) : Forall stampByte (Time.appendInt x width).
Proof.
  unfold Time.appendInt. apply Forall_app. split; [|apply Forall_app; split].
  - destruct (x <? 0); [|constructor].
    constructor; [|constructor]. right. left. reflexivity.
  - apply Forall_forall. intros c Hc. apply list_elem_of_In, repeat_spec in Hc as ->.
    left. vm_compute. split; discriminate.
  - apply digitsFrom_stamp; [lia | constructor].
Qed.

Lemma FormatFilename_stamp (t : Time.Time) : Forall stampByte (Time.FormatFilename t).
Proof.
  unfold Time.FormatFilename.
  destruct (Time.civil ((Time.sec t + Time.offset t) / 86400)) as [[y m] d].
  assert (Hdash : Forall stampByte (go "-")).
  { constructor; [|constructor]. right. left. reflexivity. }
  assert (Hus : Forall stampByte (go "_")).
  { constructor; [|constructor]. right. right. left. reflexivity. }
  do 10 (apply Forall_app; split;
         [first [apply appendInt_stamp | exact Hdash | exact Hus]|]).
  apply appendInt_stamp.
Qed.

Lemma stampByte_safe (c : ascii) : stampByte c -> ~ In c Model.unsafeForFilename.
Proof.
  intros H Hc. apply unsafeForFilename_In in Hc.
  destruct H as [H | [ -> | [ -> | -> ] ] ]; try discriminate Hc.
  unfold Model.unsafeForFilename in Hc. cbn [existsb] in Hc.
  repeat (apply orb_prop in Hc as [Hc|Hc];
          [apply Ascii.eqb_eq in Hc; subst c; vm_compute in H; destruct H as [H1 H2];
           first [apply H1; reflexivity | apply H2; reflexivity]|]).
  discriminate Hc.
Qed.

(** X20.  One of the ten characters [sanitizeForFilename] replaces (the
    path separator among them) occurs in the name [GetFileName] returns
    only if it occurs in the payload's ID: neither the time stamp nor the
    title brings one in. *)
Theorem GetFileName_unsafe_only_from_ID (now : Time.Time) (p : Model.WebhookPayload)
    (c : ascii) :
  In c Model.unsafeForFilename ->
  In c (Model.GetFileName now p) -> In c (Model.ID p).
Proof.
  intros Hc. unfold Model.GetFileName.
  set (timestamp := if Time.IsZero (Model.Timestamp p) then Time.UTC now
                    else Model.Timestamp p).
  cbv zeta. intros H.
  apply in_app_or in H as [H|H].
  { pose proof (FormatFilename_stamp timestamp) as Hs.
    rewrite Forall_forall in Hs. apply list_elem_of_In in H.
    destruct (stampByte_safe c (Hs c H) Hc). }
  apply in_app_or in H as [H|H].
  { destruct H as [<-|[]]. exfalso. revert Hc. apply stampByte_safe.
    right. right. left. reflexivity. }
  apply in_app_or in H as [H|H]; [exact H|].
  apply in_app_or in H as [H|H].
  { destruct H as [<-|[]]. exfalso. revert Hc. apply stampByte_safe.
    right. right. left. reflexivity. }
  apply in_app_or in H as [H|H].
  { destruct (sanitizeForFilename_bytes _ _ H Hc). }
  exfalso. apply unsafeForFilename_In in Hc.
  cbn in H. destruct H as [<-|[<-|[<-|[<-|[<-|[]]]]]]; discriminate Hc.
Qed.

Lemma GetFileName_unsafe_only_from_ID_witness :
  In "/"%char Model.unsafeForFilename
  /\ In "/"%char (Model.GetFileName Time.zero
       (Model.mkPayload (go "a/b") [] None (go "x/y") Time.zero [] []))
  /\ In "/"%char (go "x/y").
Proof.
  assert (H1 : In "/"%char Model.unsafeForFilename) by (left; reflexivity).
  assert (H2 : In "/"%char (Model.GetFileName Time.zero
       (Model.mkPayload (go "a/b") [] None (go "x/y") Time.zero [] []))).
  { vm_compute. do 21 right. left. reflexivity. }
  split; [exact H1|]. split; [exact H2|].
  exact (GetFileName_unsafe_only_from_ID _ _ _ H1 H2).
Defined.

Lemma safeByte_filename (c : ascii) : safeByte c -> ~ In c Model.unsafeForFilename.
Proof.
  unfold safeByte. intros H Hc.
  cbn in Hc.
  repeat (destruct Hc as [<-|Hc]; [vm_compute in H; discriminate H|]).
  exact Hc.
Qed.

Lemma GetFileName_bytes (now : Time.Time) (p : Model.WebhookPayload) (c : ascii) :
  In c (Model.GetFileName now p) -> In c (Model.ID p) \/ ~ In c Model.unsafeForFilename.
Proof.
  unfold Model.GetFileName.
  set (timestamp := if Time.IsZero (Model.Timestamp p) then Time.UTC now
                    else Model.Timestamp p).
  cbv zeta. intros H.
  assert (Hus : ~ In "_"%char Model.unsafeForFilename).
  { apply stampByte_safe. right. right. left. reflexivity. }
  apply in_app_or in H as [H|H].
  { right. pose proof (FormatFilename_stamp timestamp) as Hs.
    rewrite Forall_forall in Hs. apply list_elem_of_In in H.
    exact (stampByte_safe c (Hs c H)). }
  apply in_app_or in H as [H|H].
  { destruct H as [<-|[]]. right. exact Hus. }
  apply in_app_or in H as [H|H]; [left; exact H|].
  apply in_app_or in H as [H|H].
  { destruct H as [<-|[]]. right. exact Hus. }
  apply in_app_or in H as [H|H].
  { right. exact (sanitizeForFilename_bytes _ _ H). }
  right. intros Hc. apply unsafeForFilename_In in Hc.
  cbn in H. destruct H as [<-|[<-|[<-|[<-|[<-|[]]]]]]; discriminate Hc.
Qed.

Lemma uuidString_bytes (random : gostring) : Forall safeByte (Model.uuidString random).
Proof.
  unfold Model.uuidString.
  assert (Hdash : Forall safeByte (go "-")).
  { constructor; [reflexivity | constructor]. }
  do 8 (apply Forall_app; split; [first [apply hex_safe | exact Hdash]|]).
  apply hex_safe.
Qed.

(** X21.  When the payload has no ID and [GenerateID] gives it one, the
    name [GetFileName] returns holds none of the ten characters at all, so
    no path separator: it is a single file name. *)
Theorem GetFileName_generated_ID (random : gostring) (now : Time.Time)
    (p : Model.WebhookPayload) (c : ascii) :
  Model.ID p = [] ->
  In c (Model.GetFileName now (Model.GenerateID random p)) ->
  ~ In c Model.unsafeForFilename.
Proof.
  intros Hid H. apply GetFileName_bytes in H as [H|H]; [|exact H].
  unfold Model.GenerateID in H. rewrite bool_decide_eq_true_2 in H by exact Hid.
  cbn [Model.setID Model.ID] in H.
  pose proof (uuidString_bytes random) as Hu. rewrite Forall_forall in Hu.
  exact (safeByte_filename c (Hu c (proj2 (list_elem_of_In _ _) H))).
Qed.

Lemma GetFileName_generated_ID_witness :
  Model.ID helloPayload = []
  /\ In "-"%char (Model.GetFileName Time.zero (Model.GenerateID [] helloPayload))
  /\ ~ In "-"%char Model.unsafeForFilename.
Proof.
  assert (H1 : Model.ID helloPayload = []) by reflexivity.
  assert (H2 : In "-"%char
                  (Model.GetFileName Time.zero (Model.GenerateID [] helloPayload))).
  { vm_compute. do 4 right. left. reflexivity. }
  split; [exact H1|]. split; [exact H2|].
  exact (GetFileName_generated_ID _ _ _ _ H1 H2).
Defined.

(** ** The configuration *)

Lemma checkExtensions_none (exts : list gostring) :
  Config.checkExtensions exts = None <-> Forall extensionOk exts.
Proof.
  induction exts as [|ext exts IH]; cbn [Config.checkExtensions].
  - split; [constructor | reflexivity].
  - rewrite Forall_cons, <- IH. unfold extensionOk.
    destruct (decide (ext = [])) as [->|Hne].
    { rewrite bool_decide_eq_true_2 by reflexivity. split; [discriminate|].
      intros [[H _] _]. contradiction. }
    rewrite bool_decide_eq_false_2 by exact Hne.
    change (go ".") with ["."%char].
    destruct (Strings.Contains ext ["."%char]) eqn:E.
    + apply Contains_byte in E. split; [discriminate|]. intros [[_ H] _]. contradiction.
    + split; [|tauto]. intros H. split; [|exact H]. split; [exact Hne|].
      intros Hin. apply Contains_byte in Hin. congruence.
Qed.

Lemma checkExtensions_empty (exts : list gostring) :
  Config.checkExtensions exts = Some Config.EmptyExtension -> In [] exts.
Proof.
  induction exts as [|ext exts IH]; cbn [Config.checkExtensions]; [discriminate|].
  destruct (decide (ext = [])) as [->|Hne]; [left; reflexivity|].
  rewrite bool_decide_eq_false_2 by exact Hne.
  destruct (Strings.Contains ext (go ".")); [discriminate|].
  intros H. right. exact (IH H).
Qed.

Lemma setStoragePath_same (c : Config.Config) :
  Config.setStoragePath c (Config.StoragePath c) = c.
Proof. destruct c. reflexivity. Qed.

Section Validation.
Variable unicode_ToLower : Z -> Z.
Variable wd : option gostring.

Lemma Validate_checks (c c' : Config.Config) :
  Config.Validate unicode_ToLower wd c = (c', None)
  <-> Config.StoragePath c <> []
      /\ (if Filepath.IsAbs (Config.StoragePath c) then c' = c
          else exists abs, Filepath.Abs wd (Config.StoragePath c) = Some abs
                           /\ c' = Config.setStoragePath c abs)
      /\ inRanges (Config.IsProduction unicode_ToLower c) c.
Proof.
  assert (Hchecks : forall c1 : Config.Config,
    (if Config.MaxFileSize c1 <=? 0
     then (c1, Some (Config.MaxFileSizeNotPositive (Config.MaxFileSize c1)))
     else if Config.MaxFileSize c1 >? 100 * 1024 * 1024
     then (c1, Some (Config.MaxFileSizeTooLarge (Config.MaxFileSize c1)))
     else if (Config.Port c1 <=? 0) || (Config.Port c1 >? 65535)
     then (c1, Some (Config.InvalidPort (Config.Port c1)))
     else if Config.IsProduction unicode_ToLower c1 && bool_decide (Config.AuthToken c1 = [])
     then (c1, Some Config.AuthTokenRequired)
     else if (Config.MaxTitleLength c1 <=? 0) || (Config.MaxTitleLength c1 >? 1024)
     then (c1, Some (Config.InvalidMaxTitleLength (Config.MaxTitleLength c1)))
     else if (Config.MaxDescLength c1 <? 0) || (Config.MaxDescLength c1 >? 4096)
     then (c1, Some (Config.InvalidMaxDescLength (Config.MaxDescLength c1)))
     else if Config.MaxDataSize c1 <=? 0
     then (c1, Some (Config.MaxDataSizeNotPositive (Config.MaxDataSize c1)))
     else (c1, Config.checkExtensions (Config.AllowedExtensions c1))) = (c', None)
    <-> c' = c1 /\ inRanges (Config.IsProduction unicode_ToLower c1) c1).
  { intros c1. unfold inRanges. rewrite <- checkExtensions_none.
    destruct (Z.leb_spec (Config.MaxFileSize c1) 0).
    { split; [discriminate | lia]. }
    rewrite Z.gtb_ltb.
    destruct (Z.ltb_spec (100 * 1024 * 1024) (Config.MaxFileSize c1)).
    { split; [discriminate | lia]. }
    rewrite Z.gtb_ltb.
    destruct (Z.leb_spec (Config.Port c1) 0); cbn [orb].
    { split; [discriminate | lia]. }
    destruct (Z.ltb_spec 65535 (Config.Port c1)).
    { split; [discriminate | lia]. }
    destruct (Config.IsProduction unicode_ToLower c1); cbn [andb].
    - destruct (decide (Config.AuthToken c1 = [])) as [Ht|Ht].
      { rewrite bool_decide_eq_true_2 by exact Ht. split; [discriminate|].
        intros (_ & _ & _ & Hauth & _). destruct (Hauth eq_refl Ht). }
      rewrite bool_decide_eq_false_2 by exact Ht.
      rewrite !Z.gtb_ltb.
      destruct (Z.leb_spec (Config.MaxTitleLength c1) 0); cbn [orb].
      { split; [discriminate | lia]. }
      destruct (Z.ltb_spec 1024 (Config.MaxTitleLength c1)).
      { split; [discriminate | lia]. }
      destruct (Z.ltb_spec (Config.MaxDescLength c1) 0); cbn [orb].
      { split; [discriminate | lia]. }
      destruct (Z.ltb_spec 4096 (Config.MaxDescLength c1)).
      { split; [discriminate | lia]. }
      destruct (Z.leb_spec (Config.MaxDataSize c1) 0).
      { split; [discriminate | lia]. }
      split.
      + intros [= <- ->]. repeat split; try lia; auto.
      + intros (-> & _ & _ & _ & _ & _ & _ & ->). reflexivity.
    - rewrite !Z.gtb_ltb.
      destruct (Z.leb_spec (Config.MaxTitleLength c1) 0); cbn [orb].
      { split; [discriminate | lia]. }
      destruct (Z.ltb_spec 1024 (Config.MaxTitleLength c1)).
      { split; [discriminate | lia]. }
      destruct (Z.ltb_spec (Config.MaxDescLength c1) 0); cbn [orb].
      { split; [discriminate | lia]. }
      destruct (Z.ltb_spec 4096 (Config.MaxDescLength c1)).
      { split; [discriminate | lia]. }
      destruct (Z.leb_spec (Config.MaxDataSize c1) 0).
      { split; [discriminate | lia]. }
      split.
      + intros [= <- ->]. repeat split; try lia; try discriminate.
      + intros (-> & _ & _ & _ & _ & _ & _ & ->). reflexivity. }
  unfold Config.Validate.
  destruct (decide (Config.StoragePath c = [])) as [Hp|Hp].
  { rewrite bool_decide_eq_true_2 by exact Hp. split; [discriminate|].
    intros [H _]. contradiction. }
  rewrite bool_decide_eq_false_2 by exact Hp.
  destruct (Filepath.IsAbs (Config.StoragePath c)) eqn:Habs; cbn [negb].
  - rewrite Hchecks. tauto.
  - destruct (Filepath.Abs wd (Config.StoragePath c)) as [abs|] eqn:Ea.
    + rewrite Hchecks. split.
      * intros [-> H]. split; [exact Hp|]. split; [exists abs; auto|].
        destruct c; exact H.
      * intros (_ & (abs' & Habs' & ->) & Hr). injection Habs' as <-.
        split; [reflexivity|]. destruct c; exact Hr.
    + split; [discriminate|]. intros (_ & (abs' & H & _) & _). discriminate.
Qed.

Hypothesis wd_rooted : forall d, wd = Some d -> Filepath.IsAbs d = true.

Lemma Validate_resolved (c c' : Config.Config) :
  Config.Validate unicode_ToLower wd c = (c', None) ->
  Filepath.IsAbs (Config.StoragePath c') = true
  /\ c' = Config.setStoragePath c (Config.StoragePath c')
  /\ inRanges (Config.IsProduction unicode_ToLower c') c'.
Proof.
  intros H. apply Validate_checks in H as (Hp & Hc & Hr).
  destruct (Filepath.IsAbs (Config.StoragePath c)) eqn:Habs.
  - subst c'. rewrite setStoragePath_same. auto.
  - destruct Hc as (abs & Ha & ->).
    apply (Abs_form wd _ _ wd_rooted) in Ha as [_ Ha].
    destruct c. cbn in *. auto.
Qed.

(** X22.  When [Validate] accepts a configuration (the working directory
    being a rooted path), the storage path it leaves is absolute, no other
    field has changed, a storage path that was absolute already is kept as
    it was, and every field is within its range: file size in 1..100 MiB,
    port in 1..65535, a token in production, title limit in 1..1024,
    description limit in 0..4096, a positive data size, and extensions
    that are not empty and hold no dot. *)
Theorem Validate_accepts_within_ranges (c c' : Config.Config) :
  Config.Validate unicode_ToLower wd c = (c', None) ->
  Filepath.IsAbs (Config.StoragePath c') = true
  /\ c' = Config.setStoragePath c (Config.StoragePath c')
  /\ (Filepath.IsAbs (Config.StoragePath c) = true -> c' = c)
  /\ 0 < Config.MaxFileSize c <= 100 * 1024 * 1024
  /\ 1 <= Config.Port c <= 65535
  /\ (Config.IsProduction unicode_ToLower c = true -> Config.AuthToken c <> [])
  /\ 1 <= Config.MaxTitleLength c <= 1024
  /\ 0 <= Config.MaxDescLength c <= 4096
  /\ 0 < Config.MaxDataSize c
  /\ Forall extensionOk (Config.AllowedExtensions c).
Proof.
  intros H. pose proof (Validate_resolved _ _ H) as (Ha & Hs & _).
  apply Validate_checks in H as (_ & Hc & Hr).
  split; [exact Ha|]. split; [exact Hs|]. split; [|exact Hr].
  intros Habs. rewrite Habs in Hc. exact Hc.
Qed.

(** X23.  [Validate] is idempotent on what it accepts: the configuration
    it leaves behind is accepted again and left as it is (the working
    directory being a rooted path). *)
Theorem Validate_idempotent (c c' : Config.Config) :
  Config.Validate unicode_ToLower wd c = (c', None) ->
  Config.Validate unicode_ToLower wd c' = (c', None).
Proof.
  intros H. apply Validate_resolved in H as (Ha & _ & Hr).
  apply Validate_checks. rewrite Ha. split; [|split; [reflexivity | exact Hr]].
  intros E. rewrite E in Ha. discriminate.
Qed.

End Validation.

Lemma Validate_accepts_within_ranges_witness :
  Filepath.IsAbs (go "/srv/storage") = true
  /\ 1 <= Config.Port Config.default <= 65535.
Proof.
  assert (Hwd : forall d, Some (go "/srv") = Some d -> Filepath.IsAbs d = true).
  { intros d [= <-]. reflexivity. }
  assert (Hrun : Config.Validate Unicode.latin1ToLower (Some (go "/srv")) Config.default
                 = (Config.setStoragePath Config.default (go "/srv/storage"), None)).
  { vm_compute. reflexivity. }
  destruct (Validate_accepts_within_ranges _ _ Hwd _ _ Hrun)
    as (Habs & _ & _ & _ & Hport & _).
  split; [exact Habs | exact Hport].
Defined.

Lemma Validate_idempotent_witness :
  Config.Validate Unicode.latin1ToLower (Some (go "/srv"))
                  (Config.setStoragePath Config.default (go "/srv/storage"))
  = (Config.setStoragePath Config.default (go "/srv/storage"), None).
Proof.
  apply Validate_idempotent with (c := Config.default).
  - intros d [= <-]. reflexivity.
  - vm_compute. reflexivity.
Defined.

Lemma In_dropWhile {A} (p : A -> bool) (l : list A) (x : A) :
  In x (dropWhile p l) -> In x l.
Proof.
  induction l as [|y l IH]; cbn; [tauto|].
  destruct (p y); [intros H; right; exact (IH H) | tauto].
Qed.

Lemma In_dropWhileEnd {A} (p : A -> bool) (l : list A) (x : A) :
  In x (dropWhileEnd p l) -> In x l.
Proof.
  unfold dropWhileEnd. intros H. apply in_rev in H. apply In_dropWhile in H.
  apply in_rev. exact H.
Qed.

Lemma In_take_list {A} (n : nat) (l : list A) (x : A) : In x (take n l) -> In x l.
Proof. intros H. rewrite <- (take_drop n l). apply in_or_app. left. exact H. Qed.

Lemma In_drop_list {A} (n : nat) (l : list A) (x : A) : In x (drop n l) -> In x l.
Proof. intros H. rewrite <- (take_drop n l). apply in_or_app. right. exact H. Qed.

Lemma runesFrom_bytes (fuel : nat) (s : gostring) (rb : Z * gostring) (c : ascii) :
  In rb (Utf8.runesFrom fuel s) -> In c (snd rb) -> In c s.
Proof.
  revert s. induction fuel as [|fuel IH]; intros s; [destruct s; contradiction|].
  destruct s as [|c0 s]; [contradiction|].
  cbn [Utf8.runesFrom].
  destruct (Utf8.DecodeRuneInString (c0 :: s)) as [r w].
  intros [<-|H] Hc.
  - exact (In_take_list _ _ _ Hc).
  - exact (In_drop_list _ _ _ (IH _ H Hc)).
Qed.

Lemma TrimSpace_bytes (s : gostring) (c : ascii) :
  In c (Strings.TrimSpace s) -> In c s.
Proof.
  unfold Strings.TrimSpace. intros H.
  apply in_concat in H as (bytes & Hb & Hc).
  apply in_map_iff in Hb as (rb & <- & Hrb).
  apply In_dropWhileEnd, In_dropWhile in Hrb.
  exact (runesFrom_bytes _ _ _ _ Hrb Hc).
Qed.

Lemma getEnvStringSlice_elements (getenv : gostring -> gostring) (key : gostring)
    (defaultValue : list gostring) :
  Config.getEnvStringSlice getenv key defaultValue = defaultValue
  \/ (Config.getEnvStringSlice getenv key defaultValue <> []
      /\ Forall (fun e => e <> [] /\ forall c, In c e -> In c (getenv key) /\ c <> ","%char)
                (Config.getEnvStringSlice getenv key defaultValue)).
Proof.
  unfold Config.getEnvStringSlice.
  destruct (bool_decide (getenv key = [])); cbn [negb]; [left; reflexivity|].
  set (result := List.filter _ _).
  destruct (Z.ltb_spec 0 (Z.of_nat (length result))) as [Hlen|Hlen]; [|left; reflexivity].
  right. split; [intros E; rewrite E in Hlen; cbn in Hlen; lia|].
  apply Forall_forall. intros e He. apply list_elem_of_In in He.
  subst result. apply filter_In in He as [He Hne].
  split.
  { intros ->. discriminate Hne. }
  apply in_map_iff in He as (part & <- & Hpart).
  intros c Hc. apply TrimSpace_bytes in Hc.
  pose proof (Split_no_sep_elements (getenv key) ","%char) as Hsep.
  rewrite Forall_forall in Hsep. specialize (Hsep part (proj2 (list_elem_of_In _ _) Hpart)).
  split; [|intros ->; contradiction].
  rewrite <- (Join_Split (getenv key) ","%char).
  clear -Hpart Hc. induction (Strings.Split (getenv key) ",") as [|e l IH]; [contradiction|].
  destruct Hpart as [->|Hpart].
  - destruct l; cbn [Strings.Join]; [exact Hc | apply in_or_app; left; exact Hc].
  - destruct l as [|e' l']; [contradiction|].
    change (Strings.Join (e :: e' :: l') [","%char])
      with (e ++ [","%char] ++ Strings.Join (e' :: l') [","%char]).
    apply in_or_app. right. apply in_or_app. right. exact (IH Hpart).
Qed.

(** X24.  [getEnvStringSlice] returns the default when the variable is not
    set; it returns the empty list only if the default is empty; and what
    it returns is the default, or a list of elements that are not empty,
    hold no comma and are made of bytes of the variable's value. *)
Theorem getEnvStringSlice_result (getenv : gostring -> gostring) (key : gostring)
    (defaultValue : list gostring) :
  let result := Config.getEnvStringSlice getenv key defaultValue in
  (getenv key = [] -> result = defaultValue)
  /\ (defaultValue <> [] -> result <> [])
  /\ (result = defaultValue
      \/ Forall (fun e => e <> [] /\ forall c, In c e -> In c (getenv key) /\ c <> ","%char)
                result).
Proof.
  cbv zeta. split; [|split].
  - intros E. unfold Config.getEnvStringSlice. rewrite E. reflexivity.
  - intros Hd. destruct (getEnvStringSlice_elements getenv key defaultValue) as [->|[H _]];
      assumption.
  - destruct (getEnvStringSlice_elements getenv key defaultValue) as [H|[_ H]];
      [left | right]; exact H.
Qed.

(** X25.  Whatever the environment holds, validating the configuration
    [New] builds never fails on an empty storage path or on an empty
    extension. *)
Theorem New_never_fails_on_empty (unicode_ToLower : Z -> Z) (wd : option gostring)
    (getenv : gostring -> gostring) :
  let err := snd (Config.Validate unicode_ToLower wd (Config.New getenv)) in
  err <> Some Config.StoragePathEmpty /\ err <> Some Config.EmptyExtension.
Proof.
  cbv zeta.
  set (c := Config.New getenv).
  assert (Hpath : Config.StoragePath c <> []).
  { subst c. cbn [Config.New Config.StoragePath]. unfold Config.getEnvString.
    destruct (decide (getenv (go "HOKKU_STORAGE_PATH") = [])) as [E|E].
    - rewrite bool_decide_eq_true_2 by exact E. discriminate.
    - rewrite bool_decide_eq_false_2 by exact E. exact E. }
  assert (Hexts : ~ In [] (Config.AllowedExtensions c)).
  { subst c. cbn [Config.New Config.AllowedExtensions].
    destruct (getEnvStringSlice_elements getenv (go "HOKKU_ALLOWED_EXTENSIONS")
                Config.DefaultAllowedExtensions) as [->|[_ H]].
    - cbn. intros H. repeat (destruct H as [H|H]; [discriminate H|]). exact H.
    - intros Hin. rewrite Forall_forall in H.
      destruct (H [] (proj2 (list_elem_of_In _ _) Hin)) as [Hne _]. exact (Hne eq_refl). }
  clearbody c.
  assert (Hsame : forall abs, Config.AllowedExtensions (Config.setStoragePath c abs)
                              = Config.AllowedExtensions c) by reflexivity.
  unfold Config.Validate.
  rewrite bool_decide_eq_false_2 by exact Hpath.
  assert (Hchecks : forall c1 : Config.Config,
    ~ In [] (Config.AllowedExtensions c1) ->
    let err := snd
    (if Config.MaxFileSize c1 <=? 0
     then (c1, Some (Config.MaxFileSizeNotPositive (Config.MaxFileSize c1)))
     else if Config.MaxFileSize c1 >? 100 * 1024 * 1024
     then (c1, Some (Config.MaxFileSizeTooLarge (Config.MaxFileSize c1)))
     else if (Config.Port c1 <=? 0) || (Config.Port c1 >? 65535)
     then (c1, Some (Config.InvalidPort (Config.Port c1)))
     else if Config.IsProduction unicode_ToLower c1 && bool_decide (Config.AuthToken c1 = [])
     then (c1, Some Config.AuthTokenRequired)
     else if (Config.MaxTitleLength c1 <=? 0) || (Config.MaxTitleLength c1 >? 1024)
     then (c1, Some (Config.InvalidMaxTitleLength (Config.MaxTitleLength c1)))
     else if (Config.MaxDescLength c1 <? 0) || (Config.MaxDescLength c1 >? 4096)
     then (c1, Some (Config.InvalidMaxDescLength (Config.MaxDescLength c1)))
     else if Config.MaxDataSize c1 <=? 0
     then (c1, Some (Config.MaxDataSizeNotPositive (Config.MaxDataSize c1)))
     else (c1, Config.checkExtensions (Config.AllowedExtensions c1))) in
    err <> Some Config.StoragePathEmpty /\ err <> Some Config.EmptyExtension).
  { intros c1 H1. cbv zeta.
    repeat match goal with
           | |- context [if ?b then _ else _] => destruct b; [split; discriminate|]
           end.
    cbn [snd]. split.
    - clear H1. induction (Config.AllowedExtensions c1) as [|e l IH]; [discriminate|].
      cbn [Config.checkExtensions].
      destruct (bool_decide (e = [])); [discriminate|].
      destruct (Strings.Contains e (go ".")); [discriminate | exact IH].
    - intros H. exact (H1 (checkExtensions_empty _ H)). }
  destruct (Filepath.IsAbs (Config.StoragePath c)); cbn [negb].
  - apply Hchecks, Hexts.
  - destruct (Filepath.Abs wd (Config.StoragePath c)) as [abs|].
    + apply Hchecks. rewrite Hsame. exact Hexts.
    + split; discriminate.
Qed.

(** ** Disk space *)

Lemma int64_range (z : Z) : - 2 ^ 63 <= FileStore.int64 z < 2 ^ 63.
Proof.
  unfold FileStore.int64.
  pose proof (Z.mod_pos_bound (z + 2 ^ 63) (2 ^ 64) ltac:(lia)). lia.
Qed.

Lemma int64_small (z : Z) : - 2 ^ 63 <= z < 2 ^ 63 -> FileStore.int64 z = z.
Proof.
  intros H. unfold FileStore.int64. rewrite Z.mod_small; lia.
Qed.

Section Disk.
Variable config : Config.Config.
Variable env : OS.Env.
Variable statfs : gostring -> option (Z * Z).

(** X26.  With a maximum file size in the range [Validate] accepts,
    [CheckDiskSpace] reports success only with a number of available bytes
    of at least twice the maximum file size, and with the storage path
    being a directory; beside the insufficient-space error it returns the
    available bytes, which are fewer than twice the maximum; beside any
    other error it returns 0.  In every case the files that existed still
    exist unchanged and no file handle is opened. *)
Theorem CheckDiskSpace_outcome (s s' : OS.State) (available : Z)
    (r : option FileStore.DiskError) :
  0 < Config.MaxFileSize config <= 100 * 1024 * 1024 ->
  FileStore.CheckDiskSpace config env statfs s = (s', available, r) ->
  match r with
  | None =>
    2 * Config.MaxFileSize config <= available < 2 ^ 63
    /\ OS.isDirectoryNode (OS.lookupNode (OS.files s') (Config.StoragePath config)) = true
  | Some (FileStore.InsufficientSpace a required) =>
    available = a /\ required = 2 * Config.MaxFileSize config /\ a < required
  | Some _ => available = 0
  end
  /\ (forall path node, OS.files s !! path = Some node -> OS.files s' !! path = Some node)
  /\ OS.handles s' = OS.handles s.
Proof.
  intros Hmax. unfold FileStore.CheckDiskSpace, Config.GetStoragePath, Config.GetMaxFileSize.
  destruct (FileStore.ensureDirectoryExists env s (Config.StoragePath config))
    as [s1 dirErr] eqn:Hdir.
  assert (Hframe : (forall path node,
                       OS.files s !! path = Some node -> OS.files s1 !! path = Some node)
                   /\ OS.handles s1 = OS.handles s).
  { split; [|exact (ensureDirectoryExists_handles env _ _ _ _ Hdir)].
    intros path node Hnode.
    destruct (ensureDirectoryExists_files env _ _ _ _ path Hdir) as [H|[H _]];
      [rewrite H; exact Hnode | congruence]. }
  destruct dirErr as [err|].
  { intros [= <- <- <-]. split; [reflexivity | exact Hframe]. }
  destruct (statfs (Config.StoragePath config)) as [[bavail bsize]|].
  2:{ intros [= <- <- <-]. split; [reflexivity | exact Hframe]. }
  rewrite (int64_small (Config.MaxFileSize config * 2)) by lia.
  destruct (Z.ltb_spec (FileStore.int64 (FileStore.int64 bavail * bsize))
                       (Config.MaxFileSize config * 2)) as [Hlt|Hge].
  - intros [= <- <- <-]. split; [|exact Hframe]. repeat split; lia.
  - intros [= <- <- <-]. split; [|exact Hframe]. split.
    + pose proof (int64_range (FileStore.int64 bavail * bsize)). lia.
    + exact (ensureDirectoryExists_directory env _ _ _ Hdir).
Qed.

End Disk.

Lemma CheckDiskSpace_outcome_witness :
  2 * Config.MaxFileSize testConfig
  <= snd (fst (FileStore.CheckDiskSpace testConfig calmEnv roomyDisk emptyDisk)) < 2 ^ 63
  /\ OS.isDirectoryNode
       (OS.lookupNode
          (OS.files (fst (fst (FileStore.CheckDiskSpace testConfig calmEnv roomyDisk
                                                        emptyDisk))))
          (Config.StoragePath testConfig)) = true.
Proof.
  destruct (FileStore.CheckDiskSpace testConfig calmEnv roomyDisk emptyDisk)
    as [[s' available] r] eqn:Hrun.
  assert (Hr : r = None).
  { change r with (snd (s', available, r)). rewrite <- Hrun. vm_compute. reflexivity. }
  rewrite Hr in Hrun.
  assert (Hmax : 0 < Config.MaxFileSize testConfig <= 100 * 1024 * 1024)
    by (vm_compute; split; [reflexivity | discriminate]).
  exact (proj1 (CheckDiskSpace_outcome _ _ _ _ _ _ _ Hmax Hrun)).
Defined.
